(** * Netplay session, frame pacing, input sampling and desync checksum

    A shallow embedding of [src/core/netplay.cpp].  The file-scope
    variables of the translation unit ([s_state], [s_peers], ...) are
    gathered in one [Session] record that the functions thread through a
    state monad; calls into ENet, GGPO, the Host and the System leave an
    entry in the session's [trace].  A function of the source that can
    stop the process (a failed [Assert], a [Panic], an access outside an
    array, a read through a null pointer, a [std::bitset] index that
    throws) ends the computation with [Aborted]. *)

From Stdlib Require Import ZArith List Bool Lia String.
From Stdlib Require Import Floats.SpecFloat.
From stdpp Require Import base tactics option list.

Local Open Scope string_scope.
Local Open Scope Z_scope.

(** ** Machine integers *)

Module Int.

(** [static_cast<u32>] and friends: reduction modulo 2^w. *)
Definition to_unsigned (w : Z) (x : Z) : Z := x mod 2 ^ w.

(** Two's complement reading of the low [w] bits. *)
Definition to_signed (w : Z) (x : Z) : Z :=
  let r := x mod 2 ^ w in
  if r <? 2 ^ (w - 1) then r else r - 2 ^ w.

Definition u16 := to_unsigned 16.
Definition u32 := to_unsigned 32.
Definition s32 := to_signed 32.

Definition in_s32 (x : Z) : Prop := - 2 ^ 31 <= x < 2 ^ 31.
Definition in_u32 (x : Z) : Prop := 0 <= x < 2 ^ 32.

End Int.

(** ** IEEE 754 binary32, the C++ [float] *)

Module F32.

Definition prec : Z := 24.
Definition emax : Z := 128.

Definition float := spec_float.

Definition of_Z (z : Z) : float := binary_normalize prec emax z 0 false.
Definition mul : float -> float -> float := SFmul prec emax.
Definition add : float -> float -> float := SFadd prec emax.
Definition div : float -> float -> float := SFdiv prec emax.
Definition neg : float -> float := SFopp.
Definition abs : float -> float := SFabs.
Definition ltb : float -> float -> bool := SFltb.
Definition leb : float -> float -> bool := SFleb.
Definition eqb : float -> float -> bool := SFeqb.

(** The literals of the source. *)
Definition one : float := S754_finite false 8388608 (-23).            (* 1.0f  *)
Definition quarter : float := S754_finite false 8388608 (-25).        (* 0.25f *)
Definition three_quarters : float := S754_finite false 12582912 (-24). (* 0.75f *)
Definition four : float := of_Z 4.

(** [std::ceil]: the least integral float not below the argument.  Zeros,
    infinities and NaN are returned as they are. *)
Definition ceil (x : float) : float :=
  match x with
  | S754_finite s m e =>
      if 0 <=? e then x
      else
        let v := if s then Z.neg m else Z.pos m in
        let c := - ((- v) / 2 ^ (- e)) in
        if c =? 0 then S754_zero s else of_Z c
  | _ => x
  end.

(** [static_cast<s32>(x)]: truncation toward zero; the conversion is
    undefined for NaN, the infinities and values outside the range of
    [s32], which is [None] here. *)
Definition to_s32 (x : float) : option Z :=
  match x with
  | S754_zero _ => Some 0
  | S754_finite s m e =>
      let v := if s then Z.neg m else Z.pos m in
      let t := if 0 <=? e then v * 2 ^ e else Z.quot v (2 ^ (- e)) in
      if (- 2 ^ 31 <=? t) && (t <? 2 ^ 31) then Some t else None
  | _ => None
  end.

End F32.

(** ** Declarations of [netplay.h] and [netplay_packets.h] *)

(** Modelled from the spec: [netplay.h] is not among the sources; the
    states and their order are the ones listed for SessionState in the
    data model, which is the order [IsActive] relies on. *)
Inductive SessionState :=
| Inactive | Initializing | Connecting | Resetting | Running | ClosingSession.

Definition SessionState_rank (s : SessionState) : Z :=
  match s with
  | Inactive => 0 | Initializing => 1 | Connecting => 2
  | Resetting => 3 | Running => 4 | ClosingSession => 5
  end.

(** [a == b] on the enumeration. *)
Definition state_is (a b : SessionState) : bool :=
  SessionState_rank a =? SessionState_rank b.

(** Modelled from the spec: the message kinds of the CONTROL channel, as
    the wire table of the external interfaces lists them. *)
Module ControlMessage.
Inductive t :=
| ConnectRequest | ConnectResponse | Reset | ResetComplete | ResumeSession
| PlayerJoined | DropPlayer | ResetRequest | CloseSession | ChatMessage.
End ControlMessage.

(** Modelled from the spec: the reasons for a drop, the two the source
    names and the codes beyond them. *)
Inductive DropPlayerReason :=
| ConnectTimeout | DisconnectedFromHost | OtherDropReason (code : Z).

Record ENetAddress := { addr_host : Z; addr_port : Z }.

(** An [ENetPeer*]: the pointer, and the address stored behind it. *)
Record ENetPeer := { peer_ptr : Z; address : ENetAddress }.

Definition same_peer (p q : ENetPeer) : bool := peer_ptr p =? peer_ptr q.

(** Modelled from the spec: the fixed bodies of the control messages,
    field by field as the wire table of the external interfaces lists
    them; enumerators that neither the table nor the source names are
    kept as a code. *)
Module ConnectRequestMessage.
Inductive Mode := Player | OtherMode (code : Z).
Record t := {
  mode : Mode;
  requested_player_id : Z;            (* s16 *)
  nickname : string;
  session_password : string }.
Definition GetNickname (m : t) : string := nickname m.
End ConnectRequestMessage.

Module ConnectResponseMessage.
Inductive Result :=
| Success | ServerFull | PlayerIDInUse | SessionClosed | OtherResult (code : Z).
Record t := { result : Result; player_id : Z (* s16 *) }.
End ConnectResponseMessage.

Module ResetMessage.
Record PlayerEntry := {
  controller_port : Z;                (* s16, -1 when the slot is empty *)
  nickname : string;
  host : Z;
  port : Z }.
Record t := {
  cookie : Z;                         (* u32 *)
  state_data_size : Z;                (* u32 *)
  num_players : Z;
  players : list PlayerEntry }.       (* PlayerEntry[MAX_PLAYERS] *)
End ResetMessage.

Module ResetCompleteMessage.
Record t := { cookie : Z }.
End ResetCompleteMessage.

Module PlayerJoinedMessage.
Record t := { player_id : Z }.
End PlayerJoinedMessage.

Module DropPlayerMessage.
Record t := { reason : DropPlayerReason; player_id : Z }.
End DropPlayerMessage.

Module ResetRequestMessage.
Inductive Reason := ConnectionLost | OtherReason (code : Z).
Record t := { reason : Reason; causing_player_id : Z }.
End ResetRequestMessage.

Module CloseSessionMessage.
Inductive Reason := HostShutdown | Terminated | OtherReason (code : Z).
Record t := { reason : Reason }.
End CloseSessionMessage.

(** What [reinterpret_cast<const T*>(pkt->data)] reads once the header's
    type has selected [T].  The fields exist in the packet only as far as
    [dataLength] reaches; the source checks that before it reads them,
    where it does. *)
Inductive Payload :=
| ConnectRequestP (m : ConnectRequestMessage.t)
| ConnectResponseP (m : ConnectResponseMessage.t)
| ResetP (m : ResetMessage.t)
| ResetCompleteP (m : ResetCompleteMessage.t)
| ResumeSessionP
| PlayerJoinedP (m : PlayerJoinedMessage.t)
| DropPlayerP (m : DropPlayerMessage.t)
| ResetRequestP (m : ResetRequestMessage.t)
| CloseSessionP (m : CloseSessionMessage.t)
| ChatMessageP
| UnknownP (type : Z).

(** An [ENetPacket] of the CONTROL channel: its length, the [size] field
    of its [ControlMessageHeader], the typed view of its fixed part and
    the bytes that follow the fixed part (snapshot or chat text). *)
Record ENetPacket := {
  dataLength : Z;
  hdr_size : Z;                       (* u16 *)
  payload : Payload;
  trailing : list Byte.byte }.

Definition hdr_type (pkt : ENetPacket) : option ControlMessage.t :=
  match payload pkt with
  | ConnectRequestP _ => Some ControlMessage.ConnectRequest
  | ConnectResponseP _ => Some ControlMessage.ConnectResponse
  | ResetP _ => Some ControlMessage.Reset
  | ResetCompleteP _ => Some ControlMessage.ResetComplete
  | ResumeSessionP => Some ControlMessage.ResumeSession
  | PlayerJoinedP _ => Some ControlMessage.PlayerJoined
  | DropPlayerP _ => Some ControlMessage.DropPlayer
  | ResetRequestP _ => Some ControlMessage.ResetRequest
  | CloseSessionP _ => Some ControlMessage.CloseSession
  | ChatMessageP => Some ControlMessage.ChatMessage
  | UnknownP _ => None
  end.

Inductive Channel := ENET_CHANNEL_CONTROL | ENET_CHANNEL_GGPO | OtherChannel (id : Z).

(** The events [enet_host_service] hands to [HandleEnetEvent]. *)
Inductive ENetEvent :=
| ENET_EVENT_TYPE_CONNECT (peer : ENetPeer) (data : Z)
| ENET_EVENT_TYPE_DISCONNECT (peer : ENetPeer)
| ENET_EVENT_TYPE_RECEIVE (peer : ENetPeer) (channel : Channel) (packet : ENetPacket)
| ENET_EVENT_TYPE_NONE.

(** ** The collaborators outside the translation unit *)

(** Constants and type sizes of the missing headers, and the calls into
    ENet and the System whose results the source branches on.
    [enet_initialize] is the answer of [InitializeEnet], which asks the
    library once per process.  [enet_peer_send_result] is what
    [enet_peer_send] returns, 0 when the packet was queued. *)
Class Platform := {
  MAX_PLAYERS : nat;
  sizeof_ControlMessageHeader : Z;
  sizeof_msg : ControlMessage.t -> Z;
  size_t_bits : Z;
  Machine : Type;
  ENetHost : Type;
  System_BootSystem : option Machine;
  System_SaveStateToStream : Machine -> option (list Byte.byte);
  System_LoadStateFromStream : list Byte.byte -> Machine -> option Machine;
  enet_initialize : bool;
  enet_host_create : ENetAddress -> option ENetHost;
  enet_host_address : ENetHost -> ENetAddress;
  enet_host_connect : ENetHost -> ENetAddress -> Z -> option (ENetPeer * ENetHost);
  enet_peer_send_result : ENetPeer -> ENetPacket -> Z;
  enet_address_set_host : string -> option Z;
  ggpo_run_frame : Machine -> Machine }.

Definition GGPO_INVALID_HANDLE : Z := -1.
Definition ENET_HOST_ANY : Z := 0.
Definition ENET_PORT_ANY : Z := 0.

(** ** The file-scope state *)

Record Peer := {
  peer : option ENetPeer;
  nickname : string;
  ggpo_handle : Z }.

(** [Peer{}] *)
Definition empty_Peer : Peer := {| peer := None; nickname := ""; ggpo_handle := 0 |}.

Record GGPOPlayer := {
  player_num : Z;
  remote_peer : option ENetPeer }.    (* [None] for GGPO_PLAYERTYPE_LOCAL *)

Inductive LogLevel := Error | Warning | Info | Verbose | Dev.

Inductive Timer := reset_start_time | last_host_connection_attempt.

(** Calls that leave the translation unit. *)
Inductive Effect :=
| Log (level : LogLevel) (text : string)
| enet_peer_send (to : ENetPeer) (pkt : ENetPacket)
| enet_peer_reset (p : ENetPeer)
| enet_peer_disconnect (p : ENetPeer)
| enet_peer_disconnect_now (p : ENetPeer)
| enet_peer_disconnect_later (p : ENetPeer)
| enet_host_destroy
| ggpo_start_session (num_players : Z)
| ggpo_close_session
| ggpo_set_frame_delay (handle delay : Z)
| ggpo_handle_packet (from : ENetPeer)
| ggpo_network_idle
| InitializeFramePacing
| SetSettings
| RestoreSettings
| Timer_Reset (t : Timer)
| System_SetState_Paused
| System_SetState_Running
| System_PresentFrame
| System_ShutdownSystem
| Host_ReportErrorAsync (title message : string)
| Host_OnNetplayMessage (text : string) (player : Z)
| Host_DisplayLoadingScreen (text : string)
| Host_PumpMessagesOnCPUThread.

(** What stops the process.  [UseAfterFree] is the use of a packet that
    [enet_packet_destroy] has freed, [ReadBeyondPacket] the read of a
    message field that ends at [offset], beyond the end of the packet. *)
Inductive Fault :=
| AssertionFailed (what : string)
| Panic (message : string)
| NullDereference
| IndexOutOfBounds (index : Z)
| BitsetOutOfRange (index : Z)
| UseAfterFree
| ReadBeyondPacket (offset : Z).

Inductive Outcome (A : Type) :=
| Returned (a : A)
| Aborted (f : Fault).
Arguments Returned {A} a.
Arguments Aborted {A} f.

Section Netplay.
Context `{platform : Platform}.

Record Session := {
  s_state : SessionState;
  s_enet_host : option ENetHost;
  s_peers : list Peer;                (* std::array<Peer, MAX_PLAYERS> *)
  s_host_player_id : Z;
  s_player_id : Z;
  s_num_players : Z;
  s_reset_cookie : Z;                 (* u32 *)
  s_reset_players : list bool;        (* std::bitset<MAX_PLAYERS> *)
  s_host_address : ENetAddress;
  s_local_nickname : string;
  s_local_handle : Z;
  s_local_delay : Z;
  s_ggpo : option (list GGPOPlayer);  (* the players of the live GGPO session *)
  system : option Machine;            (* [None]: !System::IsValid() *)
  trace : list Effect }.              (* oldest call first *)

(** Field assignments. *)
Definition set_state (v : SessionState) (s : Session) : Session :=
  {| s_state := v; s_enet_host := s_enet_host s; s_peers := s_peers s;
     s_host_player_id := s_host_player_id s; s_player_id := s_player_id s;
     s_num_players := s_num_players s; s_reset_cookie := s_reset_cookie s;
     s_reset_players := s_reset_players s; s_host_address := s_host_address s;
     s_local_nickname := s_local_nickname s; s_local_handle := s_local_handle s;
     s_local_delay := s_local_delay s; s_ggpo := s_ggpo s; system := system s;
     trace := trace s |}.

Definition set_enet_host (v : option ENetHost) (s : Session) : Session :=
  {| s_state := s_state s; s_enet_host := v; s_peers := s_peers s;
     s_host_player_id := s_host_player_id s; s_player_id := s_player_id s;
     s_num_players := s_num_players s; s_reset_cookie := s_reset_cookie s;
     s_reset_players := s_reset_players s; s_host_address := s_host_address s;
     s_local_nickname := s_local_nickname s; s_local_handle := s_local_handle s;
     s_local_delay := s_local_delay s; s_ggpo := s_ggpo s; system := system s;
     trace := trace s |}.

Definition set_peers (v : list Peer) (s : Session) : Session :=
  {| s_state := s_state s; s_enet_host := s_enet_host s; s_peers := v;
     s_host_player_id := s_host_player_id s; s_player_id := s_player_id s;
     s_num_players := s_num_players s; s_reset_cookie := s_reset_cookie s;
     s_reset_players := s_reset_players s; s_host_address := s_host_address s;
     s_local_nickname := s_local_nickname s; s_local_handle := s_local_handle s;
     s_local_delay := s_local_delay s; s_ggpo := s_ggpo s; system := system s;
     trace := trace s |}.

Definition set_host_player_id (v : Z) (s : Session) : Session :=
  {| s_state := s_state s; s_enet_host := s_enet_host s; s_peers := s_peers s;
     s_host_player_id := v; s_player_id := s_player_id s;
     s_num_players := s_num_players s; s_reset_cookie := s_reset_cookie s;
     s_reset_players := s_reset_players s; s_host_address := s_host_address s;
     s_local_nickname := s_local_nickname s; s_local_handle := s_local_handle s;
     s_local_delay := s_local_delay s; s_ggpo := s_ggpo s; system := system s;
     trace := trace s |}.

Definition set_player_id (v : Z) (s : Session) : Session :=
  {| s_state := s_state s; s_enet_host := s_enet_host s; s_peers := s_peers s;
     s_host_player_id := s_host_player_id s; s_player_id := v;
     s_num_players := s_num_players s; s_reset_cookie := s_reset_cookie s;
     s_reset_players := s_reset_players s; s_host_address := s_host_address s;
     s_local_nickname := s_local_nickname s; s_local_handle := s_local_handle s;
     s_local_delay := s_local_delay s; s_ggpo := s_ggpo s; system := system s;
     trace := trace s |}.

Definition set_num_players (v : Z) (s : Session) : Session :=
  {| s_state := s_state s; s_enet_host := s_enet_host s; s_peers := s_peers s;
     s_host_player_id := s_host_player_id s; s_player_id := s_player_id s;
     s_num_players := v; s_reset_cookie := s_reset_cookie s;
     s_reset_players := s_reset_players s; s_host_address := s_host_address s;
     s_local_nickname := s_local_nickname s; s_local_handle := s_local_handle s;
     s_local_delay := s_local_delay s; s_ggpo := s_ggpo s; system := system s;
     trace := trace s |}.

Definition set_reset_cookie (v : Z) (s : Session) : Session :=
  {| s_state := s_state s; s_enet_host := s_enet_host s; s_peers := s_peers s;
     s_host_player_id := s_host_player_id s; s_player_id := s_player_id s;
     s_num_players := s_num_players s; s_reset_cookie := v;
     s_reset_players := s_reset_players s; s_host_address := s_host_address s;
     s_local_nickname := s_local_nickname s; s_local_handle := s_local_handle s;
     s_local_delay := s_local_delay s; s_ggpo := s_ggpo s; system := system s;
     trace := trace s |}.

Definition set_reset_players (v : list bool) (s : Session) : Session :=
  {| s_state := s_state s; s_enet_host := s_enet_host s; s_peers := s_peers s;
     s_host_player_id := s_host_player_id s; s_player_id := s_player_id s;
     s_num_players := s_num_players s; s_reset_cookie := s_reset_cookie s;
     s_reset_players := v; s_host_address := s_host_address s;
     s_local_nickname := s_local_nickname s; s_local_handle := s_local_handle s;
     s_local_delay := s_local_delay s; s_ggpo := s_ggpo s; system := system s;
     trace := trace s |}.

Definition set_host_address (v : ENetAddress) (s : Session) : Session :=
  {| s_state := s_state s; s_enet_host := s_enet_host s; s_peers := s_peers s;
     s_host_player_id := s_host_player_id s; s_player_id := s_player_id s;
     s_num_players := s_num_players s; s_reset_cookie := s_reset_cookie s;
     s_reset_players := s_reset_players s; s_host_address := v;
     s_local_nickname := s_local_nickname s; s_local_handle := s_local_handle s;
     s_local_delay := s_local_delay s; s_ggpo := s_ggpo s; system := system s;
     trace := trace s |}.

Definition set_local_nickname (v : string) (s : Session) : Session :=
  {| s_state := s_state s; s_enet_host := s_enet_host s; s_peers := s_peers s;
     s_host_player_id := s_host_player_id s; s_player_id := s_player_id s;
     s_num_players := s_num_players s; s_reset_cookie := s_reset_cookie s;
     s_reset_players := s_reset_players s; s_host_address := s_host_address s;
     s_local_nickname := v; s_local_handle := s_local_handle s;
     s_local_delay := s_local_delay s; s_ggpo := s_ggpo s; system := system s;
     trace := trace s |}.

Definition set_local_handle (v : Z) (s : Session) : Session :=
  {| s_state := s_state s; s_enet_host := s_enet_host s; s_peers := s_peers s;
     s_host_player_id := s_host_player_id s; s_player_id := s_player_id s;
     s_num_players := s_num_players s; s_reset_cookie := s_reset_cookie s;
     s_reset_players := s_reset_players s; s_host_address := s_host_address s;
     s_local_nickname := s_local_nickname s; s_local_handle := v;
     s_local_delay := s_local_delay s; s_ggpo := s_ggpo s; system := system s;
     trace := trace s |}.

Definition set_local_delay (v : Z) (s : Session) : Session :=
  {| s_state := s_state s; s_enet_host := s_enet_host s; s_peers := s_peers s;
     s_host_player_id := s_host_player_id s; s_player_id := s_player_id s;
     s_num_players := s_num_players s; s_reset_cookie := s_reset_cookie s;
     s_reset_players := s_reset_players s; s_host_address := s_host_address s;
     s_local_nickname := s_local_nickname s; s_local_handle := s_local_handle s;
     s_local_delay := v; s_ggpo := s_ggpo s; system := system s;
     trace := trace s |}.

Definition set_ggpo (v : option (list GGPOPlayer)) (s : Session) : Session :=
  {| s_state := s_state s; s_enet_host := s_enet_host s; s_peers := s_peers s;
     s_host_player_id := s_host_player_id s; s_player_id := s_player_id s;
     s_num_players := s_num_players s; s_reset_cookie := s_reset_cookie s;
     s_reset_players := s_reset_players s; s_host_address := s_host_address s;
     s_local_nickname := s_local_nickname s; s_local_handle := s_local_handle s;
     s_local_delay := s_local_delay s; s_ggpo := v; system := system s;
     trace := trace s |}.

Definition set_system (v : option Machine) (s : Session) : Session :=
  {| s_state := s_state s; s_enet_host := s_enet_host s; s_peers := s_peers s;
     s_host_player_id := s_host_player_id s; s_player_id := s_player_id s;
     s_num_players := s_num_players s; s_reset_cookie := s_reset_cookie s;
     s_reset_players := s_reset_players s; s_host_address := s_host_address s;
     s_local_nickname := s_local_nickname s; s_local_handle := s_local_handle s;
     s_local_delay := s_local_delay s; s_ggpo := s_ggpo s; system := v;
     trace := trace s |}.

Definition record (e : Effect) (s : Session) : Session :=
  {| s_state := s_state s; s_enet_host := s_enet_host s; s_peers := s_peers s;
     s_host_player_id := s_host_player_id s; s_player_id := s_player_id s;
     s_num_players := s_num_players s; s_reset_cookie := s_reset_cookie s;
     s_reset_players := s_reset_players s; s_host_address := s_host_address s;
     s_local_nickname := s_local_nickname s; s_local_handle := s_local_handle s;
     s_local_delay := s_local_delay s; s_ggpo := s_ggpo s; system := system s;
     trace := trace s ++ [e] |}.

(** The state of a process in which no session has run yet. *)
Definition initial_session : Session :=
  {| s_state := Inactive; s_enet_host := None;
     s_peers := replicate MAX_PLAYERS empty_Peer;
     s_host_player_id := 0; s_player_id := 0; s_num_players := 0;
     s_reset_cookie := 0; s_reset_players := replicate MAX_PLAYERS false;
     s_host_address := {| addr_host := 0; addr_port := 0 |};
     s_local_nickname := ""; s_local_handle := GGPO_INVALID_HANDLE;
     s_local_delay := 0; s_ggpo := None; system := None; trace := [] |}.

(** ** The state monad of the translation unit *)

Definition M (A : Type) : Type := Session -> Outcome A * Session.

Definition ret {A} (a : A) : M A := fun s => (Returned a, s).

Definition bind {A B} (m : M A) (k : A -> M B) : M B :=
  fun s =>
    match m s with
    | (Returned a, s') => k a s'
    | (Aborted f, s') => (Aborted f, s')
    end.

Notation "'let*' x ':=' m 'in' k" := (bind m (fun x => k))
  (at level 10, x name, m at level 100, k at level 200, only parsing).
Notation "m >> k" := (bind m (fun _ => k))
  (at level 90, right associativity, only parsing).

Definition gets {A} (f : Session -> A) : M A := fun s => (Returned (f s), s).
Definition modify (f : Session -> Session) : M unit := fun s => (Returned tt, f s).
Definition call (e : Effect) : M unit := modify (record e).
Definition abort {A} (f : Fault) : M A := fun s => (Aborted f, s).

(** [Assert(cond)] of common/assert.h stops the process when [cond] is
    false; [DebugAssert] does so in debug builds only and is left out. *)
Definition Assert (cond : bool) (what : string) : M unit :=
  if cond then ret tt else abort (AssertionFailed what).

(** [p->field] through a pointer that may be null. *)
Definition deref {A} (p : option A) : M A :=
  match p with
  | Some a => ret a
  | None => abort NullDereference
  end.

Fixpoint for_ {A} (l : list A) (body : A -> M unit) : M unit :=
  match l with
  | [] => ret tt
  | x :: l' => bind (body x) (fun _ => for_ l' body)
  end.

(** [for (s32 i = 0; i < MAX_PLAYERS; i++)] *)
Definition for_each_player (body : nat -> M unit) : M unit :=
  for_ (seq 0 MAX_PLAYERS) body.

(** ** Queries on the peer table *)

Definition IsActive (s : Session) : bool :=
  (SessionState_rank Initializing <=? SessionState_rank (s_state s))
  && (SessionState_rank (s_state s) <=? SessionState_rank Running).

Definition IsHost (s : Session) : bool := s_player_id s =? s_host_player_id s.

(** [0 <= id && id < MAX_PLAYERS] *)
Definition in_range (id : Z) : bool := (0 <=? id) && (id <? Z.of_nat MAX_PLAYERS).

(** [s_peers[i].peer], for an index inside the array. *)
Definition slot_peer (s : Session) (i : nat) : option ENetPeer :=
  match s_peers s !! i with
  | Some p => peer p
  | None => None
  end.

Definition has_peer (s : Session) (i : nat) : bool :=
  match slot_peer s i with Some _ => true | None => false end.

Definition IsValidPlayerId (s : Session) (player_id : Z) : bool :=
  (s_player_id s =? player_id)
  || (in_range player_id && has_peer s (Z.to_nat player_id)).

(** The index at which a loop of the form
    [for (i = 0; ...) if (test i) return i; return -1;] returns. *)
Fixpoint first_index (test : nat -> bool) (l : list nat) : Z :=
  match l with
  | [] => -1
  | i :: l' => if test i then Z.of_nat i else first_index test l'
  end.

Definition GetFreePlayerId (s : Session) : Z :=
  first_index
    (fun i => negb (Z.of_nat i =? s_player_id s) && negb (has_peer s i))
    (seq 0 MAX_PLAYERS).

Definition GetPlayerIdForPeer (s : Session) (p : ENetPeer) : Z :=
  first_index
    (fun i => match slot_peer s i with
              | Some q => same_peer q p
              | None => false
              end)
    (seq 0 MAX_PLAYERS).

Definition GetNicknameForPlayer (s : Session) (player_id : Z) : string :=
  if IsValidPlayerId s player_id then
    if player_id =? s_player_id s then s_local_nickname s
    else match s_peers s !! Z.to_nat player_id with
         | Some p => nickname p
         | None => ""
         end
  else "".

(** [s_peers[i]] read without a bounds check. *)
Definition peers_at (i : Z) : M Peer :=
  let* s := gets id in
  if in_range i then
    match s_peers s !! Z.to_nat i with
    | Some p => ret p
    | None => abort (IndexOutOfBounds i)
    end
  else abort (IndexOutOfBounds i).

(** [s_peers[i] = ...] written without a bounds check. *)
Definition peers_update (i : Z) (f : Peer -> Peer) : M unit :=
  let* p := peers_at i in
  modify (fun s => set_peers (<[Z.to_nat i := f p]> (s_peers s)) s).

Definition with_peer (v : option ENetPeer) (p : Peer) : Peer :=
  {| peer := v; nickname := nickname p; ggpo_handle := ggpo_handle p |}.
Definition with_nickname (v : string) (p : Peer) : Peer :=
  {| peer := peer p; nickname := v; ggpo_handle := ggpo_handle p |}.
Definition with_ggpo_handle (v : Z) (p : Peer) : Peer :=
  {| peer := peer p; nickname := nickname p; ggpo_handle := v |}.

(** ** [std::bitset<MAX_PLAYERS>] *)

Definition bitset_none : list bool := replicate MAX_PLAYERS false.

(** [bitset = value] *)
Definition bitset_of_Z (v : Z) : list bool :=
  map (fun i => Z.testbit v (Z.of_nat i)) (seq 0 MAX_PLAYERS).

Fixpoint bitset_count (b : list bool) : Z :=
  match b with
  | [] => 0
  | x :: b' => (if x then 1 else 0) + bitset_count b'
  end.

(** [test] and [set] throw [std::out_of_range] for a position outside the
    set; nothing in the source catches it. *)
Definition bitset_test (b : list bool) (pos : Z) : M bool :=
  if in_range pos then
    match b !! Z.to_nat pos with
    | Some x => ret x
    | None => abort (BitsetOutOfRange pos)
    end
  else abort (BitsetOutOfRange pos).

Definition reset_players_set (pos : Z) : M unit :=
  if in_range pos then
    modify (fun s => set_reset_players (<[Z.to_nat pos := true]> (s_reset_players s)) s)
  else abort (BitsetOutOfRange pos).

Definition reset_players_count (s : Session) : Z := bitset_count (s_reset_players s).

(** ** Packet helpers *)

Definition NewControlPacket (ty : ControlMessage.t) (body : Payload)
    (extra : list Byte.byte) : ENetPacket :=
  let size := sizeof_msg ty + Z.of_nat (length extra) in
  {| dataLength := size; hdr_size := Int.u16 size; payload := body; trailing := extra |}.

(** [enet_peer_send] reports a failure through its result, which the
    source only logs; the send itself is what the trace keeps. *)
Definition SendControlPacket (to : ENetPeer) (pkt : ENetPacket) : M unit :=
  call (enet_peer_send to pkt).

Definition SendControlPacketToPlayer (player_id : Z) (pkt : ENetPacket) : M unit :=
  let* p := peers_at player_id in
  let* to := deref (peer p) in
  SendControlPacket to pkt.

(** The loop of [SendControlPacketToAll] from slot [i] on.  The peer that
    is not the last gets a copy of [pkt.pkt], the last one [pkt.pkt]
    itself.  A send that fails is logged and [pkt.pkt] is destroyed, the
    original also when a copy was sent; [destroyed] records it, and the
    next peer's packet is then made, or taken, from the freed original. *)
Fixpoint send_copies (pkt : ENetPacket) (destroyed : bool) (slots : list nat) : M unit :=
  match slots with
  | [] => ret tt
  | i :: slots' =>
      let* s := gets id in
      match slot_peer s i with
      | None => send_copies pkt destroyed slots'
      | Some to =>
          if destroyed then abort UseAfterFree
          else
            call (enet_peer_send to pkt) >>
            if enet_peer_send_result to pkt =? 0 then send_copies pkt false slots'
            else
              call (Log Error "enet_peer_send() to player failed") >>
              send_copies pkt true slots'
      end
  end.

Definition SendControlPacketToAll (pkt : ENetPacket) : M unit :=
  send_copies pkt false (seq 0 MAX_PLAYERS).

(** The loop in which [Reset] sends its message: a packet of its own for
    every peer, and a failure that is only logged. *)
Definition send_to_each (pkt : ENetPacket) : M unit :=
  for_each_player (fun i =>
    let* s := gets id in
    match slot_peer s i with
    | None => ret tt
    | Some to => call (enet_peer_send to pkt)
    end).

(** The typed view [view] is handed back when both the packet and the
    size its header declares cover [sizeof(T)]; a null pointer otherwise. *)
Definition CheckReceivedPacket {T} (ty : ControlMessage.t) (player_id : Z)
    (pkt : ENetPacket) (view : T) : M (option T) :=
  if dataLength pkt <? sizeof_msg ty then
    call (Log Error "Received too-short control packet") >>
    ret None
  else if hdr_size pkt <? sizeof_msg ty then
    call (Log Error "Received too-short control packet [inner field]") >>
    ret None
  else ret (Some view).

(** ** The GGPO session *)

(** [ggpo_add_player] is taken to succeed, as the source asserts, and to
    hand out the player number as the handle. *)
Definition add_ggpo_player (i : nat) (player_num : Z) : M unit :=
  let* s := gets id in
  let remote := if Z.of_nat i =? s_player_id s then None else slot_peer s i in
  peers_update (Z.of_nat i) (with_ggpo_handle player_num) >>
  modify (fun s => set_ggpo
            (option_map (fun l => app l [{| player_num := player_num; remote_peer := remote |}])
                        (s_ggpo s)) s) >>
  if Z.of_nat i =? s_player_id s then modify (set_local_handle player_num)
  else ret tt.

Fixpoint add_ggpo_players (l : list nat) (player_num : Z) : M unit :=
  match l with
  | [] => ret tt
  | i :: l' =>
      let* s := gets id in
      if negb (has_peer s i) && negb (Z.of_nat i =? s_player_id s)
      then add_ggpo_players l' player_num
      else add_ggpo_player i player_num >> add_ggpo_players l' (player_num + 1)
  end.

Definition CreateGGPOSession : M unit :=
  let* s := gets id in
  call (ggpo_start_session (s_num_players s)) >>
  modify (set_ggpo (Some [])) >>
  add_ggpo_players (seq 0 MAX_PLAYERS) 1 >>
  let* s := gets id in
  call (ggpo_set_frame_delay (s_local_handle s) (s_local_delay s)) >>
  call InitializeFramePacing.

Definition DestroyGGPOSession : M unit :=
  let* s := gets id in
  match s_ggpo s with
  | None => ret tt
  | Some _ =>
      call (Log Dev "Destroying GGPO session...") >>
      call ggpo_close_session >>
      modify (set_ggpo None) >>
      modify (set_local_handle GGPO_INVALID_HANDLE) >>
      modify (fun s => set_peers (map (with_ggpo_handle GGPO_INVALID_HANDLE) (s_peers s)) s)
  end.

(** ** Closing *)

Definition CloseSessionWithError (message : string) : M unit :=
  call (Host_ReportErrorAsync "Netplay Error" message) >>
  modify (set_state ClosingSession).

Definition ShutdownEnetHost : M unit :=
  let* s := gets id in
  match s_enet_host s with
  | None => ret tt
  | Some _ =>
      call (Log Dev "Shutting down Enet host") >>
      for_each_player (fun i =>
        let* s := gets id in
        match slot_peer s i with
        | Some p => call (enet_peer_reset p)
        | None => ret tt
        end >>
        modify (fun s => set_peers (<[i := empty_Peer]> (s_peers s)) s)) >>
      call enet_host_destroy >>
      modify (set_enet_host None)
  end.

Definition CloseSession : M unit :=
  let* s := gets id in
  Assert (IsActive s || state_is (s_state s) ClosingSession)
         "IsActive() || s_state == SessionState::ClosingSession" >>
  let was_host := IsHost s in
  DestroyGGPOSession >>
  ShutdownEnetHost >>
  call RestoreSettings >>
  modify (set_state Inactive) >>
  if was_host then ret tt
  else call System_ShutdownSystem >> modify (set_system None).

(** One turn of the loop in which [RequestCloseSession] waits for the
    peers to drop; [true] when every slot is empty and the function
    returns. *)
Definition drain_event (ev : ENetEvent) : M bool :=
  match ev with
  | ENET_EVENT_TYPE_DISCONNECT p =>
      let* s := gets id in
      let player_id := GetPlayerIdForPeer s p in
      if 0 <=? player_id then peers_update player_id (with_peer None) else ret tt
  | _ => ret tt
  end >>
  let* s := gets id in
  if forallb (fun i => negb (has_peer s i)) (seq 0 MAX_PLAYERS) then ret true
  else
    call (Host_DisplayLoadingScreen "Closing session") >>
    call Host_PumpMessagesOnCPUThread >>
    ret false.

Fixpoint drain_events (evs : list ENetEvent) : M unit :=
  match evs with
  | [] => ret tt
  | ev :: evs' =>
      let* finished := drain_event ev in
      if finished then ret tt else drain_events evs'
  end.

(** [closing] lists what [enet_host_service] yields, one entry per turn of
    the waiting loop, until MAX_CLOSE_TIME has passed. *)
Definition RequestCloseSession (closing : list ENetEvent)
    (reason : CloseSessionMessage.Reason) : M unit :=
  let* s := gets id in
  (if IsHost s then
     SendControlPacketToAll
       (NewControlPacket ControlMessage.CloseSession
          (CloseSessionP {| CloseSessionMessage.reason := reason |}) [])
   else ret tt) >>
  DestroyGGPOSession >>
  for_each_player (fun i =>
    let* s := gets id in
    match slot_peer s i with
    | Some p =>
        if IsHost s then call (enet_peer_disconnect_later p)
        else call (enet_peer_disconnect p)
    | None => ret tt
    end) >>
  modify (set_state ClosingSession) >>
  call (Timer_Reset reset_start_time) >>
  let* s := gets id in
  match system s with
  | None => ret tt
  | Some _ =>
      (* the loop is entered with the timer just reset, and its first
         statement hands [s_enet_host] to [enet_host_service] unchecked *)
      deref (s_enet_host s) >>
      drain_events closing
  end.

(** ** Resynchronisation, host side *)

Definition reset_player_entry (s : Session) (i : nat) : M ResetMessage.PlayerEntry :=
  if negb (IsValidPlayerId s (Z.of_nat i)) then
    ret {| ResetMessage.controller_port := -1; ResetMessage.nickname := "";
           ResetMessage.host := 0; ResetMessage.port := 0 |}
  else
    let nick := match s_peers s !! i with Some p => nickname p | None => "" end in
    if Z.of_nat i =? s_player_id s then
      let* h := deref (s_enet_host s) in
      ret {| ResetMessage.controller_port := Z.of_nat i; ResetMessage.nickname := nick;
             ResetMessage.host := addr_host (enet_host_address h);
             ResetMessage.port := addr_port (enet_host_address h) |}
    else
      let* p := deref (slot_peer s i) in
      ret {| ResetMessage.controller_port := Z.of_nat i; ResetMessage.nickname := nick;
             ResetMessage.host := addr_host (address p);
             ResetMessage.port := addr_port (address p) |}.

Fixpoint reset_player_entries (s : Session) (l : list nat) : M (list ResetMessage.PlayerEntry) :=
  match l with
  | [] => ret []
  | i :: l' =>
      let* e := reset_player_entry s i in
      let* es := reset_player_entries s l' in
      ret (e :: es)
  end.

Definition Reset : M unit :=
  let* s := gets id in
  Assert (IsHost s) "IsHost()" >>
  call (Log Verbose "Resetting...") >>
  match system s ≫= System_SaveStateToStream with
  | None => abort (Panic "Failed to save state...")
  | Some state =>
      let state_data_size := Int.u32 (Z.of_nat (length state)) in
      let cookie := Int.u32 (s_reset_cookie s + 1) in
      modify (set_reset_cookie cookie) >>
      let* entries := reset_player_entries s (seq 0 MAX_PLAYERS) in
      let header :=
        {| ResetMessage.cookie := cookie;
           ResetMessage.state_data_size := state_data_size;
           ResetMessage.num_players := s_num_players s;
           ResetMessage.players := entries |} in
      DestroyGGPOSession >>
      send_to_each
        {| dataLength := sizeof_msg ControlMessage.Reset + state_data_size;
           hdr_size := Int.u16 (sizeof_msg ControlMessage.Reset + state_data_size);
           payload := ResetP header;
           trailing := state |} >>
      match system s ≫= System_LoadStateFromStream state with
      | None => abort (Panic "Failed to reload host state")
      | Some m =>
          modify (set_system (Some m)) >>
          modify (set_state Resetting) >>
          modify (set_reset_players bitset_none) >>
          let* s := gets id in
          reset_players_set (s_player_id s) >>
          call (Timer_Reset reset_start_time)
      end
  end.

Definition DropPlayerReasonToString (reason : DropPlayerReason) : string :=
  match reason with
  | ConnectTimeout => "Connection timeout"
  | DisconnectedFromHost => "Disconnected from host"
  | OtherDropReason _ => "Unknown"
  end.

Definition DropPlayer (player_id : Z) (reason : DropPlayerReason) : M unit :=
  let* s := gets id in
  Assert (IsValidPlayerId s player_id
          && negb (s_host_player_id s =? player_id)
          && negb (s_player_id s =? player_id))
         "IsValidPlayerId(player_id) && s_host_player_id != player_id && s_player_id != player_id" >>
  call (Log Info "Dropping player") >>
  call (Host_OnNetplayMessage (DropPlayerReasonToString reason) player_id) >>
  let* p := peers_at player_id in
  let* to := deref (peer p) in
  call (enet_peer_disconnect_now to) >>
  peers_update player_id (fun _ => empty_Peer) >>
  modify (fun s => set_num_players (s_num_players s - 1) s) >>
  let* s := gets id in
  if negb (IsHost s) then
    DestroyGGPOSession >>
    modify (set_state Resetting)
  else
    SendControlPacketToAll
      (NewControlPacket ControlMessage.DropPlayer
         (DropPlayerP {| DropPlayerMessage.reason := reason;
                         DropPlayerMessage.player_id := player_id |}) []) >>
    Reset.

(** ** Joining *)

Definition NotifyPlayerJoined (player_id : Z) : M unit :=
  let* s := gets id in
  (if IsHost s then
     SendControlPacketToAll
       (NewControlPacket ControlMessage.PlayerJoined
          (PlayerJoinedP {| PlayerJoinedMessage.player_id := player_id |}) [])
   else ret tt) >>
  call (Host_OnNetplayMessage (GetNicknameForPlayer s player_id) player_id).

Definition connect_response (r : ConnectResponseMessage.Result) (player_id : Z) : ENetPacket :=
  NewControlPacket ControlMessage.ConnectResponse
    (ConnectResponseP {| ConnectResponseMessage.result := r;
                         ConnectResponseMessage.player_id := player_id |}) [].

Definition HandlePeerConnectionAsHost (p : ENetPeer) : M unit :=
  call (Log Info "New peer connection").

Definition HandleMessageFromNewPeer (p : ENetPeer) (pkt : ENetPacket) : M unit :=
  let reject :=
    call (Log Warning "Received unknown packet from unknown player") >>
    call (enet_peer_reset p) in
  match payload pkt with
  | ConnectRequestP view =>
      let* msg := CheckReceivedPacket ControlMessage.ConnectRequest (-1) pkt view in
      match msg with
      | None => reject
      | Some msg =>
          call (Log Verbose "New host peer connection") >>
          let requested := ConnectRequestMessage.requested_player_id msg in
          let* s := gets id in
          match ConnectRequestMessage.mode msg with
          | ConnectRequestMessage.OtherMode _ =>
              SendControlPacket p (connect_response ConnectResponseMessage.SessionClosed (-1))
          | ConnectRequestMessage.Player =>
              if (0 <=? requested) && IsValidPlayerId s requested then
                call (Log Error "Player ID is already in use, rejecting connection.") >>
                SendControlPacket p (connect_response ConnectResponseMessage.PlayerIDInUse (-1))
              else
                let new_player_id :=
                  if 0 <=? requested then requested else GetFreePlayerId s in
                if new_player_id <? 0 then
                  call (Log Error "Server full, rejecting connection.") >>
                  SendControlPacket p (connect_response ConnectResponseMessage.ServerFull (-1))
                else
                  call (Log Verbose "New connection assigned to player ID") >>
                  SendControlPacket p
                    (connect_response ConnectResponseMessage.Success new_player_id) >>
                  Assert (s_num_players s <? Z.of_nat MAX_PLAYERS)
                         "s_num_players < MAX_PLAYERS" >>
                  peers_update new_player_id (with_peer (Some p)) >>
                  peers_update new_player_id
                    (with_nickname (ConnectRequestMessage.GetNickname msg)) >>
                  modify (fun s => set_num_players (s_num_players s + 1) s) >>
                  Reset >>
                  NotifyPlayerJoined new_player_id
          end
      end
  | _ =>
      (* the cast reads the packet as a ConnectRequestMessage whatever its
         type; the length test comes first, the type test second *)
      let* msg := CheckReceivedPacket ControlMessage.ConnectRequest (-1) pkt tt in
      reject
  end.

Definition SendConnectRequest : M unit :=
  let* s := gets id in
  call (Log Dev "Sending connect request to host") >>
  SendControlPacketToPlayer (s_host_player_id s)
    (NewControlPacket ControlMessage.ConnectRequest
       (ConnectRequestP
          {| ConnectRequestMessage.mode := ConnectRequestMessage.Player;
             ConnectRequestMessage.requested_player_id := s_player_id s;
             ConnectRequestMessage.nickname := s_local_nickname s;
             ConnectRequestMessage.session_password := "" |}) []).

Definition HandlePeerConnectionAsNonHost (p : ENetPeer) (claimed_player_id : Z) : M unit :=
  let* s := gets id in
  let is_peer_of (q : option ENetPeer) :=
    match q with Some q => same_peer q p | None => false end in
  if state_is (s_state s) Connecting then
    let* host_slot := peers_at (s_host_player_id s) in
    if is_peer_of (peer host_slot) then SendConnectRequest
    else
      call (Log Error "Unexpected connection") >>
      call (enet_peer_disconnect_now p)
  else
    call (Log Verbose "New peer connection") >>
    if (claimed_player_id <? 0) || (Z.of_nat MAX_PLAYERS <=? claimed_player_id)
       || (claimed_player_id =? s_player_id s) then
      call (Log Error "Invalid claimed_player_id") >>
      call (enet_peer_disconnect_now p)
    else
      let* claimed := peers_at claimed_player_id in
      Assert (is_peer_of (peer claimed) || (s_player_id s <? claimed_player_id))
             "s_peers[claimed_player_id].peer == peer || claimed_player_id > s_player_id" >>
      if is_peer_of (peer claimed) then call (Log Dev "Connection complete with player")
      else
        call (Log Dev "Connection received from peer") >>
        peers_update claimed_player_id (with_peer (Some p)).

Definition HandleConnectResponseMessage (player_id : Z) (pkt : ENetPacket)
    (view : ConnectResponseMessage.t) : M unit :=
  let* s := gets id in
  if negb (state_is (s_state s) Connecting) then
    call (Log Error "Received unexpected connect response")
  else
    let* msg := CheckReceivedPacket ControlMessage.ConnectResponse player_id pkt view in
    let* msg := deref msg in
    match ConnectResponseMessage.result msg with
    | ConnectResponseMessage.Success =>
        call (Log Info "Connected to host, we were assigned player ID") >>
        modify (set_player_id (ConnectResponseMessage.player_id msg)) >>
        modify (set_state Resetting) >>
        modify (set_reset_players bitset_none) >>
        call (Timer_Reset reset_start_time)
    | _ => CloseSessionWithError "Connection rejected by server with error code"
    end.

Definition HandlePeerDisconnectionAsHost (player_id : Z) : M unit :=
  call (Log Info "Player disconnected from host, reclaiming their slot") >>
  DropPlayer player_id DisconnectedFromHost.

Definition RequestReset (reason : ResetRequestMessage.Reason) (causing_player_id : Z) : M unit :=
  let* s := gets id in
  Assert (negb (IsHost s)) "!IsHost()" >>
  call (Log Dev "Requesting reset from host") >>
  SendControlPacketToPlayer (s_host_player_id s)
    (NewControlPacket ControlMessage.ResetRequest
       (ResetRequestP {| ResetRequestMessage.reason := reason;
                         ResetRequestMessage.causing_player_id := causing_player_id |}) []).

Definition HandlePeerDisconnectionAsNonHost (player_id : Z) : M unit :=
  let* s := gets id in
  call (Log Info "Lost connection with player") >>
  if player_id =? s_host_player_id s then
    CloseSessionWithError "Lost connection to host"
  else RequestReset ResetRequestMessage.ConnectionLost player_id.

(** ** Resynchronisation, joiner side *)

(** Modelled from the spec: [netplay_packets.h] is not among the sources;
    in the wire table the Reset body starts with [u32 cookie] and
    [u32 state_data_size], so that the field ends 8 bytes after the
    header. *)
Definition ResetMessage_state_data_size_end : Z := sizeof_ControlMessageHeader + 4 + 4.

(** [sizeof(ResetMessage) + msg->state_data_size] in [size_t]. *)
Definition reset_expected_size (msg : ResetMessage.t) : Z :=
  Int.to_unsigned size_t_bits
    (sizeof_msg ControlMessage.Reset + ResetMessage.state_data_size msg).

(** The body of the loop over the roster of a Reset message. *)
Definition reset_check_connection (msg : ResetMessage.t) (i : nat) : M unit :=
  let* p := peers_at (Z.of_nat i) in
  let* entry := match ResetMessage.players msg !! i with
                | Some e => ret e
                | None => abort (IndexOutOfBounds (Z.of_nat i))
                end in
  let* s := gets id in
  if ResetMessage.controller_port entry <? 0 then
    match peer p with
    | Some q =>
        call (Log Warning "Dropping connection to player") >>
        call (enet_peer_disconnect_now q) >>
        peers_update (Z.of_nat i) (with_peer None)
    | None => ret tt
    end
  else if Z.of_nat i =? s_player_id s then ret tt
  else
    peers_update (Z.of_nat i) (with_nickname (ResetMessage.nickname entry)) >>
    if Z.of_nat i =? s_host_player_id s then ret tt
    else
      let preserved :=
        match peer p with
        | Some q => (addr_host (address q) =? ResetMessage.host entry)
                    && (addr_port (address q) =? ResetMessage.port entry)
        | None => false
        end in
      if preserved then call (Log Dev "Preserving connection to player")
      else
        Assert (negb (Z.of_nat i =? s_host_player_id s)) "i != s_host_player_id" >>
        match peer p with
        | Some q =>
            call (enet_peer_reset q) >>
            peers_update (Z.of_nat i) (with_peer None)
        | None => ret tt
        end >>
        if s_player_id s <? Z.of_nat i then
          call (Log Dev "Not connecting to player, as they have a higher ID than us")
        else
          let* h := deref (s_enet_host s) in
          match enet_host_connect h
                  {| addr_host := ResetMessage.host entry;
                     addr_port := ResetMessage.port entry |}
                  (Int.u32 (s_player_id s)) with
          | Some (q, h') =>
              modify (set_enet_host (Some h')) >>
              peers_update (Z.of_nat i) (with_peer (Some q))
          | None =>
              peers_update (Z.of_nat i) (with_peer None) >>
              abort (Panic "Failed to connect to peer on resynchronize")
          end.

Definition HandleResetMessage (player_id : Z) (pkt : ENetPacket)
    (msg : ResetMessage.t) : M unit :=
  let* s := gets id in
  if negb (player_id =? s_host_player_id s) then
    call (Log Error "Dropping reset from non-host player")
  else if (dataLength pkt <? sizeof_msg ControlMessage.Reset)
          || (dataLength pkt <? reset_expected_size msg) then
    (* the text of the error is formatted from [msg->state_data_size],
       whatever the length of the packet *)
    if dataLength pkt <? ResetMessage_state_data_size_end then
      abort (ReadBeyondPacket ResetMessage_state_data_size_end)
    else CloseSessionWithError "Invalid synchronization request"
  else
    DestroyGGPOSession >>
    Assert (1 <? ResetMessage.num_players msg) "msg->num_players > 1" >>
    call (Log Dev "Checking connections") >>
    modify (set_num_players (ResetMessage.num_players msg)) >>
    for_each_player (reset_check_connection msg) >>
    call (Log Verbose "Loading state from host") >>
    let* s := gets id in
    let stream := take (Z.to_nat (ResetMessage.state_data_size msg)) (trailing pkt) in
    match system s ≫= System_LoadStateFromStream stream with
    | None => abort (Panic "Failed to load state from host")
    | Some m =>
        modify (set_system (Some m)) >>
        modify (set_state Resetting) >>
        modify (set_reset_cookie (ResetMessage.cookie msg)) >>
        modify (set_reset_players bitset_none) >>
        reset_players_set (s_player_id s) >>
        call (Timer_Reset reset_start_time)
    end.

Definition HandleResetCompleteMessage (player_id : Z) (pkt : ENetPacket)
    (view : ResetCompleteMessage.t) : M unit :=
  let* msg := CheckReceivedPacket ControlMessage.ResetComplete player_id pkt view in
  match msg with
  | None => ret tt
  | Some msg =>
      let* s := gets id in
      if negb (state_is (s_state s) Resetting) || (player_id =? s_host_player_id s) then
        call (Log Error "Received unexpected reset complete")
      else
        let* already := bitset_test (s_reset_players s) player_id in
        if already then call (Log Error "Received double reset")
        else if negb (s_reset_cookie s =? ResetCompleteMessage.cookie msg) then
          call (Log Error "Incorrect reset cookie sent")
        else
          call (Log Dev "Player is now reset and ready") >>
          reset_players_set player_id
  end.

Definition HandleResumeSessionMessage (player_id : Z) (pkt : ENetPacket) : M unit :=
  let* msg := CheckReceivedPacket ControlMessage.ResumeSession player_id pkt tt in
  match msg with
  | None => ret tt
  | Some _ =>
      let* s := gets id in
      if negb (state_is (s_state s) Resetting) || negb (player_id =? s_host_player_id s) then
        call (Log Error "Received unexpected resume session")
      else
        call (Log Dev "Resuming session") >>
        CreateGGPOSession >>
        modify (set_state Running)
  end.

Definition HandleResetRequestMessage (player_id : Z) (pkt : ENetPacket)
    (view : ResetRequestMessage.t) : M unit :=
  let* msg := CheckReceivedPacket ControlMessage.ResetRequest player_id pkt view in
  match msg with
  | None => ret tt
  | Some _ =>
      call (Log Info "Received reset request") >>
      Reset
  end.

Definition HandlePlayerJoinedMessage (player_id : Z) (pkt : ENetPacket)
    (view : PlayerJoinedMessage.t) : M unit :=
  let* msg := CheckReceivedPacket ControlMessage.PlayerJoined player_id pkt view in
  let* s := gets id in
  match msg with
  | None => ret tt
  | Some msg =>
      if negb (player_id =? s_host_player_id s) then ret tt
      else NotifyPlayerJoined (PlayerJoinedMessage.player_id msg)
  end.

Definition HandleDropPlayerMessage (player_id : Z) (pkt : ENetPacket)
    (view : DropPlayerMessage.t) : M unit :=
  let* msg := CheckReceivedPacket ControlMessage.DropPlayer player_id pkt view in
  match msg with
  | None => ret tt
  | Some msg =>
      let* s := gets id in
      if negb (player_id =? s_host_player_id s) then
        call (Log Error "Received unexpected drop player")
      else DropPlayer player_id (DropPlayerMessage.reason msg)
  end.

Definition HandleCloseSessionMessage (closing : list ENetEvent) (player_id : Z)
    (pkt : ENetPacket) (view : CloseSessionMessage.t) : M unit :=
  let* msg := CheckReceivedPacket ControlMessage.CloseSession player_id pkt view in
  match msg with
  | None => ret tt
  | Some msg =>
      call (Host_ReportErrorAsync "Netplay Session Ended" "") >>
      RequestCloseSession closing (CloseSessionMessage.reason msg)
  end.

(** The text is the part of the packet after the header; an empty text
    shows nothing. *)
Definition HandleChatMessage (player_id : Z) (pkt : ENetPacket) : M unit :=
  let* msg := CheckReceivedPacket ControlMessage.ChatMessage player_id pkt tt in
  match msg with
  | None => ret tt
  | Some _ =>
      let* s := gets id in
      match trailing pkt with
      | [] => ret tt
      | _ => call (Host_OnNetplayMessage (GetNicknameForPlayer s player_id) player_id)
      end
  end.

Definition HandleControlMessage (closing : list ENetEvent) (player_id : Z)
    (pkt : ENetPacket) : M unit :=
  if dataLength pkt <? sizeof_ControlMessageHeader then
    call (Log Error "Invalid control packet")
  else
    match payload pkt with
    | ConnectResponseP m => HandleConnectResponseMessage player_id pkt m
    | ResetP m => HandleResetMessage player_id pkt m
    | ResetCompleteP m => HandleResetCompleteMessage player_id pkt m
    | ResumeSessionP => HandleResumeSessionMessage player_id pkt
    | PlayerJoinedP m => HandlePlayerJoinedMessage player_id pkt m
    | DropPlayerP m => HandleDropPlayerMessage player_id pkt m
    | ResetRequestP m => HandleResetRequestMessage player_id pkt m
    | CloseSessionP m => HandleCloseSessionMessage closing player_id pkt m
    | ChatMessageP => HandleChatMessage player_id pkt
    | ConnectRequestP _ | UnknownP _ => call (Log Error "Unhandled control packet")
    end.

(** ** The event pump *)

Definition HandleEnetEvent (closing : list ENetEvent) (event : ENetEvent) : M unit :=
  let* s := gets id in
  match event with
  | ENET_EVENT_TYPE_CONNECT p data =>
      if IsHost s then HandlePeerConnectionAsHost p
      else HandlePeerConnectionAsNonHost p (Int.s32 data)
  | ENET_EVENT_TYPE_DISCONNECT p =>
      let player_id := GetPlayerIdForPeer s p in
      if state_is (s_state s) Connecting then
        Assert (player_id =? s_host_player_id s) "player_id == s_host_player_id" >>
        abort (Panic "Failed to connect to host")
      else if state_is (s_state s) Resetting then
        call (Log Dev "Ignoring disconnection while synchronizing")
      else
        call (Log Warning "ENet player disconnected") >>
        if IsValidPlayerId s player_id then
          if IsHost s then HandlePeerDisconnectionAsHost player_id
          else HandlePeerDisconnectionAsNonHost player_id
        else ret tt
  | ENET_EVENT_TYPE_RECEIVE p channel pkt =>
      let player_id := GetPlayerIdForPeer s p in
      if player_id <? 0 then
        match channel with
        | ENET_CHANNEL_CONTROL => HandleMessageFromNewPeer p pkt
        | _ => ret tt
        end
      else
        match channel with
        | ENET_CHANNEL_CONTROL => HandleControlMessage closing player_id pkt
        | ENET_CHANNEL_GGPO => call (ggpo_handle_packet p)
        | OtherChannel _ => call (Log Error "Unexpected packet channel")
        end
  | ENET_EVENT_TYPE_NONE => call (Log Warning "Unhandled enet event")
  end.

(** [events] lists what [enet_host_service] yields before the deadline, in
    order; the loop stops early once the session is no longer active. *)
Fixpoint PollEnet (closing events : list ENetEvent) : M unit :=
  let* s := gets id in
  if IsActive s then
    Assert (match s_enet_host s with Some _ => true | None => false end) "s_enet_host" >>
    match events with
    | [] => ret tt
    | ev :: events' =>
        HandleEnetEvent closing ev >>
        let* s := gets id in
        match s_ggpo s with
        | Some _ => call ggpo_network_idle
        | None => ret tt
        end >>
        PollEnet closing events'
    end
  else ret tt.

(** What one turn of the outer loop reads from outside: the two timers,
    the connection state of the peers, and the network events that arrive
    while it polls: first in the poll of the state's update function or
    of [RunFrame], then in the polls of [Throttle], and, if the session is
    closed by a message, in the waiting loop of [RequestCloseSession]. *)
Record Turn := {
  reset_elapsed_ms : Z;               (* s_reset_start_time.GetTimeSeconds() *)
  attempt_elapsed_ms : Z;             (* s_last_host_connection_attempt *)
  connected : ENetPeer -> bool;       (* peer->state == ENET_PEER_STATE_CONNECTED *)
  arrivals : list ENetEvent;
  throttle_arrivals : list ENetEvent;
  closing_arrivals : list ENetEvent }.

Definition MAX_CONNECT_TIME_ms : Z := 15000.
Definition MAX_CONNECT_RETRIES : Z := 4.

Definition UpdateConnectingState (t : Turn) : M unit :=
  if MAX_CONNECT_TIME_ms <=? reset_elapsed_ms t then
    CloseSessionWithError "Timed out connecting to server."
  else
    let* s := gets id in
    (if MAX_CONNECT_TIME_ms / (MAX_CONNECT_RETRIES + 1) <? attempt_elapsed_ms t then
       let* host_slot := peers_at (s_host_player_id s) in
       let* hp := deref (peer host_slot) in
       if negb (connected t hp) then
         call (enet_peer_reset hp) >>
         let* h := deref (s_enet_host s) in
         match enet_host_connect h (s_host_address s) (Int.u32 (s_player_id s)) with
         | Some (_, h') => modify (set_enet_host (Some h'))
         | None => ret tt
         end >>
         call (Timer_Reset last_host_connection_attempt)
       else ret tt
     else ret tt) >>
    PollEnet (closing_arrivals t) (arrivals t) >>
    call (Host_DisplayLoadingScreen "Connecting to host...") >>
    call Host_PumpMessagesOnCPUThread.

(** [UpdateConnectingState] up to its poll: [true] when it goes on to
    poll, [false] when it has returned before. *)
Definition UpdateConnectingState_before_poll (t : Turn) : M bool :=
  if MAX_CONNECT_TIME_ms <=? reset_elapsed_ms t then
    CloseSessionWithError "Timed out connecting to server." >> ret false
  else
    let* s := gets id in
    (if MAX_CONNECT_TIME_ms / (MAX_CONNECT_RETRIES + 1) <? attempt_elapsed_ms t then
       let* host_slot := peers_at (s_host_player_id s) in
       let* hp := deref (peer host_slot) in
       if negb (connected t hp) then
         call (enet_peer_reset hp) >>
         let* h := deref (s_enet_host s) in
         match enet_host_connect h (s_host_address s) (Int.u32 (s_player_id s)) with
         | Some (_, h') => modify (set_enet_host (Some h'))
         | None => ret tt
         end >>
         call (Timer_Reset last_host_connection_attempt)
       else ret tt
     else ret tt) >>
    ret true.

(** The loop that drops, on the host, every player that has not
    acknowledged the reset in time. *)
Definition drop_unsynchronized (i : nat) : M unit :=
  let* s := gets id in
  if negb (IsValidPlayerId s (Z.of_nat i)) then ret tt
  else
    let* done := bitset_test (s_reset_players s) (Z.of_nat i) in
    if done then ret tt
    else
      call (Log Dev "Dropping player because they didn't connect in time") >>
      DropPlayer (Z.of_nat i) ConnectTimeout.

(** The loop that marks, on a joiner, the peers it is connected to. *)
Definition mark_connected (t : Turn) (i : nat) : M unit :=
  let* s := gets id in
  if negb (IsValidPlayerId s (Z.of_nat i)) then ret tt
  else
    let* done := bitset_test (s_reset_players s) (Z.of_nat i) in
    if done then ret tt
    else
      match slot_peer s i with
      | Some p => if connected t p then reset_players_set (Z.of_nat i) else ret tt
      | None => ret tt
      end.

Definition UpdateResetState (t : Turn) : M unit :=
  let poll :=
    PollEnet (closing_arrivals t) (arrivals t) >>
    call (Host_DisplayLoadingScreen "Netplay synchronizing") >>
    call Host_PumpMessagesOnCPUThread in
  let* s := gets id in
  if IsHost s then
    if reset_players_count s =? s_num_players s then
      call (Log Verbose "All players synchronized, resuming!") >>
      SendControlPacketToAll
        (NewControlPacket ControlMessage.ResumeSession ResumeSessionP []) >>
      CreateGGPOSession >>
      modify (set_state Running)
    else
      (if MAX_CONNECT_TIME_ms <=? reset_elapsed_ms t then
         call (Log Info "Reset timeout, dropping any players who aren't connected") >>
         for_each_player drop_unsynchronized
       else ret tt) >>
      poll
  else
    if negb (reset_players_count s =? s_num_players s) then
      for_each_player (mark_connected t) >>
      let* s := gets id in
      (if reset_players_count s =? s_num_players s then
         call (Log Info "Connected to all players, waiting for host...") >>
         SendControlPacketToPlayer (s_host_player_id s)
           (NewControlPacket ControlMessage.ResetComplete
              (ResetCompleteP {| ResetCompleteMessage.cookie := s_reset_cookie s |}) [])
       else ret tt) >>
      if MAX_CONNECT_TIME_ms * 2 <=? reset_elapsed_ms t then
        CloseSessionWithError "Failed to connect within timeout"
      else poll
    else poll.

(** [UpdateResetState] up to its poll: [true] when it goes on to poll,
    [false] when it has returned before. *)
Definition UpdateResetState_before_poll (t : Turn) : M bool :=
  let* s := gets id in
  if IsHost s then
    if reset_players_count s =? s_num_players s then
      call (Log Verbose "All players synchronized, resuming!") >>
      SendControlPacketToAll
        (NewControlPacket ControlMessage.ResumeSession ResumeSessionP []) >>
      CreateGGPOSession >>
      modify (set_state Running) >>
      ret false
    else
      (if MAX_CONNECT_TIME_ms <=? reset_elapsed_ms t then
         call (Log Info "Reset timeout, dropping any players who aren't connected") >>
         for_each_player drop_unsynchronized
       else ret tt) >>
      ret true
  else
    if negb (reset_players_count s =? s_num_players s) then
      for_each_player (mark_connected t) >>
      let* s := gets id in
      (if reset_players_count s =? s_num_players s then
         call (Log Info "Connected to all players, waiting for host...") >>
         SendControlPacketToPlayer (s_host_player_id s)
           (NewControlPacket ControlMessage.ResetComplete
              (ResetCompleteP {| ResetCompleteMessage.cookie := s_reset_cookie s |}) [])
       else ret tt) >>
      if MAX_CONNECT_TIME_ms * 2 <=? reset_elapsed_ms t then
        CloseSessionWithError "Failed to connect within timeout" >> ret false
      else ret true
    else ret true.

(** ** Starting a session *)

Definition CreateSystem : M bool :=
  let* s := gets id in
  match system s with
  | Some _ => call System_ShutdownSystem >> modify (set_system None)
  | None => ret tt
  end >>
  match System_BootSystem with
  | Some m => modify (set_system (Some m)) >> ret true
  | None => ret false
  end.

Definition Start (is_hosting : bool) (nickname : string) (remote_addr : string)
    (port : Z) (ldelay : Z) : M bool :=
  let* s := gets id in
  if IsActive s then
    call (Log Error "Netplay session already active") >> ret false
  else if (port <? 0) || (65535 <=? port) then
    call (Log Error "Invalid port") >> ret false
  else
    let* have_system :=
      match system s with
      | Some _ => ret true
      | None =>
          if is_hosting then
            call (Log Error "Can't host a netplay session without a valid VM") >> ret false
          else
            let* created := CreateSystem in
            if created then ret true
            else call (Log Error "Failed to create VM for joining session") >> ret false
      end in
    if negb have_system then ret false
    else
      modify (set_state Initializing) >>
      call SetSettings >>
      if negb enet_initialize then
        call (Log Error "Failed to initialize Enet.") >> ret false
      else
        match enet_host_create
                {| addr_host := ENET_HOST_ANY;
                   addr_port := if is_hosting then Int.u16 port else ENET_PORT_ANY |} with
        | None => call (Log Error "Failed to create enet host.") >> ret false
        | Some h =>
            modify (set_enet_host (Some h)) >>
            modify (set_host_player_id 0) >>
            modify (set_local_nickname nickname) >>
            modify (set_local_delay ldelay) >>
            modify (set_reset_cookie 0) >>
            modify (set_reset_players bitset_none) >>
            if is_hosting then
              modify (set_player_id 0) >>
              modify (set_num_players 1) >>
              modify (set_reset_players (bitset_of_Z 1)) >>
              CreateGGPOSession >>
              modify (set_state Running) >>
              call (Log Info "Netplay session started as host.") >>
              call System_SetState_Paused >>
              ret true
            else
              modify (set_player_id (-1)) >>
              modify (fun s => set_host_address
                         {| addr_host := addr_host (s_host_address s);
                            addr_port := Int.u16 port |} s) >>
              match enet_address_set_host remote_addr with
              | None => call (Log Error "Failed to parse host") >> ret false
              | Some ip =>
                  modify (fun s => set_host_address
                             {| addr_host := ip;
                                addr_port := addr_port (s_host_address s) |} s) >>
                  let* s := gets id in
                  match enet_host_connect h (s_host_address s) (Int.u32 (s_player_id s)) with
                  | None =>
                      peers_update (s_host_player_id s) (with_peer None) >>
                      call (Log Error "Failed to start connection to host.") >> ret false
                  | Some (hp, h') =>
                      modify (set_enet_host (Some h')) >>
                      peers_update (s_host_player_id s) (with_peer (Some hp)) >>
                      modify (set_state Connecting) >>
                      call (Timer_Reset reset_start_time) >>
                      call (Timer_Reset last_host_connection_attempt) >>
                      call System_SetState_Paused >>
                      ret true
                  end
              end
        end.

(** ** The outer loop *)

(** [ggpo_idle], the local input and [NetplayAdvanceFrame] are one step
    [ggpo_run_frame] of the Machine. *)
Definition RunFrame (t : Turn) : M unit :=
  PollEnet (closing_arrivals t) (arrivals t) >>
  let* s := gets id in
  match s_ggpo s with
  | None => ret tt
  | Some _ => modify (set_system (option_map ggpo_run_frame (system s)))
  end.

(** One turn of the [while] of [ExecuteNetplay].  What the Host does to
    the session from inside [PumpMessagesOnCPUThread] is not part of the
    turn.  Of [Throttle] the turn keeps the polls; its arithmetic is in
    [FramePacing]. *)
Definition ExecuteNetplay_turn (t : Turn) : M unit :=
  let* s := gets id in
  match s_state s with
  | Connecting => UpdateConnectingState t
  | Resetting => UpdateResetState t
  | Running =>
      RunFrame t >>
      call Host_PumpMessagesOnCPUThread >>
      let* s := gets id in
      match system s with
      | None => ret tt
      | Some _ =>
          call System_PresentFrame >>
          PollEnet (closing_arrivals t) (throttle_arrivals t)
      end
  | ClosingSession => CloseSession
  | Initializing | Inactive => abort (Panic "Invalid state")
  end.

(** The [while] loop, over the turns the outside world provides. *)
Fixpoint ExecuteNetplay_loop (turns : list Turn) : M unit :=
  match turns with
  | [] => ret tt
  | t :: turns' =>
      let* s := gets id in
      if state_is (s_state s) Inactive then ret tt
      else ExecuteNetplay_turn t >> ExecuteNetplay_loop turns'
  end.

Definition ExecuteNetplay (turns : list Turn) : M unit :=
  call System_SetState_Running >>
  ExecuteNetplay_loop turns.

End Netplay.

(** ** Frame pacing *)

Module FramePacing.
Section FramePacing.

(** [UpdateThrottlePeriod] turns the target speed into a timer period
    through [System::GetThrottleFrequency] and
    [Common::Timer::ConvertSecondsToValue], which are outside this
    translation unit. *)
Variable ThrottlePeriod : F32.float -> Z.

Record Pacer := {
  s_target_speed : F32.float;
  s_frame_period : Z;                     (* Common::Timer::Value, u64 *)
  s_next_frame_time : Z;                  (* Common::Timer::Value, u64 *)
  s_next_timesync_recovery_frame : Z }.   (* s32 *)

Definition UpdateThrottlePeriod (p : Pacer) : Pacer :=
  {| s_target_speed := s_target_speed p;
     s_frame_period := ThrottlePeriod (s_target_speed p);
     s_next_frame_time := s_next_frame_time p;
     s_next_timesync_recovery_frame := s_next_timesync_recovery_frame p |}.

Definition InitializeFramePacing (now : Z) (p : Pacer) : Pacer :=
  let p1 := UpdateThrottlePeriod
              {| s_target_speed := F32.one;
                 s_frame_period := s_frame_period p;
                 s_next_frame_time := s_next_frame_time p;
                 s_next_timesync_recovery_frame := s_next_timesync_recovery_frame p |} in
  {| s_target_speed := s_target_speed p1;
     s_frame_period := s_frame_period p1;
     s_next_frame_time := Int.to_unsigned 64 (now + s_frame_period p1);
     s_next_timesync_recovery_frame := s_next_timesync_recovery_frame p1 |}.

(** The locals of [HandleTimeSyncEvent], in the order of the source. *)
Definition total_time (frame_delta : F32.float) (p : Pacer) : F32.float :=
  F32.div (F32.mul frame_delta (F32.of_Z (s_frame_period p))) F32.four.

Definition mun_timesync_frames (update_interval : Z) : F32.float :=
  F32.mul (F32.of_Z update_interval) F32.three_quarters.

Definition added_time_per_frame (frame_delta : F32.float) (update_interval : Z)
    (p : Pacer) : F32.float :=
  F32.neg (F32.div (total_time frame_delta p) (mun_timesync_frames update_interval)).

Definition iterations_per_frame (p : Pacer) : F32.float :=
  F32.div F32.one (F32.of_Z (s_frame_period p)).

(** [current_frame] is what [CurrentFrame()] reports.  [None] when the
    conversion of the ceiling to [s32] is undefined. *)
Definition HandleTimeSyncEvent (frame_delta : F32.float) (update_interval : Z)
    (current_frame : Z) (p : Pacer) : option Pacer :=
  if F32.ltb (F32.abs frame_delta) F32.one then Some p
  else
    match F32.to_s32 (F32.ceil (mun_timesync_frames update_interval)) with
    | None => None
    | Some frames =>
        Some (UpdateThrottlePeriod
                {| s_target_speed :=
                     F32.mul
                       (F32.add (F32.of_Z (s_frame_period p))
                                (added_time_per_frame frame_delta update_interval p))
                       (iterations_per_frame p);
                   s_frame_period := s_frame_period p;
                   s_next_frame_time := s_next_frame_time p;
                   s_next_timesync_recovery_frame := Int.s32 (current_frame + frames) |})
    end.

(** The first statement of [Throttle]. *)
Definition Throttle_recover (current_frame : Z) (p : Pacer) : Pacer :=
  if negb (F32.eqb (s_target_speed p) F32.one)
     && (s_next_timesync_recovery_frame p <=? current_frame)
  then UpdateThrottlePeriod
         {| s_target_speed := F32.one;
            s_frame_period := s_frame_period p;
            s_next_frame_time := s_next_frame_time p;
            s_next_timesync_recovery_frame := s_next_timesync_recovery_frame p |}
  else p.

(** The rest of [Throttle], up to the sleep loop, which changes none of
    these variables.  [None] is the division by a zero period. *)
Definition Throttle_advance (current_time : Z) (p : Pacer) : option Pacer :=
  let next := Int.to_unsigned 64 (s_next_frame_time p + s_frame_period p) in
  if next <? current_time then
    if s_frame_period p =? 0 then None
    else
      let diff := Int.to_unsigned 64 (current_time - next) in
      Some {| s_target_speed := s_target_speed p;
              s_frame_period := s_frame_period p;
              s_next_frame_time :=
                Int.to_unsigned 64 (next + (diff / s_frame_period p) * s_frame_period p);
              s_next_timesync_recovery_frame := s_next_timesync_recovery_frame p |}
  else
    Some {| s_target_speed := s_target_speed p;
            s_frame_period := s_frame_period p;
            s_next_frame_time := next;
            s_next_timesync_recovery_frame := s_next_timesync_recovery_frame p |}.

Definition Throttle (current_frame current_time : Z) (p : Pacer) : option Pacer :=
  Throttle_advance current_time (Throttle_recover current_frame p).

(** The TimeSync rule in the words of the specification: the correction
    [total_time = (frame_delta * frame_period) / 4] is spread over
    [0.75 * interval] frames. *)
Definition spec_per_frame_delta (frame_delta frame_period interval : F32.float) : F32.float :=
  F32.neg (F32.div (F32.div (F32.mul frame_delta frame_period) F32.four)
                   (F32.mul interval F32.three_quarters)).

Definition spec_target_speed (frame_delta frame_period interval : F32.float) : F32.float :=
  F32.mul (F32.add frame_period (spec_per_frame_delta frame_delta frame_period interval))
          (F32.div F32.one frame_period).

Definition spec_recovery_span (interval : F32.float) : option Z :=
  F32.to_s32 (F32.ceil (F32.mul interval F32.three_quarters)).

End FramePacing.
End FramePacing.

(** ** Local input *)

Module LocalInput.
Section LocalInput.

(** [DigitalController::Button::Count] of digital_controller.h. *)
Variable Button_Count : nat.

(** [CollectInput] writes [s_net_input], an array of rows of 32 values,
    one row per port; the write has no bounds check. *)
Definition CollectInput (slot bind : nat) (value : F32.float) (ni : list (list F32.float))
    : option (list (list F32.float)) :=
  match ni !! slot with
  | Some row =>
      if Nat.ltb bind (length row) then Some (<[slot := <[bind := value]> row]> ni)
      else None
  | None => None
  end.

(** The loop of [ReadLocalInput], from binding [i] on. *)
Fixpoint read_buttons (row : list F32.float) (i : nat) (count : nat)
    (button_data : Z) : option Z :=
  match count with
  | O => Some button_data
  | S count' =>
      match row !! i with
      | None => None
      | Some v =>
          read_buttons row (S i) count'
            (if F32.leb F32.quarter v
             then Z.lor button_data (Int.u32 (Z.shiftl 1 (Z.of_nat i)))
             else button_data)
      end
  end.

Definition ReadLocalInput (ni : list (list F32.float)) : option Z :=
  match ni !! 0%nat with
  | Some row => read_buttons row 0 Button_Count 0
  | None => None
  end.

End LocalInput.
End LocalInput.

(** ** Desync detection *)

Module Checksum.
Section Checksum.

(** [XXH32(input, length, seed)] of xxhash.h. *)
Variable XXH32 : list Byte.byte -> Z -> Z.

Definition sliding_window_size : Z := 4096 * 4.

(** [num_group_of_pages]: the [int] size is converted to [u32] for the
    division. *)
Definition num_group_of_pages (buffer_size : Z) : Z :=
  Int.u32 buffer_size / sliding_window_size.

(** [start_position]; [None] is the remainder by zero. *)
Definition start_position (frame buffer_size : Z) : option Z :=
  let n := num_group_of_pages buffer_size in
  if n =? 0 then None
  else Some (Int.u32 ((Int.u32 frame mod n) * sliding_window_size)).

(** [None] also when the window read would leave [buffer]. *)
Definition GenerateChecksumForFrame (frame : Z) (buffer : list Byte.byte)
    (buffer_size : Z) : option Z :=
  match start_position frame buffer_size with
  | None => None
  | Some start =>
      if start + sliding_window_size <=? Z.of_nat (length buffer) then
        Some (Int.s32 (XXH32 (take (Z.to_nat sliding_window_size)
                                   (drop (Z.to_nat start) buffer))
                             (Int.u32 frame)))
      else None
  end.

(** The checksum step of [NpSaveFrameCb] on the snapshot just saved. *)
Definition NpSaveFrameCb_checksum (frame : Z) (state : list Byte.byte) : option Z :=
  let state_size := Int.u32 (Z.of_nat (length state)) in
  GenerateChecksumForFrame frame state (Int.s32 state_size).

End Checksum.
End Checksum.

(** ** A concrete platform and concrete sessions *)

(** Modelled from the spec: [netplay_packets.h] is not among the sources;
    the sizes are those of the fixed bodies in the wire table of the
    external interfaces, laid out without padding after the 4-byte
    header. *)
Definition wire_sizeof (max_players : nat) (ty : ControlMessage.t) : Z :=
  match ty with
  | ControlMessage.ConnectRequest => 4 + 1 + 2 + 128 + 128
  | ControlMessage.ConnectResponse => 4 + 1 + 2
  | ControlMessage.Reset => 4 + 4 + 4 + 2 + Z.of_nat max_players * (2 + 128 + 4 + 2)
  | ControlMessage.ResetComplete => 4 + 4
  | ControlMessage.ResumeSession => 4
  | ControlMessage.PlayerJoined => 4 + 2
  | ControlMessage.DropPlayer => 4 + 1 + 2
  | ControlMessage.ResetRequest => 4 + 1 + 2
  | ControlMessage.CloseSession => 4 + 1
  | ControlMessage.ChatMessage => 4
  end.

(** A 64-bit platform on which the Machine is its own snapshot, every
    dial yields a fresh peer, and the transport binds when [bind_ok]. *)
Definition wire_platform (max_players : nat) (bind_ok : bool) : Platform :=
  {| MAX_PLAYERS := max_players;
     sizeof_ControlMessageHeader := 4;
     sizeof_msg := wire_sizeof max_players;
     size_t_bits := 64;
     Machine := list Byte.byte;
     ENetHost := ENetAddress * Z;
     System_BootSystem := Some [];
     System_SaveStateToStream := fun m => Some m;
     System_LoadStateFromStream := fun bytes _ => Some bytes;
     enet_initialize := true;
     enet_host_create := fun a => if bind_ok then Some (a, 100) else None;
     enet_host_address := fst;
     enet_host_connect := fun h a _ =>
       Some ({| peer_ptr := snd h; address := a |}, (fst h, snd h + 1));
     enet_peer_send_result := fun _ _ => 0;
     enet_address_set_host := fun _ => Some 2130706433;
     ggpo_run_frame := fun m => m |}.

Definition run {A} `{platform : Platform} (m : M A) (s : Session) : Outcome A * Session := m s.

Definition localhost (port : Z) : ENetAddress := {| addr_host := 2130706433; addr_port := port |}.

Definition peer_A : ENetPeer := {| peer_ptr := 1; address := localhost 37000 |}.
Definition peer_B : ENetPeer := {| peer_ptr := 2; address := localhost 40001 |}.
Definition peer_C : ENetPeer := {| peer_ptr := 3; address := localhost 40002 |}.

Definition snapshot : list Byte.byte := [Byte.x01; Byte.x02; Byte.x03].

(** A digital pad with 14 buttons on 8 ports; only button 3 of port 0 is
    held. *)
Definition idle_row : list F32.float := replicate 32 (S754_zero false).
Definition held_row : list F32.float := <[3%nat := F32.one]> idle_row.
Definition held_input : list (list F32.float) := held_row :: replicate 7 idle_row.

(** A timer that counts nanoseconds and a Machine that runs at 60 Hz. *)
Definition period_60Hz (speed : F32.float) : Z :=
  match F32.to_s32 (F32.div (F32.of_Z 16666667) speed) with
  | Some v => v
  | None => 0
  end.

Definition steady_pacer : FramePacing.Pacer :=
  {| FramePacing.s_target_speed := F32.one;
     FramePacing.s_frame_period := 16666667;
     FramePacing.s_next_frame_time := 0;
     FramePacing.s_next_timesync_recovery_frame := -1 |}.

(** ** Specification vocabulary *)

Section Logic.
Context `{platform : Platform}.

(** [m], run in [s], returns, and [Q] holds of the result and the state
    it leaves. *)
Definition wp {A} (m : M A) (Q : A -> Session -> Prop) (s : Session) : Prop :=
  match m s with
  | (Returned a, s') => Q a s'
  | (Aborted _, _) => False
  end.

(** [m], run in [s], either stops the process or returns with [Q]. *)
Definition wlp {A} (m : M A) (Q : A -> Session -> Prop) (s : Session) : Prop :=
  match m s with
  | (Returned a, s') => Q a s'
  | (Aborted _, _) => True
  end.

(** The arrays have the size their C++ types give them. *)
Definition well_formed (s : Session) : Prop :=
  length (s_peers s) = MAX_PLAYERS /\ length (s_reset_players s) = MAX_PLAYERS.

(** [s_reset_players.test(i)] for an index inside the set. *)
Definition reset_bit (s : Session) (i : nat) : bool :=
  match s_reset_players s !! i with Some b => b | None => false end.

(** The sessions agree on everything but the trace, the GGPO session and
    the GGPO handles. *)
Definition same_roster (s s' : Session) : Prop :=
  s_state s' = s_state s
  /\ s_enet_host s' = s_enet_host s
  /\ peer <$> s_peers s' = peer <$> s_peers s
  /\ nickname <$> s_peers s' = nickname <$> s_peers s
  /\ s_host_player_id s' = s_host_player_id s
  /\ s_player_id s' = s_player_id s
  /\ s_num_players s' = s_num_players s
  /\ s_reset_cookie s' = s_reset_cookie s
  /\ s_reset_players s' = s_reset_players s
  /\ s_host_address s' = s_host_address s
  /\ s_local_nickname s' = s_local_nickname s
  /\ s_local_delay s' = s_local_delay s
  /\ system s' = system s.

(** The part of the session that the roster invariant reads. *)
Definition roster (s : Session)
    : SessionState * list (option ENetPeer) * Z * Z * Z * list bool :=
  (s_state s, peer <$> s_peers s, s_host_player_id s, s_player_id s,
   s_num_players s, s_reset_players s).

(** How many indices of [l] pass [test]. *)
Fixpoint count_if (test : nat -> bool) (l : list nat) : Z :=
  match l with
  | [] => 0
  | i :: l' => (if test i then 1 else 0) + count_if test l'
  end.

(** The roster slots that are occupied: the local player and every slot
    that holds a peer, as [Reset] fills the roster of its message. *)
Definition occupied (s : Session) (i : nat) : bool := IsValidPlayerId s (Z.of_nat i).

Definition occupied_count (s : Session) : Z := count_if (occupied s) (seq 0 MAX_PLAYERS).

(** [reset_players] is a subset of the occupied roster slots. *)
Definition reset_subset (s : Session) : Prop :=
  forall i, reset_bit s i = true -> occupied s i = true.

(** A joiner between [Start] and its first Reset: it has acknowledged
    nothing, and has its id from the host once it is Resetting; when its
    connections are [bounded] (see [valid_event_in]), it knows the host
    only. *)
Definition PreReset (bounded : bool) (me : Z) (s : Session) : Prop :=
  me <> 0
  /\ (s_player_id s = me \/ s_player_id s = -1)
  /\ s_num_players s = 0
  /\ s_reset_players s = bitset_none
  /\ (SessionState_rank (s_state s) = SessionState_rank Resetting -> s_player_id s = me)
  /\ (bounded = true -> forall i, has_peer s i = true -> i = 0%nat).

(** A peer whose roster comes from a Reset (or that is the host).  The
    roster holds [num_players] players at most on the host, and on a
    joiner when its connections are [bounded] (see [valid_event_in]). *)
Definition Synced (bounded : bool) (me : Z) (s : Session) : Prop :=
  SessionState_rank (s_state s) <> SessionState_rank Connecting
  /\ s_player_id s = me
  /\ reset_subset s
  /\ (bounded = true \/ me = 0 -> occupied_count s <= s_num_players s).

(** What holds of the session of player [me] whatever its state. *)
Definition Base (me : Z) (s : Session) : Prop :=
  well_formed s
  /\ s_host_player_id s = 0
  /\ in_range me = true
  /\ (me = 0 -> has_peer s 0 = false).

(** [m] returns with the roster it started from. *)
Definition neutral {A} (m : M A) : Prop :=
  forall s, wlp m (fun _ s' => roster s' = roster s) s.

(** The sessions differ in slot [i] of the peer table at most (and in
    what the roster does not read). *)
Definition same_except (i : nat) (s s' : Session) : Prop :=
  (forall j, j <> i -> slot_peer s' j = slot_peer s j)
  /\ length (s_peers s') = length (s_peers s)
  /\ s_host_player_id s' = s_host_player_id s
  /\ s_player_id s' = s_player_id s
  /\ s_num_players s' = s_num_players s
  /\ s_reset_players s' = s_reset_players s
  /\ s_state s' = s_state s.

(** [m] returns with a roster that differs in slot [i] at most. *)
Definition local_to (i : nat) {A} (m : M A) : Prop :=
  forall s, wlp m (fun _ s' => same_except i s s') s.

(** [m] does not start the Running state: when it returns in Running, it
    was entered in Running. *)
Definition quiet {A} (m : M A) : Prop :=
  forall s, wlp m (fun _ s' => s_state s' = Running -> s_state s = Running) s.

(** A process in which no session is active and no peer is known. *)
Definition fresh (s : Session) : Prop :=
  well_formed s
  /\ IsActive s = false
  /\ (forall i, has_peer s i = false)
  /\ s_num_players s = 0.

(** The invariant of a session in which the local peer is player [me]. *)
Definition Inv (bounded : bool) (me : Z) (s : Session) : Prop :=
  well_formed s
  /\ s_host_player_id s = 0
  /\ in_range me = true
  /\ (me = 0 -> has_peer s 0 = false)
  /\ (IsActive s = true -> PreReset bounded me s \/ Synced bounded me s).

(** The roster entries of a Reset message that name a player. *)
Definition entry_present (msg : ResetMessage.t) (i : nat) : bool :=
  match ResetMessage.players msg !! i with
  | Some e => 0 <=? ResetMessage.controller_port e
  | None => false
  end.

(** What the loop of [HandleResetMessage] over the roster maintains, and
    what it establishes for the slots it has visited. *)
Definition reset_loop_inv (me id0 n0 : Z) (s : Session) : Prop :=
  Base me s /\ s_player_id s = id0 /\ s_num_players s = n0.

Definition slot_in_roster (msg : ResetMessage.t) (i : nat) (s : Session) : Prop :=
  has_peer s i = true -> entry_present msg i = true.

(** What the host sends to player [me]: the id it assigned, and rosters
    that list [me] and count their entries. *)
Definition valid_message (me : Z) (pkt : ENetPacket) : Prop :=
  match payload pkt with
  | ConnectResponseP m =>
      ConnectResponseMessage.result m = ConnectResponseMessage.Success ->
      ConnectResponseMessage.player_id m = me
  | ResetP m =>
      entry_present m (Z.to_nat me) = true
      /\ count_if (entry_present m) (seq 0 MAX_PLAYERS) <= ResetMessage.num_players m
  | _ => True
  end.

(** The events that are valid for player [me] in whatever session they
    arrive: the messages of [valid_message], and of the connections those
    of the host and those that a joiner opened itself, which ENet reports
    with [data = 0]. *)
Definition valid_event (me : Z) (ev : ENetEvent) : Prop :=
  match ev with
  | ENET_EVENT_TYPE_CONNECT _ data => me = 0 \/ Int.s32 data = 0
  | ENET_EVENT_TYPE_RECEIVE _ _ pkt =>
      match payload pkt with
      | ConnectResponseP m =>
          ConnectResponseMessage.result m = ConnectResponseMessage.Success ->
          ConnectResponseMessage.player_id m = me
      | ResetP m =>
          entry_present m (Z.to_nat me) = true
          /\ count_if (entry_present m) (seq 0 MAX_PLAYERS) <= ResetMessage.num_players m
      | _ => True
      end
  | _ => True
  end.

(** The event is valid for player [me] in the session [s] in which it is
    handled.  A message is valid as in [valid_event].  A connection is
    always valid when [bounded] is off.  When [bounded] is on, a joiner
    gets, besides the connections of [valid_event], those of other
    players: while it is Connecting, under an id that it refuses (outside
    the table, or its own), from the player of a slot that is occupied,
    or while fewer than [num_players] slots of its roster are occupied.
    What [bounded] leaves out is the connection that a joiner stores in
    an empty slot of a roster that is full. *)
Definition valid_event_in (bounded : bool) (me : Z) (s : Session) (ev : ENetEvent)
    : Prop :=
  match ev with
  | ENET_EVENT_TYPE_CONNECT _ data =>
      bounded = false
      \/ valid_event me ev
      \/ s_state s = Connecting
      \/ in_range (Int.s32 data) = false
      \/ Int.s32 data = s_player_id s
      \/ has_peer s (Z.to_nat (Int.s32 data)) = true
      \/ occupied_count s < s_num_players s
  | _ => valid_event me ev
  end.

(** Every event of a poll is valid in the session in which [PollEnet]
    handles it: the first one where the poll starts, the others where the
    poll of the event before them ends. *)
Fixpoint valid_poll (bounded : bool) (me : Z) (closing events : list ENetEvent) (s : Session) : Prop :=
  match events with
  | [] => True
  | ev :: events' =>
      (IsActive s = true -> valid_event_in bounded me s ev)
      /\ wlp (PollEnet closing [ev]) (fun _ s' => valid_poll bounded me closing events' s') s
  end.

(** The events of a turn are valid where the turn polls them. *)
Definition valid_turn (bounded : bool) (me : Z) (t : Turn) (s : Session) : Prop :=
  match s_state s with
  | Connecting =>
      wlp (UpdateConnectingState_before_poll t)
          (fun polls s' =>
             polls = true -> valid_poll bounded me (closing_arrivals t) (arrivals t) s') s
  | Resetting =>
      wlp (UpdateResetState_before_poll t)
          (fun polls s' =>
             polls = true -> valid_poll bounded me (closing_arrivals t) (arrivals t) s') s
  | Running =>
      valid_poll bounded me (closing_arrivals t) (arrivals t) s
      /\ wlp (bind (RunFrame t) (fun _ =>
               bind (call Host_PumpMessagesOnCPUThread) (fun _ =>
               call System_PresentFrame)))
             (fun _ s' =>
                system s' <> None ->
                valid_poll bounded me (closing_arrivals t) (throttle_arrivals t) s') s
  | _ => True
  end.

(** Every turn is valid in the session in which the loop of
    [ExecuteNetplay] starts it. *)
Fixpoint valid_turns (bounded : bool) (me : Z) (turns : list Turn) (s : Session) : Prop :=
  match turns with
  | [] => True
  | t :: turns' =>
      valid_turn bounded me t s
      /\ wlp (ExecuteNetplay_loop [t]) (fun _ s' => valid_turns bounded me turns' s') s
  end.

(** The turns are valid from the session in which [ExecuteNetplay]
    enters its loop. *)
Definition valid_run (bounded : bool) (me : Z) (turns : list Turn) (s : Session) : Prop :=
  wlp (ExecuteNetplay []) (fun _ s' => valid_turns bounded me turns s') s.

(** [ev] is a ResumeSession on the control channel that the session [s],
    in the Resetting state, gets from the peer of the host's slot. *)
Definition resumed_by_host (s : Session) (ev : ENetEvent) : Prop :=
  s_state s = Resetting
  /\ exists p pkt,
       ev = ENET_EVENT_TYPE_RECEIVE p ENET_CHANNEL_CONTROL pkt
       /\ payload pkt = ResumeSessionP
       /\ GetPlayerIdForPeer s p = s_host_player_id s.

(** What [CloseSessionWithError] leaves behind. *)
Definition closed_with_error (message : string) (s : Session) : Session :=
  set_state ClosingSession (record (Host_ReportErrorAsync "Netplay Error" message) s).

End Logic.

(** A process that has booted a Machine and has not run a session yet. *)
Definition booted (max_players : nat) (bind_ok : bool)
    : @Session (wire_platform max_players bind_ok) :=
  @set_system (wire_platform max_players bind_ok) (Some snapshot)
    (@initial_session (wire_platform max_players bind_ok)).

Definition slot (p : ENetPeer) (nick : string) : Peer :=
  {| peer := Some p; nickname := nick; ggpo_handle := GGPO_INVALID_HANDLE |}.

(** A session in the middle of its life, given by its roster. *)
Definition make_session (max_players : nat) (state : SessionState) (player_id : Z)
    (peers : list Peer) (num_players cookie : Z) (reset_players : list bool)
    : @Session (wire_platform max_players true) :=
  let P := wire_platform max_players true in
  {| s_state := state;
     s_enet_host := (Some ({| addr_host := 0; addr_port := 0 |}, 100) : option (@ENetHost P));
     s_peers := peers;
     s_host_player_id := 0;
     s_player_id := player_id;
     s_num_players := num_players;
     s_reset_cookie := cookie;
     s_reset_players := reset_players;
     s_host_address := localhost 37000;
     s_local_nickname := "me";
     s_local_handle := GGPO_INVALID_HANDLE;
     s_local_delay := 1;
     s_ggpo := None;
     system := (Some snapshot : option (@Machine P));
     trace := [] |}.

(** Player 1 of three, running; the host is player 0. *)
Definition joiner_of_three : @Session (wire_platform 3 true) :=
  make_session 3 Running 1 [slot peer_A "A"; empty_Peer; slot peer_C "C"] 3 1
    [true; true; true].

(** The host of two, waiting for player 1 to acknowledge reset 1. *)
Definition host_of_two_resetting : @Session (wire_platform 2 true) :=
  make_session 2 Resetting 0 [empty_Peer; slot peer_B "B"] 2 1 [true; false].

(** A joiner that has dialled the host and waits for its answer. *)
Definition joiner_connecting : @Session (wire_platform 2 true) :=
  make_session 2 Connecting (-1) [slot peer_A "A"; empty_Peer] 0 0 [false; false].

(** Player 1 of two, running. *)
Definition joiner_of_two : @Session (wire_platform 2 true) :=
  make_session 2 Running 1 [slot peer_A "A"; empty_Peer] 2 1 [true; true].

(** Player 1 of three after reset 1, still waiting for player 2 to
    connect. *)
Definition joiner_of_three_resetting : @Session (wire_platform 3 true) :=
  make_session 3 Resetting 1 [slot peer_A "A"; empty_Peer; empty_Peer] 3 1
    [false; true; false].

Definition two_entries : list ResetMessage.PlayerEntry :=
  [ {| ResetMessage.controller_port := 0; ResetMessage.nickname := "A";
       ResetMessage.host := 0; ResetMessage.port := 37000 |};
    {| ResetMessage.controller_port := 1; ResetMessage.nickname := "me";
       ResetMessage.host := 2130706433; ResetMessage.port := 40001 |} ].

(** A Reset that announces 1000 bytes of snapshot and carries 3. *)
Definition truncated_reset : ENetPacket :=
  {| dataLength := wire_sizeof 2 ControlMessage.Reset + 3;
     hdr_size := wire_sizeof 2 ControlMessage.Reset + 1000;
     payload := ResetP {| ResetMessage.cookie := 2;
                          ResetMessage.state_data_size := 1000;
                          ResetMessage.num_players := 2;
                          ResetMessage.players := two_entries |};
     trailing := snapshot |}.

(** A ResetComplete of full length that carries [cookie]. *)
Definition reset_complete (cookie : Z) : ENetPacket :=
  {| dataLength := 8; hdr_size := 8;
     payload := ResetCompleteP {| ResetCompleteMessage.cookie := cookie |};
     trailing := [] |}.

(** The host's notice that player [player_id] has been dropped. *)
Definition drop_player_notice (player_id : Z) : ENetPacket :=
  {| dataLength := 7; hdr_size := 7;
     payload := DropPlayerP {| DropPlayerMessage.reason := ConnectTimeout;
                               DropPlayerMessage.player_id := player_id |};
     trailing := [] |}.

(** A connect request that asks for slot [player_id]. *)
Definition connect_request (player_id : Z) : ENetPacket :=
  {| dataLength := 263; hdr_size := 263;
     payload := ConnectRequestP
                  {| ConnectRequestMessage.mode := ConnectRequestMessage.Player;
                     ConnectRequestMessage.requested_player_id := player_id;
                     ConnectRequestMessage.nickname := "B";
                     ConnectRequestMessage.session_password := "" |};
     trailing := [] |}.

(** A ConnectResponse cut after its header. *)
Definition header_only_connect_response : ENetPacket :=
  {| dataLength := 4; hdr_size := 4;
     payload := ConnectResponseP {| ConnectResponseMessage.result := ConnectResponseMessage.Success;
                                    ConnectResponseMessage.player_id := 1 |};
     trailing := [] |}.

(** The host of a session of at most two, alone and running. *)
Definition host_alone : @Session (wire_platform 2 true) :=
  make_session 2 Running 0 [empty_Peer; empty_Peer] 1 0 [true; false].

(** The peer a joiner gets when it dials the host on the wire platform. *)
Definition dialled_host : ENetPeer := {| peer_ptr := 100; address := localhost 37000 |}.

Definition from_host (pkt : ENetPacket) : ENetEvent :=
  ENET_EVENT_TYPE_RECEIVE dialled_host ENET_CHANNEL_CONTROL pkt.

(** The host's answer that assigns [player_id]. *)
Definition connect_response_ok (player_id : Z) : ENetPacket :=
  {| dataLength := 7; hdr_size := 7;
     payload := ConnectResponseP {| ConnectResponseMessage.result := ConnectResponseMessage.Success;
                                    ConnectResponseMessage.player_id := player_id |};
     trailing := [] |}.

Definition three_entries : list ResetMessage.PlayerEntry :=
  [ {| ResetMessage.controller_port := 0; ResetMessage.nickname := "A";
       ResetMessage.host := 0; ResetMessage.port := 37000 |};
    {| ResetMessage.controller_port := 1; ResetMessage.nickname := "B";
       ResetMessage.host := 2130706433; ResetMessage.port := 40001 |};
    {| ResetMessage.controller_port := 2; ResetMessage.nickname := "C";
       ResetMessage.host := 2130706433; ResetMessage.port := 40002 |} ].

(** Reset 1 of a session of three, with its snapshot. *)
Definition reset_of_three : ENetPacket :=
  {| dataLength := wire_sizeof 3 ControlMessage.Reset + 3;
     hdr_size := wire_sizeof 3 ControlMessage.Reset + 3;
     payload := ResetP {| ResetMessage.cookie := 1;
                          ResetMessage.state_data_size := 3;
                          ResetMessage.num_players := 3;
                          ResetMessage.players := three_entries |};
     trailing := snapshot |}.

Definition resume_session : ENetPacket :=
  {| dataLength := 4; hdr_size := 4; payload := ResumeSessionP; trailing := [] |}.

(** A turn well inside the time limits in which [arrivals] come in and
    the dialled host is the one peer that is connected. *)
Definition turn_with (arrivals : list ENetEvent) : Turn :=
  {| reset_elapsed_ms := 0; attempt_elapsed_ms := 0;
     connected := fun p => peer_ptr p =? 100;
     arrivals := arrivals; throttle_arrivals := []; closing_arrivals := [] |}.

(** Player B joins a session of three: the host answers the dial, assigns
    id 1 and sends reset 1. *)
Definition joining_B : list Turn :=
  [turn_with [ENET_EVENT_TYPE_CONNECT dialled_host 0; from_host (connect_response_ok 1)];
   turn_with [from_host reset_of_three]].

(** Player B asks the host of a session of three for any free slot, and
    acknowledges reset 1. *)
Definition hosting_B : list Turn :=
  [turn_with [ENET_EVENT_TYPE_CONNECT peer_B 0;
              ENET_EVENT_TYPE_RECEIVE peer_B ENET_CHANNEL_CONTROL (connect_request (-1))];
   turn_with [ENET_EVENT_TYPE_RECEIVE peer_B ENET_CHANNEL_CONTROL (reset_complete 1)]].

(** ** The session API around [Start] and the chat *)

Section SessionAPI.
Context `{platform : Platform}.

Notation "'let*' x ':=' m 'in' k" := (bind m (fun x => k))
  (at level 10, x name, m at level 100, k at level 200, only parsing).
Notation "m >> k" := (bind m (fun _ => k))
  (at level 90, right associativity, only parsing).

(** [System::LoadState(save_path)] of system.h: what loading the host's
    save state, when there is one, makes of the Machine. *)
Variable System_LoadState : Machine -> Machine.

Definition SystemDestroyed (closing : list ENetEvent) : M unit :=
  RequestCloseSession closing CloseSessionMessage.HostShutdown.

Definition CreateSession (nickname : string) (port max_players : Z) (password : string)
    : M bool :=
  let input_delay := 1 in
  let* started := Start true nickname "" port input_delay in
  if negb started then CloseSession >> ret false
  else
    let* s := gets id in
    (if IsHost s then modify (set_system (option_map System_LoadState (system s)))
     else ret tt) >>
    ret true.

Definition JoinSession (nickname hostname : string) (port : Z) (password : string)
    : M bool :=
  let input_delay := 1 in
  let* started := Start false nickname hostname port input_delay in
  if negb started then CloseSession >> ret false
  else ret true.



(** ** Vocabulary of the properties below *)

(** Every [enet_peer_send] succeeds: it returns 0. *)
Definition sends_succeed : Prop :=
  forall (p : ENetPeer) (pkt : ENetPacket), enet_peer_send_result p pkt = 0.

(** The peers of the occupied slots, in slot order. *)
Definition connected_peers (s : Session) : list ENetPeer :=
  omap (slot_peer s) (seq 0 MAX_PLAYERS).

(** Slot [i] holds the peer [p]: [s_peers[i].peer == p]. *)
Definition holds (s : Session) (p : ENetPeer) (i : nat) : bool :=
  match slot_peer s i with
  | Some q => same_peer q p
  | None => false
  end.

(** The occupied slots, in slot order. *)
Definition occupied_slots (s : Session) : list nat :=
  List.filter (occupied s) (seq 0 MAX_PLAYERS).

(** The GGPO players of [slots], numbered from [n] on: the local
    player's slot has no peer. *)
Fixpoint registered (s : Session) (n : Z) (slots : list nat) : list GGPOPlayer :=
  match slots with
  | [] => []
  | i :: slots' =>
      {| player_num := n;
         remote_peer := if Z.of_nat i =? s_player_id s then None else slot_peer s i |}
      :: registered s (n + 1) slots'
  end.

(** [s] with [effects] appended to its trace. *)
Definition record_all (effects : list Effect) (s : Session) : Session :=
  fold_left (fun s e => record e s) effects s.

(** The peer of slot [i] has the address that the roster of the Reset
    gives for the slot. *)
Definition connection_preserved (s : Session) (msg : ResetMessage.t) (i : nat) : bool :=
  match slot_peer s i, ResetMessage.players msg !! i with
  | Some q, Some e =>
      (addr_host (address q) =? ResetMessage.host e)
      && (addr_port (address q) =? ResetMessage.port e)
  | _, _ => false
  end.

(** What the loop of [HandleResetMessage] makes of slot [i], which held
    what [s] holds: [r] is the peer of the slot afterwards.  The slot of
    an absent player is emptied; the local player's slot, the host's slot
    and a connection to the address of the roster are kept; of the other
    players the joiner dials those of a lower slot and leaves the slot of
    the higher ones empty, for them to dial. *)
Definition reset_settles (s : Session) (msg : ResetMessage.t) (i : nat)
    (r : option ENetPeer) : Prop :=
  if negb (entry_present msg i) then r = None
  else if (Z.of_nat i =? s_player_id s) || (Z.of_nat i =? s_host_player_id s)
          || connection_preserved s msg i
  then r = slot_peer s i
  else if s_player_id s <? Z.of_nat i then r = None
  else exists h e q h',
         ResetMessage.players msg !! i = Some e
         /\ enet_host_connect h {| addr_host := ResetMessage.host e;
                                   addr_port := ResetMessage.port e |}
                              (Int.u32 (s_player_id s)) = Some (q, h')
         /\ r = Some q.

End SessionAPI.

(** ** Inputs handed to the controllers *)

Module PadInput.
Section PadInput.

(** [DigitalController::Button::Count] of digital_controller.h. *)
Variable Button_Count : nat.

(** [Pad::GetController(i) != nullptr] *)
Variable has_controller : nat -> bool.

(** One call [cont->SetBindState(bind, value)] on the controller of
    [slot]. *)
Record BindState := { slot : nat; bind : nat; value : F32.float }.

Definition zero : F32.float := S754_zero false.

(** The inner loop of [SetInputs]; [std::bitset<32>::test] throws from
    position 32 on. *)
Fixpoint set_binds (i : nat) (button_data : Z) (js : list nat) : option (list BindState) :=
  match js with
  | [] => Some []
  | j :: js' =>
      if Nat.ltb j 32 then
        option_map
          (cons {| slot := i; bind := j;
                   value := if Z.testbit (Int.u32 button_data) (Z.of_nat j)
                            then F32.one else zero |})
          (set_binds i button_data js')
      else None
  end.

Definition SetInputs_controller (i : nat) (button_data : Z) : option (list BindState) :=
  if has_controller i then set_binds i button_data (seq 0 Button_Count)
  else if Nat.eqb Button_Count 0 then Some []
  else None.

(** [inputs] is the array of two the caller passes. *)
Definition SetInputs (inputs : Z * Z) : option (list BindState) :=
  match SetInputs_controller 0 (fst inputs) with
  | None => None
  | Some first =>
      match SetInputs_controller 1 (snd inputs) with
      | None => None
      | Some second => Some (app first second)
      end
  end.

End PadInput.
End PadInput.

(** ** More concrete sessions *)

(** The host of three, running with players B and C. *)
Definition host_of_three : @Session (wire_platform 3 true) :=
  make_session 3 Running 0 [empty_Peer; slot peer_B "B"; slot peer_C "C"] 3 1
    [true; true; true].

(** The host of three in reset 1: C has acknowledged, B has not. *)
Definition host_of_three_waiting : @Session (wire_platform 3 true) :=
  make_session 3 Resetting 0 [empty_Peer; slot peer_B "B"; slot peer_C "C"] 3 1
    [true; false; true].

(** The host of two in reset 1, acknowledged by player 1. *)
Definition host_of_two_ready : @Session (wire_platform 2 true) :=
  make_session 2 Resetting 0 [empty_Peer; slot peer_B "B"] 2 1 [true; true].


(** Player 1 of three, which the host has just given its id. *)
Definition joiner_before_reset : @Session (wire_platform 3 true) :=
  make_session 3 Resetting 1 [slot dialled_host "A"; empty_Peer; empty_Peer] 0 0
    [false; false; false].

(** A turn in which the Reset has timed out and nothing arrives. *)
Definition overdue_turn : Turn :=
  {| reset_elapsed_ms := 15000; attempt_elapsed_ms := 0;
     connected := fun _ => false;
     arrivals := []; throttle_arrivals := []; closing_arrivals := [] |}.


(** The roster of a session of two on a platform for three players. *)
Definition two_of_three_entries : list ResetMessage.PlayerEntry :=
  [ {| ResetMessage.controller_port := 0; ResetMessage.nickname := "A";
       ResetMessage.host := 0; ResetMessage.port := 37000 |};
    {| ResetMessage.controller_port := 1; ResetMessage.nickname := "B";
       ResetMessage.host := 2130706433; ResetMessage.port := 40001 |};
    {| ResetMessage.controller_port := -1; ResetMessage.nickname := "";
       ResetMessage.host := 0; ResetMessage.port := 0 |} ].

(** Reset 1 of that session, with its snapshot. *)
Definition reset_of_two_in_three : ENetPacket :=
  {| dataLength := wire_sizeof 3 ControlMessage.Reset + 3;
     hdr_size := wire_sizeof 3 ControlMessage.Reset + 3;
     payload := ResetP {| ResetMessage.cookie := 1;
                          ResetMessage.state_data_size := 3;
                          ResetMessage.num_players := 2;
                          ResetMessage.players := two_of_three_entries |};
     trailing := snapshot |}.

(** A turn well inside the time limits in which [arrivals] come in and
    every peer is connected. *)
Definition turn_all_connected (arrivals : list ENetEvent) : Turn :=
  {| reset_elapsed_ms := 0; attempt_elapsed_ms := 0;
     connected := fun _ => true;
     arrivals := arrivals; throttle_arrivals := []; closing_arrivals := [] |}.

(** Player B joins a session of two, and is dialled by a player that the
    Reset does not list, in the poll that brings the Reset; the next turn
    marks the peers that are connected. *)
Definition joining_B_dialled_by_stranger : list Turn :=
  [turn_with [ENET_EVENT_TYPE_CONNECT dialled_host 0; from_host (connect_response_ok 1)];
   turn_with [from_host reset_of_two_in_three; ENET_EVENT_TYPE_CONNECT peer_C 2];
   turn_all_connected []].

(** Player B joins a session of three and is then dialled by player C,
    whom the Reset lists; the next turn marks the peers that are
    connected. *)
Definition joining_B_dialled_by_C : list Turn :=
  [turn_with [ENET_EVENT_TYPE_CONNECT dialled_host 0; from_host (connect_response_ok 1)];
   turn_with [from_host reset_of_three];
   turn_all_connected [ENET_EVENT_TYPE_CONNECT peer_C 2];
   turn_all_connected []].

(** A pacer that runs at double speed until frame 145. *)
Definition correcting_pacer : FramePacing.Pacer :=
  {| FramePacing.s_target_speed := F32.of_Z 2;
     FramePacing.s_frame_period := 8333333;
     FramePacing.s_next_frame_time := 0;
     FramePacing.s_next_timesync_recovery_frame := 145 |}.

(** A Reset from the host of which only the header arrived; [msg] stands
    for what the memory after the packet holds. *)
Definition header_only_reset (msg : ResetMessage.t) : ENetPacket :=
  {| dataLength := 4; hdr_size := 4; payload := ResetP msg; trailing := [] |}.

(** [P] with a [size_t] of [bits] bits and with [send_result] for what
    [enet_peer_send] returns. *)
Definition platform_variant (P : Platform) (bits : Z)
    (send_result : ENetPeer -> ENetPacket -> Z) : Platform :=
  {| MAX_PLAYERS := @MAX_PLAYERS P;
     sizeof_ControlMessageHeader := @sizeof_ControlMessageHeader P;
     sizeof_msg := @sizeof_msg P;
     size_t_bits := bits;
     Machine := @Machine P;
     ENetHost := @ENetHost P;
     System_BootSystem := @System_BootSystem P;
     System_SaveStateToStream := @System_SaveStateToStream P;
     System_LoadStateFromStream := @System_LoadStateFromStream P;
     enet_initialize := @enet_initialize P;
     enet_host_create := @enet_host_create P;
     enet_host_address := @enet_host_address P;
     enet_host_connect := @enet_host_connect P;
     enet_peer_send_result := send_result;
     enet_address_set_host := @enet_address_set_host P;
     ggpo_run_frame := @ggpo_run_frame P |}.

(** The session [s] on the variant of its platform. *)
Definition on_variant {P : Platform} (bits : Z) (send_result : ENetPeer -> ENetPacket -> Z)
    (s : @Session P) : @Session (platform_variant P bits send_result) :=
  {| s_state := s_state s;
     s_enet_host := (s_enet_host s : option (@ENetHost (platform_variant P bits send_result)));
     s_peers := s_peers s;
     s_host_player_id := s_host_player_id s;
     s_player_id := s_player_id s;
     s_num_players := s_num_players s;
     s_reset_cookie := s_reset_cookie s;
     s_reset_players := s_reset_players s;
     s_host_address := s_host_address s;
     s_local_nickname := s_local_nickname s;
     s_local_handle := s_local_handle s;
     s_local_delay := s_local_delay s;
     s_ggpo := s_ggpo s;
     system := (system s : option (@Machine (platform_variant P bits send_result)));
     trace := trace s |}.

(** [P] with a [size_t] of 32 bits. *)
Definition narrow_platform (P : Platform) : Platform :=
  platform_variant P 32 (@enet_peer_send_result P).

Definition narrow_session {P : Platform} (s : @Session P) : @Session (narrow_platform P) :=
  on_variant 32 (@enet_peer_send_result P) s.

(** [P] on which [enet_peer_send] fails for the peers that [fails]
    selects. *)
Definition lossy_platform (P : Platform) (fails : ENetPeer -> bool) : Platform :=
  platform_variant P (@size_t_bits P) (fun p _ => if fails p then -1 else 0).

Definition lossy_session {P : Platform} (fails : ENetPeer -> bool) (s : @Session P)
    : @Session (lossy_platform P fails) :=
  on_variant (@size_t_bits P) (fun p _ => if fails p then -1 else 0) s.

(** A Reset of the fixed body alone that announces [2^32 - 1] bytes of
    snapshot. *)
Definition wrapped_reset : ENetPacket :=
  {| dataLength := wire_sizeof 2 ControlMessage.Reset;
     hdr_size := Int.u16 (wire_sizeof 2 ControlMessage.Reset + (2 ^ 32 - 1));
     payload := ResetP {| ResetMessage.cookie := 2;
                          ResetMessage.state_data_size := 2 ^ 32 - 1;
                          ResetMessage.num_players := 2;
                          ResetMessage.players := two_entries |};
     trailing := [] |}.

(** * Properties *)

(** ** Desync checksum window *)

Section ChecksumFacts.
Import Checksum.
Variable XXH32 : list Byte.byte -> Z -> Z.

Lemma u32_small (x : Z) : 0 <= x < 2 ^ 32 -> Int.u32 x = x.
Proof. intros Hx. unfold Int.u32, Int.to_unsigned. apply Z.mod_small. exact Hx. Qed.

Lemma window_fits (frame n : Z) :
  0 < n -> 0 <= (frame mod n) * sliding_window_size
           /\ (frame mod n) * sliding_window_size + sliding_window_size
              <= n * sliding_window_size.
Proof.
  intros Hn. pose proof (Z.mod_pos_bound frame n Hn) as Hm.
  unfold sliding_window_size. lia.
Qed.

(** C10: with a non-negative frame number and at least 16384 bytes of
    snapshot the divisor [buffer_size / 16384] is not zero and the window
    of 16384 bytes that starts at [(frame mod divisor) * 16384] ends inside
    the buffer, so that the checksum is computed; the function has no guard
    of its own, and below 16384 bytes the divisor is zero and the remainder
    is not defined. *)
Theorem checksum_window_within_buffer (frame buffer_size : Z) (buffer : list Byte.byte) :
  0 <= frame < 2 ^ 31 ->
  0 <= buffer_size < 2 ^ 31 ->
  (16384 <= buffer_size ->
     num_group_of_pages buffer_size = buffer_size / 16384
     /\ num_group_of_pages buffer_size <> 0
     /\ exists start,
          start = (frame mod (buffer_size / 16384)) * 16384
          /\ start_position frame buffer_size = Some start
          /\ 0 <= start
          /\ start + 16384 <= buffer_size
          /\ (buffer_size <= Z.of_nat (length buffer) ->
              GenerateChecksumForFrame XXH32 frame buffer buffer_size
              = Some (Int.s32 (XXH32 (take (Z.to_nat 16384) (drop (Z.to_nat start) buffer)) frame))))
  /\ (buffer_size < 16384 ->
        num_group_of_pages buffer_size = 0
        /\ start_position frame buffer_size = None
        /\ GenerateChecksumForFrame XXH32 frame buffer buffer_size = None).
Proof.
  intros Hframe Hsize.
  assert (Hu : Int.u32 buffer_size = buffer_size) by (apply u32_small; lia).
  assert (Hf : Int.u32 frame = frame) by (apply u32_small; lia).
  split.
  - intros Hbig.
    assert (Hn : num_group_of_pages buffer_size = buffer_size / 16384).
    { unfold num_group_of_pages. rewrite Hu. reflexivity. }
    assert (Hpos : 0 < buffer_size / 16384).
    { apply Z.div_str_pos. lia. }
    assert (Hle : (buffer_size / 16384) * 16384 <= buffer_size).
    { pose proof (Z.mul_div_le buffer_size 16384). lia. }
    destruct (window_fits frame (buffer_size / 16384) Hpos) as [Hlo Hhi].
    change sliding_window_size with 16384 in Hlo, Hhi.
    split; [exact Hn|]. split; [rewrite Hn; lia|].
    exists ((frame mod (buffer_size / 16384)) * 16384).
    assert (Hstart : start_position frame buffer_size
                     = Some ((frame mod (buffer_size / 16384)) * 16384)).
    { unfold start_position. rewrite Hn, Hf.
      destruct (Z.eqb_spec (buffer_size / 16384) 0) as [E|_]; [lia|].
      change sliding_window_size with 16384.
      rewrite u32_small by lia. reflexivity. }
    repeat split; try assumption; try lia.
    intros Hbuf. unfold GenerateChecksumForFrame. rewrite Hstart, Hf.
    change sliding_window_size with 16384.
    destruct (Z.leb_spec ((frame mod (buffer_size / 16384)) * 16384 + 16384)
                (Z.of_nat (length buffer))) as [_|Hbad]; [|lia].
    reflexivity.
  - intros Hsmall.
    assert (Hn : num_group_of_pages buffer_size = 0).
    { unfold num_group_of_pages. rewrite Hu. apply Z.div_small.
      unfold sliding_window_size. lia. }
    assert (Hstart : start_position frame buffer_size = None).
    { unfold start_position. rewrite Hn. reflexivity. }
    split; [exact Hn|]. split; [exact Hstart|].
    unfold GenerateChecksumForFrame. rewrite Hstart. reflexivity.
Qed.

End ChecksumFacts.

Lemma checksum_window_within_buffer_witness :
  Checksum.start_position 101 65536 = Some 16384
  /\ Checksum.GenerateChecksumForFrame (fun _ seed => seed) 101 [] 100 = None.
Proof.
  pose proof (checksum_window_within_buffer (fun _ seed => seed) 101 65536 []
                ltac:(lia) ltac:(lia)) as [Hbig _].
  pose proof (checksum_window_within_buffer (fun _ seed => seed) 101 100 []
                ltac:(lia) ltac:(lia)) as [_ Hsmall].
  split.
  - destruct (Hbig ltac:(lia)) as (_ & _ & start & Hs & Hpos & _).
    rewrite Hpos, Hs. reflexivity.
  - apply (Hsmall ltac:(lia)).
Defined.

(** ** Local input sampling *)

Section LocalInputFacts.
Import LocalInput.
Variable Button_Count : nat.

Lemma button_mask (i : nat) :
  (i < 32)%nat -> Int.u32 (Z.shiftl 1 (Z.of_nat i)) = 2 ^ Z.of_nat i.
Proof.
  intros Hi. rewrite Z.shiftl_1_l. apply u32_small.
  split; [apply Z.pow_nonneg; lia|].
  apply Z.pow_lt_mono_r; lia.
Qed.

Lemma testbit_button (acc : Z) (i j : nat) :
  Z.testbit (Z.lor acc (2 ^ Z.of_nat i)) (Z.of_nat j)
  = Z.testbit acc (Z.of_nat j) || Nat.eqb i j.
Proof.
  rewrite Z.lor_spec, Z.pow2_bits_eqb by lia.
  f_equal. destruct (Nat.eqb_spec i j) as [->|Hne].
  - apply Z.eqb_refl.
  - apply Z.eqb_neq. lia.
Qed.

(** The loop keeps the bits below [i] and decides bit [i], [i+1], ... *)
Lemma read_buttons_spec (row : list F32.float) (count i : nat) (acc : Z) :
  (i + count <= length row)%nat ->
  (i + count <= 32)%nat ->
  (forall j, (i <= j)%nat -> Z.testbit acc (Z.of_nat j) = false) ->
  exists w,
    read_buttons row i count acc = Some w
    /\ (forall j, (j < i)%nat -> Z.testbit w (Z.of_nat j) = Z.testbit acc (Z.of_nat j))
    /\ (forall j v, (i <= j < i + count)%nat -> row !! j = Some v ->
          Z.testbit w (Z.of_nat j) = F32.leb F32.quarter v)
    /\ (forall j, (i + count <= j)%nat -> Z.testbit w (Z.of_nat j) = false).
Proof.
  revert i acc. induction count as [|count IH]; intros i acc Hlen Hmax Hclear.
  - exists acc. simpl. repeat split; try done.
    + intros j v Hj. lia.
    + intros j Hj. apply Hclear. lia.
  - simpl. destruct (row !! i) as [v|] eqn:Hrow.
    2:{ apply lookup_ge_None in Hrow. lia. }
    set (acc' := if F32.leb F32.quarter v
                 then Z.lor acc (Int.u32 (Z.shiftl 1 (Z.of_nat i))) else acc).
    assert (Hacc' : forall j, Z.testbit acc' (Z.of_nat j)
                    = Z.testbit acc (Z.of_nat j) || (F32.leb F32.quarter v && Nat.eqb i j)).
    { intros j. unfold acc'. destruct (F32.leb F32.quarter v).
      - rewrite button_mask by lia. apply testbit_button.
      - simpl. rewrite orb_false_r. reflexivity. }
    destruct (IH (S i) acc') as (w & Hw & Hlow & Hmid & Hhigh); try lia.
    { intros j Hj. rewrite Hacc', Hclear by lia.
      destruct (Nat.eqb_spec i j); [lia|]. rewrite andb_false_r. reflexivity. }
    exists w. split; [exact Hw|]. repeat split.
    + intros j Hj. rewrite Hlow, Hacc' by lia.
      destruct (Nat.eqb_spec i j); [lia|]. rewrite andb_false_r, orb_false_r. reflexivity.
    + intros j v' Hj Hv'. destruct (Nat.eq_dec i j) as [<-|Hne].
      * rewrite Hlow, Hacc', Hclear by lia. rewrite Nat.eqb_refl.
        rewrite Hrow in Hv'. inversion Hv'. subst v'. simpl. apply andb_true_r.
      * apply Hmid; [lia|exact Hv'].
    + intros j Hj. apply Hhigh. lia.
Qed.

Lemma read_buttons_row_eq (row row' : list F32.float) (count i : nat) (acc : Z) :
  row = row' -> read_buttons row i count acc = read_buttons row' i count acc.
Proof. intros ->. reflexivity. Qed.

(** C9: the sampled word has bit [i] set exactly when the value of
    controller slot 0, binding [i], is at least 0.25, for every binding
    below the button count; the bits from the button count on are clear,
    and a value collected on another slot does not change the sample. *)
Theorem local_input_bits (ni : list (list F32.float)) (row : list F32.float) :
  (Button_Count <= 32)%nat ->
  ni !! 0%nat = Some row ->
  length row = 32%nat ->
  exists w,
    ReadLocalInput Button_Count ni = Some w
    /\ (forall i v, (i < Button_Count)%nat -> row !! i = Some v ->
          (Z.testbit w (Z.of_nat i) = true <-> F32.leb F32.quarter v = true))
    /\ (forall i, (Button_Count <= i)%nat -> Z.testbit w (Z.of_nat i) = false)
    /\ (forall slot bind value ni',
          slot <> 0%nat ->
          CollectInput slot bind value ni = Some ni' ->
          ReadLocalInput Button_Count ni' = Some w)
    /\ (forall bind value ni',
          (bind < Button_Count)%nat ->
          CollectInput 0 bind value ni = Some ni' ->
          exists w',
            ReadLocalInput Button_Count ni' = Some w'
            /\ (Z.testbit w' (Z.of_nat bind) = true <-> F32.leb F32.quarter value = true)).
Proof.
  intros Hcount Hrow Hlen.
  destruct (read_buttons_spec row Button_Count 0 0) as (w & Hw & _ & Hmid & Hhigh).
  { lia. } { lia. } { intros j _. apply Z.bits_0. }
  exists w. unfold ReadLocalInput. rewrite Hrow. split; [exact Hw|].
  split; [|split; [|split]].
  - intros i v Hi Hv. rewrite (Hmid i v) by (lia || exact Hv). reflexivity.
  - intros i Hi. apply Hhigh. lia.
  - intros slot bind value ni' Hslot Hcollect. unfold CollectInput in Hcollect.
    destruct (ni !! slot) as [r|] eqn:Hr; [|discriminate].
    destruct (Nat.ltb bind (length r)); [|discriminate].
    inversion Hcollect; subst ni'.
    rewrite list_lookup_insert_ne by exact Hslot. rewrite Hrow. exact Hw.
  - intros bind value ni' Hbind Hcollect. unfold CollectInput in Hcollect.
    rewrite Hrow in Hcollect.
    destruct (Nat.ltb_spec bind (length row)) as [Hlt|]; [|discriminate].
    inversion Hcollect; subst ni'.
    rewrite list_lookup_insert_eq by (apply lookup_lt_Some in Hrow; exact Hrow).
    destruct (read_buttons_spec (<[bind := value]> row) Button_Count 0 0)
      as (w' & Hw' & _ & Hmid' & _).
    { rewrite length_insert. lia. } { lia. } { intros j _. apply Z.bits_0. }
    exists w'. split; [exact Hw'|].
    rewrite (Hmid' bind value); [reflexivity|lia|].
    apply list_lookup_insert_eq. exact Hlt.
Qed.

End LocalInputFacts.

Lemma local_input_bits_witness :
  exists w, LocalInput.ReadLocalInput 14 held_input = Some w
            /\ Z.testbit w 3 = true /\ Z.testbit w 20 = false.
Proof.
  destruct (local_input_bits 14 held_input held_row ltac:(lia) eq_refl eq_refl)
    as (w & Hw & Hbits & Hclear & _).
  exists w. split; [exact Hw|]. split.
  - apply (Hbits 3%nat F32.one); [lia|reflexivity|reflexivity].
  - apply (Hclear 20%nat). lia.
Defined.

(** ** Frame pacing *)

Section FramePacingFacts.
Import FramePacing.
Variable ThrottlePeriod : F32.float -> Z.

Lemma eqb_one (x : F32.float) : F32.eqb x F32.one = true -> x = F32.one.
Proof.
  unfold F32.eqb, SFeqb, SFcompare, F32.one.
  destruct x as [s|s| |s m e]; try destruct s; cbv beta iota; try discriminate.
  destruct (Z.compare e (-23)) eqn:He; try discriminate.
  apply Z.compare_eq in He. subst e.
  destruct (Pos.compare_cont Eq m 8388608) eqn:Hm; try discriminate.
  apply Pos.compare_eq in Hm. subst m. reflexivity.
Qed.

Lemma s32_small (x : Z) : Int.in_s32 x -> Int.s32 x = x.
Proof.
  unfold Int.in_s32, Int.s32, Int.to_signed. intros Hx.
  change (2 ^ (32 - 1)) with 2147483648. change (2 ^ 32) with 4294967296.
  change (2 ^ 31) with 2147483648 in Hx.
  destruct (Z.leb_spec 0 x) as [Hpos|Hneg].
  - rewrite Z.mod_small by lia.
    destruct (Z.ltb_spec x 2147483648); lia.
  - replace (x mod 4294967296) with (x + 4294967296).
    2:{ apply Z.mod_unique with (q := -1); lia. }
    destruct (Z.ltb_spec (x + 4294967296) 2147483648); lia.
Qed.

Lemma Throttle_recover_due (current_frame : Z) (p : Pacer) :
  s_next_timesync_recovery_frame p <= current_frame ->
  s_target_speed (Throttle_recover ThrottlePeriod current_frame p) = F32.one.
Proof.
  intros Hdue. unfold Throttle_recover.
  destruct (F32.eqb (s_target_speed p) F32.one) eqn:Hone; cbn [negb andb].
  - apply eqb_one. exact Hone.
  - destruct (Z.leb_spec (s_next_timesync_recovery_frame p) current_frame); [|lia].
    reflexivity.
Qed.

Lemma Throttle_recover_early (current_frame : Z) (p : Pacer) :
  current_frame < s_next_timesync_recovery_frame p ->
  Throttle_recover ThrottlePeriod current_frame p = p.
Proof.
  intros Hearly. unfold Throttle_recover.
  destruct (Z.leb_spec (s_next_timesync_recovery_frame p) current_frame); [lia|].
  rewrite andb_false_r. reflexivity.
Qed.

Lemma Throttle_advance_speed (current_time : Z) (p p' : Pacer) :
  Throttle_advance current_time p = Some p' ->
  s_target_speed p' = s_target_speed p
  /\ s_next_timesync_recovery_frame p' = s_next_timesync_recovery_frame p.
Proof.
  unfold Throttle_advance. intros H.
  repeat match type of H with
         | (if ?c then _ else _) = _ => destruct c
         end; inversion H; subst; cbn [s_target_speed s_next_timesync_recovery_frame]; auto.
Qed.

Lemma Throttle_advance_total (current_time : Z) (p : Pacer) :
  s_frame_period p <> 0 -> is_Some (Throttle_advance current_time p).
Proof.
  intros Hp. unfold Throttle_advance.
  destruct (Z.eqb_spec (s_frame_period p) 0); [contradiction|].
  destruct (_ <? _); eexists; reflexivity.
Qed.

(** C7: a TimeSync event with [|frame_delta| < 1.0] changes nothing.
    Otherwise the target speed becomes
    [(frame_period + per_frame_delta) * (1 / frame_period)] with
    [per_frame_delta = -(((frame_delta * frame_period) / 4) / (0.75 * interval))],
    and the recovery frame becomes [current_frame + ceil(0.75 * interval)];
    a throttle before that frame keeps the speed, and the first throttle
    at or after it sets the speed back to 1.0. *)
Theorem timesync_event_and_recovery
    (frame_delta : F32.float) (update_interval current_frame : Z) (p : Pacer) :
  (F32.ltb (F32.abs frame_delta) F32.one = true ->
     HandleTimeSyncEvent ThrottlePeriod frame_delta update_interval current_frame p = Some p)
  /\ (F32.ltb (F32.abs frame_delta) F32.one = false ->
      forall frames,
        spec_recovery_span (F32.of_Z update_interval) = Some frames ->
        Int.in_s32 (current_frame + frames) ->
        exists p',
          HandleTimeSyncEvent ThrottlePeriod frame_delta update_interval current_frame p
          = Some p'
          /\ s_target_speed p'
             = spec_target_speed frame_delta (F32.of_Z (s_frame_period p))
                 (F32.of_Z update_interval)
          /\ s_next_timesync_recovery_frame p' = current_frame + frames
          /\ (forall frame, frame < current_frame + frames ->
                Throttle_recover ThrottlePeriod frame p' = p')
          /\ (forall frame now,
                current_frame + frames <= frame ->
                s_target_speed (Throttle_recover ThrottlePeriod frame p') = F32.one
                /\ (forall p'', Throttle ThrottlePeriod frame now p' = Some p'' ->
                      s_target_speed p'' = F32.one)
                /\ (ThrottlePeriod F32.one <> 0 -> s_frame_period p' <> 0 ->
                      is_Some (Throttle ThrottlePeriod frame now p')))).
Proof.
  split.
  - intros Hsmall. unfold HandleTimeSyncEvent. rewrite Hsmall. reflexivity.
  - intros Hbig frames Hspan Hrange.
    unfold spec_recovery_span in Hspan.
    pose proof (s32_small _ Hrange) as Hwrap.
    eexists. unfold HandleTimeSyncEvent. rewrite Hbig.
    unfold mun_timesync_frames. rewrite Hspan.
    split; [reflexivity|].
    unfold UpdateThrottlePeriod.
    cbn [s_target_speed s_next_timesync_recovery_frame s_frame_period].
    split; [reflexivity|]. split; [exact Hwrap|]. split.
    + intros frame Hframe. apply Throttle_recover_early.
      cbn [s_next_timesync_recovery_frame]. lia.
    + intros frame now Hframe. split; [|split].
      * apply Throttle_recover_due. cbn [s_next_timesync_recovery_frame]. lia.
      * intros p'' Hth. unfold Throttle in Hth.
        apply Throttle_advance_speed in Hth as [-> _].
        apply Throttle_recover_due. cbn [s_next_timesync_recovery_frame]. lia.
      * intros Hone Hperiod. unfold Throttle. apply Throttle_advance_total.
        unfold Throttle_recover, UpdateThrottlePeriod.
        destruct (negb _ && _); cbn [s_frame_period s_target_speed]; assumption.
Qed.

End FramePacingFacts.

Lemma timesync_event_and_recovery_witness :
  exists p',
    FramePacing.HandleTimeSyncEvent period_60Hz (F32.of_Z 2) 60 100 steady_pacer = Some p'
    /\ FramePacing.s_target_speed p' = S754_finite false 16590802 (-24)
    /\ FramePacing.s_next_timesync_recovery_frame p' = 145.
Proof.
  destruct (timesync_event_and_recovery period_60Hz (F32.of_Z 2) 60 100 steady_pacer)
    as [_ Hbig].
  destruct (Hbig eq_refl 45 eq_refl ltac:(unfold Int.in_s32; lia))
    as (p' & Hp' & Hspeed & Hframe & _).
  exists p'. split; [exact Hp'|]. split; [|exact Hframe].
  rewrite Hspeed. reflexivity.
Defined.

(** ** The session: reasoning rules *)

Section Rules.
Context `{platform : Platform}.

Lemma wp_ret {A} (a : A) (Q : A -> Session -> Prop) (s : Session) :
  Q a s -> wp (ret a) Q s.
Proof. intros H. exact H. Qed.

Lemma wp_bind {A B} (m : M A) (k : A -> M B) (Q : B -> Session -> Prop) (s : Session) :
  wp m (fun a s' => wp (k a) Q s') s -> wp (bind m k) Q s.
Proof.
  unfold wp, bind. destruct (m s) as [[a|f] s']; [|intros []].
  intros H. exact H.
Qed.

Lemma wp_bind_inv {A B} (m : M A) (k : A -> M B) (Q : B -> Session -> Prop) (s : Session) :
  wp (bind m k) Q s -> wp m (fun a s' => wp (k a) Q s') s.
Proof.
  unfold wp, bind. destruct (m s) as [[a|f] s']; [|intros []].
  intros H. exact H.
Qed.

Lemma wp_gets {A} (f : Session -> A) (Q : A -> Session -> Prop) (s : Session) :
  Q (f s) s -> wp (gets f) Q s.
Proof. intros H. exact H. Qed.

Lemma wp_modify (f : Session -> Session) (Q : unit -> Session -> Prop) (s : Session) :
  Q tt (f s) -> wp (modify f) Q s.
Proof. intros H. exact H. Qed.

Lemma wp_call (e : Effect) (Q : unit -> Session -> Prop) (s : Session) :
  Q tt (record e s) -> wp (call e) Q s.
Proof. intros H. exact H. Qed.

Lemma wp_Assert (c : bool) (what : string) (Q : unit -> Session -> Prop) (s : Session) :
  c = true -> Q tt s -> wp (Assert c what) Q s.
Proof. intros -> H. exact H. Qed.

Lemma wp_mono {A} (m : M A) (Q Q' : A -> Session -> Prop) (s : Session) :
  (forall a s', Q a s' -> Q' a s') -> wp m Q s -> wp m Q' s.
Proof.
  unfold wp. intros HQ. destruct (m s) as [[a|f] s']; [apply HQ|intros []].
Qed.

Lemma wp_run {A} (m : M A) (Q : A -> Session -> Prop) (s : Session) :
  wp m Q s -> exists a s', m s = (Returned a, s') /\ Q a s'.
Proof.
  unfold wp. destruct (m s) as [[a|f] s']; [|intros []].
  intros H. exists a, s'. split; [reflexivity|exact H].
Qed.

Lemma wp_for {A} (l : list A) (body : A -> M unit) (I : Session -> Prop) (s : Session) :
  (forall x s, x ∈ l -> I s -> wp (body x) (fun _ => I) s) ->
  I s -> wp (for_ l body) (fun _ => I) s.
Proof.
  revert s. induction l as [|x l IH]; intros s Hbody HI.
  - exact HI.
  - simpl. apply wp_bind. eapply wp_mono; [|apply Hbody; [left|exact HI]].
    intros u s' HI'. apply IH; [|exact HI'].
    intros y s'' Hy. apply Hbody. right. exact Hy.
Qed.

End Rules.

Ltac wp_step :=
  first
    [ apply wp_bind
    | apply wp_ret
    | apply wp_gets
    | apply wp_modify
    | apply wp_call ];
  cbv beta.

Ltac wp_steps := repeat wp_step.

Section Roster.
Context `{platform : Platform}.

Lemma same_roster_refl (s : Session) : same_roster s s.
Proof. unfold same_roster. repeat split. Qed.

Lemma same_roster_trans (s1 s2 s3 : Session) :
  same_roster s1 s2 -> same_roster s2 s3 -> same_roster s1 s3.
Proof.
  unfold same_roster. intros H12 H23.
  destruct H12 as (?&?&?&?&?&?&?&?&?&?&?&?&?).
  destruct H23 as (?&?&?&?&?&?&?&?&?&?&?&?&?).
  repeat split; congruence.
Qed.

Lemma same_roster_well_formed (s s' : Session) :
  same_roster s s' -> well_formed s -> well_formed s'.
Proof.
  unfold same_roster, well_formed.
  intros (_&_&Hp&_&_&_&_&_&Hr&_) [Hl Hb]. split.
  - rewrite <- Hl. rewrite <- (length_fmap peer (s_peers s')), Hp. apply length_fmap.
  - rewrite Hr. exact Hb.
Qed.

Lemma same_roster_record (e : Effect) (s : Session) : same_roster s (record e s).
Proof. unfold same_roster. repeat split. Qed.

Lemma same_roster_set_ggpo v (s : Session) : same_roster s (set_ggpo v s).
Proof. unfold same_roster. repeat split. Qed.

Lemma same_roster_set_local_handle v (s : Session) : same_roster s (set_local_handle v s).
Proof. unfold same_roster. repeat split. Qed.

Lemma same_roster_ggpo_handle (i : nat) (h : Z) (p : Peer) (s : Session) :
  s_peers s !! i = Some p ->
  same_roster s (set_peers (<[i := with_ggpo_handle h p]> (s_peers s)) s).
Proof.
  intros Hp. unfold same_roster. cbn [s_state s_enet_host s_peers s_host_player_id s_player_id
    s_num_players s_reset_cookie s_reset_players s_host_address s_local_nickname
    s_local_delay system set_peers].
  repeat split.
  - rewrite list_fmap_insert. apply list_insert_id. rewrite list_lookup_fmap, Hp. reflexivity.
  - rewrite list_fmap_insert. apply list_insert_id. rewrite list_lookup_fmap, Hp. reflexivity.
Qed.

Lemma same_roster_ggpo_handles (h : Z) (s : Session) :
  same_roster s (set_peers (map (with_ggpo_handle h) (s_peers s)) s).
Proof.
  unfold same_roster. cbn [s_state s_enet_host s_peers s_host_player_id s_player_id
    s_num_players s_reset_cookie s_reset_players s_host_address s_local_nickname
    s_local_delay system set_peers].
  repeat split.
  - induction (s_peers s) as [|p l IH]; [reflexivity|]. simpl. f_equal. exact IH.
  - induction (s_peers s) as [|p l IH]; [reflexivity|]. simpl. f_equal. exact IH.
Qed.

Lemma in_range_of_nat (i : nat) : (i < MAX_PLAYERS)%nat -> in_range (Z.of_nat i) = true.
Proof.
  intros Hi. unfold in_range. apply andb_true_iff. split.
  - apply Z.leb_le. lia.
  - apply Z.ltb_lt. lia.
Qed.

Lemma in_range_bounds (i : Z) :
  in_range i = true -> 0 <= i /\ (Z.to_nat i < MAX_PLAYERS)%nat.
Proof.
  unfold in_range. intros H. apply andb_true_iff in H as [H1 H2].
  apply Z.leb_le in H1. apply Z.ltb_lt in H2. lia.
Qed.

Lemma wp_peers_at (i : Z) (p : Peer) (Q : Peer -> Session -> Prop) (s : Session) :
  in_range i = true -> s_peers s !! Z.to_nat i = Some p ->
  Q p s -> wp (peers_at i) Q s.
Proof.
  intros Hi Hp HQ. unfold peers_at. apply wp_bind, wp_gets. unfold id.
  rewrite Hi, Hp. apply wp_ret. exact HQ.
Qed.

Lemma wp_peers_update (i : Z) (f : Peer -> Peer) (p : Peer)
    (Q : unit -> Session -> Prop) (s : Session) :
  in_range i = true -> s_peers s !! Z.to_nat i = Some p ->
  Q tt (set_peers (<[Z.to_nat i := f p]> (s_peers s)) s) ->
  wp (peers_update i f) Q s.
Proof.
  intros Hi Hp HQ. unfold peers_update. apply wp_bind.
  apply (wp_peers_at i p); [exact Hi|exact Hp|].
  apply wp_modify. exact HQ.
Qed.

Lemma wp_add_ggpo_player (i : nat) (n : Z) (s : Session) :
  (i < MAX_PLAYERS)%nat -> well_formed s ->
  wp (add_ggpo_player i n) (fun _ s' => same_roster s s') s.
Proof.
  intros Hi [Hlen _]. unfold add_ggpo_player.
  destruct (lookup_lt_is_Some_2 (s_peers s) i ltac:(lia)) as [p Hp].
  apply wp_bind, wp_gets. unfold id. apply wp_bind.
  apply (wp_peers_update _ _ p); [apply in_range_of_nat; exact Hi|
                                  rewrite Nat2Z.id; exact Hp|].
  rewrite Nat2Z.id. apply wp_bind, wp_modify.
  assert (Hr : same_roster s
            (set_ggpo
               (option_map
                  (fun l => app l [{| player_num := n;
                                      remote_peer := if Z.of_nat i =? s_player_id s
                                                     then None else slot_peer s i |}])
                  (s_ggpo (set_peers (<[i := with_ggpo_handle n p]> (s_peers s)) s)))
               (set_peers (<[i := with_ggpo_handle n p]> (s_peers s)) s))).
  { eapply same_roster_trans; [apply same_roster_ggpo_handle; exact Hp|].
    apply same_roster_set_ggpo. }
  destruct (Z.of_nat i =? s_player_id s).
  - apply wp_modify. eapply same_roster_trans; [exact Hr|].
    apply same_roster_set_local_handle.
  - apply wp_ret. exact Hr.
Qed.

Lemma wp_add_ggpo_players (l : list nat) (n : Z) (s : Session) :
  (forall i, i ∈ l -> (i < MAX_PLAYERS)%nat) -> well_formed s ->
  wp (add_ggpo_players l n) (fun _ s' => same_roster s s') s.
Proof.
  revert n s. induction l as [|i l IH]; intros n s Hl Hwf.
  - apply wp_ret. apply same_roster_refl.
  - simpl. apply wp_bind, wp_gets. unfold id.
    assert (Hl' : forall j, j ∈ l -> (j < MAX_PLAYERS)%nat).
    { intros j Hj. apply Hl. right. exact Hj. }
    destruct (negb (has_peer s i) && negb (Z.of_nat i =? s_player_id s)).
    + apply IH; assumption.
    + apply wp_bind.
      eapply wp_mono; [|apply wp_add_ggpo_player; [apply Hl; left|exact Hwf]].
      intros u s' Hs'. cbv beta in Hs'. eapply wp_mono; [|apply IH; [exact Hl'|]].
      * intros u' s'' Hs''. cbv beta in Hs''. eapply same_roster_trans; eassumption.
      * eapply same_roster_well_formed; eassumption.
Qed.

Lemma wp_CreateGGPOSession (s : Session) :
  well_formed s ->
  wp CreateGGPOSession (fun _ s' => same_roster s s') s.
Proof.
  intros Hwf. unfold CreateGGPOSession.
  apply wp_bind, wp_gets. unfold id. apply wp_bind, wp_call. apply wp_bind, wp_modify.
  apply wp_bind.
  eapply wp_mono; [|apply wp_add_ggpo_players].
  - intros u s' Hs'. apply wp_bind, wp_gets. unfold id. apply wp_bind, wp_call.
    apply wp_call. eapply same_roster_trans; [|apply same_roster_record].
    eapply same_roster_trans; [|apply same_roster_record].
    eapply same_roster_trans; [|exact Hs'].
    eapply same_roster_trans; [apply same_roster_record|apply same_roster_set_ggpo].
  - intros i Hi. apply elem_of_seq in Hi. lia.
  - eapply same_roster_well_formed; [|exact Hwf].
    eapply same_roster_trans; [apply same_roster_record|apply same_roster_set_ggpo].
Qed.

Lemma wp_DestroyGGPOSession (s : Session) :
  wp DestroyGGPOSession (fun _ s' => same_roster s s' /\ s_ggpo s' = None) s.
Proof.
  unfold DestroyGGPOSession. apply wp_bind, wp_gets. unfold id.
  destruct (s_ggpo s) eqn:Hg.
  - apply wp_bind, wp_call. apply wp_bind, wp_call. apply wp_bind, wp_modify.
    apply wp_bind, wp_modify. apply wp_modify. split; [|reflexivity].
    eapply same_roster_trans; [|apply same_roster_ggpo_handles].
    eapply same_roster_trans; [|apply same_roster_set_local_handle].
    eapply same_roster_trans; [|apply same_roster_set_ggpo].
    eapply same_roster_trans; apply same_roster_record.
  - apply wp_ret. split; [apply same_roster_refl|exact Hg].
Qed.

End Roster.

Ltac wp_prim :=
  lazymatch goal with
  | |- wp (gets _) _ _ => apply wp_gets
  | |- wp (modify _) _ _ => apply wp_modify
  | |- wp (call _) _ _ => apply wp_call
  | |- wp (ret _) _ _ => apply wp_ret
  end;
  unfold id; cbv beta.

Ltac wp_next :=
  lazymatch goal with
  | |- wp (bind (gets _) _) _ _ => apply wp_bind; wp_prim
  | |- wp (bind (modify _) _) _ _ => apply wp_bind; wp_prim
  | |- wp (bind (call _) _) _ _ => apply wp_bind; wp_prim
  | |- wp (bind (ret _) _) _ _ => apply wp_bind; wp_prim
  end.

Ltac wp_seq := repeat wp_next.

(** ** Starting as host *)

Section HostStart.
Context `{platform : Platform}.

Lemma reset_bit_of_Z (v : Z) (s : Session) (i : nat) :
  s_reset_players s = bitset_of_Z v ->
  reset_bit s i = Nat.ltb i MAX_PLAYERS && Z.testbit v (Z.of_nat i).
Proof.
  intros Hs. unfold reset_bit, bitset_of_Z in *. rewrite Hs.
  change (map ?f ?l) with (f <$> l). rewrite list_lookup_fmap.
  destruct (Nat.ltb_spec i MAX_PLAYERS) as [Hlt|Hge].
  - rewrite lookup_seq_lt by exact Hlt. reflexivity.
  - rewrite lookup_seq_ge by exact Hge. reflexivity.
Qed.

(** C8 (amended): started as host while no session is active, with a
    port in [0, 65535), a valid Machine and a transport that initialises
    and binds, [Start] returns [true] and leaves the session Running with
    one player, [reset_players = {0}], local player id 0 and [IsHost()]
    true. *)
Theorem host_start_running (s : Session) (nickname remote_addr : string)
    (port ldelay : Z) (m : Machine) (h : ENetHost) :
  well_formed s ->
  (0 < MAX_PLAYERS)%nat ->
  IsActive s = false ->
  0 <= port < 65535 ->
  system s = Some m ->
  enet_initialize = true ->
  enet_host_create {| addr_host := ENET_HOST_ANY; addr_port := Int.u16 port |} = Some h ->
  exists s',
    Start true nickname remote_addr port ldelay s = (Returned true, s')
    /\ s_state s' = Running
    /\ s_num_players s' = 1
    /\ (forall i, reset_bit s' i = true <-> i = 0%nat)
    /\ reset_players_count s' = 1
    /\ s_player_id s' = 0
    /\ IsHost s' = true.
Proof.
  intros Hwf Hmax Hidle Hport Hsys Hinit Hbind.
  enough (Hwp : wp (Start true nickname remote_addr port ldelay)
                  (fun r s' => r = true /\ s_state s' = Running /\ s_num_players s' = 1
                               /\ s_reset_players s' = bitset_of_Z 1
                               /\ s_player_id s' = 0 /\ s_host_player_id s' = 0) s).
  { apply wp_run in Hwp as (r & s' & Hrun & -> & Hst & Hn & Hbits & Hid & Hhost).
    exists s'. split; [exact Hrun|]. split; [exact Hst|]. split; [exact Hn|].
    split; [|split; [|split; [exact Hid|]]].
    - intros i. rewrite (reset_bit_of_Z 1) by exact Hbits.
      change 1 with (2 ^ 0) at 1. rewrite Z.pow2_bits_eqb by lia.
      destruct (Nat.ltb_spec i MAX_PLAYERS); destruct (Z.eqb_spec 0 (Z.of_nat i));
        simpl; split; intros; try discriminate; lia.
    - unfold reset_players_count. rewrite Hbits. unfold bitset_of_Z.
      destruct MAX_PLAYERS as [|n]; [lia|]. simpl.
      assert (Hz : forall l, (forall i, i ∈ l -> (0 < i)%nat) ->
                bitset_count (map (fun i => Z.testbit 1 (Z.of_nat i)) l) = 0).
      { induction l as [|i l IH]; intros Hl; [reflexivity|]. simpl.
        rewrite IH by (intros j Hj; apply Hl; right; exact Hj).
        change 1 with (2 ^ 0) at 1. rewrite Z.pow2_bits_eqb by lia.
        specialize (Hl i ltac:(left)).
        destruct (Z.eqb_spec 0 (Z.of_nat i)); lia. }
      rewrite Hz; [reflexivity|]. intros i Hi. apply elem_of_seq in Hi. lia.
    - unfold IsHost. rewrite Hid, Hhost. reflexivity. }
  unfold Start. apply wp_bind; wp_prim. rewrite Hidle.
  destruct (Z.ltb_spec port 0); [lia|]. destruct (Z.leb_spec 65535 port); [lia|].
  cbn [orb]. apply wp_bind. rewrite Hsys. wp_prim. cbn [negb].
  wp_seq. rewrite Hinit. cbn [negb]. rewrite Hbind. wp_seq.
  apply wp_bind.
  eapply wp_mono; [|apply wp_CreateGGPOSession].
  - intros u s' Hs'. cbv beta in Hs'.
    destruct Hs' as (Hst&_&_&_&Hhost&Hid&Hn&_&Hbits&_).
    wp_seq. wp_prim. cbn in Hhost, Hid, Hn, Hbits. cbn. repeat split; assumption.
  - destruct Hwf as [Hlen Hbits]. split; cbn.
    + exact Hlen.
    + unfold bitset_of_Z. change (map ?f ?l) with (f <$> l).
      rewrite length_fmap. apply length_seq.
Qed.

End HostStart.

(** C8, as stated, fails when the transport cannot bind the port. *)
Lemma host_start_bind_failure :
  let r := @Start (wire_platform 2 false) true "A" "" 37000 1 (booted 2 false) in
  fst r = Returned false /\ s_state (snd r) = Initializing.
Proof. vm_compute. split; reflexivity. Qed.

Lemma host_start_running_witness :
  exists s',
    @Start (wire_platform 2 true) true "A" "" 37000 1 (booted 2 true) = (Returned true, s')
    /\ s_state s' = Running /\ s_num_players s' = 1 /\ IsHost s' = true.
Proof.
  destruct (@host_start_running (wire_platform 2 true) (booted 2 true) "A" "" 37000 1
              snapshot ({| addr_host := 0; addr_port := 37000 |}, 100))
    as (s' & Hrun & Hst & Hn & _ & _ & _ & Hhost).
  - split; reflexivity.
  - simpl. lia.
  - reflexivity.
  - lia.
  - reflexivity.
  - reflexivity.
  - reflexivity.
  - exists s'. auto.
Defined.

(** ** Malformed Reset *)

Section MalformedReset.
Context `{platform : Platform}.

Lemma reset_expected_size_exact (msg : ResetMessage.t) :
  0 <= sizeof_msg ControlMessage.Reset ->
  sizeof_msg ControlMessage.Reset + 2 ^ 32 <= 2 ^ size_t_bits ->
  0 <= ResetMessage.state_data_size msg < 2 ^ 32 ->
  reset_expected_size msg
  = sizeof_msg ControlMessage.Reset + ResetMessage.state_data_size msg.
Proof.
  intros Hsz Hfit Hsds. unfold reset_expected_size, Int.to_unsigned.
  apply Z.mod_small. lia.
Qed.

(** Where the packet holds the [state_data_size] it announces and
    [size_t] has room for the sum, a Reset from the host that is shorter
    than it says is rejected: nothing is loaded, the session goes to
    ClosingSession with an error reported to the user, and the Machine,
    the roster and the cookie stay as they were. *)
Lemma truncated_snapshot_closes_session
    (s : Session) (closing : list ENetEvent) (pkt : ENetPacket) (msg : ResetMessage.t) :
  0 <= sizeof_msg ControlMessage.Reset ->
  sizeof_msg ControlMessage.Reset + 2 ^ 32 <= 2 ^ size_t_bits ->
  0 <= ResetMessage.state_data_size msg < 2 ^ 32 ->
  ResetMessage_state_data_size_end <= dataLength pkt ->
  dataLength pkt < sizeof_msg ControlMessage.Reset
  \/ dataLength pkt - sizeof_msg ControlMessage.Reset < ResetMessage.state_data_size msg ->
  let s' := closed_with_error "Invalid synchronization request" s in
  HandleResetMessage (s_host_player_id s) pkt msg s = (Returned tt, s')
  /\ (payload pkt = ResetP msg -> sizeof_ControlMessageHeader <= dataLength pkt ->
      HandleControlMessage closing (s_host_player_id s) pkt s = (Returned tt, s'))
  /\ s_state s' = ClosingSession
  /\ system s' = system s
  /\ s_peers s' = s_peers s
  /\ s_num_players s' = s_num_players s
  /\ s_reset_cookie s' = s_reset_cookie s
  /\ s_reset_players s' = s_reset_players s
  /\ trace s' = (trace s ++ [Host_ReportErrorAsync "Netplay Error"
                               "Invalid synchronization request"])%list.
Proof.
  intros Hsz Hfit Hsds Hfield Hshort s'.
  assert (Hrun : HandleResetMessage (s_host_player_id s) pkt msg s = (Returned tt, s')).
  { unfold HandleResetMessage, bind, gets, id. rewrite Z.eqb_refl. cbn [negb].
    rewrite reset_expected_size_exact by assumption.
    assert (Hc : (dataLength pkt <? sizeof_msg ControlMessage.Reset)
                 || (dataLength pkt <? sizeof_msg ControlMessage.Reset
                                       + ResetMessage.state_data_size msg) = true).
    { apply orb_true_iff. destruct Hshort as [H|H]; [left|right]; apply Z.ltb_lt; lia. }
    rewrite Hc.
    destruct (Z.ltb_spec (dataLength pkt) ResetMessage_state_data_size_end); [lia|].
    reflexivity. }
  split; [exact Hrun|]. split.
  - intros Hpayload Hhdr. unfold HandleControlMessage.
    destruct (Z.ltb_spec (dataLength pkt) sizeof_ControlMessageHeader); [lia|].
    rewrite Hpayload. exact Hrun.
  - repeat split.
Qed.

(** A Reset shorter than the fixed body whose [state_data_size] lies
    beyond the end of the packet: the handler reads the field to word its
    error, whatever the memory after the packet holds. *)
Lemma HandleResetMessage_reads_beyond_packet
    (s : Session) (pkt : ENetPacket) (msg : ResetMessage.t) :
  dataLength pkt < sizeof_msg ControlMessage.Reset ->
  dataLength pkt < ResetMessage_state_data_size_end ->
  HandleResetMessage (s_host_player_id s) pkt msg s
  = (Aborted (ReadBeyondPacket ResetMessage_state_data_size_end), s).
Proof.
  intros Hshort Hfield.
  unfold HandleResetMessage, bind, gets, id. rewrite Z.eqb_refl. cbn [negb].
  destruct (Z.ltb_spec (dataLength pkt) (sizeof_msg ControlMessage.Reset)); [|lia].
  cbn [orb].
  destruct (Z.ltb_spec (dataLength pkt) ResetMessage_state_data_size_end); [|lia].
  reflexivity.
Qed.

End MalformedReset.

Lemma truncated_snapshot_closes_session_example :
  let s' := snd (@HandleResetMessage (wire_platform 2 true) 0 truncated_reset
                   {| ResetMessage.cookie := 2; ResetMessage.state_data_size := 1000;
                      ResetMessage.num_players := 2; ResetMessage.players := two_entries |}
                   joiner_of_two) in
  s_state s' = ClosingSession /\ system s' = Some snapshot.
Proof.
  destruct (@truncated_snapshot_closes_session (wire_platform 2 true) joiner_of_two []
              truncated_reset
              {| ResetMessage.cookie := 2; ResetMessage.state_data_size := 1000;
                 ResetMessage.num_players := 2; ResetMessage.players := two_entries |})
    as (Hrun & _ & Hstate & Hsys & _).
  - vm_compute. discriminate.
  - vm_compute. discriminate.
  - cbn. lia.
  - vm_compute. discriminate.
  - right. vm_compute. reflexivity.
  - cbv zeta. change (s_host_player_id joiner_of_two) with 0 in Hrun.
    rewrite Hrun. cbn [snd]. split; [exact Hstate|exact Hsys].
Qed.

(** C6: fails on the code.  A joiner that is Running receives from the
    host a Reset of header only, a packet shorter than the fixed Reset
    body.  The size test finds it too short, and the error line is then
    worded from [msg->state_data_size], which lies beyond the end of the
    packet: whatever [msg] that memory holds, the handler reads beyond the
    packet, and no error is reported and the session is not closed. *)
Theorem header_only_reset_reads_beyond_packet :
  forall msg : ResetMessage.t,
    let r := @HandleEnetEvent (wire_platform 2 true) []
               (ENET_EVENT_TYPE_RECEIVE peer_A ENET_CHANNEL_CONTROL (header_only_reset msg))
               joiner_of_two in
    fst r = Aborted (ReadBeyondPacket 12)
    /\ s_state (snd r) = Running
    /\ trace (snd r) = [].
Proof. intros msg. vm_compute. repeat split. Qed.

(** With a [size_t] of 32 bits the sum [sizeof(ResetMessage) +
    msg->state_data_size] wraps: a Reset of the fixed body alone that
    announces [2^32 - 1] bytes of snapshot passes the size test, and the
    joiner loads what follows the body and awaits the resume. *)
Lemma wrapped_reset_size_is_loaded :
  let r := @HandleEnetEvent (narrow_platform (wire_platform 2 true)) []
             (ENET_EVENT_TYPE_RECEIVE peer_A ENET_CHANNEL_CONTROL wrapped_reset)
             (narrow_session joiner_of_two) in
  @reset_expected_size (narrow_platform (wire_platform 2 true))
    {| ResetMessage.cookie := 2; ResetMessage.state_data_size := 2 ^ 32 - 1;
       ResetMessage.num_players := 2; ResetMessage.players := two_entries |}
  = wire_sizeof 2 ControlMessage.Reset - 1
  /\ fst r = Returned tt
  /\ s_state (snd r) = Resetting
  /\ system (snd r) = Some [].
Proof. lazy. repeat split. Qed.

(** ** ResetComplete with a stale cookie *)

Section StaleCookie.
Context `{platform : Platform}.

Lemma bitset_test_state (b : list bool) (pos : Z) (s : Session) :
  snd (bitset_test b pos s) = s.
Proof.
  unfold bitset_test. destruct (in_range pos); [|reflexivity].
  destruct (b !! Z.to_nat pos); reflexivity.
Qed.

Lemma CheckReceivedPacket_state {T} ty player_id pkt (view : T) (s : Session) :
  (dataLength pkt <? sizeof_msg ty) || (hdr_size pkt <? sizeof_msg ty) = false ->
  CheckReceivedPacket ty player_id pkt view s = (Returned (Some view), s).
Proof.
  intros H. apply orb_false_iff in H as [H1 H2].
  unfold CheckReceivedPacket. rewrite H1, H2. reflexivity.
Qed.

Lemma CheckReceivedPacket_short {T} ty player_id pkt (view : T) (s : Session) :
  (dataLength pkt <? sizeof_msg ty) || (hdr_size pkt <? sizeof_msg ty) = true ->
  exists text, CheckReceivedPacket ty player_id pkt view s
               = (Returned None, record (Log Error text) s).
Proof.
  intros H. unfold CheckReceivedPacket.
  destruct (dataLength pkt <? sizeof_msg ty).
  - eexists. reflexivity.
  - simpl in H. rewrite H. eexists. reflexivity.
Qed.

(** C4 (amended): a ResetComplete whose cookie is not the current reset
    cookie is logged and discarded.  It drops nobody and starts no Reset:
    state, roster, player count, cookie and [reset_players] are what they
    were, and the only call it makes is one error log.  In particular it
    never sets the sender's bit. *)
Theorem stale_reset_complete_discarded
    (s : Session) (player_id : Z) (pkt : ENetPacket) (view : ResetCompleteMessage.t) :
  ResetCompleteMessage.cookie view <> s_reset_cookie s ->
  in_range player_id = true ->
  well_formed s ->
  exists text,
    HandleResetCompleteMessage player_id pkt view s
    = (Returned tt, record (Log Error text) s)
    /\ s_reset_players (record (Log Error text) s) = s_reset_players s
    /\ s_peers (record (Log Error text) s) = s_peers s
    /\ s_num_players (record (Log Error text) s) = s_num_players s
    /\ s_reset_cookie (record (Log Error text) s) = s_reset_cookie s
    /\ s_state (record (Log Error text) s) = s_state s
    /\ trace (record (Log Error text) s) = (trace s ++ [Log Error text])%list
    /\ ((dataLength pkt <? sizeof_msg ControlMessage.ResetComplete)
        || (hdr_size pkt <? sizeof_msg ControlMessage.ResetComplete) = false ->
        s_state s = Resetting -> player_id <> s_host_player_id s ->
        reset_bit s (Z.to_nat player_id) = false ->
        text = "Incorrect reset cookie sent").
Proof.
  intros Hcookie Hrange [_ Hbits].
  assert (Hne : (s_reset_cookie s =? ResetCompleteMessage.cookie view) = false).
  { apply Z.eqb_neq. congruence. }
  destruct (in_range_bounds _ Hrange) as [Hpos Hlt].
  destruct (lookup_lt_is_Some_2 (s_reset_players s) (Z.to_nat player_id) ltac:(lia))
    as [b Hb].
  unfold HandleResetCompleteMessage.
  destruct ((dataLength pkt <? sizeof_msg ControlMessage.ResetComplete)
            || (hdr_size pkt <? sizeof_msg ControlMessage.ResetComplete)) eqn:Hshort.
  - destruct (CheckReceivedPacket_short ControlMessage.ResetComplete player_id pkt view s
                Hshort) as [text Hc].
    exists text. unfold bind at 1. rewrite Hc. repeat split. discriminate.
  - unfold bind at 1. rewrite (CheckReceivedPacket_state _ _ _ _ _ Hshort).
    unfold bind at 1, gets, id.
    destruct (negb (state_is (s_state s) Resetting)
              || (player_id =? s_host_player_id s)) eqn:Hexp.
    + eexists. split; [reflexivity|]. repeat split. intros _ Hst Hhost _.
      rewrite Hst in Hexp. apply Z.eqb_neq in Hhost. rewrite Hhost in Hexp. discriminate.
    + unfold bind at 1, bitset_test. rewrite Hrange, Hb. unfold ret at 1.
      destruct b.
      * eexists. split; [reflexivity|]. repeat split. intros _ _ _ Hbit.
        unfold reset_bit in Hbit. rewrite Hb in Hbit. discriminate.
      * rewrite Hne. cbn [negb]. eexists. split; [reflexivity|]. repeat split.
Qed.

End StaleCookie.

(** C4, as stated, fails: the host of two that waits for player 1 keeps
    the player, its count and its cookie, and sends nothing, when player 1
    answers reset 1 with cookie 7. *)
Lemma stale_reset_complete_drops_nobody :
  let r := @HandleEnetEvent (wire_platform 2 true) []
             (ENET_EVENT_TYPE_RECEIVE peer_B ENET_CHANNEL_CONTROL (reset_complete 7))
             host_of_two_resetting in
  fst r = Returned tt
  /\ has_peer (snd r) 1 = true
  /\ s_num_players (snd r) = 2
  /\ s_reset_cookie (snd r) = 1
  /\ s_state (snd r) = Resetting
  /\ trace (snd r) = [Log Error "Incorrect reset cookie sent"].
Proof. vm_compute. repeat split. Qed.

Lemma stale_reset_complete_discarded_witness :
  @HandleResetCompleteMessage (wire_platform 2 true) 1 (reset_complete 7)
    {| ResetCompleteMessage.cookie := 7 |} host_of_two_resetting
  = (Returned tt, record (Log Error "Incorrect reset cookie sent") host_of_two_resetting).
Proof.
  destruct (@stale_reset_complete_discarded (wire_platform 2 true) host_of_two_resetting 1
              (reset_complete 7) {| ResetCompleteMessage.cookie := 7 |})
    as (text & Hrun & _ & _ & _ & _ & _ & _ & Htext).
  - cbn. discriminate.
  - reflexivity.
  - split; reflexivity.
  - rewrite Hrun. rewrite Htext; [reflexivity|reflexivity|reflexivity|discriminate|reflexivity].
Defined.

(** ** DropPlayer notices, connect requests and short packets *)

Section DropNotice.
Context `{platform : Platform}.

(** [HandleDropPlayerMessage] never reads the [player_id] of the message. *)
Lemma drop_notice_player_id_unused (s : Session) (sender : Z) (pkt : ENetPacket)
    (reason : DropPlayerReason) (id1 id2 : Z) :
  HandleDropPlayerMessage sender pkt
    {| DropPlayerMessage.reason := reason; DropPlayerMessage.player_id := id1 |} s
  = HandleDropPlayerMessage sender pkt
      {| DropPlayerMessage.reason := reason; DropPlayerMessage.player_id := id2 |} s.
Proof.
  unfold HandleDropPlayerMessage, CheckReceivedPacket, bind.
  destruct (dataLength pkt <? sizeof_msg ControlMessage.DropPlayer); [reflexivity|].
  destruct (hdr_size pkt <? sizeof_msg ControlMessage.DropPlayer); reflexivity.
Qed.

(** A notice from the host that passes the length checks runs into the
    assertion of [DropPlayer], which excludes the host. *)
Lemma drop_notice_from_host_aborts (s : Session) (pkt : ENetPacket)
    (view : DropPlayerMessage.t) :
  (dataLength pkt <? sizeof_msg ControlMessage.DropPlayer)
  || (hdr_size pkt <? sizeof_msg ControlMessage.DropPlayer) = false ->
  exists what,
    HandleDropPlayerMessage (s_host_player_id s) pkt view s
    = (Aborted (AssertionFailed what), s).
Proof.
  intros Hlong. unfold HandleDropPlayerMessage. unfold bind at 1.
  rewrite (CheckReceivedPacket_state _ _ _ _ _ Hlong).
  unfold bind at 1, gets, id. rewrite Z.eqb_refl. cbn [negb].
  unfold DropPlayer, bind at 1, gets, id. rewrite Z.eqb_refl. cbn [negb].
  rewrite andb_false_r. cbn [andb]. unfold bind at 1, Assert, abort.
  eexists. reflexivity.
Qed.

End DropNotice.

(** C1: player 1 of three receives from the host the notice that player 2
    was dropped.  The handler passes the sender's id, 0, to [DropPlayer],
    whose assertion stops the process; slot 2 is still occupied, the count
    is still 3 and the state is still Running. *)
Theorem drop_notice_does_not_drop_named_player :
  let r := @HandleEnetEvent (wire_platform 3 true) []
             (ENET_EVENT_TYPE_RECEIVE peer_A ENET_CHANNEL_CONTROL (drop_player_notice 2))
             joiner_of_three in
  fst r = Aborted (AssertionFailed
            "IsValidPlayerId(player_id) && s_host_player_id != player_id && s_player_id != player_id")
  /\ has_peer (snd r) 2 = true
  /\ s_num_players (snd r) = 3
  /\ s_state (snd r) = Running.
Proof. vm_compute. repeat split. Qed.

(** C2: the host of a session of at most two receives a connect request
    for slot 5.  It answers Success with player id 5 and then writes
    [s_peers[5]], outside the array. *)
Theorem connect_request_beyond_table :
  let r := @HandleEnetEvent (wire_platform 2 true) []
             (ENET_EVENT_TYPE_RECEIVE peer_B ENET_CHANNEL_CONTROL (connect_request 5))
             host_alone in
  fst r = Aborted (IndexOutOfBounds 5)
  /\ In (enet_peer_send peer_B
           (@connect_response (wire_platform 2 true) ConnectResponseMessage.Success 5))
        (trace (snd r)).
Proof. vm_compute. split; [reflexivity|]. right. right. left. reflexivity. Qed.

(** C3: a joiner that is Connecting receives a ConnectResponse of four
    bytes.  [CheckReceivedPacket] logs it and returns null, and the handler
    reads [msg->result] through the null pointer. *)
Theorem short_connect_response_null_dereference :
  let r := @HandleEnetEvent (wire_platform 2 true) []
             (ENET_EVENT_TYPE_RECEIVE peer_A ENET_CHANNEL_CONTROL
                header_only_connect_response)
             joiner_connecting in
  fst r = Aborted NullDereference
  /\ trace (snd r) = [Log Error "Received too-short control packet"].
Proof. vm_compute. split; reflexivity. Qed.

(** ** The session: partial-correctness rules *)

Section PartialRules.
Context `{platform : Platform}.

Lemma wlp_ret {A} (a : A) (Q : A -> Session -> Prop) (s : Session) :
  Q a s -> wlp (ret a) Q s.
Proof. intros H. exact H. Qed.

Lemma wlp_bind {A B} (m : M A) (k : A -> M B) (Q : B -> Session -> Prop) (s : Session) :
  wlp m (fun a s' => wlp (k a) Q s') s -> wlp (bind m k) Q s.
Proof.
  unfold wlp, bind. destruct (m s) as [[a|f] s']; [|intros _; exact I].
  intros H. exact H.
Qed.

Lemma wlp_gets {A} (f : Session -> A) (Q : A -> Session -> Prop) (s : Session) :
  Q (f s) s -> wlp (gets f) Q s.
Proof. intros H. exact H. Qed.

Lemma wlp_modify (f : Session -> Session) (Q : unit -> Session -> Prop) (s : Session) :
  Q tt (f s) -> wlp (modify f) Q s.
Proof. intros H. exact H. Qed.

Lemma wlp_call (e : Effect) (Q : unit -> Session -> Prop) (s : Session) :
  Q tt (record e s) -> wlp (call e) Q s.
Proof. intros H. exact H. Qed.

Lemma wlp_abort {A} (f : Fault) (Q : A -> Session -> Prop) (s : Session) :
  wlp (abort f) Q s.
Proof. exact I. Qed.

Lemma wlp_Assert (c : bool) (what : string) (Q : unit -> Session -> Prop) (s : Session) :
  (c = true -> Q tt s) -> wlp (Assert c what) Q s.
Proof. destruct c; intros H; [apply H; reflexivity|exact I]. Qed.

Lemma wlp_deref {A} (p : option A) (Q : A -> Session -> Prop) (s : Session) :
  (forall a, p = Some a -> Q a s) -> wlp (deref p) Q s.
Proof. destruct p as [a|]; intros H; [apply H; reflexivity|exact I]. Qed.

Lemma wlp_mono {A} (m : M A) (Q Q' : A -> Session -> Prop) (s : Session) :
  (forall a s', Q a s' -> Q' a s') -> wlp m Q s -> wlp m Q' s.
Proof.
  unfold wlp. intros HQ. destruct (m s) as [[a|f] s']; [apply HQ|intros _; exact I].
Qed.

Lemma wlp_bind_inv {A B} (m : M A) (k : A -> M B) (Q : B -> Session -> Prop)
    (s : Session) :
  wlp (bind m k) Q s -> wlp m (fun a s' => wlp (k a) Q s') s.
Proof. unfold wlp, bind. destruct (m s) as [[a|f] s']; auto. Qed.

Lemma wlp_and {A} (m : M A) (Q1 Q2 : A -> Session -> Prop) (s : Session) :
  wlp m Q1 s -> wlp m Q2 s -> wlp m (fun a s' => Q1 a s' /\ Q2 a s') s.
Proof. unfold wlp. destruct (m s) as [[a|f] s']; auto. Qed.

Lemma wp_wlp {A} (m : M A) (Q : A -> Session -> Prop) (s : Session) :
  wp m Q s -> wlp m Q s.
Proof. unfold wp, wlp. destruct (m s) as [[a|f] s']; [auto|intros []]. Qed.

Lemma wlp_run {A} (m : M A) (Q : A -> Session -> Prop) (s : Session) a s' :
  wlp m Q s -> m s = (Returned a, s') -> Q a s'.
Proof. unfold wlp. intros H E. rewrite E in H. exact H. Qed.

Lemma wlp_for {A} (l : list A) (body : A -> M unit) (J : Session -> Prop) (s : Session) :
  (forall x s, x ∈ l -> J s -> wlp (body x) (fun _ => J) s) ->
  J s -> wlp (for_ l body) (fun _ => J) s.
Proof.
  revert s. induction l as [|x l IH]; intros s Hbody HJ.
  - exact HJ.
  - simpl. apply wlp_bind. eapply wlp_mono; [|apply Hbody; [left|exact HJ]].
    intros u s' HJ'. apply IH; [|exact HJ'].
    intros y s'' Hy. apply Hbody. right. exact Hy.
Qed.

Lemma wlp_peers_at (i : Z) (Q : Peer -> Session -> Prop) (s : Session) :
  (forall p, in_range i = true -> s_peers s !! Z.to_nat i = Some p -> Q p s) ->
  wlp (peers_at i) Q s.
Proof.
  intros HQ. unfold peers_at. apply wlp_bind, wlp_gets. unfold id.
  destruct (in_range i); [|apply wlp_abort].
  destruct (s_peers s !! Z.to_nat i) as [p|]; [|apply wlp_abort].
  apply wlp_ret. apply HQ; reflexivity.
Qed.

Lemma wlp_peers_update (i : Z) (f : Peer -> Peer) (Q : unit -> Session -> Prop)
    (s : Session) :
  (forall p, in_range i = true -> s_peers s !! Z.to_nat i = Some p ->
             Q tt (set_peers (<[Z.to_nat i := f p]> (s_peers s)) s)) ->
  wlp (peers_update i f) Q s.
Proof.
  intros HQ. unfold peers_update. apply wlp_bind, wlp_peers_at.
  intros p Hi Hp. apply wlp_modify. apply HQ; assumption.
Qed.

Lemma wlp_bitset_test (b : list bool) (pos : Z) (Q : bool -> Session -> Prop)
    (s : Session) :
  (forall x, in_range pos = true -> b !! Z.to_nat pos = Some x -> Q x s) ->
  wlp (bitset_test b pos) Q s.
Proof.
  intros HQ. unfold bitset_test.
  destruct (in_range pos); [|apply wlp_abort].
  destruct (b !! Z.to_nat pos) as [x|]; [|apply wlp_abort].
  apply wlp_ret. apply HQ; reflexivity.
Qed.

Lemma wlp_reset_players_set (pos : Z) (Q : unit -> Session -> Prop) (s : Session) :
  (in_range pos = true ->
   Q tt (set_reset_players (<[Z.to_nat pos := true]> (s_reset_players s)) s)) ->
  wlp (reset_players_set pos) Q s.
Proof.
  intros HQ. unfold reset_players_set.
  destruct (in_range pos); [|apply wlp_abort].
  apply wlp_modify. apply HQ. reflexivity.
Qed.

End PartialRules.

Ltac wlp_prim :=
  lazymatch goal with
  | |- wlp (gets _) _ _ => apply wlp_gets
  | |- wlp (modify _) _ _ => apply wlp_modify
  | |- wlp (call _) _ _ => apply wlp_call
  | |- wlp (ret _) _ _ => apply wlp_ret
  | |- wlp (abort _) _ _ => apply wlp_abort
  end;
  unfold id; cbv beta.

Ltac wlp_next :=
  lazymatch goal with
  | |- wlp (bind (gets _) _) _ _ => apply wlp_bind; wlp_prim
  | |- wlp (bind (modify _) _) _ _ => apply wlp_bind; wlp_prim
  | |- wlp (bind (call _) _) _ _ => apply wlp_bind; wlp_prim
  | |- wlp (bind (ret _) _) _ _ => apply wlp_bind; wlp_prim
  | |- wlp (bind (Assert _ _) _) _ _ => apply wlp_bind; apply wlp_Assert; intros ?
  | |- wlp (bind (deref _) _) _ _ => apply wlp_bind; apply wlp_deref; intros ? ?
  | |- wlp (bind (peers_at _) _) _ _ => apply wlp_bind; apply wlp_peers_at; intros ? ? ?
  | |- wlp (bind (peers_update _ _) _) _ _ =>
      apply wlp_bind; apply wlp_peers_update; intros ? ? ?
  | |- wlp (bind (bitset_test _ _) _) _ _ =>
      apply wlp_bind; apply wlp_bitset_test; intros ? ? ?
  | |- wlp (bind (reset_players_set _) _) _ _ =>
      apply wlp_bind; apply wlp_reset_players_set; intros ?
  | |- wlp (gets _) _ _ => wlp_prim
  | |- wlp (modify _) _ _ => wlp_prim
  | |- wlp (call _) _ _ => wlp_prim
  | |- wlp (ret _) _ _ => wlp_prim
  | |- wlp (abort _) _ _ => wlp_prim
  | |- wlp (Assert _ _) _ _ => apply wlp_Assert; intros ?
  | |- wlp (deref _) _ _ => apply wlp_deref; intros ? ?
  | |- wlp (peers_at _) _ _ => apply wlp_peers_at; intros ? ? ?
  | |- wlp (peers_update _ _) _ _ => apply wlp_peers_update; intros ? ? ?
  | |- wlp (bitset_test _ _) _ _ => apply wlp_bitset_test; intros ? ? ?
  | |- wlp (reset_players_set _) _ _ => apply wlp_reset_players_set; intros ?
  end.

Ltac wlp_seq := repeat wlp_next.

(** ** The roster invariant: frame facts *)

Section Bounded.
(** Whether the connections that a joiner accepts keep its roster within
    [num_players] (see [valid_event_in]). *)
Variable bounded : bool.

Section RosterFacts.
Context `{platform : Platform}.

Lemma slot_peer_fmap (s : Session) (i : nat) :
  slot_peer s i = match (peer <$> s_peers s) !! i with Some o => o | None => None end.
Proof.
  unfold slot_peer. rewrite list_lookup_fmap. destruct (s_peers s !! i); reflexivity.
Qed.

Lemma roster_eq_inv (s s' : Session) :
  roster s' = roster s ->
  s_state s' = s_state s
  /\ (forall i, slot_peer s' i = slot_peer s i)
  /\ s_host_player_id s' = s_host_player_id s
  /\ s_player_id s' = s_player_id s
  /\ s_num_players s' = s_num_players s
  /\ s_reset_players s' = s_reset_players s
  /\ length (s_peers s') = length (s_peers s).
Proof.
  unfold roster. intros H. inversion H as [[Hst Hp Hh Hid Hn Hb]].
  repeat split; try assumption.
  - intros i. rewrite !slot_peer_fmap, Hp. reflexivity.
  - rewrite <- (length_fmap peer (s_peers s')), Hp. apply length_fmap.
Qed.

Lemma same_roster_roster (s s' : Session) : same_roster s s' -> roster s' = roster s.
Proof.
  unfold same_roster, roster. intros (Hst&_&Hp&_&Hh&Hid&Hn&_&Hb&_).
  rewrite Hst, Hp, Hh, Hid, Hn, Hb. reflexivity.
Qed.

Lemma has_peer_ext (s s' : Session) :
  (forall i, slot_peer s' i = slot_peer s i) -> forall i, has_peer s' i = has_peer s i.
Proof. intros H i. unfold has_peer. rewrite H. reflexivity. Qed.

Lemma occupied_ext (s s' : Session) :
  (forall i, slot_peer s' i = slot_peer s i) -> s_player_id s' = s_player_id s ->
  forall i, occupied s' i = occupied s i.
Proof.
  intros Hp Hid i. unfold occupied, IsValidPlayerId.
  rewrite Hid, (has_peer_ext s s' Hp). reflexivity.
Qed.

Lemma count_if_ext (f g : nat -> bool) (l : list nat) :
  (forall i, i ∈ l -> f i = g i) -> count_if f l = count_if g l.
Proof.
  induction l as [|i l IH]; intros H; [reflexivity|]. simpl.
  rewrite (H i) by left. rewrite IH; [reflexivity|].
  intros j Hj. apply H. right. exact Hj.
Qed.

Lemma count_if_le (f g : nat -> bool) (l : list nat) :
  (forall i, i ∈ l -> f i = true -> g i = true) -> count_if f l <= count_if g l.
Proof.
  induction l as [|i l IH]; intros H; [reflexivity|]. simpl.
  assert (IH' : count_if f l <= count_if g l).
  { apply IH. intros j Hj. apply H. right. exact Hj. }
  specialize (H i ltac:(left)).
  destruct (f i), (g i); first [lia | specialize (H eq_refl); discriminate].
Qed.

Lemma count_if_nonneg (f : nat -> bool) (l : list nat) : 0 <= count_if f l.
Proof. induction l as [|i l IH]; simpl; [lia|]. destruct (f i); lia. Qed.

(** Counting set bits is counting the indices whose bit is set. *)
Lemma bitset_count_from (b : list bool) (k : nat) :
  bitset_count b
  = count_if (fun i => match b !! (i - k)%nat with Some x => x | None => false end)
             (seq k (length b)).
Proof.
  revert k. induction b as [|x b IH]; intros k; [reflexivity|].
  simpl. rewrite Nat.sub_diag. simpl. f_equal.
  rewrite (IH (S k)). apply count_if_ext. intros i Hi.
  apply elem_of_seq in Hi. replace (i - k)%nat with (S (i - S k)) by lia. reflexivity.
Qed.

Lemma reset_players_count_bits (s : Session) :
  well_formed s ->
  reset_players_count s = count_if (reset_bit s) (seq 0 MAX_PLAYERS).
Proof.
  intros [_ Hlen]. unfold reset_players_count. rewrite (bitset_count_from _ 0), Hlen.
  apply count_if_ext. intros i _. unfold reset_bit. rewrite Nat.sub_0_r. reflexivity.
Qed.

Lemma Inv_count (me : Z) (s : Session) :
  Inv bounded me s -> IsActive s = true ->
  reset_subset s
  /\ (bounded = true \/ me = 0 -> reset_players_count s <= s_num_players s).
Proof.
  intros (Hwf & _ & _ & _ & Hphase) Hact.
  destruct (Hphase Hact) as [(_ & _ & Hn & Hb & _)|(_ & _ & Hsub & Hcount)].
  - assert (Hbit : forall i, reset_bit s i = false).
    { intros i. unfold reset_bit. rewrite Hb. unfold bitset_none.
      destruct (replicate MAX_PLAYERS false !! i) as [x|] eqn:Hx; [|reflexivity].
      apply lookup_replicate in Hx as [-> _]. reflexivity. }
    split.
    + intros i Hi. rewrite Hbit in Hi. discriminate.
    + intros _. rewrite (reset_players_count_bits s Hwf), Hn.
      rewrite (count_if_ext _ (fun _ => false)) by (intros i _; apply Hbit).
      clear. induction (seq 0 MAX_PLAYERS) as [|i l IH]; simpl; lia.
  - split; [exact Hsub|]. intros Hb.
    rewrite (reset_players_count_bits s Hwf).
    etransitivity; [|exact (Hcount Hb)]. apply count_if_le. intros i _. apply Hsub.
Qed.

Lemma Inv_roster (me : Z) (s s' : Session) :
  roster s' = roster s -> Inv bounded me s -> Inv bounded me s'.
Proof.
  intros Hr (Hwf & Hh & Hme & Hzero & Hphase).
  destruct (roster_eq_inv s s' Hr) as (Hst & Hp & Hh' & Hid & Hn & Hb & Hlen).
  pose proof (has_peer_ext s s' Hp) as Hhp.
  pose proof (occupied_ext s s' Hp Hid) as Hocc.
  assert (Hbit : forall i, reset_bit s' i = reset_bit s i).
  { intros i. unfold reset_bit. rewrite Hb. reflexivity. }
  split; [|split; [|split; [|split]]].
  - destruct Hwf as [H1 H2]. split; congruence.
  - congruence.
  - exact Hme.
  - intros H. rewrite Hhp. apply Hzero. exact H.
  - unfold IsActive. rewrite Hst. intros Hact.
    destruct (Hphase Hact) as [(H1 & H2 & H3 & H4 & H6 & H5)|(H1 & H2 & H3 & H4)];
      [left|right].
    + split; [exact H1|]. split; [rewrite Hid; exact H2|].
      split; [congruence|]. split; [congruence|]. split; [rewrite Hst, Hid; exact H6|].
      intros Hbd i Hi. apply (H5 Hbd). rewrite <- Hhp. exact Hi.
    + split; [rewrite Hst; exact H1|]. split; [congruence|]. split.
      * intros i Hi. rewrite Hocc. apply H3. rewrite <- Hbit. exact Hi.
      * intros Hbd. unfold occupied_count.
        rewrite (count_if_ext _ (occupied s)) by (intros; apply Hocc).
        rewrite Hn. exact (H4 Hbd).
Qed.

Lemma Inv_inactive (me : Z) (s : Session) :
  well_formed s -> s_host_player_id s = 0 -> in_range me = true ->
  (me = 0 -> has_peer s 0 = false) ->
  IsActive s = false -> Inv bounded me s.
Proof.
  intros Hwf Hh Hme Hz Hin. repeat split; try assumption; try apply Hwf.
  intros Hact. congruence.
Qed.

End RosterFacts.

(** ** Calls that leave the roster alone *)

Section Neutral.
Context `{platform : Platform}.

Lemma wlp_neutral {A} (m : M A) (Q : A -> Session -> Prop) (s : Session) :
  neutral m -> (forall a s', roster s' = roster s -> Q a s') -> wlp m Q s.
Proof. intros Hn HQ. eapply wlp_mono; [|apply Hn]. exact HQ. Qed.

Lemma neutral_bind {A B} (m : M A) (k : A -> M B) :
  neutral m -> (forall a, neutral (k a)) -> neutral (bind m k).
Proof.
  intros Hm Hk s. apply wlp_bind. apply wlp_neutral; [exact Hm|].
  intros a s' Hs'. apply wlp_neutral; [apply Hk|].
  intros b s'' Hs''. congruence.
Qed.

Lemma neutral_ret {A} (a : A) : neutral (ret a).
Proof. intros s. reflexivity. Qed.

Lemma neutral_gets {A} (f : Session -> A) : neutral (gets f).
Proof. intros s. reflexivity. Qed.

Lemma neutral_call (e : Effect) : neutral (call e).
Proof. intros s. reflexivity. Qed.

Lemma neutral_abort {A} (f : Fault) : neutral (@abort _ A f).
Proof. intros s. exact I. Qed.

Lemma neutral_Assert (c : bool) (what : string) : neutral (Assert c what).
Proof. intros s. destruct c; [reflexivity|exact I]. Qed.

Lemma neutral_deref {A} (p : option A) : neutral (deref p).
Proof. intros s. destruct p; [reflexivity|exact I]. Qed.

Lemma neutral_if {A} (c : bool) (m1 m2 : M A) :
  neutral m1 -> neutral m2 -> neutral (if c then m1 else m2).
Proof. destruct c; auto. Qed.

Lemma neutral_for {A} (l : list A) (body : A -> M unit) :
  (forall x, neutral (body x)) -> neutral (for_ l body).
Proof.
  intros Hbody s. apply (wlp_for l body (fun s' => roster s' = roster s)); [|reflexivity].
  intros x s' _ Hs'. apply wlp_neutral; [apply Hbody|].
  intros u s'' Hs''. congruence.
Qed.

Lemma neutral_peers_at (i : Z) : neutral (peers_at i).
Proof. intros s. apply wlp_peers_at. reflexivity. Qed.

Lemma roster_set_peers_same (s : Session) (i : nat) (p q : Peer) :
  s_peers s !! i = Some p -> peer q = peer p ->
  roster (set_peers (<[i := q]> (s_peers s)) s) = roster s.
Proof.
  intros Hp Hq. unfold roster. cbn [s_state s_peers s_host_player_id s_player_id
    s_num_players s_reset_players set_peers].
  rewrite list_fmap_insert, Hq, list_insert_id; [reflexivity|].
  rewrite list_lookup_fmap, Hp. reflexivity.
Qed.

Lemma neutral_peers_update (i : Z) (f : Peer -> Peer) :
  (forall p, peer (f p) = peer p) -> neutral (peers_update i f).
Proof.
  intros Hf s. apply wlp_peers_update. intros p _ Hp.
  apply roster_set_peers_same with (p := p); [exact Hp|apply Hf].
Qed.

Lemma neutral_bitset_test (b : list bool) (pos : Z) : neutral (bitset_test b pos).
Proof. intros s. apply wlp_bitset_test. reflexivity. Qed.

Lemma neutral_CheckReceivedPacket {T} ty player_id pkt (view : T) :
  neutral (CheckReceivedPacket ty player_id pkt view).
Proof.
  unfold CheckReceivedPacket.
  repeat first [apply neutral_if | apply neutral_bind; [|intros ?]
               | apply neutral_call | apply neutral_ret].
Qed.

Lemma neutral_SendControlPacket (to : ENetPeer) (pkt : ENetPacket) :
  neutral (SendControlPacket to pkt).
Proof. apply neutral_call. Qed.

Lemma neutral_SendControlPacketToPlayer (player_id : Z) (pkt : ENetPacket) :
  neutral (SendControlPacketToPlayer player_id pkt).
Proof.
  unfold SendControlPacketToPlayer.
  apply neutral_bind; [apply neutral_peers_at|intros p].
  apply neutral_bind; [apply neutral_deref|intros to].
  apply neutral_SendControlPacket.
Qed.

Lemma neutral_send_copies (pkt : ENetPacket) (slots : list nat) (destroyed : bool) :
  neutral (send_copies pkt destroyed slots).
Proof.
  revert destroyed. induction slots as [|i slots IH]; intros destroyed.
  - apply neutral_ret.
  - cbn [send_copies].
    apply neutral_bind; [apply neutral_gets|intros s].
    destruct (slot_peer s i) as [to|]; [|apply IH].
    destruct destroyed; [apply neutral_abort|].
    apply neutral_bind; [apply neutral_call|intros _].
    apply neutral_if; [apply IH|].
    apply neutral_bind; [apply neutral_call|intros _]. apply IH.
Qed.

Lemma neutral_SendControlPacketToAll (pkt : ENetPacket) :
  neutral (SendControlPacketToAll pkt).
Proof. apply neutral_send_copies. Qed.

Lemma neutral_send_to_each (pkt : ENetPacket) : neutral (send_to_each pkt).
Proof.
  unfold send_to_each, for_each_player. apply neutral_for. intros i.
  apply neutral_bind; [apply neutral_gets|intros s].
  destruct (slot_peer s i); [apply neutral_call|apply neutral_ret].
Qed.

Lemma neutral_modify (f : Session -> Session) :
  (forall s, roster (f s) = roster s) -> neutral (modify f).
Proof. intros Hf s. apply Hf. Qed.

Lemma neutral_add_ggpo_player (i : nat) (n : Z) : neutral (add_ggpo_player i n).
Proof.
  unfold add_ggpo_player.
  apply neutral_bind; [apply neutral_gets|intros s].
  apply neutral_bind; [apply neutral_peers_update; reflexivity|intros _].
  apply neutral_bind; [apply neutral_modify; reflexivity|intros _].
  apply neutral_if; [apply neutral_modify; reflexivity|apply neutral_ret].
Qed.

Lemma neutral_add_ggpo_players (l : list nat) (n : Z) : neutral (add_ggpo_players l n).
Proof.
  revert n. induction l as [|i l IH]; intros n; [apply neutral_ret|].
  simpl. apply neutral_bind; [apply neutral_gets|intros s].
  apply neutral_if; [apply IH|].
  apply neutral_bind; [apply neutral_add_ggpo_player|intros _]. apply IH.
Qed.

Lemma neutral_CreateGGPOSession : neutral CreateGGPOSession.
Proof.
  unfold CreateGGPOSession.
  apply neutral_bind; [apply neutral_gets|intros s].
  apply neutral_bind; [apply neutral_call|intros _].
  apply neutral_bind; [apply neutral_modify; reflexivity|intros _].
  apply neutral_bind; [apply neutral_add_ggpo_players|intros _].
  apply neutral_bind; [apply neutral_gets|intros s'].
  apply neutral_bind; [apply neutral_call|intros _]. apply neutral_call.
Qed.

Lemma neutral_DestroyGGPOSession : neutral DestroyGGPOSession.
Proof.
  intros s. apply wp_wlp. eapply wp_mono; [|apply wp_DestroyGGPOSession].
  intros u s' [Hs' _]. apply same_roster_roster. exact Hs'.
Qed.

Lemma neutral_NotifyPlayerJoined (player_id : Z) : neutral (NotifyPlayerJoined player_id).
Proof.
  unfold NotifyPlayerJoined.
  apply neutral_bind; [apply neutral_gets|intros s].
  apply neutral_bind; [|intros _; apply neutral_call].
  apply neutral_if; [apply neutral_SendControlPacketToAll|apply neutral_ret].
Qed.

Lemma neutral_RequestReset reason (causing_player_id : Z) :
  neutral (RequestReset reason causing_player_id).
Proof.
  unfold RequestReset.
  apply neutral_bind; [apply neutral_gets|intros s].
  apply neutral_bind; [apply neutral_Assert|intros _].
  apply neutral_bind; [apply neutral_call|intros _].
  apply neutral_SendControlPacketToPlayer.
Qed.

Lemma neutral_SendConnectRequest : neutral SendConnectRequest.
Proof.
  unfold SendConnectRequest.
  apply neutral_bind; [apply neutral_gets|intros s].
  apply neutral_bind; [apply neutral_call|intros _].
  apply neutral_SendControlPacketToPlayer.
Qed.

Lemma neutral_HandlePlayerJoinedMessage player_id pkt view :
  neutral (HandlePlayerJoinedMessage player_id pkt view).
Proof.
  unfold HandlePlayerJoinedMessage.
  apply neutral_bind; [apply neutral_CheckReceivedPacket|intros msg].
  apply neutral_bind; [apply neutral_gets|intros s].
  destruct msg; [|apply neutral_ret].
  apply neutral_if; [apply neutral_ret|apply neutral_NotifyPlayerJoined].
Qed.

Lemma neutral_HandleChatMessage player_id pkt :
  neutral (HandleChatMessage player_id pkt).
Proof.
  unfold HandleChatMessage.
  apply neutral_bind; [apply neutral_CheckReceivedPacket|intros msg].
  destruct msg; [|apply neutral_ret].
  apply neutral_bind; [apply neutral_gets|intros s].
  destruct (trailing pkt); [apply neutral_ret|apply neutral_call].
Qed.

End Neutral.

(** ** Counting occupied slots *)

Section Counting.
Context `{platform : Platform}.

Lemma count_if_same (f g : nat -> bool) (l : list nat) (i : nat) :
  i ∉ l -> (forall j, j <> i -> g j = f j) -> count_if g l = count_if f l.
Proof.
  intros Hi Hother. apply count_if_ext. intros j Hj. apply Hother.
  intros ->. contradiction.
Qed.

Lemma count_if_flip (f g : nat -> bool) (l : list nat) (i : nat) :
  NoDup l -> i ∈ l -> f i = false -> g i = true ->
  (forall j, j <> i -> g j = f j) ->
  count_if g l = count_if f l + 1.
Proof.
  intros Hnd Hi Hf Hg Hother. induction Hnd as [|j l Hj Hnd IH]; [inversion Hi|].
  simpl. apply elem_of_cons in Hi as [<-|Hi].
  - rewrite Hf, Hg, (count_if_same f g l i Hj Hother). lia.
  - rewrite IH by exact Hi. rewrite Hother; [lia|].
    intros ->. contradiction.
Qed.

Lemma slot_peer_insert (s : Session) (i j : nat) (q : Peer) :
  (i < length (s_peers s))%nat ->
  slot_peer (set_peers (<[i := q]> (s_peers s)) s) j
  = if Nat.eqb j i then peer q else slot_peer s j.
Proof.
  intros Hi. unfold slot_peer. cbn [s_peers set_peers].
  destruct (Nat.eqb_spec j i) as [->|Hne].
  - rewrite list_lookup_insert_eq by exact Hi. reflexivity.
  - rewrite list_lookup_insert_ne by congruence. reflexivity.
Qed.

Lemma first_index_found (test : nat -> bool) (l : list nat) :
  0 <= first_index test l ->
  exists i, first_index test l = Z.of_nat i /\ i ∈ l /\ test i = true.
Proof.
  induction l as [|i l IH]; simpl; [lia|].
  destruct (test i) eqn:Hi.
  - intros _. exists i. split; [reflexivity|]. split; [left|exact Hi].
  - intros H. destruct (IH H) as (j & Hj & Hin & Ht).
    exists j. split; [exact Hj|]. split; [right; exact Hin|exact Ht].
Qed.

Lemma first_index_range (test : nat -> bool) (l : list nat) :
  first_index test l = -1 \/ 0 <= first_index test l.
Proof.
  induction l as [|i l IH]; simpl; [left; reflexivity|].
  destruct (test i); [right; lia|exact IH].
Qed.

(** The sender that [HandleEnetEvent] finds for a packet holds a slot. *)
Lemma GetPlayerIdForPeer_known (s : Session) (p : ENetPeer) :
  0 <= GetPlayerIdForPeer s p ->
  in_range (GetPlayerIdForPeer s p) = true
  /\ has_peer s (Z.to_nat (GetPlayerIdForPeer s p)) = true.
Proof.
  intros H. unfold GetPlayerIdForPeer in *.
  destruct (first_index_found _ _ H) as (i & -> & Hi & Ht).
  apply elem_of_seq in Hi. split.
  - apply in_range_of_nat. lia.
  - rewrite Nat2Z.id. unfold has_peer. destruct (slot_peer s i); [reflexivity|discriminate].
Qed.

Lemma GetFreePlayerId_free (s : Session) :
  0 <= GetFreePlayerId s ->
  in_range (GetFreePlayerId s) = true
  /\ IsValidPlayerId s (GetFreePlayerId s) = false.
Proof.
  intros H. unfold GetFreePlayerId in *.
  destruct (first_index_found _ _ H) as (i & -> & Hi & Ht).
  apply elem_of_seq in Hi. apply andb_true_iff in Ht as [Hself Hfree].
  split; [apply in_range_of_nat; lia|].
  unfold IsValidPlayerId. rewrite Nat2Z.id.
  apply negb_true_iff in Hself, Hfree. rewrite Hfree, andb_false_r, orb_false_r.
  rewrite Z.eqb_sym. exact Hself.
Qed.

Lemma bitset_count_none : bitset_count bitset_none = 0.
Proof. unfold bitset_none. induction MAX_PLAYERS as [|n IH]; simpl; [reflexivity|exact IH]. Qed.

Lemma reset_bit_none (s : Session) (i : nat) :
  s_reset_players s = bitset_none -> reset_bit s i = false.
Proof.
  intros Hb. unfold reset_bit. rewrite Hb. unfold bitset_none.
  destruct (replicate MAX_PLAYERS false !! i) as [x|] eqn:Hx; [|reflexivity].
  apply lookup_replicate in Hx as [-> _]. reflexivity.
Qed.

Lemma reset_bit_set (s : Session) (bits : list bool) (i j : nat) :
  reset_bit (set_reset_players (<[i := true]> bits) s) j = true ->
  j = i \/ (match bits !! j with Some b => b | None => false end) = true.
Proof.
  unfold reset_bit. cbn [s_reset_players set_reset_players].
  destruct (Nat.eq_dec j i) as [->|Hne]; [left; reflexivity|].
  rewrite list_lookup_insert_ne by congruence. right. assumption.
Qed.

End Counting.

(** ** Closing keeps the invariant *)

Section Closing.
Context `{platform : Platform}.

Lemma Inv_Base (me : Z) (s : Session) : Inv bounded me s -> Base me s.
Proof. intros (H1 & H2 & H3 & H4 & _). repeat split; try assumption; apply H1. Qed.

Lemma Base_inactive (me : Z) (s : Session) :
  Base me s -> IsActive s = false -> Inv bounded me s.
Proof. intros (H1 & H2 & H3 & H4) Hin. apply Inv_inactive; assumption. Qed.

Lemma Base_roster (me : Z) (s s' : Session) :
  roster s' = roster s -> Base me s -> Base me s'.
Proof.
  intros Hr (Hwf & Hh & Hme & Hz).
  destruct (roster_eq_inv s s' Hr) as (_ & Hp & Hh' & _ & _ & Hb & Hlen).
  repeat split.
  - destruct Hwf as [H1 _]. congruence.
  - destruct Hwf as [_ H2]. congruence.
  - congruence.
  - exact Hme.
  - intros H. rewrite (has_peer_ext s s' Hp). apply Hz. exact H.
Qed.

Lemma Base_frame (me : Z) (s s' : Session) :
  peer <$> s_peers s' = peer <$> s_peers s ->
  s_host_player_id s' = s_host_player_id s ->
  length (s_reset_players s') = length (s_reset_players s) ->
  Base me s -> Base me s'.
Proof.
  intros Hp Hh Hb ((Hlen & Hbits) & Hh0 & Hme & Hz). repeat split.
  - rewrite <- Hlen, <- (length_fmap peer (s_peers s')), Hp. apply length_fmap.
  - congruence.
  - congruence.
  - exact Hme.
  - intros H. unfold has_peer. rewrite slot_peer_fmap, Hp, <- slot_peer_fmap.
    apply Hz. exact H.
Qed.

(** Emptying a slot keeps [Base]. *)
Lemma Base_clear_slot (me : Z) (s : Session) (i : nat) (q : Peer) :
  peer q = None -> Base me s -> Base me (set_peers (<[i := q]> (s_peers s)) s).
Proof.
  intros Hq ((Hlen & Hbits) & Hh & Hme & Hz). repeat split; cbn [s_peers s_reset_players
    s_host_player_id set_peers]; try assumption.
  - rewrite length_insert. exact Hlen.
  - intros H. unfold has_peer.
    destruct (Nat.lt_ge_cases i (length (s_peers s))) as [Hi|Hi].
    + rewrite slot_peer_insert by exact Hi. destruct (Nat.eqb 0 i).
      * rewrite Hq. reflexivity.
      * apply Hz. exact H.
    + rewrite list_insert_ge by exact Hi.
      replace (set_peers (s_peers s) s) with s by (destruct s; reflexivity).
      apply Hz. exact H.
Qed.

Lemma IsActive_ClosingSession (s : Session) :
  s_state s = ClosingSession -> IsActive s = false.
Proof. intros H. unfold IsActive. rewrite H. reflexivity. Qed.

Lemma wlp_CloseSessionWithError (me : Z) (message : string) (s : Session) :
  Base me s -> wlp (CloseSessionWithError message) (fun _ => Inv bounded me) s.
Proof.
  intros Hb. unfold CloseSessionWithError. wlp_seq.
  apply Base_inactive; [|reflexivity].
  apply (Base_frame me s); [reflexivity..|exact Hb].
Qed.

Lemma wlp_drain_event (me : Z) (ev : ENetEvent) (s : Session) :
  Base me s /\ IsActive s = false ->
  wlp (drain_event ev) (fun _ s' => Base me s' /\ IsActive s' = false) s.
Proof.
  intros [Hb Hin]. unfold drain_event. apply wlp_bind.
  assert (Hrest : forall s', Base me s' /\ IsActive s' = false ->
            wlp (bind (gets id) (fun s0 =>
                   if forallb (fun i => negb (has_peer s0 i)) (seq 0 MAX_PLAYERS)
                   then ret true
                   else bind (call (Host_DisplayLoadingScreen "Closing session"))
                             (fun _ => bind (call Host_PumpMessagesOnCPUThread)
                                            (fun _ => ret false))))
                (fun _ s'' => Base me s'' /\ IsActive s'' = false) s').
  { intros s' [Hb' Hin']. wlp_seq.
    destruct (forallb _ _); wlp_seq; (split; [|exact Hin']).
    - exact Hb'.
    - apply (Base_roster me s'); [reflexivity|exact Hb']. }
  destruct ev as [p d|p|p c pkt|]; wlp_seq; try (apply Hrest; split; assumption).
  destruct (0 <=? GetPlayerIdForPeer s p); wlp_seq; apply Hrest; split;
    try assumption.
  apply Base_clear_slot; [reflexivity|exact Hb].
Qed.

Lemma wlp_drain_events (me : Z) (evs : list ENetEvent) (s : Session) :
  Base me s /\ IsActive s = false ->
  wlp (drain_events evs) (fun _ s' => Base me s' /\ IsActive s' = false) s.
Proof.
  revert s. induction evs as [|ev evs IH]; intros s H; [exact H|].
  simpl. apply wlp_bind. eapply wlp_mono; [|apply wlp_drain_event; exact H].
  intros finished s' H'. cbv beta in H'. destruct finished; [exact H'|apply IH; exact H'].
Qed.

Lemma wlp_RequestCloseSession (me : Z) closing reason (s : Session) :
  Base me s -> wlp (RequestCloseSession closing reason) (fun _ => Inv bounded me) s.
Proof.
  intros Hb. unfold RequestCloseSession. wlp_seq.
  apply wlp_bind. apply wlp_neutral.
  { apply neutral_if; [apply neutral_SendControlPacketToAll|apply neutral_ret]. }
  intros _ s1 H1. apply wlp_bind. apply wlp_neutral; [apply neutral_DestroyGGPOSession|].
  intros _ s2 H2. apply wlp_bind. apply wlp_neutral.
  { unfold for_each_player. apply neutral_for. intros i.
    apply neutral_bind; [apply neutral_gets|intros s0].
    destruct (slot_peer s0 i); [|apply neutral_ret].
    apply neutral_if; apply neutral_call. }
  intros _ s3 H3. wlp_seq.
  assert (Hb3 : Base me (record (Timer_Reset reset_start_time) (set_state ClosingSession s3))).
  { apply (Base_frame me s3); [reflexivity..|].
    apply (Base_roster me s); [congruence|]. exact Hb. }
  cbn [system record set_state].
  destruct (system s3).
  - apply wlp_bind. apply wlp_deref. intros h _.
    eapply wlp_mono; [|apply (wlp_drain_events me); split; [exact Hb3|reflexivity]].
    intros u s4 [Hb4 Hin4]. apply Base_inactive; assumption.
  - wlp_seq. apply Base_inactive; [exact Hb3|reflexivity].
Qed.

Lemma wlp_ShutdownEnetHost (me : Z) (s : Session) :
  Base me s ->
  wlp ShutdownEnetHost (fun _ s' => Base me s' /\ s_state s' = s_state s) s.
Proof.
  intros Hb. unfold ShutdownEnetHost. wlp_seq.
  destruct (s_enet_host s); [|wlp_seq; split; [exact Hb|reflexivity]].
  wlp_seq. apply wlp_bind.
  eapply wlp_mono;
    [|apply (wlp_for _ _ (fun s' => Base me s' /\ s_state s' = s_state s))].
  - intros u s' [Hb' Hst']. cbv beta. wlp_seq. split; [|exact Hst'].
    apply (Base_roster me s'); [reflexivity|exact Hb'].
  - intros i s' _ [Hb' Hst']. wlp_seq. apply wlp_bind.
    apply wlp_neutral.
    { destruct (slot_peer s' i); [apply neutral_call|apply neutral_ret]. }
    intros _ s'' Hs''. wlp_seq. split.
    + apply Base_clear_slot; [reflexivity|].
      apply (Base_roster me s'); [exact Hs''|exact Hb'].
    + cbn [s_state set_peers].
      destruct (roster_eq_inv s' s'' Hs'') as (-> & _). exact Hst'.
  - split; [|reflexivity]. apply (Base_roster me s); [reflexivity|exact Hb].
Qed.

Lemma wlp_CloseSession (me : Z) (s : Session) :
  Base me s -> wlp CloseSession (fun _ => Inv bounded me) s.
Proof.
  intros Hb. unfold CloseSession. wlp_seq. apply wlp_bind.
  apply wlp_neutral; [apply neutral_DestroyGGPOSession|].
  intros _ s1 H1. apply wlp_bind.
  eapply wlp_mono; [|apply (wlp_ShutdownEnetHost me); apply (Base_roster me s); eassumption].
  intros _ s2 [Hb2 _]. cbv beta. wlp_seq.
  destruct (IsHost s); wlp_seq; (apply Base_inactive; [|reflexivity]).
  - apply (Base_frame me s2); [reflexivity..|exact Hb2].
  - apply (Base_frame me s2); [reflexivity..|exact Hb2].
Qed.

End Closing.

(** ** Reset, DropPlayer and joining keep the invariant *)

Section HostSide.
Context `{platform : Platform}.

Lemma Base_set_slot (me : Z) (s : Session) (i : nat) (q : Peer) :
  (me = 0 -> i <> 0%nat) -> Base me s ->
  Base me (set_peers (<[i := q]> (s_peers s)) s).
Proof.
  intros Hi ((Hlen & Hbits) & Hh & Hme & Hz). repeat split; cbn [s_peers s_reset_players
    s_host_player_id set_peers]; try assumption.
  - rewrite length_insert. exact Hlen.
  - intros H. unfold has_peer, slot_peer. cbn [s_peers set_peers].
    rewrite list_lookup_insert_ne by (apply Hi; exact H).
    apply Hz. exact H.
Qed.

Lemma occupied_self (s : Session) (i : nat) :
  Z.of_nat i = s_player_id s -> occupied s i = true.
Proof.
  intros H. unfold occupied, IsValidPlayerId. rewrite H, Z.eqb_refl. reflexivity.
Qed.

Lemma occupied_other (s : Session) (i : nat) :
  (i < MAX_PLAYERS)%nat -> Z.of_nat i <> s_player_id s ->
  occupied s i = has_peer s i.
Proof.
  intros Hi Hne. unfold occupied, IsValidPlayerId.
  rewrite in_range_of_nat by exact Hi. rewrite Nat2Z.id.
  destruct (Z.eqb_spec (s_player_id s) (Z.of_nat i)); [congruence|]. reflexivity.
Qed.

Lemma occupied_count_ext (s s' : Session) :
  (forall i, slot_peer s' i = slot_peer s i) -> s_player_id s' = s_player_id s ->
  occupied_count s' = occupied_count s.
Proof.
  intros Hp Hid. unfold occupied_count. apply count_if_ext. intros i _.
  apply occupied_ext; assumption.
Qed.

(** The state a Reset leaves, on the host and on a joiner alike. *)
Lemma Inv_fresh_reset (me : Z) (s : Session) :
  Base me s ->
  SessionState_rank (s_state s) <> SessionState_rank Connecting ->
  s_player_id s = me ->
  s_reset_players s = <[Z.to_nat me := true]> bitset_none ->
  (bounded = true \/ me = 0 -> occupied_count s <= s_num_players s) ->
  Inv bounded me s.
Proof.
  intros Hb Hst Hid Hbits Hcount.
  destruct Hb as (Hwf & Hh & Hme & Hz).
  split; [exact Hwf|]. split; [exact Hh|]. split; [exact Hme|]. split; [exact Hz|].
  intros _. right. split; [exact Hst|]. split; [exact Hid|]. split; [|exact Hcount].
  intros i Hi. unfold reset_bit in Hi. rewrite Hbits in Hi.
  destruct (Nat.eq_dec i (Z.to_nat me)) as [->|Hne].
  - apply occupied_self. rewrite Hid. apply in_range_bounds in Hme. lia.
  - rewrite list_lookup_insert_ne in Hi by congruence.
    unfold bitset_none in Hi.
    destruct (replicate MAX_PLAYERS false !! i) as [x|] eqn:Hx; [|discriminate].
    apply lookup_replicate in Hx as [-> _]. discriminate.
Qed.

Lemma neutral_reset_player_entry (s : Session) (i : nat) :
  neutral (reset_player_entry s i).
Proof.
  unfold reset_player_entry.
  apply neutral_if; [apply neutral_ret|].
  apply neutral_if.
  - apply neutral_bind; [apply neutral_deref|intros h]. apply neutral_ret.
  - apply neutral_bind; [apply neutral_deref|intros p]. apply neutral_ret.
Qed.

Lemma neutral_reset_player_entries (s : Session) (l : list nat) :
  neutral (reset_player_entries s l).
Proof.
  induction l as [|i l IH]; [apply neutral_ret|]. simpl.
  apply neutral_bind; [apply neutral_reset_player_entry|intros e].
  apply neutral_bind; [exact IH|intros es]. apply neutral_ret.
Qed.

Lemma length_bitset_none : length bitset_none = MAX_PLAYERS.
Proof. apply length_replicate. Qed.

Lemma wlp_Reset_resetting (me : Z) (s : Session) :
  Base me s -> s_player_id s = me ->
  (bounded = true \/ me = 0 -> occupied_count s <= s_num_players s) ->
  wlp Reset (fun _ s' => Inv bounded me s' /\ s_state s' = Resetting /\ s_player_id s' = me) s.
Proof.
  intros Hb Hid Hcount. unfold Reset. wlp_seq.
  destruct (system s ≫= System_SaveStateToStream) as [state|]; [|wlp_seq].
  wlp_seq. apply wlp_bind. apply wlp_neutral; [apply neutral_reset_player_entries|].
  intros entries s1 H1. apply wlp_bind.
  apply wlp_neutral; [apply neutral_DestroyGGPOSession|].
  intros _ s2 H2. apply wlp_bind.
  apply wlp_neutral; [apply neutral_send_to_each|].
  intros _ s3 H3.
  destruct (system s ≫= System_LoadStateFromStream state) as [m|]; [|wlp_seq].
  wlp_seq.
  assert (Hr : roster s3 = roster s) by (rewrite H3, H2, H1; reflexivity).
  destruct (roster_eq_inv s s3 Hr) as (_ & Hp & Hh & Hid3 & Hn3 & _ & _).
  cbn [s_player_id set_reset_players set_state set_system] in *. rewrite Hid3, Hid in *.
  split; [|split; [reflexivity|cbn; congruence]].
  apply Inv_fresh_reset.
  - apply (Base_frame me s);
      cbn [s_reset_players set_reset_players record set_state set_system s_peers
           s_host_player_id].
    + inversion Hr. reflexivity.
    + exact Hh.
    + rewrite length_insert, length_bitset_none. symmetry. apply Hb.
    + exact Hb.
  - cbn. discriminate.
  - cbn. congruence.
  - reflexivity.
  - intros Hbd.
    cbn [s_num_players record set_reset_players set_state set_system]. rewrite Hn3.
    etransitivity; [|exact (Hcount Hbd)]. apply Z.eq_le_incl.
    apply occupied_count_ext; [|cbn; congruence].
    intros i. cbn. apply Hp.
Qed.

Lemma wlp_Reset (me : Z) (s : Session) :
  Base me s -> s_player_id s = me ->
  (bounded = true \/ me = 0 -> occupied_count s <= s_num_players s) ->
  wlp Reset (fun _ => Inv bounded me) s.
Proof.
  intros Hb Hid Hcount. eapply wlp_mono; [|apply wlp_Reset_resetting; eassumption].
  intros u s' [H _]. exact H.
Qed.

Lemma wlp_Reset_not_host {A} (k : unit -> M A) (Q : A -> Session -> Prop) (s : Session) :
  IsHost s = false -> wlp (bind Reset k) Q s.
Proof.
  intros Hnot. unfold Reset. apply wlp_bind. wlp_seq. congruence.
Qed.

Lemma PreReset_not_host (me : Z) (s : Session) :
  s_host_player_id s = 0 -> PreReset bounded me s -> IsHost s = false.
Proof.
  intros Hh (Hme & Hid & _). unfold IsHost. rewrite Hh. apply Z.eqb_neq.
  destruct Hid; lia.
Qed.

(** An active host is in the synchronised phase and is player 0. *)
Lemma Inv_host (me : Z) (s : Session) :
  Inv bounded me s -> IsActive s = true -> IsHost s = true ->
  me = 0 /\ Synced bounded me s.
Proof.
  intros (_ & Hh & _ & _ & Hphase) Hact Hhost.
  destruct (Hphase Hact) as [Hpre|Hsync].
  - rewrite (PreReset_not_host me s Hh Hpre) in Hhost. discriminate.
  - split; [|exact Hsync]. destruct Hsync as (_ & Hid & _).
    unfold IsHost in Hhost. apply Z.eqb_eq in Hhost. congruence.
Qed.

Lemma occupied_count_clear (s : Session) (i : nat) (q : Peer) :
  well_formed s -> (i < MAX_PLAYERS)%nat -> Z.of_nat i <> s_player_id s ->
  has_peer s i = true -> peer q = None ->
  occupied_count s = occupied_count (set_peers (<[i := q]> (s_peers s)) s) + 1.
Proof.
  intros [Hlen _] Hi Hself Hhas Hq. unfold occupied_count.
  apply (count_if_flip _ _ _ i).
  - apply NoDup_seq.
  - apply elem_of_seq. lia.
  - rewrite occupied_other by (cbn; assumption).
    unfold has_peer. rewrite slot_peer_insert by lia. rewrite Nat.eqb_refl, Hq. reflexivity.
  - rewrite occupied_other by assumption. exact Hhas.
  - intros j Hj. unfold occupied, IsValidPlayerId, has_peer.
    cbn [s_player_id set_peers]. rewrite Nat2Z.id, slot_peer_insert by lia.
    destruct (Nat.eqb_spec j i); [contradiction|reflexivity].
Qed.

End HostSide.

Section Membership.
Context `{platform : Platform}.

Lemma occupied_count_set (s : Session) (i : nat) (q : Peer) :
  well_formed s -> (i < MAX_PLAYERS)%nat -> occupied s i = false ->
  peer q <> None ->
  occupied_count (set_peers (<[i := q]> (s_peers s)) s) = occupied_count s + 1.
Proof.
  intros [Hlen _] Hi Hfree Hq. unfold occupied_count.
  apply (count_if_flip _ _ _ i).
  - apply NoDup_seq.
  - apply elem_of_seq. lia.
  - exact Hfree.
  - unfold occupied, IsValidPlayerId, has_peer. cbn [s_player_id set_peers].
    rewrite in_range_of_nat by exact Hi. rewrite Nat2Z.id, slot_peer_insert by lia.
    rewrite Nat.eqb_refl. destruct (peer q); [|contradiction]. apply orb_true_r.
  - intros j Hj. unfold occupied, IsValidPlayerId, has_peer.
    cbn [s_player_id set_peers]. rewrite Nat2Z.id, slot_peer_insert by lia.
    destruct (Nat.eqb_spec j i); [contradiction|reflexivity].
Qed.

Lemma IsValidPlayerId_other (s : Session) (player_id : Z) :
  IsValidPlayerId s player_id = true -> s_player_id s <> player_id ->
  in_range player_id = true /\ has_peer s (Z.to_nat player_id) = true.
Proof.
  unfold IsValidPlayerId. intros H Hne.
  apply orb_true_iff in H as [H|H]; [apply Z.eqb_eq in H; contradiction|].
  apply andb_true_iff in H. exact H.
Qed.

Lemma wlp_DropPlayer_resetting (me : Z) (player_id : Z) (reason : DropPlayerReason)
    (s : Session) :
  Inv bounded me s -> IsActive s = true -> IsHost s = true ->
  wlp (DropPlayer player_id reason)
      (fun _ s' => Inv bounded me s' /\ s_state s' = Resetting /\ s_player_id s' = me) s.
Proof.
  intros HInv Hact Hhost.
  destruct (Inv_host me s HInv Hact Hhost) as [-> (_ & Hid & _ & Hcount)].
  pose proof (Inv_Base 0 s HInv) as Hb.
  unfold DropPlayer. wlp_next. wlp_next.
  match goal with H : _ && _ && _ = true |- _ =>
    apply andb_true_iff in H as [H Hself]; apply andb_true_iff in H as [Hvalid Hnothost] end.
  apply negb_true_iff, Z.eqb_neq in Hself.
  destruct (IsValidPlayerId_other s player_id Hvalid Hself) as [Hrange Hhas].
  destruct (in_range_bounds _ Hrange) as [Hpos Hlt].
  wlp_seq. cbn [s_peers record set_peers set_num_players s_num_players].
  set (i := Z.to_nat player_id) in *.
  change (IsHost _) with (IsHost s). rewrite Hhost. cbn [negb].
  apply wlp_bind. apply wlp_neutral; [apply neutral_SendControlPacketToAll|].
  intros _ s2 E2.
  destruct (roster_eq_inv _ _ E2) as (_ & Hp2 & _ & Hid2 & Hn2 & _ & _).
  cbn [s_player_id s_num_players record set_peers set_num_players] in Hid2, Hn2.
  apply wlp_Reset_resetting.
  - eapply Base_roster; [exact E2|].
    apply (Base_frame 0 (set_peers (<[i := empty_Peer]> (s_peers s)) s)); [reflexivity..|].
    apply Base_clear_slot; [reflexivity|exact Hb].
  - congruence.
  - rewrite Hn2.
    assert (Hc : occupied_count s2
                 = occupied_count (set_peers (<[i := empty_Peer]> (s_peers s)) s)).
    { apply occupied_count_ext; [|exact Hid2]. intros j. rewrite Hp2. reflexivity. }
    rewrite Hc.
    pose proof (occupied_count_clear s i empty_Peer ltac:(apply Hb) Hlt
                  ltac:(subst i; lia) Hhas eq_refl).
    lia.
Qed.

Lemma wlp_DropPlayer (me : Z) (player_id : Z) (reason : DropPlayerReason) (s : Session) :
  Inv bounded me s -> IsActive s = true -> IsHost s = true ->
  wlp (DropPlayer player_id reason) (fun _ => Inv bounded me) s.
Proof.
  intros HInv Hact Hhost.
  eapply wlp_mono; [|apply wlp_DropPlayer_resetting; eassumption].
  intros u s' [H _]. exact H.
Qed.

Lemma neutral_connect_reply (p : ENetPeer) (text : string) (pkt : ENetPacket) :
  neutral (bind (call (Log Error text)) (fun _ => SendControlPacket p pkt)).
Proof. apply neutral_bind; [apply neutral_call|intros _; apply neutral_call]. Qed.

Lemma wlp_HandleMessageFromNewPeer (me : Z) (p : ENetPeer) (pkt : ENetPacket)
    (s : Session) :
  Inv bounded me s -> IsActive s = true ->
  wlp (HandleMessageFromNewPeer p pkt) (fun _ => Inv bounded me) s.
Proof.
  intros HInv Hact. unfold HandleMessageFromNewPeer.
  assert (Hreject : forall s', roster s' = roster s ->
            wlp (bind (call (Log Warning "Received unknown packet from unknown player"))
                      (fun _ => call (enet_peer_reset p)))
                (fun _ => Inv bounded me) s').
  { intros s' Hs'. wlp_seq. apply (Inv_roster me s); [|exact HInv].
    rewrite <- Hs'. reflexivity. }
  assert (Hother : forall (T : Type) (view : T),
            wlp (bind (CheckReceivedPacket ControlMessage.ConnectRequest (-1) pkt view)
                      (fun _ => bind (call (Log Warning
                                  "Received unknown packet from unknown player"))
                                  (fun _ => call (enet_peer_reset p))))
                (fun _ => Inv bounded me) s).
  { intros T view. apply wlp_bind.
    apply wlp_neutral; [apply neutral_CheckReceivedPacket|].
    intros _ s' Hs'. apply Hreject. exact Hs'. }
  destruct (payload pkt) as [view| | | | | | | | | |]; try apply (Hother unit tt).
  apply wlp_bind. apply wlp_neutral; [apply neutral_CheckReceivedPacket|].
  intros [msg|] s1 E1; [|apply Hreject; exact E1].
  wlp_next. wlp_next.
  assert (HInv1 : Inv bounded me (record (Log Verbose "New host peer connection") s1)).
  { apply (Inv_roster me s); [|exact HInv]. rewrite <- E1. reflexivity. }
  assert (Hact1 : IsActive (record (Log Verbose "New host peer connection") s1) = true).
  { destruct (roster_eq_inv _ _ E1) as (Hst & _). unfold IsActive in *.
    cbn [s_state record]. rewrite Hst. exact Hact. }
  revert HInv1 Hact1.
  generalize (record (Log Verbose "New host peer connection") s1).
  clear s s1 E1 HInv Hact Hreject Hother. intros s HInv Hact.
  set (requested := ConnectRequestMessage.requested_player_id msg).
  destruct (ConnectRequestMessage.mode msg).
  2:{ apply wlp_neutral; [apply neutral_call|].
      intros _ s' Hs'. apply (Inv_roster me s); assumption. }
  destruct ((0 <=? requested) && IsValidPlayerId s requested) eqn:Hused.
  { apply wlp_neutral; [apply neutral_connect_reply|].
    intros _ s' Hs'. apply (Inv_roster me s); assumption. }
  set (new_player_id := if 0 <=? requested then requested else GetFreePlayerId s).
  destruct (new_player_id <? 0) eqn:Hfull.
  { apply wlp_neutral; [apply neutral_connect_reply|].
    intros _ s' Hs'. apply (Inv_roster me s); assumption. }
  apply Z.ltb_ge in Hfull.
  assert (Hfree : IsValidPlayerId s new_player_id = false).
  { unfold new_player_id in *. destruct (0 <=? requested) eqn:Hreq.
    - simpl in Hused. exact Hused.
    - apply (GetFreePlayerId_free s Hfull). }
  unfold SendControlPacket. wlp_next. wlp_next. wlp_next. wlp_next.
  match goal with Hr : in_range new_player_id = true |- _ => rename Hr into Hrange end.
  destruct (in_range_bounds _ Hrange) as [_ Hlt].
  set (i := Z.to_nat new_player_id) in *.
  cbn [s_peers record] in *.
  destruct (IsHost s) eqn:Hhost.
  2:{ apply wlp_bind. apply wlp_neutral; [apply neutral_peers_update; reflexivity|].
      intros _ s2 E2. wlp_next. apply wlp_Reset_not_host.
      destruct (roster_eq_inv _ _ E2) as (_ & _ & Hh2 & Hid2 & _).
      unfold IsHost in *. cbn [s_player_id s_host_player_id set_num_players].
      rewrite Hid2, Hh2. exact Hhost. }
  destruct (Inv_host me s HInv Hact Hhost) as [-> (_ & Hid & _ & Hcount)].
  pose proof (Inv_Base 0 s HInv) as Hb.
  assert (Hocc : occupied s i = false).
  { unfold occupied. subst i. rewrite Z2Nat.id by lia. exact Hfree. }
  assert (Hi0 : i <> 0%nat).
  { intros Hi. rewrite Hi in Hocc. rewrite occupied_self in Hocc; [discriminate|].
    rewrite Hid. reflexivity. }
  apply wlp_bind. apply wlp_neutral; [apply neutral_peers_update; reflexivity|].
  intros _ s2 E2. wlp_next.
  destruct (roster_eq_inv _ _ E2) as (_ & Hp2 & _ & Hid2 & Hn2 & _ & _).
  cbn [s_player_id s_num_players record set_peers] in Hid2, Hn2.
  match type of E2 with
  | roster s2 = roster (set_peers (<[i := ?x]> _) _) => set (q := x) in *
  end.
  apply wlp_bind. eapply wlp_mono; [|apply (wlp_Reset 0)].
  - intros u s3 HInv3. cbv beta in *. apply wlp_neutral; [apply neutral_NotifyPlayerJoined|].
    intros _ s4 Hs4. apply (Inv_roster 0 s3); assumption.
  - apply (Base_frame 0 s2); [reflexivity..|].
    eapply Base_roster; [exact E2|].
    apply (Base_frame 0 (set_peers (<[i := q]> (s_peers s)) s)); [reflexivity..|].
    apply Base_set_slot; [intros _; exact Hi0|exact Hb].
  - cbn. congruence.
  - cbn [s_num_players set_num_players]. rewrite Hn2.
    assert (Hc : occupied_count (set_num_players (s_num_players s + 1) s2)
                 = occupied_count (set_peers (<[i := q]> (s_peers s)) s)).
    { apply occupied_count_ext; [|cbn; exact Hid2]. intros j.
      change (slot_peer (set_num_players (s_num_players s + 1) s2) j)
        with (slot_peer s2 j).
      rewrite Hp2. reflexivity. }
    rewrite Hc, occupied_count_set; [lia|apply Hb|exact Hlt|exact Hocc|].
    subst q. cbn. discriminate.
Qed.

End Membership.

(** ** A Reset received keeps the invariant *)

Section JoinerSide.
Context `{platform : Platform}.

Lemma same_except_refl (i : nat) (s : Session) : same_except i s s.
Proof. unfold same_except. repeat split. Qed.

Lemma same_except_trans (i : nat) (s1 s2 s3 : Session) :
  same_except i s1 s2 -> same_except i s2 s3 -> same_except i s1 s3.
Proof.
  intros (Ha&?&?&?&?&?&?) (Hb&?&?&?&?&?&?). repeat split; try congruence.
  intros j Hj. rewrite Hb, Ha by exact Hj. reflexivity.
Qed.

Lemma same_except_roster (i : nat) (s s' : Session) :
  roster s' = roster s -> same_except i s s'.
Proof.
  intros Hr. destruct (roster_eq_inv s s' Hr) as (?&Hp&?&?&?&?&?).
  repeat split; try assumption. intros j _. apply Hp.
Qed.

Lemma local_neutral (i : nat) {A} (m : M A) : neutral m -> local_to i m.
Proof.
  intros Hn s. eapply wlp_mono; [|apply Hn].
  intros a s' Hs'. apply same_except_roster. exact Hs'.
Qed.

Lemma local_bind (i : nat) {A B} (m : M A) (k : A -> M B) :
  local_to i m -> (forall a, local_to i (k a)) -> local_to i (bind m k).
Proof.
  intros Hm Hk s. apply wlp_bind. eapply wlp_mono; [|apply Hm].
  intros a s' Hs'. cbv beta in Hs'. eapply wlp_mono; [|apply Hk].
  intros b s'' Hs''. cbv beta in Hs''. eapply same_except_trans; eassumption.
Qed.

Lemma local_if (i : nat) {A} (c : bool) (m1 m2 : M A) :
  local_to i m1 -> local_to i m2 -> local_to i (if c then m1 else m2).
Proof. destruct c; auto. Qed.

Lemma local_peers_update (i : nat) (f : Peer -> Peer) :
  local_to i (peers_update (Z.of_nat i) f).
Proof.
  intros s. apply wlp_peers_update. intros p _ Hp. rewrite Nat2Z.id in *.
  repeat split; cbn [s_peers set_peers].
  - intros j Hj. unfold slot_peer. cbn [s_peers set_peers].
    rewrite list_lookup_insert_ne by congruence. reflexivity.
  - apply length_insert.
Qed.

Lemma local_set_enet_host (i : nat) v : local_to i (modify (set_enet_host v)).
Proof. apply local_neutral. apply neutral_modify. reflexivity. Qed.

(** The part of [reset_check_connection] that dials or drops a stale
    connection. *)
Lemma local_reset_redial (msg : ResetMessage.t) (i : nat) (p : Peer)
    (entry : ResetMessage.PlayerEntry) (s0 : Session) :
  local_to i
    (bind (peers_update (Z.of_nat i) (with_nickname (ResetMessage.nickname entry)))
       (fun _ =>
          if Z.of_nat i =? s_host_player_id s0 then ret tt
          else
            if match peer p with
               | Some q => (addr_host (address q) =? ResetMessage.host entry)
                           && (addr_port (address q) =? ResetMessage.port entry)
               | None => false
               end
            then call (Log Dev "Preserving connection to player")
            else
              bind (Assert (negb (Z.of_nat i =? s_host_player_id s0))
                           "i != s_host_player_id")
                (fun _ =>
                   bind match peer p with
                        | Some q =>
                            bind (call (enet_peer_reset q))
                              (fun _ => peers_update (Z.of_nat i) (with_peer None))
                        | None => ret tt
                        end
                     (fun _ =>
                        if s_player_id s0 <? Z.of_nat i then
                          call (Log Dev
                            "Not connecting to player, as they have a higher ID than us")
                        else
                          bind (deref (s_enet_host s0))
                            (fun h =>
                               match enet_host_connect h
                                       {| addr_host := ResetMessage.host entry;
                                          addr_port := ResetMessage.port entry |}
                                       (Int.u32 (s_player_id s0)) with
                               | Some (q, h') =>
                                   bind (modify (set_enet_host (Some h')))
                                     (fun _ =>
                                        peers_update (Z.of_nat i) (with_peer (Some q)))
                               | None =>
                                   bind (peers_update (Z.of_nat i) (with_peer None))
                                     (fun _ => abort (Panic
                                        "Failed to connect to peer on resynchronize"))
                               end))))).
Proof.
  apply local_bind; [apply local_peers_update|intros _].
  apply local_if; [apply local_neutral, neutral_ret|].
  apply local_if; [apply local_neutral, neutral_call|].
  apply local_bind; [apply local_neutral, neutral_Assert|intros _].
  apply local_bind.
  { destruct (peer p); [|apply local_neutral, neutral_ret].
    apply local_bind; [apply local_neutral, neutral_call|intros _].
    apply local_peers_update. }
  intros _. apply local_if; [apply local_neutral, neutral_call|].
  apply local_bind; [apply local_neutral, neutral_deref|intros h].
  destruct (enet_host_connect _ _ _) as [[q h']|].
  - apply local_bind; [apply local_set_enet_host|intros _]. apply local_peers_update.
  - apply local_bind; [apply local_peers_update|intros _].
    apply local_neutral, neutral_abort.
Qed.

Lemma Base_same_except (me : Z) (i : nat) (s s' : Session) :
  same_except i s s' -> (me = 0 -> i <> 0%nat) -> Base me s -> Base me s'.
Proof.
  intros (Hp & Hlen & Hh & _ & _ & Hb & _) Hi ((Hl & Hbits) & Hh0 & Hme & Hz).
  repeat split; try congruence.
  intros H. unfold has_peer. rewrite Hp by (apply not_eq_sym, Hi; exact H).
  apply Hz. exact H.
Qed.

Lemma wlp_reset_check_connection (me id0 n0 : Z) (msg : ResetMessage.t) (i : nat)
    (s : Session) :
  (me = 0 -> id0 = 0) ->
  reset_loop_inv me id0 n0 s ->
  wlp (reset_check_connection msg i)
      (fun _ s' => reset_loop_inv me id0 n0 s'
                   /\ slot_in_roster msg i s'
                   /\ forall j, j <> i -> has_peer s' j = has_peer s j) s.
Proof.
  intros Hme0 (Hb & Hid & Hn). unfold reset_check_connection.
  wlp_next. rename H into Hrange. rename H0 into Hp. rewrite Nat2Z.id in Hp.
  apply wlp_bind.
  destruct (ResetMessage.players msg !! i) as [entry|] eqn:Hentry; [|wlp_prim].
  wlp_prim. wlp_next.
  assert (Hpresent : entry_present msg i = (0 <=? ResetMessage.controller_port entry)).
  { unfold entry_present. rewrite Hentry. reflexivity. }
  assert (Hslot : has_peer s i = match peer p with Some _ => true | None => false end).
  { unfold has_peer, slot_peer. rewrite Hp. reflexivity. }
  destruct (Z.ltb_spec (ResetMessage.controller_port entry) 0) as [Hneg|Hpos].
  - destruct (peer p) as [q|] eqn:Hq.
    + wlp_seq. cbn [s_peers record]. rewrite Nat2Z.id. split; [|split].
      * split; [|split; [exact Hid|exact Hn]].
        eapply (Base_frame me (set_peers _ s)); [reflexivity..|].
        apply Base_clear_slot; [reflexivity|exact Hb].
      * unfold slot_in_roster, has_peer. intros Hx. exfalso. revert Hx.
        change (slot_peer (set_peers ?l ?r) i)
          with (slot_peer (set_peers l s) i).
        rewrite slot_peer_insert by (apply lookup_lt_Some in Hp; exact Hp).
        rewrite Nat.eqb_refl. discriminate.
      * intros j Hj. unfold has_peer.
        change (slot_peer (set_peers ?l ?r) j)
          with (slot_peer (set_peers l s) j).
        rewrite slot_peer_insert by (apply lookup_lt_Some in Hp; exact Hp).
        destruct (Nat.eqb_spec j i); [contradiction|reflexivity].
    + wlp_prim. split; [|split].
      * split; [exact Hb|split; assumption].
      * unfold slot_in_roster. rewrite Hslot. discriminate.
      * reflexivity.
  - assert (Hin : entry_present msg i = true).
    { rewrite Hpresent. apply Z.leb_le. exact Hpos. }
    destruct (Z.eqb_spec (Z.of_nat i) (s_player_id s)) as [Hself|Hself].
    + wlp_prim. split; [|split].
      * split; [exact Hb|split; assumption].
      * intros _. exact Hin.
      * reflexivity.
    + eapply wlp_mono; [|apply (local_reset_redial msg i p entry s)].
      intros u s' Hloc. cbv beta in Hloc. split; [|split].
      * destruct Hloc as (Hp' & Hlen' & Hh' & Hid' & Hn' & Hb' & Hst').
        split; [|split; congruence].
        apply (Base_same_except me i s); [repeat split; assumption| |exact Hb].
        intros Hz Hi. apply Hself. rewrite Hid, (Hme0 Hz), Hi. reflexivity.
      * intros _. exact Hin.
      * intros j Hj. unfold has_peer. destruct Hloc as (Hp' & _).
        rewrite Hp' by exact Hj. reflexivity.
Qed.

(** A loop whose body settles slot [i] and leaves the other slots alone
    settles every slot it visits. *)
Lemma wlp_for_slots (body : nat -> M unit) (J : Session -> Prop)
    (P : nat -> Session -> Prop) (l : list nat) :
  (forall i s, J s ->
     wlp (body i) (fun _ s' => J s' /\ P i s' /\ forall j, j <> i -> P j s -> P j s') s) ->
  forall (D : nat -> Prop) s, J s -> (forall i, D i -> P i s) ->
    wlp (for_ l body) (fun _ s' => J s' /\ forall i, D i \/ i ∈ l -> P i s') s.
Proof.
  intros Hbody. induction l as [|x l IH]; intros D s HJ HD.
  - split; [exact HJ|]. intros i [Hi|Hi]; [apply HD; exact Hi|inversion Hi].
  - simpl. apply wlp_bind. eapply wlp_mono; [|apply Hbody; exact HJ].
    intros u s1 (HJ1 & Hx & Hkeep). cbv beta.
    eapply wlp_mono; [|apply (IH (fun i => D i \/ i = x) s1 HJ1)].
    + intros u' s2 (HJ2 & HP). split; [exact HJ2|].
      intros i [Hi|Hi]; apply HP.
      * left. left. exact Hi.
      * apply elem_of_cons in Hi as [->|Hi]; [left; right; reflexivity|right; exact Hi].
    + intros i [Hi| ->]; [|exact Hx].
      destruct (Nat.eq_dec i x) as [->|Hne]; [exact Hx|].
      apply Hkeep; [exact Hne|apply HD; exact Hi].
Qed.

Lemma wlp_HandleResetMessage (me : Z) (player_id : Z) (pkt : ENetPacket)
    (msg : ResetMessage.t) (s : Session) :
  Inv bounded me s -> IsActive s = true ->
  entry_present msg (Z.to_nat me) = true ->
  count_if (entry_present msg) (seq 0 MAX_PLAYERS) <= ResetMessage.num_players msg ->
  wlp (HandleResetMessage player_id pkt msg) (fun _ => Inv bounded me) s.
Proof.
  intros HInv Hact Hself Hcount. pose proof (Inv_Base me s HInv) as Hb.
  unfold HandleResetMessage. wlp_next.
  destruct (negb (player_id =? s_host_player_id s)).
  { wlp_prim. apply (Inv_roster me s); [reflexivity|exact HInv]. }
  destruct ((dataLength pkt <? sizeof_msg ControlMessage.Reset)
            || (dataLength pkt <? reset_expected_size msg)).
  { destruct (dataLength pkt <? ResetMessage_state_data_size_end); [exact I|].
    apply wlp_CloseSessionWithError. exact Hb. }
  apply wlp_bind. apply wlp_neutral; [apply neutral_DestroyGGPOSession|].
  intros _ s1 E1. wlp_next. wlp_next. wlp_next.
  destruct (roster_eq_inv _ _ E1) as (_ & _ & _ & Hid1 & _ & _ & _).
  assert (Hme0 : me = 0 -> s_player_id s = 0).
  { intros Hz. destruct HInv as (_ & Hh & _ & _ & Hphase).
    destruct (Hphase Hact) as [(Hne & _)|(_ & Hid & _)]; congruence. }
  apply wlp_bind. unfold for_each_player.
  eapply wlp_mono;
    [|apply (wlp_for_slots (reset_check_connection msg)
               (reset_loop_inv me (s_player_id s) (ResetMessage.num_players msg))
               (slot_in_roster msg) (seq 0 MAX_PLAYERS))
             with (D := fun _ => False)].
  - intros u s2 ((Hb2 & Hid2 & Hn2) & Hslots). cbv beta.
    wlp_next. wlp_next. cbn [system record].
    destruct (system s2 ≫= System_LoadStateFromStream _) as [m|]; [|wlp_prim].
    wlp_seq. cbn [s_player_id record] in *.
    assert (Hidme : s_player_id s = me).
    { destruct HInv as (_ & _ & _ & _ & Hphase).
      destruct (Hphase Hact) as [(_ & [Hid| Hid] & _)|(_ & Hid & _)]; try exact Hid.
      exfalso. match goal with Hr : in_range _ = true |- _ =>
        rewrite ?Hid2, Hid in Hr; unfold in_range in Hr; simpl in Hr; discriminate end. }
    rewrite Hidme in *.
    apply Inv_fresh_reset.
    + apply (Base_frame me s2);
        cbn [s_reset_players set_reset_players record set_state set_system s_peers
             s_host_player_id set_reset_cookie].
      * reflexivity.
      * reflexivity.
      * rewrite length_insert, length_bitset_none. symmetry. apply Hb2.
      * exact Hb2.
    + cbn. discriminate.
    + cbn. exact Hid2.
    + cbn [s_reset_players set_reset_players record]. rewrite Hid2. reflexivity.
    + cbn [s_num_players set_reset_players record set_state set_system set_reset_cookie].
      rewrite Hn2. etransitivity; [|exact Hcount].
      apply count_if_le. intros i Hi Hocc. apply elem_of_seq in Hi.
      destruct (Z.eq_dec (Z.of_nat i) me) as [Hi0|Hi0].
      * rewrite <- Hi0, Nat2Z.id in Hself. exact Hself.
      * apply (Hslots i); [right; apply elem_of_seq; lia|].
        rewrite occupied_other in Hocc; [|lia|cbn; lia].
        exact Hocc.
  - intros i s' HJ. eapply wlp_mono; [|apply wlp_reset_check_connection; eassumption].
    intros u s'' (HJ' & Hi & Hother). split; [exact HJ'|]. split; [exact Hi|].
    intros j Hj Hpj. unfold slot_in_roster in *. rewrite Hother by exact Hj. exact Hpj.
  - split; [|split; [|reflexivity]].
    + apply (Base_frame me s1); [reflexivity..|].
      apply (Base_roster me s); [exact E1|exact Hb].
    + cbn. exact Hid1.
  - intros i [].
Qed.

End JoinerSide.

(** ** The control messages keep the invariant *)

Section Handlers.
Context `{platform : Platform}.

Lemma IsActive_roster (s s' : Session) :
  roster s' = roster s -> IsActive s' = IsActive s.
Proof.
  intros Hr. destruct (roster_eq_inv s s' Hr) as (Hst & _).
  unfold IsActive. rewrite Hst. reflexivity.
Qed.

Lemma wlp_Reset_unless_host (Q : unit -> Session -> Prop) (s : Session) :
  IsHost s = false -> wlp Reset Q s.
Proof. intros Hnot. unfold Reset. wlp_next. wlp_next. congruence. Qed.

Lemma Inv_set_state (me : Z) (st : SessionState) (s : Session) :
  Inv bounded me s -> IsActive s = true ->
  SessionState_rank st <> SessionState_rank Connecting ->
  SessionState_rank st <> SessionState_rank Resetting ->
  Inv bounded me (set_state st s).
Proof.
  intros (Hwf & Hh & Hme & Hz & Hphase) Hact Hst Hst'.
  split; [exact Hwf|]. split; [exact Hh|]. split; [exact Hme|]. split; [exact Hz|].
  intros _. destruct (Hphase Hact) as [(H1 & H2 & H3 & H4 & _ & H5)|(_ & Hsync)].
  - left. repeat (split; [assumption|]). split; [|exact H5].
    intros Hr. contradiction.
  - right. split; [exact Hst|exact Hsync].
Qed.

Lemma wlp_HandleResetCompleteMessage (me : Z) (player_id : Z) (pkt : ENetPacket)
    (view : ResetCompleteMessage.t) (s : Session) :
  Inv bounded me s -> IsActive s = true ->
  in_range player_id = true -> has_peer s (Z.to_nat player_id) = true ->
  wlp (HandleResetCompleteMessage player_id pkt view) (fun _ => Inv bounded me) s.
Proof.
  intros HInv Hact Hrange Hhas. unfold HandleResetCompleteMessage.
  apply wlp_bind. apply wlp_neutral; [apply neutral_CheckReceivedPacket|].
  intros msg s1 E1.
  assert (HInv1 : Inv bounded me s1) by (apply (Inv_roster me s); assumption).
  assert (Hact1 : IsActive s1 = true) by (rewrite (IsActive_roster s s1 E1); exact Hact).
  assert (Hhas1 : has_peer s1 (Z.to_nat player_id) = true).
  { destruct (roster_eq_inv s s1 E1) as (_ & Hp & _).
    rewrite (has_peer_ext s s1 Hp). exact Hhas. }
  clear s HInv Hact Hhas E1. destruct msg as [msg|]; [|wlp_prim; exact HInv1].
  wlp_next.
  destruct (negb (state_is (s_state s1) Resetting)
            || (player_id =? s_host_player_id s1)) eqn:Hexp.
  { wlp_prim. apply (Inv_roster me s1); [reflexivity|exact HInv1]. }
  apply orb_false_iff in Hexp as [Hres Hnothost]. apply Z.eqb_neq in Hnothost.
  apply negb_false_iff in Hres.
  wlp_next. destruct x.
  { wlp_prim. apply (Inv_roster me s1); [reflexivity|exact HInv1]. }
  destruct (negb (s_reset_cookie s1 =? ResetCompleteMessage.cookie msg)).
  { wlp_prim. apply (Inv_roster me s1); [reflexivity|exact HInv1]. }
  wlp_seq. cbn [s_reset_players record].
  destruct HInv1 as (Hwf & Hh & Hme & Hz & Hphase).
  destruct (in_range_bounds _ Hrange) as [Hpos Hlt].
  split; [|split; [exact Hh|split; [exact Hme|split; [exact Hz|]]]].
  { destruct Hwf as [Hl Hb]. split; [exact Hl|].
    cbn [s_reset_players set_reset_players]. rewrite length_insert. exact Hb. }
  intros _.
  assert (Hphase' : Synced bounded me s1).
  { destruct (Hphase Hact1) as [(Hne & _ & _ & Hnone & Hid & Honly)|Hsync];
      [|exact Hsync].
    apply Z.eqb_eq in Hres. split; [rewrite Hres; discriminate|].
    split; [exact (Hid Hres)|]. split.
    - intros j Hj. unfold reset_bit in Hj. rewrite Hnone in Hj.
      unfold bitset_none in Hj.
      destruct (replicate MAX_PLAYERS false !! j) as [x|] eqn:Hx; [|discriminate].
      apply lookup_replicate in Hx as [-> _]. discriminate.
    - intros [Hon|Hzero]; [|contradiction].
      exfalso. apply Hnothost. rewrite Hh.
      specialize (Honly Hon _ Hhas1). lia. }
  destruct Hphase' as (Hst & Hid & Hsub & Hcount).
  right. split; [exact Hst|]. split; [exact Hid|]. split; [|exact Hcount].
  intros j Hj.
  change (occupied (set_reset_players ?b ?r) j) with (occupied s1 j).
  apply reset_bit_set in Hj as [->|Hj].
  - unfold occupied, IsValidPlayerId. rewrite Z2Nat.id by lia.
    rewrite Hrange, Hhas1. apply orb_true_r.
  - apply Hsub. exact Hj.
Qed.

Lemma wlp_HandleResumeSessionMessage (me : Z) (player_id : Z) (pkt : ENetPacket)
    (s : Session) :
  Inv bounded me s -> IsActive s = true ->
  wlp (HandleResumeSessionMessage player_id pkt) (fun _ => Inv bounded me) s.
Proof.
  intros HInv Hact. unfold HandleResumeSessionMessage.
  apply wlp_bind. apply wlp_neutral; [apply neutral_CheckReceivedPacket|].
  intros msg s1 E1.
  assert (HInv1 : Inv bounded me s1) by (apply (Inv_roster me s); assumption).
  assert (Hact1 : IsActive s1 = true) by (rewrite (IsActive_roster s s1 E1); exact Hact).
  destruct msg as [msg|]; [|wlp_prim; exact HInv1].
  wlp_next.
  destruct (negb (state_is (s_state s1) Resetting)
            || negb (player_id =? s_host_player_id s1)).
  { wlp_prim. apply (Inv_roster me s1); [reflexivity|exact HInv1]. }
  wlp_next. apply wlp_bind. apply wlp_neutral; [apply neutral_CreateGGPOSession|].
  intros _ s2 E2. wlp_prim.
  apply Inv_set_state; [| |discriminate|discriminate].
  - apply (Inv_roster me s1); [rewrite E2; reflexivity|exact HInv1].
  - rewrite (IsActive_roster _ _ E2). exact Hact1.
Qed.

Lemma wlp_CheckReceivedPacket {T} ty player_id pkt (view : T)
    (Q : option T -> Session -> Prop) (s : Session) :
  (forall r s', roster s' = roster s -> r = None \/ r = Some view -> Q r s') ->
  wlp (CheckReceivedPacket ty player_id pkt view) Q s.
Proof.
  intros HQ. unfold CheckReceivedPacket.
  destruct (dataLength pkt <? sizeof_msg ty); [wlp_seq; apply HQ; auto|].
  destruct (hdr_size pkt <? sizeof_msg ty); wlp_seq; apply HQ; auto.
Qed.

Lemma wlp_HandleConnectResponseMessage (me : Z) (player_id : Z) (pkt : ENetPacket)
    (view : ConnectResponseMessage.t) (s : Session) :
  Inv bounded me s -> IsActive s = true ->
  (ConnectResponseMessage.result view = ConnectResponseMessage.Success ->
   ConnectResponseMessage.player_id view = me) ->
  wlp (HandleConnectResponseMessage player_id pkt view) (fun _ => Inv bounded me) s.
Proof.
  intros HInv Hact Hvalid. unfold HandleConnectResponseMessage. wlp_next.
  destruct (state_is (s_state s) Connecting) eqn:Hst; cbn [negb].
  2:{ wlp_prim. apply (Inv_roster me s); [reflexivity|exact HInv]. }
  apply wlp_bind. apply wlp_CheckReceivedPacket.
  intros msg s1 E1 Hmsg.
  assert (HInv1 : Inv bounded me s1) by (apply (Inv_roster me s); assumption).
  assert (Hact1 : IsActive s1 = true) by (rewrite (IsActive_roster s s1 E1); exact Hact).
  assert (Hst1 : SessionState_rank (s_state s1) = SessionState_rank Connecting).
  { destruct (roster_eq_inv s s1 E1) as (-> & _).
    apply Z.eqb_eq. exact Hst. }
  apply wlp_bind, wlp_deref. intros m Hm.
  destruct Hmsg as [->| ->]; [discriminate|]. injection Hm as <-.
  pose proof (Inv_Base me s1 HInv1) as Hb.
  destruct (ConnectResponseMessage.result view) eqn:Hres;
    try (apply wlp_CloseSessionWithError; exact Hb).
  rewrite (Hvalid eq_refl). wlp_seq.
  destruct HInv1 as (Hwf & Hh & Hme & Hz & Hphase).
  destruct (Hphase Hact1) as [(Hne & _ & Hn & _ & _ & Honly)|(Hnot & _)];
    [|contradiction].
  split; [|split; [exact Hh|split; [exact Hme|split; [exact Hz|]]]].
  { destruct Hwf as [Hl _]. split; [exact Hl|apply length_bitset_none]. }
  intros _. left. split; [exact Hne|]. split; [left; reflexivity|].
  split; [exact Hn|]. split; [reflexivity|]. split; [|exact Honly].
  intros _. reflexivity.
Qed.

Lemma neutral_HandleDropPlayerMessage (player_id : Z) (pkt : ENetPacket)
    (view : DropPlayerMessage.t) :
  neutral (HandleDropPlayerMessage player_id pkt view).
Proof.
  intros s. unfold HandleDropPlayerMessage.
  apply wlp_bind. apply wlp_CheckReceivedPacket. intros msg s1 E1 _.
  destruct msg as [msg|]; [|wlp_prim; exact E1].
  wlp_next.
  destruct (Z.eqb_spec player_id (s_host_player_id s1)) as [->|Hne]; cbn [negb];
    [|wlp_prim; rewrite <- E1; reflexivity].
  unfold DropPlayer. wlp_next. wlp_next.
  match goal with Hc : _ && _ && _ = true |- _ => rename Hc into Hcond end.
  rewrite Z.eqb_refl, andb_false_r in Hcond. discriminate.
Qed.

Lemma wlp_HandleResetRequestMessage (me : Z) (player_id : Z) (pkt : ENetPacket)
    (view : ResetRequestMessage.t) (s : Session) :
  Inv bounded me s -> IsActive s = true ->
  wlp (HandleResetRequestMessage player_id pkt view) (fun _ => Inv bounded me) s.
Proof.
  intros HInv Hact. unfold HandleResetRequestMessage.
  apply wlp_bind. apply wlp_CheckReceivedPacket. intros msg s1 E1 _.
  assert (HInv1 : Inv bounded me s1) by (apply (Inv_roster me s); assumption).
  assert (Hact1 : IsActive s1 = true) by (rewrite (IsActive_roster s s1 E1); exact Hact).
  destruct msg as [msg|]; [|wlp_prim; exact HInv1].
  wlp_next.
  set (s2 := record (Log Info "Received reset request") s1).
  assert (HInv2 : Inv bounded me s2) by (apply (Inv_roster me s1); [reflexivity|exact HInv1]).
  destruct (IsHost s2) eqn:Hhost; [|apply wlp_Reset_unless_host; exact Hhost].
  destruct (Inv_host me s2 HInv2 Hact1 Hhost) as [-> (_ & Hid & _ & Hcount)].
  apply wlp_Reset; [apply Inv_Base; exact HInv2|exact Hid|exact Hcount].
Qed.

Lemma wlp_HandleCloseSessionMessage (me : Z) closing (player_id : Z) (pkt : ENetPacket)
    (view : CloseSessionMessage.t) (s : Session) :
  Inv bounded me s ->
  wlp (HandleCloseSessionMessage closing player_id pkt view) (fun _ => Inv bounded me) s.
Proof.
  intros HInv. unfold HandleCloseSessionMessage.
  apply wlp_bind. apply wlp_CheckReceivedPacket. intros msg s1 E1 _.
  assert (HInv1 : Inv bounded me s1) by (apply (Inv_roster me s); assumption).
  destruct msg as [msg|]; [|wlp_prim; exact HInv1].
  wlp_next. apply wlp_RequestCloseSession.
  apply (Base_frame me s1); [reflexivity..|]. apply Inv_Base. exact HInv1.
Qed.

(** A control message from a known sender keeps the invariant. *)
Lemma wlp_HandleControlMessage (me : Z) closing (player_id : Z) (pkt : ENetPacket)
    (s : Session) :
  Inv bounded me s -> IsActive s = true ->
  in_range player_id = true -> has_peer s (Z.to_nat player_id) = true ->
  valid_message me pkt ->
  wlp (HandleControlMessage closing player_id pkt) (fun _ => Inv bounded me) s.
Proof.
  intros HInv Hact Hrange Hhas Hvalid. unfold HandleControlMessage.
  unfold valid_message in Hvalid.
  destruct (dataLength pkt <? sizeof_ControlMessageHeader).
  { wlp_prim. apply (Inv_roster me s); [reflexivity|exact HInv]. }
  destruct (payload pkt) as [m|m|m|m| |m|m|m|m| |t].
  - wlp_prim. apply (Inv_roster me s); [reflexivity|exact HInv].
  - apply wlp_HandleConnectResponseMessage; assumption.
  - destruct Hvalid as [Hself Hcount]. apply wlp_HandleResetMessage; assumption.
  - apply wlp_HandleResetCompleteMessage; assumption.
  - apply wlp_HandleResumeSessionMessage; assumption.
  - apply wlp_neutral; [apply neutral_HandlePlayerJoinedMessage|].
    intros _ s' Hs'. apply (Inv_roster me s); assumption.
  - apply wlp_neutral; [apply neutral_HandleDropPlayerMessage|].
    intros _ s' Hs'. apply (Inv_roster me s); assumption.
  - apply wlp_HandleResetRequestMessage; assumption.
  - apply wlp_HandleCloseSessionMessage; assumption.
  - apply wlp_neutral; [apply neutral_HandleChatMessage|].
    intros _ s' Hs'. apply (Inv_roster me s); assumption.
  - wlp_prim. apply (Inv_roster me s); [reflexivity|exact HInv].
Qed.

Lemma wlp_HandlePeerConnectionAsNonHost_own (me : Z) (p : ENetPeer) (s : Session) :
  Inv bounded me s -> IsActive s = true -> IsHost s = false ->
  wlp (HandlePeerConnectionAsNonHost p 0) (fun _ => Inv bounded me) s.
Proof.
  intros HInv Hact Hhost. unfold HandlePeerConnectionAsNonHost. wlp_next.
  destruct (state_is (s_state s) Connecting).
  { apply wlp_neutral.
    - apply neutral_bind; [apply neutral_peers_at|intros host_slot].
      apply neutral_if; [apply neutral_SendConnectRequest|].
      apply neutral_bind; [apply neutral_call|intros _; apply neutral_call].
    - intros _ s' Hs'. apply (Inv_roster me s); assumption. }
  wlp_next.
  set (s1 := record (Log Verbose "New peer connection") s).
  assert (HInv1 : Inv bounded me s1) by (apply (Inv_roster me s); [reflexivity|exact HInv]).
  destruct ((0 <? 0) || (Z.of_nat MAX_PLAYERS <=? 0) || (0 =? s_player_id s)).
  { wlp_seq. apply (Inv_roster me s1); [reflexivity|exact HInv1]. }
  wlp_next. wlp_next.
  destruct (match peer p0 with Some q => same_peer q p | None => false end).
  { wlp_prim. apply (Inv_roster me s1); [reflexivity|exact HInv1]. }
  cbn [orb] in *. wlp_next. wlp_next.
  set (s2 := record (Log Dev "Connection received from peer") s1).
  assert (HInv2 : Inv bounded me s2) by (apply (Inv_roster me s1); [reflexivity|exact HInv1]).
  destruct HInv2 as (Hwf & Hh & Hme & Hzero & Hphase).
  assert (Hact2 : IsActive s2 = true) by exact Hact.
  assert (Hneg : s_player_id s2 < 0).
  { apply Z.ltb_lt. assumption. }
  destruct (Hphase Hact2) as [(Hne & Hid & Hn & Hbits & Hres & Hpeers)|(_ & Hid & _)].
  2:{ exfalso. apply in_range_bounds in Hme. lia. }
  change (Z.to_nat 0) with 0%nat in *.
  assert (Hlen : (0 < length (s_peers s2))%nat).
  { apply lookup_lt_is_Some. eexists. eassumption. }
  split; [|split; [exact Hh|split; [exact Hme|split; [intros; contradiction|]]]].
  { destruct Hwf as [Hl Hb]. split; cbn [s_peers s_reset_players set_peers].
    - rewrite length_insert. exact Hl.
    - exact Hb. }
  intros _. left. split; [exact Hne|]. split; [exact Hid|]. split; [exact Hn|].
  split; [exact Hbits|]. split; [exact Hres|].
  intros Hbd i Hi. destruct i as [|i]; [reflexivity|].
  apply (Hpeers Hbd). revert Hi. unfold has_peer. rewrite slot_peer_insert by exact Hlen.
  cbn [Nat.eqb]. tauto.
Qed.

(** A joiner that another player dials stores the peer in the slot of the
    id the peer claims: [reset_players] stays within the occupied slots.
    Its roster stays within [num_players] when the slot was occupied, or
    when there was room for one player more. *)
Lemma wlp_HandlePeerConnectionAsNonHost_dialled (me : Z) (p : ENetPeer) (c : Z)
    (s : Session) :
  Inv bounded me s -> IsActive s = true -> IsHost s = false ->
  (bounded = true ->
   Synced bounded me s
   /\ (has_peer s (Z.to_nat c) = true \/ occupied_count s < s_num_players s)) ->
  wlp (HandlePeerConnectionAsNonHost p c) (fun _ => Inv bounded me) s.
Proof.
  intros HInv Hact Hhost Hroom. unfold HandlePeerConnectionAsNonHost. wlp_next.
  destruct (state_is (s_state s) Connecting).
  { apply wlp_neutral.
    - apply neutral_bind; [apply neutral_peers_at|intros host_slot].
      apply neutral_if; [apply neutral_SendConnectRequest|].
      apply neutral_bind; [apply neutral_call|intros _; apply neutral_call].
    - intros _ s' Hs'. apply (Inv_roster me s); assumption. }
  wlp_next.
  set (s1 := record (Log Verbose "New peer connection") s).
  assert (HInv1 : Inv bounded me s1) by (apply (Inv_roster me s); [reflexivity|exact HInv]).
  destruct ((c <? 0) || (Z.of_nat MAX_PLAYERS <=? c) || (c =? s_player_id s)) eqn:Hrej.
  { wlp_seq. apply (Inv_roster me s1); [reflexivity|exact HInv1]. }
  apply orb_false_iff in Hrej as [Hrej Hself].
  apply orb_false_iff in Hrej as [Hneg Hbig].
  apply Z.ltb_ge in Hneg. apply Z.leb_gt in Hbig. apply Z.eqb_neq in Hself.
  wlp_next. wlp_next.
  destruct (match peer p0 with Some q => same_peer q p | None => false end).
  { wlp_prim. apply (Inv_roster me s1); [reflexivity|exact HInv1]. }
  wlp_next. wlp_next.
  set (s2 := record (Log Dev "Connection received from peer") s1).
  set (i := Z.to_nat c).
  match goal with
  | |- Inv bounded me (set_peers (<[i := ?q]> _) _) => set (p4 := q)
  end.
  assert (Hp4 : peer p4 <> None) by discriminate.
  clearbody p4.
  assert (Hi : (i < MAX_PLAYERS)%nat) by (unfold i; lia).
  assert (Hci : Z.of_nat i = c) by (unfold i; lia).
  destruct HInv as (Hwf & Hh & Hme & Hzero & Hphase).
  assert (Hne0 : me <> 0).
  { intros Hz. destruct (Hphase Hact) as [(Hne & _)|(_ & Hid & _)]; [contradiction|].
    unfold IsHost in Hhost. rewrite Hid, Hh, Hz in Hhost. discriminate. }
  assert (Hwf2 : well_formed s2) by exact Hwf.
  assert (Hother : Z.of_nat i <> s_player_id s2) by (rewrite Hci; exact Hself).
  assert (Hgrow : forall j, occupied s2 j = true ->
            occupied (set_peers (<[i := p4]> (s_peers s2)) s2) j = true).
  { intros j Hj. unfold occupied, IsValidPlayerId, has_peer in *.
    cbn [s_player_id set_peers]. rewrite Nat2Z.id in *.
    destruct Hwf2 as [Hlen _]. rewrite slot_peer_insert by lia.
    destruct (Nat.eqb_spec j i) as [->|_]; [|exact Hj].
    rewrite in_range_of_nat by exact Hi.
    destruct (peer p4); [apply orb_true_r|contradiction]. }
  split; [|split; [exact Hh|split; [exact Hme|split; [intros; contradiction|]]]].
  { destruct Hwf as [Hl Hb]. split; cbn [s_peers s_reset_players set_peers].
    - rewrite length_insert. exact Hl.
    - exact Hb. }
  intros _. destruct (Bool.bool_dec bounded true) as [Hon|Hoff].
  2:{ (* any connection: the roster may grow beyond [num_players] *)
    destruct (Hphase Hact) as [(_ & Hid & Hn & Hbits & Hres & _)|(Hst & Hid & Hsub & _)].
    - left. split; [exact Hne0|]. split; [exact Hid|]. split; [exact Hn|].
      split; [exact Hbits|]. split; [exact Hres|]. intros Hon. contradiction.
    - right. split; [exact Hst|]. split; [exact Hid|]. split.
      + intros j Hj. apply Hgrow. apply Hsub. exact Hj.
      + intros [Hon|Hz]; contradiction. }
  destruct (Hroom Hon) as [(Hst & Hid & Hsub & Hcount) Hroom'].
  clear Hroom. rename Hroom' into Hroom.
  right. split; [exact Hst|]. split; [exact Hid|]. split.
  - intros j Hj. apply Hgrow. apply Hsub. exact Hj.
  - intros Hbd. specialize (Hcount Hbd).
    cbn [s_num_players set_peers].
    destruct (occupied s2 i) eqn:Hocc.
    + etransitivity; [|exact Hcount]. apply Z.eq_le_incl.
      unfold occupied_count. apply count_if_ext. intros j _.
      change (occupied s j) with (occupied s2 j).
      destruct (Nat.eq_dec j i) as [->|Hji].
      * rewrite Hocc. apply Hgrow. exact Hocc.
      * unfold occupied, IsValidPlayerId, has_peer.
        cbn [s_player_id set_peers]. rewrite Nat2Z.id.
        destruct Hwf2 as [Hlen _]. rewrite slot_peer_insert by lia.
        destruct (Nat.eqb_spec j i); [contradiction|reflexivity].
    + rewrite occupied_count_set; [|exact Hwf2|exact Hi|exact Hocc|exact Hp4].
      destruct Hroom as [Hhas|Hroom].
      * exfalso. rewrite occupied_other in Hocc by assumption.
        change (has_peer s2 i) with (has_peer s i) in Hocc. fold i in Hhas. congruence.
      * change (occupied_count s2) with (occupied_count s).
        change (s_num_players s2) with (s_num_players s). lia.
Qed.

Lemma occupied_count_nonneg (s : Session) : 0 <= occupied_count s.
Proof. apply count_if_nonneg. Qed.

Lemma wlp_HandleEnetEvent (me : Z) closing (event : ENetEvent) (s : Session) :
  Inv bounded me s -> IsActive s = true -> valid_event_in bounded me s event ->
  wlp (HandleEnetEvent closing event) (fun _ => Inv bounded me) s.
Proof.
  intros HInv Hact Hvalid. unfold HandleEnetEvent. wlp_next.
  pose proof (Inv_Base me s HInv) as Hb.
  destruct event as [p data|p|p channel pkt|].
  - cbn [valid_event_in valid_event] in Hvalid.
    destruct (IsHost s) eqn:Hhost.
    { unfold HandlePeerConnectionAsHost. wlp_prim.
      apply (Inv_roster me s); [reflexivity|exact HInv]. }
    assert (Hne0 : me <> 0).
    { intros Hzero. destruct HInv as (_ & Hh & _ & _ & Hphase).
      destruct (Hphase Hact) as [(Hne & _)|(_ & Hid & _)]; [contradiction|].
      unfold IsHost in Hhost. rewrite Hid, Hh, Hzero in Hhost. discriminate. }
    assert (Hrefused :
              (Int.s32 data <? 0) || (Z.of_nat MAX_PLAYERS <=? Int.s32 data)
              || (Int.s32 data =? s_player_id s) = true ->
              wlp (HandlePeerConnectionAsNonHost p (Int.s32 data)) (fun _ => Inv bounded me) s).
    { intros Hrej. unfold HandlePeerConnectionAsNonHost. wlp_next.
      destruct (state_is (s_state s) Connecting).
      { apply wlp_neutral.
        - apply neutral_bind; [apply neutral_peers_at|intros host_slot].
          apply neutral_if; [apply neutral_SendConnectRequest|].
          apply neutral_bind; [apply neutral_call|intros _; apply neutral_call].
        - intros _ s' Hs'. apply (Inv_roster me s); assumption. }
      wlp_next. rewrite Hrej.
      wlp_seq. apply (Inv_roster me s); [reflexivity|exact HInv]. }
    destruct Hvalid as [Hoff|[[Hzero|Hdata]|[Hst|[Hout|[Hown|Hroom]]]]].
    + apply wlp_HandlePeerConnectionAsNonHost_dialled; try assumption.
      intros Hon. rewrite Hon in Hoff. discriminate.
    + contradiction.
    + rewrite Hdata. apply wlp_HandlePeerConnectionAsNonHost_own; assumption.
    + unfold HandlePeerConnectionAsNonHost. wlp_next. rewrite Hst.
      change (state_is Connecting Connecting) with true. cbv iota.
      apply wlp_neutral.
      * apply neutral_bind; [apply neutral_peers_at|intros host_slot].
        apply neutral_if; [apply neutral_SendConnectRequest|].
        apply neutral_bind; [apply neutral_call|intros _; apply neutral_call].
      * intros _ s' Hs'. apply (Inv_roster me s); assumption.
    + apply Hrefused. unfold in_range in Hout.
      apply andb_false_iff in Hout as [Hout|Hout].
      * apply Z.leb_gt in Hout. rewrite (proj2 (Z.ltb_lt _ _) Hout). reflexivity.
      * apply Z.ltb_ge in Hout. rewrite (proj2 (Z.leb_le _ _) Hout).
        apply orb_true_iff. left. apply orb_true_r.
    + apply Hrefused. rewrite Hown, Z.eqb_refl. apply orb_true_r.
    + destruct (Bool.bool_dec bounded true) as [Hon|Hoff].
      2:{ apply wlp_HandlePeerConnectionAsNonHost_dialled; try assumption.
          intros Hon. contradiction. }
      pose proof HInv as (_ & _ & _ & _ & Hphase).
      destruct (Hphase Hact) as [(_ & _ & Hn & _ & _ & Honly)|Hsync].
      * (* before the first Reset the only slot that is occupied is the host's *)
        destruct Hroom as [Hhas|Hroom];
          [|pose proof (occupied_count_nonneg s); lia].
        apply (Honly Hon) in Hhas.
        destruct (Z.ltb_spec (Int.s32 data) 0) as [Hneg|Hpos].
        -- apply Hrefused. reflexivity.
        -- assert (Hdata : Int.s32 data = 0) by lia.
           rewrite Hdata. apply wlp_HandlePeerConnectionAsNonHost_own; assumption.
      * apply wlp_HandlePeerConnectionAsNonHost_dialled; try assumption.
        intros _. split; assumption.
  - destruct (state_is (s_state s) Connecting).
    { wlp_next. wlp_prim. }
    destruct (state_is (s_state s) Resetting).
    { wlp_prim. apply (Inv_roster me s); [reflexivity|exact HInv]. }
    wlp_next.
    set (s1 := record (Log Warning "ENet player disconnected") s).
    assert (HInv1 : Inv bounded me s1) by (apply (Inv_roster me s); [reflexivity|exact HInv]).
    destruct (IsValidPlayerId s (GetPlayerIdForPeer s p)); [|wlp_prim; exact HInv1].
    destruct (IsHost s) eqn:Hhost.
    + unfold HandlePeerDisconnectionAsHost. wlp_next.
      apply wlp_DropPlayer; [|exact Hact|exact Hhost].
      apply (Inv_roster me s1); [reflexivity|exact HInv1].
    + unfold HandlePeerDisconnectionAsNonHost. wlp_next. wlp_next.
      destruct (GetPlayerIdForPeer s p =? s_host_player_id _).
      * apply wlp_CloseSessionWithError.
        apply (Base_frame me s); [reflexivity..|exact Hb].
      * apply wlp_neutral; [apply neutral_RequestReset|].
        intros _ s' Hs'. apply (Inv_roster me s); [rewrite Hs'; reflexivity|exact HInv].
  - destruct (Z.ltb_spec (GetPlayerIdForPeer s p) 0) as [Hnew|Hknown].
    + destruct channel; try (wlp_prim; exact HInv).
      apply wlp_HandleMessageFromNewPeer; assumption.
    + destruct (GetPlayerIdForPeer_known s p Hknown) as [Hrange Hhas].
      destruct channel.
      * apply wlp_HandleControlMessage; try assumption.
      * wlp_prim. apply (Inv_roster me s); [reflexivity|exact HInv].
      * wlp_prim. apply (Inv_roster me s); [reflexivity|exact HInv].
  - wlp_prim. apply (Inv_roster me s); [reflexivity|exact HInv].
Qed.

(** [PollEnet] handles the first event, and polls the others from where
    that has led. *)
Lemma PollEnet_nil_run closing (s : Session) :
  PollEnet closing [] s
  = (if IsActive s then
       match s_enet_host s with
       | Some _ => Returned tt
       | None => Aborted (AssertionFailed "s_enet_host")
       end
     else Returned tt, s).
Proof.
  cbn [PollEnet]. unfold bind, gets, id, Assert, ret, abort.
  destruct (IsActive s); [|reflexivity]. destruct (s_enet_host s); reflexivity.
Qed.

Lemma PollEnet_start closing (events : list ENetEvent) (s : Session) :
  IsActive s = true -> s_enet_host s = None ->
  PollEnet closing events s = (Aborted (AssertionFailed "s_enet_host"), s).
Proof.
  intros Hact Hh. destruct events; cbn [PollEnet]; unfold bind at 1, gets, id;
    rewrite Hact; unfold bind at 1, Assert; rewrite Hh; reflexivity.
Qed.

Lemma PollEnet_stopped closing (events : list ENetEvent) (s : Session) :
  IsActive s = false -> PollEnet closing events s = (Returned tt, s).
Proof.
  intros Hact. destruct events; cbn [PollEnet]; unfold bind at 1, gets, id;
    rewrite Hact; reflexivity.
Qed.

Lemma PollEnet_step closing (ev : ENetEvent) (events : list ENetEvent) (s : Session)
    (h : ENetHost) :
  IsActive s = true -> s_enet_host s = Some h ->
  PollEnet closing (ev :: events) s
  = match HandleEnetEvent closing ev s with
    | (Returned _, s1) =>
        match s_ggpo s1 with
        | Some _ => PollEnet closing events (record ggpo_network_idle s1)
        | None => PollEnet closing events s1
        end
    | (Aborted f, s1) => (Aborted f, s1)
    end.
Proof.
  intros Hact Hh. cbn [PollEnet]. unfold bind at 1, gets, id. rewrite Hact.
  unfold bind at 1, Assert. rewrite Hh. unfold ret at 1. unfold bind at 1.
  destruct (HandleEnetEvent closing ev s) as [[[]|f] s1]; [|reflexivity].
  unfold bind at 1, gets, id. unfold bind at 1.
  destruct (s_ggpo s1); reflexivity.
Qed.

Lemma PollEnet_cons closing (ev : ENetEvent) (events : list ENetEvent) (s : Session) :
  PollEnet closing (ev :: events) s
  = bind (PollEnet closing [ev]) (fun _ => PollEnet closing events) s.
Proof.
  destruct (IsActive s) eqn:Hact.
  2:{ unfold bind. rewrite (PollEnet_stopped closing (ev :: events) s Hact).
      rewrite (PollEnet_stopped closing [ev] s Hact).
      rewrite (PollEnet_stopped closing events s Hact). reflexivity. }
  destruct (s_enet_host s) as [h|] eqn:Hh.
  2:{ unfold bind. rewrite (PollEnet_start closing (ev :: events) s Hact Hh).
      rewrite (PollEnet_start closing [ev] s Hact Hh). reflexivity. }
  unfold bind. rewrite (PollEnet_step closing ev events s h Hact Hh).
  rewrite (PollEnet_step closing ev [] s h Hact Hh).
  destruct (HandleEnetEvent closing ev s) as [[[]|f] s1]; [|reflexivity].
  assert (Hnil : forall s2,
            PollEnet closing events s2
            = let (o, s') := PollEnet closing [] s2 in
              match o with
              | Returned _ => PollEnet closing events s'
              | Aborted f => (Aborted f, s')
              end).
  { intros s2. rewrite PollEnet_nil_run.
    destruct (IsActive s2) eqn:Hact2; [|reflexivity].
    destruct (s_enet_host s2) eqn:Hh2; [reflexivity|].
    apply PollEnet_start; assumption. }
  destruct (s_ggpo s1); apply Hnil.
Qed.
Lemma wlp_PollEnet_nil (Q : unit -> Session -> Prop) closing (s : Session) :
  Q tt s -> wlp (PollEnet closing []) Q s.
Proof.
  intros HQ. simpl. wlp_next. destruct (IsActive s); [wlp_next; wlp_prim|wlp_prim]; exact HQ.
Qed.

Lemma wlp_PollEnet_one (me : Z) closing (ev : ENetEvent) (s : Session) :
  Inv bounded me s -> (IsActive s = true -> valid_event_in bounded me s ev) ->
  wlp (PollEnet closing [ev]) (fun _ => Inv bounded me) s.
Proof.
  intros HInv Hvalid.
  cbn [PollEnet]. wlp_next. destruct (IsActive s) eqn:Hact; [|wlp_prim; exact HInv].
  wlp_next. apply wlp_bind.
  eapply wlp_mono; [|apply wlp_HandleEnetEvent; [exact HInv|exact Hact|apply Hvalid; reflexivity]].
  intros u s' HInv'. cbv beta in HInv'. wlp_next. apply wlp_bind.
  apply wlp_neutral.
  { destruct (s_ggpo s'); [apply neutral_call|apply neutral_ret]. }
  intros _ s'' Hs''.
  assert (HInv'' : Inv bounded me s'') by (apply (Inv_roster me s'); assumption).
  wlp_next. destruct (IsActive s''); [wlp_next; wlp_prim|wlp_prim]; exact HInv''.
Qed.

Lemma wlp_rewrite {A} (m m' : M A) (Q : A -> Session -> Prop) (s : Session) :
  m s = m' s -> wlp m' Q s -> wlp m Q s.
Proof. unfold wlp. intros ->. auto. Qed.

Lemma wlp_PollEnet (me : Z) closing (events : list ENetEvent) (s : Session) :
  Inv bounded me s -> valid_poll bounded me closing events s ->
  wlp (PollEnet closing events) (fun _ => Inv bounded me) s.
Proof.
  revert s. induction events as [|ev events IH]; intros s HInv Hvalid.
  - apply wlp_PollEnet_nil. exact HInv.
  - destruct Hvalid as [Hev Hrest].
    apply (wlp_rewrite _ _ _ _ (PollEnet_cons closing ev events s)).
    apply wlp_bind.
    eapply wlp_mono; [|apply wlp_and; [apply (wlp_PollEnet_one me); eassumption|exact Hrest]].
    intros u s' [HInv' Hvalid']. apply IH; assumption.
Qed.

End Handlers.

(** ** The outer loop keeps the invariant *)

Section OuterLoop.
Context `{platform : Platform}.

Lemma bind_gets {A B} (f : Session -> A) (k : A -> M B) (s : Session) :
  bind (gets f) k s = k (f s) s.
Proof. reflexivity. Qed.

Lemma bind_bind {A B C} (m : M A) (k : A -> M B) (h : B -> M C) (s : Session) :
  bind (bind m k) h s = bind m (fun a => bind (k a) h) s.
Proof. unfold bind. destruct (m s) as [[a|f] s']; reflexivity. Qed.

Lemma bind_ret_l {A B} (a : A) (k : A -> M B) (s : Session) : bind (ret a) k s = k a s.
Proof. reflexivity. Qed.

Lemma bind_ret_r (m : M unit) (s : Session) : bind m (fun _ => ret tt) s = m s.
Proof. unfold bind, ret. destruct (m s) as [[[]|f] s']; reflexivity. Qed.

Lemma bind_cong {A B} (m : M A) (k k' : A -> M B) (s : Session) :
  (forall a s', k a s' = k' a s') -> bind m k s = bind m k' s.
Proof. intros H. unfold bind. destruct (m s) as [[a|f] s']; [apply H|reflexivity]. Qed.

(** [UpdateConnectingState] is what it does before its poll, and then the
    poll. *)
Lemma UpdateConnectingState_polls (t : Turn) (s : Session) :
  UpdateConnectingState t s
  = bind (UpdateConnectingState_before_poll t)
         (fun polls =>
            if polls then
              bind (PollEnet (closing_arrivals t) (arrivals t)) (fun _ =>
              bind (call (Host_DisplayLoadingScreen "Connecting to host...")) (fun _ =>
              call Host_PumpMessagesOnCPUThread))
            else ret tt) s.
Proof.
  unfold UpdateConnectingState, UpdateConnectingState_before_poll.
  destruct (MAX_CONNECT_TIME_ms <=? reset_elapsed_ms t).
  - rewrite bind_bind. symmetry. apply bind_ret_r.
  - rewrite bind_bind. apply bind_cong. intros s0 s'.
    rewrite bind_bind. apply bind_cong. intros _ s''. reflexivity.
Qed.

(** [UpdateResetState] is what it does before its poll, and then the
    poll. *)
Lemma UpdateResetState_polls (t : Turn) (s : Session) :
  UpdateResetState t s
  = bind (UpdateResetState_before_poll t)
         (fun polls =>
            if polls then
              bind (PollEnet (closing_arrivals t) (arrivals t)) (fun _ =>
              bind (call (Host_DisplayLoadingScreen "Netplay synchronizing")) (fun _ =>
              call Host_PumpMessagesOnCPUThread))
            else ret tt) s.
Proof.
  unfold UpdateResetState, UpdateResetState_before_poll. cbv zeta.
  rewrite bind_bind. apply bind_cong. intros s0 s1.
  destruct (IsHost s0).
  - destruct (reset_players_count s0 =? s_num_players s0).
    + rewrite bind_bind. apply bind_cong. intros _ s2.
      rewrite bind_bind. apply bind_cong. intros _ s3.
      rewrite bind_bind. apply bind_cong. intros _ s4.
      rewrite bind_bind. symmetry. apply bind_ret_r.
    + rewrite bind_bind. apply bind_cong. intros _ s2. reflexivity.
  - destruct (negb (reset_players_count s0 =? s_num_players s0)); [|reflexivity].
    rewrite bind_bind. apply bind_cong. intros _ s2.
    rewrite bind_bind. apply bind_cong. intros s3 s4.
    rewrite bind_bind. apply bind_cong. intros _ s5.
    destruct (MAX_CONNECT_TIME_ms * 2 <=? reset_elapsed_ms t); [|reflexivity].
    rewrite bind_bind. symmetry. apply bind_ret_r.
Qed.

Lemma ExecuteNetplay_loop_cons (t : Turn) (turns : list Turn) (s : Session) :
  ExecuteNetplay_loop (t :: turns) s
  = bind (ExecuteNetplay_loop [t]) (fun _ => ExecuteNetplay_loop turns) s.
Proof.
  cbn [ExecuteNetplay_loop]. rewrite bind_bind, !bind_gets. unfold id.
  destruct (state_is (s_state s) Inactive) eqn:Hin.
  - rewrite bind_ret_l. destruct turns as [|t' turns]; [reflexivity|].
    cbn [ExecuteNetplay_loop]. rewrite bind_gets. unfold id. rewrite Hin. reflexivity.
  - rewrite bind_bind. apply bind_cong. intros _ s'. reflexivity.
Qed.

Lemma wlp_UpdateConnectingState_before_poll (me : Z) (t : Turn) (s : Session) :
  Inv bounded me s -> wlp (UpdateConnectingState_before_poll t) (fun _ => Inv bounded me) s.
Proof.
  intros HInv. unfold UpdateConnectingState_before_poll.
  destruct (MAX_CONNECT_TIME_ms <=? reset_elapsed_ms t).
  { apply wlp_bind. eapply wlp_mono; [|apply wlp_CloseSessionWithError, Inv_Base, HInv].
    intros u s' HInv'. wlp_prim. exact HInv'. }
  wlp_next. apply wlp_bind. apply wlp_neutral.
  { apply neutral_if; [|apply neutral_ret].
    apply neutral_bind; [apply neutral_peers_at|intros host_slot].
    apply neutral_bind; [apply neutral_deref|intros hp].
    apply neutral_if; [|apply neutral_ret].
    apply neutral_bind; [apply neutral_call|intros _].
    apply neutral_bind; [apply neutral_deref|intros h].
    apply neutral_bind; [|intros _; apply neutral_call].
    destruct (enet_host_connect _ _ _) as [[q h']|];
      [apply neutral_modify; reflexivity|apply neutral_ret]. }
  intros _ s1 E1. wlp_prim. apply (Inv_roster me s); assumption.
Qed.

Lemma wlp_poll (me : Z) (t : Turn) (text : string) (s : Session) :
  Inv bounded me s -> valid_poll bounded me (closing_arrivals t) (arrivals t) s ->
  wlp (bind (PollEnet (closing_arrivals t) (arrivals t))
            (fun _ => bind (call (Host_DisplayLoadingScreen text))
                           (fun _ => call Host_PumpMessagesOnCPUThread)))
      (fun _ => Inv bounded me) s.
Proof.
  intros HInv Hvalid. apply wlp_bind.
  eapply wlp_mono; [|apply (wlp_PollEnet me); [exact HInv|exact Hvalid]].
  intros u s2 HInv2. cbv beta in HInv2. wlp_seq.
  apply (Inv_roster me s2); [reflexivity|exact HInv2].
Qed.

Lemma wlp_UpdateConnectingState (me : Z) (t : Turn) (s : Session) :
  Inv bounded me s ->
  wlp (UpdateConnectingState_before_poll t)
      (fun polls s' =>
         polls = true -> valid_poll bounded me (closing_arrivals t) (arrivals t) s') s ->
  wlp (UpdateConnectingState t) (fun _ => Inv bounded me) s.
Proof.
  intros HInv Hvalid.
  apply (wlp_rewrite _ _ _ _ (UpdateConnectingState_polls t s)).
  apply wlp_bind.
  eapply wlp_mono;
    [|apply wlp_and; [apply (wlp_UpdateConnectingState_before_poll me); exact HInv
                     |exact Hvalid]].
  intros polls s' [HInv' Hvalid']. cbv beta in *.
  destruct polls; [|wlp_prim; exact HInv'].
  apply wlp_poll; [exact HInv'|apply Hvalid'; reflexivity].
Qed.

(** On the host, dropping the players that are late keeps the invariant
    and leaves the host active. *)
Lemma wlp_drop_unsynchronized (me : Z) (i : nat) (s : Session) :
  Inv bounded me s /\ IsActive s = true /\ IsHost s = true ->
  wlp (drop_unsynchronized i)
      (fun _ s' => Inv bounded me s' /\ IsActive s' = true /\ IsHost s' = true) s.
Proof.
  intros (HInv & Hact & Hhost). unfold drop_unsynchronized. wlp_next.
  destruct (negb (IsValidPlayerId s (Z.of_nat i))); [wlp_prim; auto|].
  wlp_next. destruct x; [wlp_prim; auto|]. wlp_next.
  set (s1 := record (Log Dev "Dropping player because they didn't connect in time") s).
  assert (HInv1 : Inv bounded me s1) by (apply (Inv_roster me s); [reflexivity|exact HInv]).
  destruct (Inv_host me s HInv Hact Hhost) as [Hme _].
  eapply wlp_mono; [|apply (wlp_DropPlayer_resetting me); [exact HInv1|exact Hact|exact Hhost]].
  intros u s' (HInv' & Hst' & Hid'). split; [exact HInv'|]. split.
  - unfold IsActive. rewrite Hst'. reflexivity.
  - unfold IsHost. destruct HInv' as (_ & -> & _). rewrite Hid', Hme. reflexivity.
Qed.

(** On a joiner, marking the connected peers keeps the synchronised
    phase. *)
Lemma wlp_mark_connected (me : Z) (t : Turn) (i : nat) (s : Session) :
  Inv bounded me s /\ IsActive s = true /\ Synced bounded me s ->
  wlp (mark_connected t i)
      (fun _ s' => Inv bounded me s' /\ IsActive s' = true /\ Synced bounded me s') s.
Proof.
  intros (HInv & Hact & Hsync). unfold mark_connected. wlp_next.
  destruct (IsValidPlayerId s (Z.of_nat i)) eqn:Hvalid; cbn [negb]; [|wlp_prim; auto].
  wlp_next. destruct x; [wlp_prim; auto|].
  destruct (slot_peer s i) as [p|]; [|wlp_prim; auto].
  destruct (connected t p); [|wlp_prim; auto].
  wlp_next. rewrite Nat2Z.id.
  assert (Hsync' : Synced bounded me
            (set_reset_players (<[i := true]> (s_reset_players s)) s)).
  { destruct Hsync as (Hst & Hid & Hsub & Hcount).
    split; [exact Hst|]. split; [exact Hid|]. split; [|exact Hcount].
    intros j Hj. change (occupied (set_reset_players ?b ?r) j) with (occupied s j).
    apply reset_bit_set in Hj as [->|Hj]; [exact Hvalid|apply Hsub; exact Hj]. }
  split; [|split; [exact Hact|exact Hsync']].
  destruct HInv as ((Hl & Hb) & Hh & Hme & Hz & _).
  split; [|split; [exact Hh|split; [exact Hme|split; [exact Hz|]]]].
  - split; [exact Hl|]. cbn [s_reset_players set_reset_players].
    rewrite length_insert. exact Hb.
  - intros _. right. exact Hsync'.
Qed.

Lemma wlp_UpdateResetState_before_poll (me : Z) (t : Turn) (s : Session) :
  Inv bounded me s -> IsActive s = true ->
  wlp (UpdateResetState_before_poll t) (fun _ => Inv bounded me) s.
Proof.
  intros HInv Hact. unfold UpdateResetState_before_poll. wlp_next.
  destruct (IsHost s) eqn:Hhost.
  - destruct (reset_players_count s =? s_num_players s).
    + wlp_next. apply wlp_bind.
      apply wlp_neutral; [apply neutral_SendControlPacketToAll|].
      intros _ s1 E1. apply wlp_bind.
      apply wlp_neutral; [apply neutral_CreateGGPOSession|].
      intros _ s2 E2. wlp_next. wlp_prim.
      assert (E : roster s2 = roster s) by (rewrite E2, E1; reflexivity).
      apply Inv_set_state;
        [apply (Inv_roster me s); assumption| |discriminate|discriminate].
      rewrite (IsActive_roster _ _ E). exact Hact.
    + apply wlp_bind.
      eapply (wlp_mono _ (fun _ s' => Inv bounded me s')).
      { intros u s1 HInv1. wlp_prim. exact HInv1. }
      destruct (MAX_CONNECT_TIME_ms <=? reset_elapsed_ms t); [|wlp_prim; exact HInv].
      wlp_next. unfold for_each_player.
      eapply wlp_mono;
        [|apply (wlp_for _ _ (fun s' => Inv bounded me s' /\ IsActive s' = true
                                        /\ IsHost s' = true))].
      * intros u s1 (HInv1 & _). exact HInv1.
      * intros i s1 _ H1. apply wlp_drop_unsynchronized. exact H1.
      * split; [|split; [exact Hact|exact Hhost]].
        apply (Inv_roster me s); [reflexivity|exact HInv].
  - destruct (reset_players_count s =? s_num_players s) eqn:Hdone; cbn [negb];
      [wlp_prim; exact HInv|].
    assert (Hsync : Synced bounded me s).
    { destruct HInv as (_ & _ & _ & _ & Hphase).
      destruct (Hphase Hact) as [(_ & _ & Hn & Hb & _)|Hsync]; [|exact Hsync].
      unfold reset_players_count in Hdone. rewrite Hb, bitset_count_none, Hn in Hdone.
      discriminate. }
    apply wlp_bind. unfold for_each_player.
    eapply wlp_mono;
      [|apply (wlp_for _ _ (fun s' => Inv bounded me s' /\ IsActive s' = true /\ Synced bounded me s'))].
    + intros u s1 (HInv1 & Hact1 & _). cbv beta. wlp_next. apply wlp_bind.
      apply wlp_neutral.
      { apply neutral_if; [|apply neutral_ret].
        apply neutral_bind; [apply neutral_call|intros _].
        apply neutral_SendControlPacketToPlayer. }
      intros _ s2 E2.
      assert (HInv2 : Inv bounded me s2) by (apply (Inv_roster me s1); assumption).
      destruct (MAX_CONNECT_TIME_ms * 2 <=? reset_elapsed_ms t).
      * apply wlp_bind.
        eapply wlp_mono; [|apply wlp_CloseSessionWithError, Inv_Base, HInv2].
        intros u' s3 HInv3. wlp_prim. exact HInv3.
      * wlp_prim. exact HInv2.
    + intros i s1 _ H1. apply wlp_mark_connected. exact H1.
    + auto.
Qed.

Lemma wlp_UpdateResetState (me : Z) (t : Turn) (s : Session) :
  Inv bounded me s -> IsActive s = true ->
  wlp (UpdateResetState_before_poll t)
      (fun polls s' =>
         polls = true -> valid_poll bounded me (closing_arrivals t) (arrivals t) s') s ->
  wlp (UpdateResetState t) (fun _ => Inv bounded me) s.
Proof.
  intros HInv Hact Hvalid.
  apply (wlp_rewrite _ _ _ _ (UpdateResetState_polls t s)).
  apply wlp_bind.
  eapply wlp_mono;
    [|apply wlp_and; [apply (wlp_UpdateResetState_before_poll me); assumption
                     |exact Hvalid]].
  intros polls s' [HInv' Hvalid']. cbv beta in *.
  destruct polls; [|wlp_prim; exact HInv'].
  apply wlp_poll; [exact HInv'|apply Hvalid'; reflexivity].
Qed.

Lemma wlp_RunFrame (me : Z) (t : Turn) (s : Session) :
  Inv bounded me s -> valid_poll bounded me (closing_arrivals t) (arrivals t) s ->
  wlp (RunFrame t) (fun _ => Inv bounded me) s.
Proof.
  intros HInv Hvalid. unfold RunFrame. apply wlp_bind.
  eapply wlp_mono; [|apply (wlp_PollEnet me); [exact HInv|exact Hvalid]].
  intros u s1 HInv1. cbv beta in HInv1. wlp_next.
  destruct (s_ggpo s1); wlp_prim; [|exact HInv1].
  apply (Inv_roster me s1); [reflexivity|exact HInv1].
Qed.

Lemma wlp_ExecuteNetplay_turn (me : Z) (t : Turn) (s : Session) :
  Inv bounded me s -> valid_turn bounded me t s ->
  wlp (ExecuteNetplay_turn t) (fun _ => Inv bounded me) s.
Proof.
  intros HInv Hvalid. unfold ExecuteNetplay_turn. wlp_next.
  unfold valid_turn in Hvalid.
  destruct (s_state s) eqn:Hst; try wlp_prim.
  - apply wlp_UpdateConnectingState; assumption.
  - apply wlp_UpdateResetState; [exact HInv| |exact Hvalid].
    unfold IsActive. rewrite Hst. reflexivity.
  - destruct Hvalid as [Hfirst Hsecond].
    apply wlp_bind_inv in Hsecond. apply wlp_bind.
    eapply wlp_mono; [|apply wlp_and; [apply (wlp_RunFrame me); eassumption|exact Hsecond]].
    intros u s2 [HInv2 Hvalid2]. cbv beta in *. wlp_next. wlp_next.
    set (s3 := record Host_PumpMessagesOnCPUThread s2).
    assert (HInv3 : Inv bounded me s3) by (apply (Inv_roster me s2); [reflexivity|exact HInv2]).
    destruct (system s3) eqn:Hsys; [|wlp_prim; exact HInv3].
    wlp_next. apply (wlp_PollEnet me).
    + apply (Inv_roster me s3); [reflexivity|exact HInv3].
    + change (system (record System_PresentFrame s3) <> None ->
              valid_poll bounded me (closing_arrivals t) (throttle_arrivals t)
                (record System_PresentFrame s3)) in Hvalid2.
      apply Hvalid2. change (system s3 <> None). rewrite Hsys. discriminate.
  - apply wlp_CloseSession. apply Inv_Base. exact HInv.
Qed.

Lemma wlp_ExecuteNetplay_loop_one (me : Z) (t : Turn) (s : Session) :
  Inv bounded me s -> valid_turn bounded me t s ->
  wlp (ExecuteNetplay_loop [t]) (fun _ => Inv bounded me) s.
Proof.
  intros HInv Hvalid. cbn [ExecuteNetplay_loop]. wlp_next.
  destruct (state_is (s_state s) Inactive); [wlp_prim; exact HInv|].
  apply wlp_bind.
  eapply wlp_mono; [|apply (wlp_ExecuteNetplay_turn me); eassumption].
  intros u s' HInv'. wlp_prim. exact HInv'.
Qed.

Lemma wlp_ExecuteNetplay_loop (me : Z) (turns : list Turn) (s : Session) :
  Inv bounded me s -> valid_turns bounded me turns s ->
  wlp (ExecuteNetplay_loop turns) (fun _ => Inv bounded me) s.
Proof.
  revert s. induction turns as [|t turns IH]; intros s HInv Hvalid; [exact HInv|].
  destruct Hvalid as [Hturn Hrest].
  apply (wlp_rewrite _ _ _ _ (ExecuteNetplay_loop_cons t turns s)).
  apply wlp_bind.
  eapply wlp_mono;
    [|apply wlp_and; [apply (wlp_ExecuteNetplay_loop_one me); eassumption|exact Hrest]].
  intros u s' [HInv' Hvalid']. apply IH; assumption.
Qed.

Lemma wlp_ExecuteNetplay (me : Z) (turns : list Turn) (s : Session) :
  Inv bounded me s -> valid_run bounded me turns s ->
  wlp (ExecuteNetplay turns) (fun _ => Inv bounded me) s.
Proof.
  intros HInv Hvalid. unfold ExecuteNetplay. wlp_next.
  apply wlp_ExecuteNetplay_loop; [|exact Hvalid].
  apply (Inv_roster me s); [reflexivity|exact HInv].
Qed.

End OuterLoop.

(** ** Who starts the Running state *)

Section Quiet.
Context `{platform : Platform}.

Lemma quiet_neutral {A} (m : M A) : neutral m -> quiet m.
Proof.
  intros Hn s. eapply wlp_mono; [|apply Hn].
  intros a s' Hr. destruct (roster_eq_inv s s' Hr) as (-> & _). auto.
Qed.

Lemma quiet_bind {A B} (m : M A) (k : A -> M B) :
  quiet m -> (forall a, quiet (k a)) -> quiet (bind m k).
Proof.
  intros Hm Hk s. apply wlp_bind. eapply wlp_mono; [|apply Hm].
  intros a s' Hs'. cbv beta in Hs'. eapply wlp_mono; [|apply Hk].
  intros b s'' Hs''. cbv beta in Hs''. auto.
Qed.

Lemma quiet_if {A} (c : bool) (m1 m2 : M A) :
  quiet m1 -> quiet m2 -> quiet (if c then m1 else m2).
Proof. destruct c; auto. Qed.

Lemma quiet_modify (f : Session -> Session) :
  (forall s, s_state (f s) = s_state s \/ s_state (f s) <> Running) ->
  quiet (modify f).
Proof. intros Hf s Hrun. destruct (Hf s) as [<-|Hne]; [exact Hrun|contradiction]. Qed.

Lemma quiet_peers_update (i : Z) (f : Peer -> Peer) : quiet (peers_update i f).
Proof. intros s. apply wlp_peers_update. intros p _ _ H. exact H. Qed.

Lemma quiet_reset_players_set (pos : Z) : quiet (reset_players_set pos).
Proof. intros s. apply wlp_reset_players_set. intros _ H. exact H. Qed.

Lemma quiet_for {A} (l : list A) (body : A -> M unit) :
  (forall x, quiet (body x)) -> quiet (for_ l body).
Proof.
  intros Hbody s.
  apply (wlp_for l body (fun s' => s_state s' = Running -> s_state s = Running)); [|auto].
  intros x s' _ Hs'. eapply wlp_mono; [|apply Hbody].
  intros u s'' Hs''. cbv beta in Hs''. auto.
Qed.

Ltac quiet_step :=
  cbv zeta;
  lazymatch goal with
  | |- quiet (bind _ _) => apply quiet_bind; [|intros ?]
  | |- quiet (if _ then _ else _) => apply quiet_if
  | |- quiet (peers_update _ _) => apply quiet_peers_update
  | |- quiet (reset_players_set _) => apply quiet_reset_players_set
  | |- quiet (modify _) =>
      apply quiet_modify; intros ?; first [left; reflexivity | right; discriminate]
  | |- quiet _ =>
      apply quiet_neutral;
      first [ apply neutral_ret | apply neutral_gets | apply neutral_call
            | apply neutral_abort | apply neutral_Assert | apply neutral_deref
            | apply neutral_peers_at | apply neutral_bitset_test
            | apply neutral_CheckReceivedPacket | apply neutral_DestroyGGPOSession
            | apply neutral_CreateGGPOSession | apply neutral_SendControlPacketToAll
            | apply neutral_send_to_each
            | apply neutral_SendControlPacketToPlayer | apply neutral_SendControlPacket
            | apply neutral_NotifyPlayerJoined | apply neutral_RequestReset
            | apply neutral_reset_player_entries
            | apply neutral_HandlePlayerJoinedMessage | apply neutral_HandleChatMessage
            | apply neutral_HandleDropPlayerMessage ]
  end.

Ltac quiet_auto := repeat quiet_step.

Lemma quiet_CloseSessionWithError (message : string) :
  quiet (CloseSessionWithError message).
Proof. unfold CloseSessionWithError. quiet_auto. Qed.

Lemma quiet_drain_events (evs : list ENetEvent) : quiet (drain_events evs).
Proof.
  induction evs as [|ev evs IH]; [apply quiet_neutral, neutral_ret|].
  simpl. apply quiet_bind; [|intros finished; destruct finished;
                              [apply quiet_neutral, neutral_ret|exact IH]].
  unfold drain_event. apply quiet_bind.
  - destruct ev; quiet_auto.
  - intros _. quiet_auto.
Qed.

Lemma quiet_RequestCloseSession closing reason :
  quiet (RequestCloseSession closing reason).
Proof.
  unfold RequestCloseSession. quiet_auto.
  - unfold for_each_player. apply quiet_for. intros i. quiet_auto.
    destruct (slot_peer _ i); quiet_auto.
  - destruct (system _); [|quiet_auto].
    apply quiet_bind; [apply quiet_neutral, neutral_deref|intros _].
    apply quiet_drain_events.
Qed.

Lemma quiet_Reset : quiet Reset.
Proof.
  unfold Reset. quiet_auto.
  destruct (_ ≫= System_SaveStateToStream); quiet_auto.
  destruct (_ ≫= System_LoadStateFromStream _); quiet_auto.
Qed.

Lemma quiet_DropPlayer (player_id : Z) reason : quiet (DropPlayer player_id reason).
Proof. unfold DropPlayer. quiet_auto. apply quiet_Reset. Qed.

Lemma quiet_HandleMessageFromNewPeer (p : ENetPeer) (pkt : ENetPacket) :
  quiet (HandleMessageFromNewPeer p pkt).
Proof.
  unfold HandleMessageFromNewPeer.
  destruct (payload pkt); quiet_auto.
  destruct a as [msg|]; quiet_auto.
  destruct (ConnectRequestMessage.mode msg); quiet_auto. apply quiet_Reset.
Qed.

Lemma quiet_reset_check_connection (msg : ResetMessage.t) (i : nat) :
  quiet (reset_check_connection msg i).
Proof.
  unfold reset_check_connection. quiet_auto.
  - destruct (ResetMessage.players msg !! i); quiet_auto.
  - destruct (peer _); quiet_auto.
  - destruct (peer _); quiet_auto.
  - destruct (enet_host_connect _ _ _) as [[q h']|]; quiet_auto.
Qed.

Lemma quiet_HandleResetMessage (player_id : Z) (pkt : ENetPacket) (msg : ResetMessage.t) :
  quiet (HandleResetMessage player_id pkt msg).
Proof.
  unfold HandleResetMessage. quiet_auto.
  - apply quiet_CloseSessionWithError.
  - unfold for_each_player. apply quiet_for. intros i.
    apply quiet_reset_check_connection.
  - destruct (_ ≫= System_LoadStateFromStream _); quiet_auto.
Qed.

Lemma quiet_HandleResetCompleteMessage (player_id : Z) (pkt : ENetPacket) view :
  quiet (HandleResetCompleteMessage player_id pkt view).
Proof.
  unfold HandleResetCompleteMessage. quiet_auto.
  destruct a as [msg|]; quiet_auto.
Qed.

Lemma quiet_HandleConnectResponseMessage (player_id : Z) (pkt : ENetPacket) view :
  quiet (HandleConnectResponseMessage player_id pkt view).
Proof.
  unfold HandleConnectResponseMessage. quiet_auto.
  destruct (ConnectResponseMessage.result _); quiet_auto;
    apply quiet_CloseSessionWithError.
Qed.

Lemma quiet_HandleResetRequestMessage (player_id : Z) (pkt : ENetPacket) view :
  quiet (HandleResetRequestMessage player_id pkt view).
Proof.
  unfold HandleResetRequestMessage. quiet_auto.
  destruct a as [msg|]; quiet_auto. apply quiet_Reset.
Qed.

Lemma quiet_HandleCloseSessionMessage closing (player_id : Z) (pkt : ENetPacket) view :
  quiet (HandleCloseSessionMessage closing player_id pkt view).
Proof.
  unfold HandleCloseSessionMessage. quiet_auto.
  destruct a as [msg|]; quiet_auto. apply quiet_RequestCloseSession.
Qed.

(** ResumeSession is the one message that starts the Running state, and
    only when it comes from the host's slot. *)
Lemma wlp_HandleResumeSessionMessage_other (player_id : Z) (pkt : ENetPacket)
    (s : Session) :
  player_id <> s_host_player_id s ->
  wlp (HandleResumeSessionMessage player_id pkt)
      (fun _ s' => s_state s' = Running -> s_state s = Running) s.
Proof.
  intros Hne. unfold HandleResumeSessionMessage.
  apply wlp_bind. apply wlp_CheckReceivedPacket. intros msg s1 E1 _.
  destruct (roster_eq_inv s s1 E1) as (Hst & _ & Hh & _).
  destruct msg as [msg|]; [|wlp_prim; congruence].
  wlp_next. rewrite Hh.
  destruct (Z.eqb_spec player_id (s_host_player_id s)); [contradiction|].
  rewrite orb_true_r. wlp_prim. cbn. congruence.
Qed.

Lemma wlp_HandleControlMessage_quiet closing (player_id : Z) (pkt : ENetPacket)
    (s : Session) :
  player_id <> s_host_player_id s ->
  wlp (HandleControlMessage closing player_id pkt)
      (fun _ s' => s_state s' = Running -> s_state s = Running) s.
Proof.
  intros Hne. unfold HandleControlMessage.
  destruct (dataLength pkt <? sizeof_ControlMessageHeader); [wlp_prim; auto|].
  destruct (payload pkt).
  - wlp_prim. auto.
  - apply quiet_HandleConnectResponseMessage.
  - apply quiet_HandleResetMessage.
  - apply quiet_HandleResetCompleteMessage.
  - apply wlp_HandleResumeSessionMessage_other. exact Hne.
  - apply quiet_neutral, neutral_HandlePlayerJoinedMessage.
  - apply quiet_neutral, neutral_HandleDropPlayerMessage.
  - apply quiet_HandleResetRequestMessage.
  - apply quiet_HandleCloseSessionMessage.
  - apply quiet_neutral, neutral_HandleChatMessage.
  - wlp_prim. auto.
Qed.

(** On the host no event starts the Running state: no packet comes from
    the host's own slot. *)
Lemma wlp_HandleEnetEvent_quiet (me : Z) closing (event : ENetEvent) (s : Session) :
  Base me s -> me = 0 ->
  wlp (HandleEnetEvent closing event)
      (fun _ s' => s_state s' = Running -> s_state s = Running) s.
Proof.
  intros (_ & Hh & _ & Hz) Hme. unfold HandleEnetEvent. wlp_next.
  destruct event as [p data|p|p channel pkt|].
  - destruct (IsHost s).
    + unfold HandlePeerConnectionAsHost. wlp_prim. auto.
    + unfold HandlePeerConnectionAsNonHost. wlp_next.
      assert (Hq : quiet (bind (call (Log Error "Unexpected connection"))
                               (fun _ => call (enet_peer_disconnect_now p)))).
      { quiet_auto. }
      destruct (state_is (s_state s) Connecting).
      * wlp_next.
        destruct (match peer p0 with Some q => same_peer q p | None => false end).
        -- apply quiet_neutral, neutral_SendConnectRequest.
        -- apply Hq.
      * wlp_next.
        destruct ((Int.s32 data <? 0) || (Z.of_nat MAX_PLAYERS <=? Int.s32 data)
                  || (Int.s32 data =? s_player_id s)).
        -- wlp_seq. auto.
        -- wlp_next. wlp_next.
           destruct (match peer p0 with Some q => same_peer q p | None => false end).
           ++ wlp_prim. auto.
           ++ wlp_next. wlp_next. auto.
  - destruct (state_is (s_state s) Connecting); [wlp_next; wlp_prim|].
    destruct (state_is (s_state s) Resetting); [wlp_prim; auto|].
    wlp_next. destruct (IsValidPlayerId s (GetPlayerIdForPeer s p)); [|wlp_prim; auto].
    destruct (IsHost s).
    + unfold HandlePeerDisconnectionAsHost. wlp_next.
      eapply wlp_mono; [|apply quiet_DropPlayer]. auto.
    + unfold HandlePeerDisconnectionAsNonHost. wlp_next. wlp_next.
      destruct (_ =? _).
      * eapply wlp_mono; [|apply quiet_CloseSessionWithError]. auto.
      * eapply wlp_mono; [|apply quiet_neutral, neutral_RequestReset]. auto.
  - destruct (Z.ltb_spec (GetPlayerIdForPeer s p) 0) as [Hnew|Hknown].
    + destruct channel; try (wlp_prim; auto).
      apply quiet_HandleMessageFromNewPeer.
    + destruct (GetPlayerIdForPeer_known s p Hknown) as [Hrange Hhas].
      destruct channel; try (wlp_prim; auto).
      apply wlp_HandleControlMessage_quiet. rewrite Hh. intros Hzero.
      rewrite Hzero in Hhas. change (Z.to_nat 0) with 0%nat in Hhas.
      rewrite (Hz Hme) in Hhas. discriminate.
  - wlp_prim. auto.
Qed.

Lemma wlp_PollEnet_one_quiet (me : Z) closing (ev : ENetEvent) (s : Session) :
  Base me s -> me = 0 ->
  wlp (PollEnet closing [ev])
      (fun _ s' => s_state s' = Running -> s_state s = Running) s.
Proof.
  intros Hb Hme. cbn [PollEnet]. wlp_next.
  destruct (IsActive s) eqn:Hact; [|wlp_prim; auto].
  wlp_next. apply wlp_bind.
  eapply wlp_mono; [|apply (wlp_HandleEnetEvent_quiet me closing ev s Hb Hme)].
  intros u s1 Hq1. cbv beta in *. wlp_next. apply wlp_bind.
  apply wlp_neutral.
  { destruct (s_ggpo s1); [apply neutral_call|apply neutral_ret]. }
  intros _ s1' Hs1'.
  destruct (roster_eq_inv _ _ Hs1') as (Hst1 & _).
  wlp_next.
  destruct (IsActive s1'); [wlp_next; wlp_prim|wlp_prim]; rewrite Hst1; exact Hq1.
Qed.

Lemma wlp_PollEnet_quiet (me : Z) closing (events : list ENetEvent) (s : Session) :
  Inv bounded me s -> me = 0 -> valid_poll bounded me closing events s ->
  wlp (PollEnet closing events)
      (fun _ s' => s_state s' = Running -> s_state s = Running) s.
Proof.
  intros HInv Hme. revert s HInv.
  induction events as [|ev events IH]; intros s HInv Hvalid.
  - apply wlp_PollEnet_nil. auto.
  - destruct Hvalid as [Hev Hrest].
    apply (wlp_rewrite _ _ _ _ (PollEnet_cons closing ev events s)).
    apply wlp_bind.
    eapply wlp_mono;
      [|apply wlp_and;
        [apply wlp_and;
         [apply (wlp_PollEnet_one me closing ev s HInv Hev)
         |apply (wlp_PollEnet_one_quiet me closing ev s (Inv_Base me s HInv) Hme)]
        |exact Hrest]].
    intros u s1 [[HInv1 Hq1] Hvalid1]. cbv beta in *.
    eapply wlp_mono; [|apply IH; assumption].
    intros u' s2 Hq2. cbv beta in Hq2. auto.
Qed.

(** *** What starts the Running state on a joiner *)

Lemma wlp_HandleResumeSessionMessage_from (player_id : Z) (pkt : ENetPacket)
    (s : Session) :
  wlp (HandleResumeSessionMessage player_id pkt)
      (fun _ s' => s_state s' = Running ->
                   s_state s = Running
                   \/ (s_state s = Resetting /\ player_id = s_host_player_id s)) s.
Proof.
  unfold HandleResumeSessionMessage.
  apply wlp_bind. apply wlp_CheckReceivedPacket. intros msg s1 E1 _.
  destruct (roster_eq_inv s s1 E1) as (Hst & _ & Hh & _).
  destruct msg as [msg|]; [|wlp_prim; left; congruence].
  wlp_next. rewrite Hh.
  destruct (state_is (s_state s1) Resetting) eqn:Hres; cbn [negb orb].
  2:{ wlp_prim. cbn. left. congruence. }
  destruct (Z.eqb_spec player_id (s_host_player_id s)) as [Heq|Hne]; cbn [negb].
  2:{ wlp_prim. cbn. left. congruence. }
  assert (Hs : s_state s = Resetting).
  { rewrite <- Hst. destruct (s_state s1); try discriminate. reflexivity. }
  unfold wlp. destruct (bind _ _ s1) as [[u|f] s2]; [|exact I].
  intros _. right. split; [exact Hs|exact Heq].
Qed.

Lemma wlp_HandleControlMessage_resume closing (player_id : Z) (pkt : ENetPacket)
    (s : Session) :
  wlp (HandleControlMessage closing player_id pkt)
      (fun _ s' => s_state s' = Running ->
                   s_state s = Running
                   \/ (s_state s = Resetting /\ payload pkt = ResumeSessionP
                       /\ player_id = s_host_player_id s)) s.
Proof.
  unfold HandleControlMessage.
  destruct (dataLength pkt <? sizeof_ControlMessageHeader); [wlp_prim; auto|].
  assert (Hleft : forall (m : M unit),
            quiet m ->
            wlp m (fun _ s' => s_state s' = Running ->
                               s_state s = Running
                               \/ (s_state s = Resetting /\ payload pkt = ResumeSessionP
                                   /\ player_id = s_host_player_id s)) s).
  { intros m Hm. eapply wlp_mono; [|apply Hm]. intros u s' H Hrun. left. exact (H Hrun). }
  destruct (payload pkt) eqn:Hpay.
  - wlp_prim. auto.
  - apply Hleft, quiet_HandleConnectResponseMessage.
  - apply Hleft, quiet_HandleResetMessage.
  - apply Hleft, quiet_HandleResetCompleteMessage.
  - eapply wlp_mono; [|apply wlp_HandleResumeSessionMessage_from].
    intros u s' H Hrun. destruct (H Hrun) as [Hr|[Hr Hfrom]]; [left; exact Hr|].
    right. auto.
  - apply Hleft, quiet_neutral, neutral_HandlePlayerJoinedMessage.
  - apply Hleft, quiet_neutral, neutral_HandleDropPlayerMessage.
  - apply Hleft, quiet_HandleResetRequestMessage.
  - apply Hleft, quiet_HandleCloseSessionMessage.
  - apply Hleft, quiet_neutral, neutral_HandleChatMessage.
  - wlp_prim. auto.
Qed.

(** An event starts the Running state only as a ResumeSession that a
    session in the Resetting state gets from the peer of the host's
    slot. *)
Lemma wlp_HandleEnetEvent_resume closing (event : ENetEvent) (s : Session) :
  wlp (HandleEnetEvent closing event)
      (fun _ s' => s_state s' = Running ->
                   s_state s = Running \/ resumed_by_host s event) s.
Proof.
  assert (Hleft : forall (ev : ENetEvent) (m : M unit),
            wlp m (fun _ s' => s_state s' = Running -> s_state s = Running) s ->
            wlp m (fun _ s' => s_state s' = Running ->
                               s_state s = Running \/ resumed_by_host s ev) s).
  { intros ev m Hm. eapply wlp_mono; [|exact Hm]. intros u s' H Hrun. left. exact (H Hrun). }
  unfold HandleEnetEvent. wlp_next.
  destruct event as [p data|p|p channel pkt|].
  - apply Hleft. destruct (IsHost s).
    + unfold HandlePeerConnectionAsHost. wlp_prim. auto.
    + unfold HandlePeerConnectionAsNonHost. wlp_next.
      assert (Hq : quiet (bind (call (Log Error "Unexpected connection"))
                               (fun _ => call (enet_peer_disconnect_now p)))).
      { quiet_auto. }
      destruct (state_is (s_state s) Connecting).
      * wlp_next.
        destruct (match peer p0 with Some q => same_peer q p | None => false end).
        -- apply quiet_neutral, neutral_SendConnectRequest.
        -- apply Hq.
      * wlp_next.
        destruct ((Int.s32 data <? 0) || (Z.of_nat MAX_PLAYERS <=? Int.s32 data)
                  || (Int.s32 data =? s_player_id s)).
        -- wlp_seq. auto.
        -- wlp_next. wlp_next.
           destruct (match peer p0 with Some q => same_peer q p | None => false end).
           ++ wlp_prim. auto.
           ++ wlp_next. wlp_next. auto.
  - apply Hleft.
    destruct (state_is (s_state s) Connecting); [wlp_next; wlp_prim|].
    destruct (state_is (s_state s) Resetting); [wlp_prim; auto|].
    wlp_next. destruct (IsValidPlayerId s (GetPlayerIdForPeer s p)); [|wlp_prim; auto].
    destruct (IsHost s).
    + unfold HandlePeerDisconnectionAsHost. wlp_next.
      eapply wlp_mono; [|apply quiet_DropPlayer]. auto.
    + unfold HandlePeerDisconnectionAsNonHost. wlp_next. wlp_next.
      destruct (_ =? _).
      * eapply wlp_mono; [|apply quiet_CloseSessionWithError]. auto.
      * eapply wlp_mono; [|apply quiet_neutral, neutral_RequestReset]. auto.
  - destruct (Z.ltb_spec (GetPlayerIdForPeer s p) 0) as [Hnew|Hknown].
    + apply Hleft. destruct channel; try (wlp_prim; auto).
      apply quiet_HandleMessageFromNewPeer.
    + destruct channel; try (apply Hleft; wlp_prim; auto).
      eapply wlp_mono; [|apply wlp_HandleControlMessage_resume].
      intros u s' H Hrun. destruct (H Hrun) as [Hr|(Hr & Hpay & Hfrom)]; [left; exact Hr|].
      right. split; [exact Hr|]. exists p, pkt. auto.
  - apply Hleft. wlp_prim. auto.
Qed.

Lemma PollEnet_one_resumes closing (ev : ENetEvent) (s s' : Session) :
  PollEnet closing [ev] s = (Returned tt, s') ->
  s_state s' = Running ->
  s_state s = Running
  \/ (resumed_by_host s ev /\ PollEnet closing [] s = (Returned tt, s)).
Proof.
  intros Hrun Hst'.
  destruct (IsActive s) eqn:Hact.
  2:{ rewrite PollEnet_stopped in Hrun by exact Hact. left. congruence. }
  destruct (s_enet_host s) as [h|] eqn:Hh.
  2:{ rewrite PollEnet_start in Hrun by assumption. discriminate. }
  rewrite (PollEnet_step closing ev [] s h Hact Hh) in Hrun.
  pose proof (wlp_HandleEnetEvent_resume closing ev s) as Hev. unfold wlp in Hev.
  destruct (HandleEnetEvent closing ev s) as [[[]|f] s1]; [|discriminate].
  assert (Hst1 : s_state s1 = Running).
  { destruct (s_ggpo s1); rewrite PollEnet_nil_run in Hrun; inversion Hrun; subst s';
      exact Hst'. }
  destruct (Hev Hst1) as [Hr|Hres]; [left; exact Hr|right].
  split; [exact Hres|]. rewrite PollEnet_nil_run, Hact, Hh. reflexivity.
Qed.

(** A poll starts the Running state only by handling such a
    ResumeSession. *)
Lemma PollEnet_resumes closing (events : list ENetEvent) (s s' : Session) :
  PollEnet closing events s = (Returned tt, s') ->
  s_state s' = Running ->
  s_state s = Running
  \/ exists before ev after s_k,
       events = (before ++ ev :: after)%list
       /\ PollEnet closing before s = (Returned tt, s_k)
       /\ resumed_by_host s_k ev.
Proof.
  revert s. induction events as [|ev events IH]; intros s Hrun Hst'.
  - rewrite PollEnet_nil_run in Hrun. left. inversion Hrun. subst s'. exact Hst'.
  - rewrite PollEnet_cons in Hrun. unfold bind in Hrun.
    destruct (PollEnet closing [ev] s) as [[[]|f] s1] eqn:E1; [|discriminate].
    destruct (IH s1 Hrun Hst') as [Hr1|(before & ev' & after & s_k & Hev & Hk & Hres)].
    + destruct (PollEnet_one_resumes closing ev s s1 E1 Hr1) as [Hr|[Hres Hnil]];
        [left; exact Hr|right].
      exists [], ev, events, s. auto.
    + right. exists (ev :: before), ev', after, s_k.
      split; [rewrite Hev; reflexivity|]. split; [|exact Hres].
      rewrite PollEnet_cons. unfold bind. rewrite E1. exact Hk.
Qed.

Lemma quiet_mark_connected (t : Turn) (i : nat) : quiet (mark_connected t i).
Proof.
  unfold mark_connected. quiet_auto.
  destruct (slot_peer _ i); quiet_auto.
Qed.

(** On a joiner [UpdateResetState] does not start the Running state
    before it polls. *)
Lemma wlp_UpdateResetState_before_poll_quiet (t : Turn) (s : Session) :
  IsHost s = false ->
  wlp (UpdateResetState_before_poll t)
      (fun _ s' => s_state s' = Running -> s_state s = Running) s.
Proof.
  intros Hhost. unfold UpdateResetState_before_poll. wlp_next. rewrite Hhost.
  assert (Hq : quiet
            (if negb (reset_players_count s =? s_num_players s)
             then
               bind (for_each_player (mark_connected t)) (fun _ =>
               bind (gets id) (fun s0 =>
               bind (if reset_players_count s0 =? s_num_players s0
                     then
                       bind (call (Log Info "Connected to all players, waiting for host..."))
                            (fun _ =>
                               SendControlPacketToPlayer (s_host_player_id s0)
                                 (NewControlPacket ControlMessage.ResetComplete
                                    (ResetCompleteP
                                       {| ResetCompleteMessage.cookie := s_reset_cookie s0 |})
                                    []))
                     else ret tt) (fun _ =>
               if MAX_CONNECT_TIME_ms * 2 <=? reset_elapsed_ms t
               then bind (CloseSessionWithError "Failed to connect within timeout")
                         (fun _ => ret false)
               else ret true)))
             else ret true)).
  { quiet_auto.
    - unfold for_each_player. apply quiet_for. intros i. apply quiet_mark_connected.
    - apply quiet_CloseSessionWithError. }
  apply Hq.
Qed.

End Quiet.

(** ** Start establishes the invariant *)

Section Starting.
Context `{platform : Platform}.

Lemma bitset_of_Z_one : bitset_of_Z 1 = <[0%nat := true]> bitset_none.
Proof.
  unfold bitset_of_Z, bitset_none. change (map ?f ?l) with (f <$> l).
  apply list_eq. intros i. rewrite list_lookup_fmap.
  destruct (Nat.lt_ge_cases i MAX_PLAYERS) as [Hi|Hi].
  - rewrite lookup_seq_lt by exact Hi. cbn [fmap option_fmap option_map Nat.add].
    destruct i as [|i].
    + rewrite list_lookup_insert_eq by (rewrite length_replicate; exact Hi). reflexivity.
    + rewrite list_lookup_insert_ne by discriminate.
      rewrite lookup_replicate_2 by exact Hi. reflexivity.
  - rewrite lookup_seq_ge by exact Hi. symmetry. apply lookup_ge_None.
    rewrite length_insert, length_replicate. exact Hi.
Qed.

Lemma occupied_count_alone (s : Session) :
  (forall i, has_peer s i = false) -> occupied_count s <= 1.
Proof.
  intros Hnone. unfold occupied_count.
  assert (Hle : forall l, NoDup l ->
            count_if (occupied s) l <= if bool_decide (Z.to_nat (s_player_id s) ∈ l)
                                       then 1 else 0).
  { induction l as [|i l IH]; intros Hnd; [simpl; lia|].
    apply NoDup_cons in Hnd as [Hi Hnd]. specialize (IH Hnd). simpl.
    unfold occupied at 1, IsValidPlayerId. rewrite Hnone, andb_false_r, orb_false_r.
    destruct (Z.eqb_spec (s_player_id s) (Z.of_nat i)) as [Heq|Hne].
    - rewrite Heq, Nat2Z.id in *.
      rewrite bool_decide_eq_true_2 by left.
      rewrite bool_decide_eq_false_2 in IH by exact Hi. lia.
    - destruct (bool_decide (Z.to_nat (s_player_id s) ∈ l)) eqn:Hin.
      + apply bool_decide_eq_true in Hin.
        rewrite bool_decide_eq_true_2 by (right; exact Hin). lia.
      + destruct (bool_decide (Z.to_nat (s_player_id s) ∈ i :: l)); lia. }
  specialize (Hle (seq 0 MAX_PLAYERS) (NoDup_seq _ _)).
  destruct (bool_decide _); lia.
Qed.

Lemma fresh_roster (s s' : Session) : roster s' = roster s -> fresh s -> fresh s'.
Proof.
  intros Hr ((Hl & Hb) & Hin & Hnone & Hn).
  destruct (roster_eq_inv s s' Hr) as (Hst & Hp & _ & _ & Hn' & Hb' & Hlen).
  repeat split; try congruence.
  - rewrite (IsActive_roster s s' Hr). exact Hin.
  - intros i. rewrite (has_peer_ext s s' Hp). apply Hnone.
Qed.

Lemma neutral_CreateSystem : neutral CreateSystem.
Proof.
  unfold CreateSystem.
  apply neutral_bind; [apply neutral_gets|intros s].
  apply neutral_bind.
  - destruct (system s); [|apply neutral_ret].
    apply neutral_bind; [apply neutral_call|intros _]. apply neutral_modify. reflexivity.
  - intros _. destruct System_BootSystem; [|apply neutral_ret].
    apply neutral_bind; [apply neutral_modify; reflexivity|intros _]. apply neutral_ret.
Qed.

Lemma wlp_Start (me : Z) (is_hosting : bool) (nickname remote_addr : string)
    (port ldelay : Z) (s : Session) :
  fresh s -> in_range me = true ->
  (if is_hosting then me = 0 else me <> 0) ->
  wlp (Start is_hosting nickname remote_addr port ldelay)
      (fun r s' => r = true -> Inv bounded me s') s.
Proof.
  intros Hfresh Hme Hrole. unfold Start. wlp_next.
  destruct (IsActive s); [wlp_seq; discriminate|].
  destruct ((port <? 0) || (65535 <=? port)); [wlp_seq; discriminate|].
  apply wlp_bind. apply wlp_neutral.
  { destruct (system s); [apply neutral_ret|].
    apply neutral_if.
    - apply neutral_bind; [apply neutral_call|intros _; apply neutral_ret].
    - apply neutral_bind; [apply neutral_CreateSystem|intros created].
      apply neutral_if; [apply neutral_ret|].
      apply neutral_bind; [apply neutral_call|intros _; apply neutral_ret]. }
  intros have_system s1 E1.
  pose proof (fresh_roster s s1 E1 Hfresh) as ((Hl & Hb) & _ & Hnone & Hn).
  destruct have_system; cbn [negb]; [|wlp_prim; discriminate].
  wlp_next. wlp_next.
  destruct enet_initialize; cbn [negb]; [|wlp_seq; discriminate].
  destruct (enet_host_create _) as [h|]; [|wlp_seq; discriminate].
  wlp_next. wlp_next. wlp_next. wlp_next. wlp_next. wlp_next.
  destruct is_hosting.
  - subst me. wlp_next. wlp_next. wlp_next.
    apply wlp_bind. apply wlp_neutral; [apply neutral_CreateGGPOSession|].
    intros _ s2 E2. wlp_seq. intros _.
    destruct (roster_eq_inv _ _ E2) as (_ & Hp2 & Hh2 & Hid2 & Hn2 & Hb2 & Hlen2).
    cbn [s_host_player_id s_player_id s_num_players s_reset_players s_peers
         set_reset_players set_num_players set_player_id set_reset_cookie set_local_delay
         set_local_nickname set_host_player_id set_enet_host record set_state]
      in Hh2, Hid2, Hn2, Hb2, Hlen2.
    assert (Hnone2 : forall i, has_peer s2 i = false).
    { intros i. rewrite (has_peer_ext _ _ Hp2). apply Hnone. }
    apply Inv_fresh_reset.
    + repeat split; cbn [s_peers s_reset_players s_host_player_id record set_state].
      * congruence.
      * rewrite Hb2, bitset_of_Z_one, length_insert. apply length_bitset_none.
      * exact Hh2.
      * exact Hme.
      * intros _. apply Hnone2.
    + cbn. discriminate.
    + cbn. exact Hid2.
    + cbn [s_reset_players record set_state]. rewrite Hb2. apply bitset_of_Z_one.
    + intros _. cbn [s_num_players record set_state]. rewrite Hn2.
      etransitivity; [|apply (occupied_count_alone s2 Hnone2)].
      apply Z.eq_le_incl. apply occupied_count_ext; [|reflexivity].
      intros i. reflexivity.
  - wlp_next. wlp_next.
    destruct (enet_address_set_host remote_addr) as [ip|]; [|wlp_seq; discriminate].
    wlp_next. wlp_next.
    destruct (enet_host_connect _ _ _) as [[hp h']|].
    + wlp_seq. intros _.
      cbn [s_peers s_host_player_id set_enet_host set_host_address set_player_id
           set_reset_players set_reset_cookie set_local_delay set_local_nickname
           set_host_player_id record set_state] in *.
      change (Z.to_nat 0) with 0%nat in *.
      split; [|split; [reflexivity|split; [exact Hme|split; [intros; contradiction|]]]].
      { split; cbn [s_peers s_reset_players set_peers record set_state].
        - rewrite length_insert. exact Hl.
        - apply length_bitset_none. }
      intros _. left. split; [exact Hrole|]. split; [right; reflexivity|].
      split; [exact Hn|]. split; [reflexivity|]. split; [discriminate|].
      intros _ i Hi. destruct i as [|i]; [reflexivity|exfalso].
      revert Hi. unfold has_peer, slot_peer.
      cbn [s_peers set_peers record set_state].
      rewrite list_lookup_insert_ne by discriminate.
      specialize (Hnone (S i)). unfold has_peer, slot_peer in Hnone.
      rewrite Hnone. discriminate.
    + wlp_seq. discriminate.
Qed.

End Starting.

(** ** The reset set and the transition to Running *)

Section ResetPlayers.
Context `{platform : Platform}.

Lemma Inv_is_host (s : Session) : Inv bounded 0 s -> IsActive s = true -> IsHost s = true.
Proof.
  intros (_ & Hh & _ & _ & Hphase) Hact.
  destruct (Hphase Hact) as [(Hne & _)|(_ & Hid & _)]; [contradiction|].
  unfold IsHost. rewrite Hid, Hh. reflexivity.
Qed.

(** The host's timeout loop leaves the session in the Resetting state. *)
Lemma wlp_drop_unsynchronized_resetting (me : Z) (i : nat) (s : Session) :
  Inv bounded me s /\ s_state s = Resetting /\ IsHost s = true ->
  wlp (drop_unsynchronized i)
      (fun _ s' => Inv bounded me s' /\ s_state s' = Resetting /\ IsHost s' = true) s.
Proof.
  intros (HInv & Hst & Hhost).
  assert (Hact : IsActive s = true) by (unfold IsActive; rewrite Hst; reflexivity).
  unfold drop_unsynchronized. wlp_next.
  destruct (negb (IsValidPlayerId s (Z.of_nat i))); [wlp_prim; auto|].
  wlp_next. destruct x; [wlp_prim; auto|]. wlp_next.
  set (s1 := record (Log Dev "Dropping player because they didn't connect in time") s).
  assert (HInv1 : Inv bounded me s1) by (apply (Inv_roster me s); [reflexivity|exact HInv]).
  destruct (Inv_host me s HInv Hact Hhost) as [Hme _].
  eapply wlp_mono; [|apply (wlp_DropPlayer_resetting me); [exact HInv1|exact Hact|exact Hhost]].
  intros u s' (HInv' & Hst' & Hid'). split; [exact HInv'|]. split; [exact Hst'|].
  unfold IsHost. destruct HInv' as (_ & -> & _). rewrite Hid', Hme. reflexivity.
Qed.

(** What [UpdateResetState] does on the host before it polls: it starts
    the Running state only through its test of the count, and otherwise
    stays in Resetting. *)
Lemma wlp_host_before_poll (t : Turn) (s : Session) :
  Inv bounded 0 s -> s_state s = Resetting ->
  wlp (UpdateResetState_before_poll t)
      (fun polls s' =>
         if polls then Inv bounded 0 s' /\ s_state s' = Resetting
         else s_state s' = Running ->
              reset_players_count s = s_num_players s
              /\ reset_players_count s' = s_num_players s') s.
Proof.
  intros HInv Hst.
  assert (Hact : IsActive s = true) by (unfold IsActive; rewrite Hst; reflexivity).
  pose proof (Inv_is_host s HInv Hact) as Hhost.
  unfold UpdateResetState_before_poll. wlp_next. rewrite Hhost.
  destruct (Z.eqb_spec (reset_players_count s) (s_num_players s)) as [Heq|Hne].
  - wlp_next. apply wlp_bind.
    apply wlp_neutral; [apply neutral_SendControlPacketToAll|].
    intros _ s1 E1. apply wlp_bind.
    apply wlp_neutral; [apply neutral_CreateGGPOSession|].
    intros _ s2 E2. wlp_next. wlp_prim. intros _. split; [exact Heq|].
    destruct (roster_eq_inv _ _ E2) as (_ & _ & _ & _ & Hn2 & Hb2 & _).
    destruct (roster_eq_inv _ _ E1) as (_ & _ & _ & _ & Hn1 & Hb1 & _).
    unfold reset_players_count in *.
    cbn [s_reset_players s_num_players set_state record] in *.
    rewrite Hb2, Hb1, Hn2, Hn1. exact Heq.
  - apply wlp_bind.
    eapply (wlp_mono _ (fun _ s1 => Inv bounded 0 s1 /\ s_state s1 = Resetting)).
    + intros u s1 H1. wlp_prim. exact H1.
    + destruct (MAX_CONNECT_TIME_ms <=? reset_elapsed_ms t); [|wlp_prim; auto].
      wlp_next. unfold for_each_player.
      eapply wlp_mono;
        [|apply (wlp_for _ _ (fun s' => Inv bounded 0 s' /\ s_state s' = Resetting
                                        /\ IsHost s' = true))].
      * intros u s1 (HInv1 & Hst1 & _). auto.
      * intros i s1 _ H1. apply wlp_drop_unsynchronized_resetting. exact H1.
      * split; [|split; [exact Hst|exact Hhost]].
        apply (Inv_roster 0 s); [reflexivity|exact HInv].
Qed.

(** One turn of the host in the Resetting state: it starts the Running
    state only through the test of [UpdateResetState]. *)
Lemma wlp_host_turn (t : Turn) (s : Session) :
  Inv bounded 0 s -> valid_turn bounded 0 t s -> s_state s = Resetting ->
  wlp (ExecuteNetplay_turn t)
      (fun _ s' => s_state s' = Running ->
                   reset_players_count s = s_num_players s
                   /\ reset_players_count s' = s_num_players s') s.
Proof.
  intros HInv Hvalid Hst.
  unfold valid_turn in Hvalid. rewrite Hst in Hvalid.
  unfold ExecuteNetplay_turn. wlp_next. rewrite Hst.
  apply (wlp_rewrite _ _ _ _ (UpdateResetState_polls t s)).
  apply wlp_bind.
  eapply wlp_mono;
    [|apply wlp_and; [apply (wlp_host_before_poll t s HInv Hst)|exact Hvalid]].
  intros polls s1 [H1 Hvalid1]. cbv beta in *.
  destruct polls; [|wlp_prim; exact H1].
  destruct H1 as [HInv1 Hst1]. apply wlp_bind.
  eapply wlp_mono; [|apply (wlp_PollEnet_quiet 0);
                      [exact HInv1|reflexivity|apply Hvalid1; reflexivity]].
  intros u' s2 Hq. cbv beta in Hq. wlp_seq.
  cbn [s_state record]. intros Hrun. apply Hq in Hrun. congruence.
Qed.

(** One turn of a joiner in the Resetting state: it starts the Running
    state only by handling, in its poll and still in the Resetting state,
    a ResumeSession from the peer of the host's slot. *)
Lemma joiner_turn_resumes (t : Turn) (s s' : Session) :
  s_state s = Resetting -> IsHost s = false ->
  ExecuteNetplay_turn t s = (Returned tt, s') ->
  s_state s' = Running ->
  exists s_p before ev after s_k,
    UpdateResetState_before_poll t s = (Returned true, s_p)
    /\ arrivals t = (before ++ ev :: after)%list
    /\ PollEnet (closing_arrivals t) before s_p = (Returned tt, s_k)
    /\ resumed_by_host s_k ev.
Proof.
  intros Hst Hhost Hrun Hst'.
  unfold ExecuteNetplay_turn in Hrun. rewrite bind_gets in Hrun. unfold id in Hrun.
  rewrite Hst in Hrun. rewrite UpdateResetState_polls in Hrun.
  pose proof (wlp_UpdateResetState_before_poll_quiet t s Hhost) as Hq. unfold wlp in Hq.
  unfold bind at 1 in Hrun.
  destruct (UpdateResetState_before_poll t s) as [[polls|f] s_p]; [|discriminate].
  assert (Hsp : s_state s_p <> Running) by (intros H; apply Hq in H; congruence).
  destruct polls.
  - unfold bind at 1 in Hrun.
    destruct (PollEnet (closing_arrivals t) (arrivals t) s_p) as [[[]|f] s2] eqn:Epoll;
      [|discriminate].
    assert (Hst2 : s_state s2 = Running).
    { inversion Hrun. subst s'. exact Hst'. }
    destruct (PollEnet_resumes _ _ _ _ Epoll Hst2)
      as [Hr|(before & ev & after & s_k & Hev & Hk & Hres)]; [contradiction|].
    exists s_p, before, ev, after, s_k. auto.
  - inversion Hrun. subst s'. contradiction.
Qed.

(** A joiner in the Resetting state starts the Running state when the
    host's ResumeSession comes in, with the reset set it has. *)
Lemma wp_resume_from_host closing (p : ENetPeer) (pkt : ENetPacket) (s : Session) :
  well_formed s -> s_state s = Resetting ->
  s_host_player_id s = 0 -> GetPlayerIdForPeer s p = 0 ->
  payload pkt = ResumeSessionP ->
  sizeof_ControlMessageHeader <= dataLength pkt ->
  sizeof_msg ControlMessage.ResumeSession <= dataLength pkt ->
  sizeof_msg ControlMessage.ResumeSession <= hdr_size pkt ->
  wp (HandleEnetEvent closing (ENET_EVENT_TYPE_RECEIVE p ENET_CHANNEL_CONTROL pkt))
     (fun _ s' => s_state s' = Running
                  /\ s_reset_players s' = s_reset_players s
                  /\ s_num_players s' = s_num_players s) s.
Proof.
  intros Hwf Hst Hh Hfrom Hpay Hhdr Hlen Hsize.
  unfold HandleEnetEvent. wp_next. rewrite Hfrom. cbn [Z.ltb Z.compare].
  unfold HandleControlMessage.
  rewrite (proj2 (Z.ltb_ge _ _) Hhdr), Hpay.
  unfold HandleResumeSessionMessage. apply wp_bind.
  unfold wp at 1. rewrite CheckReceivedPacket_state.
  2:{ apply orb_false_iff. split; apply Z.ltb_ge; assumption. }
  wp_next. rewrite Hst, Hh.
  change (negb (state_is Resetting Resetting) || negb (0 =? 0)) with false.
  cbv iota. wp_next. apply wp_bind.
  eapply wp_mono; [|apply wp_CreateGGPOSession].
  - intros u s' Hs'. cbv beta in Hs'. wp_prim.
    destruct Hs' as (_&_&_&_&_&_&Hn&_&Hbits&_).
    cbn [s_state s_reset_players s_num_players set_state record] in *. auto.
  - exact Hwf.
Qed.

End ResetPlayers.

End Bounded.

Section ResetPlayersClaim.
Context `{platform : Platform}.

(** C5 (amended): in every state that [Start] and a sequence of turns
    with valid messages lead to, [reset_players] holds occupied roster
    slots only while the session is active; and
    [reset_players.count() <= num_players] then holds on the host, and on
    a joiner whose connections are [bounded]: it is dialled by another
    player only while it is Connecting, under an id that it refuses, into
    a slot that is occupied, or while fewer than [num_players] slots are
    occupied.  The host leaves Resetting for Running only in a turn that
    finds [reset_players.count() = num_players].  A joiner leaves
    Resetting for Running only in a turn in whose poll it handles, still
    in Resetting, a ResumeSession from the peer of the host's slot; and
    such a ResumeSession does start Running, with [reset_players] and
    [num_players] as they are. *)
Theorem reset_players_within_roster (me : Z) (is_hosting bounded : bool)
    (nickname remote_addr : string) (port ldelay : Z) (turns : list Turn)
    (s0 s1 s : Session) :
  fresh s0 ->
  in_range me = true ->
  (if is_hosting then me = 0 else me <> 0) ->
  Start is_hosting nickname remote_addr port ldelay s0 = (Returned true, s1) ->
  valid_run bounded me turns s1 ->
  ExecuteNetplay turns s1 = (Returned tt, s) ->
  (IsActive s = true ->
   reset_subset s
   /\ (bounded = true \/ is_hosting = true ->
       reset_players_count s <= s_num_players s))
  /\ (is_hosting = true -> s_state s = Resetting ->
      forall t s', valid_turn bounded me t s ->
        ExecuteNetplay_turn t s = (Returned tt, s') ->
        s_state s' = Running ->
        reset_players_count s = s_num_players s
        /\ reset_players_count s' = s_num_players s')
  /\ (is_hosting = false -> s_state s = Resetting ->
      forall t s',
        ExecuteNetplay_turn t s = (Returned tt, s') ->
        s_state s' = Running ->
        exists s_p before ev after s_k,
          UpdateResetState_before_poll t s = (Returned true, s_p)
          /\ arrivals t = (before ++ ev :: after)%list
          /\ PollEnet (closing_arrivals t) before s_p = (Returned tt, s_k)
          /\ resumed_by_host s_k ev)
  /\ (is_hosting = false -> s_state s = Resetting ->
      forall closing p pkt,
        GetPlayerIdForPeer s p = s_host_player_id s ->
        payload pkt = ResumeSessionP ->
        sizeof_ControlMessageHeader <= dataLength pkt ->
        sizeof_msg ControlMessage.ResumeSession <= dataLength pkt ->
        sizeof_msg ControlMessage.ResumeSession <= hdr_size pkt ->
        exists s',
          HandleEnetEvent closing (ENET_EVENT_TYPE_RECEIVE p ENET_CHANNEL_CONTROL pkt) s
          = (Returned tt, s')
          /\ s_state s' = Running
          /\ s_reset_players s' = s_reset_players s
          /\ s_num_players s' = s_num_players s).
Proof.
  intros Hfresh Hme Hrole Hstart Hvalid Hrun.
  assert (HInv1 : Inv bounded me s1).
  { apply (wlp_run _ _ _ _ _ (wlp_Start bounded me is_hosting nickname remote_addr port
                                ldelay s0 Hfresh Hme Hrole) Hstart). reflexivity. }
  assert (HInv : Inv bounded me s).
  { apply (wlp_run _ _ _ _ _ (wlp_ExecuteNetplay bounded me turns s1 HInv1 Hvalid) Hrun). }
  split; [|split; [|split]].
  - intros Hact. destruct (Inv_count bounded me s HInv Hact) as [Hsub Hcount].
    split; [exact Hsub|]. intros [Hon|Hhost]; apply Hcount; [left; exact Hon|right].
    rewrite Hhost in Hrole. exact Hrole.
  - intros -> Hst t s' Ht Hturn. subst me.
    apply (wlp_run _ _ _ _ _ (wlp_host_turn bounded t s HInv Ht Hst) Hturn).
  - intros -> Hst t s' Hturn Hst'.
    apply (joiner_turn_resumes t s s'); try assumption.
    assert (Hact : IsActive s = true) by (unfold IsActive; rewrite Hst; reflexivity).
    destruct HInv as (_ & Hh & _ & _ & Hphase). unfold IsHost. rewrite Hh.
    apply Z.eqb_neq.
    destruct (Hphase Hact) as [(_ & [Hid|Hid] & _)|(_ & Hid & _)]; rewrite Hid;
      [exact Hrole|discriminate|exact Hrole].
  - intros _ Hst closing p pkt Hfrom Hpay Hhdr Hlen Hsize.
    destruct HInv as (Hwf & Hh & _).
    destruct (wp_run _ _ _ (wp_resume_from_host closing p pkt s Hwf Hst Hh
                              ltac:(rewrite Hfrom; exact Hh) Hpay Hhdr Hlen Hsize))
      as ([] & s' & Hs' & Hpost).
    exists s'. split; [exact Hs'|exact Hpost].
Qed.

End ResetPlayersClaim.

Lemma fresh_booted (max_players : nat) (bind_ok : bool) :
  @fresh (wire_platform max_players bind_ok) (booted max_players bind_ok).
Proof.
  split; [split; apply length_replicate|].
  split; [reflexivity|]. split; [|reflexivity].
  intros i. unfold has_peer, slot_peer. cbn.
  destruct (replicate max_players empty_Peer !! i) as [q|] eqn:Hq; [|reflexivity].
  apply lookup_replicate in Hq as [-> _]. reflexivity.
Qed.

Ltac pick_disjunct :=
  lazymatch goal with
  | |- _ \/ _ => first [left; pick_disjunct | right; pick_disjunct]
  | |- _ = _ => reflexivity
  end.

Ltac valid_by_evaluation :=
  vm_compute;
  repeat match goal with
         | |- _ /\ _ => split
         | |- _ -> _ => intro
         | |- True => exact I
         | |- _ = _ => reflexivity
         | |- _ \/ _ => pick_disjunct
         | H : _ = _ |- False => discriminate H
         end.

(** C5, as stated, fails at a joiner, in two ways, in runs whose
    messages are all valid.  Player 1 of three, which has marked the host
    and itself only, starts the Running state on the host's ResumeSession
    with two of three players in [reset_players].  And player 1 of two,
    dialled by a player that the host's Reset does not list, stores that
    peer and marks it: three players in [reset_players] with
    [num_players = 2]. *)
Lemma reset_players_fails_at_joiner :
  let P := wire_platform 3 true in
  let start := @Start P false "B" "127.0.0.1" 37000 1 (booted 3 true) in
  let joined := @ExecuteNetplay P joining_B (snd start) in
  let resumed := @ExecuteNetplay_turn P (turn_with [from_host resume_session]) (snd joined) in
  let dialled := @ExecuteNetplay P joining_B_dialled_by_stranger (snd start) in
  fst start = Returned true
  /\ (@valid_run P true 1 (joining_B ++ [turn_with [from_host resume_session]])%list
         (snd start)
      /\ fst joined = Returned tt
      /\ s_state (snd joined) = Resetting
      /\ fst resumed = Returned tt
      /\ s_state (snd resumed) = Running
      /\ @reset_players_count P (snd resumed) = 2
      /\ s_num_players (snd resumed) = 3)
  /\ (@valid_message P 1 reset_of_two_in_three
      /\ @valid_run P false 1 joining_B_dialled_by_stranger (snd start)
      /\ fst dialled = Returned tt
      /\ s_state (snd dialled) = Resetting
      /\ @reset_players_count P (snd dialled) = 3
      /\ s_num_players (snd dialled) = 2).
Proof. valid_by_evaluation. Qed.

Lemma reset_players_within_roster_witness :
  let P := wire_platform 3 true in
  let host := snd (@ExecuteNetplay P hosting_B
                     (snd (@Start P true "A" "" 37000 1 (booted 3 true)))) in
  let host' := snd (@ExecuteNetplay_turn P (turn_with []) host) in
  let joiner := snd (@ExecuteNetplay P joining_B_dialled_by_C
                       (snd (@Start P false "B" "127.0.0.1" 37000 1 (booted 3 true)))) in
  let dialled := snd (@ExecuteNetplay P joining_B_dialled_by_stranger
                        (snd (@Start P false "B" "127.0.0.1" 37000 1 (booted 3 true)))) in
  (s_state host = Resetting /\ s_state host' = Running
   /\ @reset_players_count P host = s_num_players host
   /\ @reset_players_count P host' = s_num_players host'
   /\ @reset_players_count P host <= s_num_players host)
  /\ (s_state joiner = Resetting
      /\ @slot_peer P joiner 2 = Some peer_C
      /\ @reset_players_count P joiner <= s_num_players joiner
      /\ exists s_k,
           @resumed_by_host P s_k (from_host resume_session)
           /\ s_reset_players s_k = s_reset_players joiner)
  /\ (s_state dialled = Resetting /\ @reset_subset P dialled).
Proof.
  intros P host host' joiner dialled. split; [|split].
  - destruct (@reset_players_within_roster P 0 true false "A" "" 37000 1 hosting_B
                (booted 3 true) (snd (@Start P true "A" "" 37000 1 (booted 3 true))) host)
      as (Hcount & Hhost & _).
    + apply fresh_booted.
    + reflexivity.
    + reflexivity.
    + vm_compute. reflexivity.
    + valid_by_evaluation.
    + vm_compute. reflexivity.
    + destruct (Hhost eq_refl ltac:(vm_compute; reflexivity) (turn_with []) host')
        as [H1 H2].
      * valid_by_evaluation.
      * vm_compute. reflexivity.
      * vm_compute. reflexivity.
      * split; [vm_compute; reflexivity|]. split; [vm_compute; reflexivity|].
        split; [exact H1|]. split; [exact H2|].
        apply Hcount; [vm_compute; reflexivity|right; reflexivity].
  - destruct (@reset_players_within_roster P 1 false true "B" "127.0.0.1" 37000 1
                joining_B_dialled_by_C (booted 3 true)
                (snd (@Start P false "B" "127.0.0.1" 37000 1 (booted 3 true))) joiner)
      as (Hcount & _ & Honly & _).
    + apply fresh_booted.
    + reflexivity.
    + discriminate.
    + vm_compute. reflexivity.
    + valid_by_evaluation.
    + vm_compute. reflexivity.
    + split; [vm_compute; reflexivity|]. split; [vm_compute; reflexivity|].
      split; [apply Hcount; [vm_compute; reflexivity|left; reflexivity]|].
      destruct (Honly eq_refl ltac:(vm_compute; reflexivity)
                  (turn_with [from_host resume_session])
                  (snd (@ExecuteNetplay_turn P (turn_with [from_host resume_session])
                          joiner)))
        as (s_p & before & ev & after & s_k & Hpre & Hev & Hk & Hres).
      * vm_compute. reflexivity.
      * vm_compute. reflexivity.
      * destruct before as [|ev' before].
        -- injection Hev as <- _.
           exists s_k. split; [exact Hres|].
           rewrite PollEnet_nil_run in Hk.
           assert (Hsame : s_k = s_p).
           { destruct (IsActive s_p); [destruct (s_enet_host s_p)|]; congruence. }
           rewrite Hsame.
           assert (Hp : snd (@UpdateResetState_before_poll P
                               (turn_with [from_host resume_session]) joiner) = s_p)
             by (rewrite Hpre; reflexivity).
           rewrite <- Hp. vm_compute. reflexivity.
        -- exfalso. injection Hev as _ Hev. destruct before; discriminate.
  - split; [vm_compute; reflexivity|].
    apply (@reset_players_within_roster P 1 false false "B" "127.0.0.1" 37000 1
             joining_B_dialled_by_stranger (booted 3 true)
             (snd (@Start P false "B" "127.0.0.1" 37000 1 (booted 3 true))) dialled).
    + apply fresh_booted.
    + reflexivity.
    + discriminate.
    + vm_compute. reflexivity.
    + valid_by_evaluation.
    + vm_compute. reflexivity.
    + vm_compute. reflexivity.
Defined.

(** * Further properties of the translation unit *)

(** ** Searches in the peer table *)

Section Searches.
Context `{platform : Platform}.

(** A search loop returns the first index that passes the test. *)
Lemma first_index_least (test : nat -> bool) (start n : nat) :
  (first_index test (seq start n) = -1
   /\ forall i, (start <= i < start + n)%nat -> test i = false)
  \/ exists i, first_index test (seq start n) = Z.of_nat i
               /\ (start <= i < start + n)%nat
               /\ test i = true
               /\ forall j, (start <= j < i)%nat -> test j = false.
Proof.
  revert start. induction n as [|n IH]; intros start.
  - left. split; [reflexivity|]. intros i Hi. lia.
  - simpl. destruct (test start) eqn:Hstart.
    + right. exists start. split; [reflexivity|]. split; [lia|].
      split; [exact Hstart|]. intros j Hj. lia.
    + destruct (IH (S start)) as [[Hnone Hall]|(i & Hi & Hrange & Ht & Hlow)].
      * left. split; [exact Hnone|]. intros i Hi.
        destruct (Nat.eq_dec i start) as [->|Hne]; [exact Hstart|apply Hall; lia].
      * right. exists i. split; [exact Hi|]. split; [lia|]. split; [exact Ht|].
        intros j Hj. destruct (Nat.eq_dec j start) as [->|Hne]; [exact Hstart|].
        apply Hlow. lia.
Qed.

Lemma IsValidPlayerId_slot (s : Session) (i : nat) :
  (i < MAX_PLAYERS)%nat ->
  IsValidPlayerId s (Z.of_nat i)
  = negb (negb (Z.of_nat i =? s_player_id s) && negb (has_peer s i)).
Proof.
  intros Hi. unfold IsValidPlayerId.
  rewrite (in_range_of_nat i Hi), Nat2Z.id, (Z.eqb_sym (s_player_id s)).
  destruct (Z.of_nat i =? s_player_id s), (has_peer s i); reflexivity.
Qed.

(** X1: [GetFreePlayerId] returns the lowest slot below MAX_PLAYERS that
    is neither the local player's nor occupied by a peer, and -1 exactly
    when every slot is taken. *)
Theorem GetFreePlayerId_lowest_free (s : Session) :
  (GetFreePlayerId s = -1
   /\ forall i, (i < MAX_PLAYERS)%nat -> IsValidPlayerId s (Z.of_nat i) = true)
  \/ exists i, GetFreePlayerId s = Z.of_nat i
               /\ (i < MAX_PLAYERS)%nat
               /\ IsValidPlayerId s (Z.of_nat i) = false
               /\ forall j, (j < i)%nat -> IsValidPlayerId s (Z.of_nat j) = true.
Proof.
  unfold GetFreePlayerId.
  destruct (first_index_least
              (fun i => negb (Z.of_nat i =? s_player_id s) && negb (has_peer s i))
              0 MAX_PLAYERS) as [[Hnone Hall]|(i & Hi & Hrange & Ht & Hlow)].
  - left. split; [exact Hnone|]. intros i Hi.
    rewrite IsValidPlayerId_slot by exact Hi. rewrite Hall by lia. reflexivity.
  - right. exists i. split; [exact Hi|]. split; [lia|]. split.
    + rewrite IsValidPlayerId_slot by lia. rewrite Ht. reflexivity.
    + intros j Hj. rewrite IsValidPlayerId_slot by lia. rewrite Hlow by lia. reflexivity.
Qed.

(** X2: [GetPlayerIdForPeer] returns the lowest slot that holds the peer,
    and -1 exactly when no slot of the table holds it. *)
Theorem GetPlayerIdForPeer_lowest_slot (s : Session) (p : ENetPeer) :
  (GetPlayerIdForPeer s p = -1
   /\ forall i, (i < MAX_PLAYERS)%nat -> holds s p i = false)
  \/ exists i, GetPlayerIdForPeer s p = Z.of_nat i
               /\ (i < MAX_PLAYERS)%nat
               /\ holds s p i = true
               /\ forall j, (j < i)%nat -> holds s p j = false.
Proof.
  unfold GetPlayerIdForPeer.
  destruct (first_index_least (holds s p) 0 MAX_PLAYERS)
    as [[Hnone Hall]|(i & Hi & Hrange & Ht & Hlow)].
  - left. split; [exact Hnone|]. intros i Hi. apply Hall. lia.
  - right. exists i. split; [exact Hi|]. split; [lia|]. split; [exact Ht|].
    intros j Hj. apply Hlow. lia.
Qed.

End Searches.

(** ** Control packets *)

Section Packets.
Context `{platform : Platform}.

(** X3: a packet built by [NewControlPacket] passes the length checks of
    [CheckReceivedPacket] for its own type as long as its total size fits
    the 16-bit size field of the header; when the size wraps below the
    fixed size the receiver discards the packet as too short. *)
Theorem control_packet_round_trip {T} (ty : ControlMessage.t) (body : Payload)
    (extra : list Byte.byte) (view : T) (player_id : Z) (s : Session) :
  0 <= sizeof_msg ty ->
  let size := sizeof_msg ty + Z.of_nat (length extra) in
  (size < 2 ^ 16 ->
   CheckReceivedPacket ty player_id (NewControlPacket ty body extra) view s
   = (Returned (Some view), s))
  /\ (size mod 2 ^ 16 < sizeof_msg ty ->
      CheckReceivedPacket ty player_id (NewControlPacket ty body extra) view s
      = (Returned None,
         record (Log Error "Received too-short control packet [inner field]") s)).
Proof.
  intros Hsize size. unfold CheckReceivedPacket, NewControlPacket.
  cbn [dataLength hdr_size]. fold size.
  assert (Hlen : (size <? sizeof_msg ty) = false) by (apply Z.ltb_ge; unfold size; lia).
  rewrite Hlen. unfold Int.u16, Int.to_unsigned. split.
  - intros Hfit. rewrite Z.mod_small by (unfold size in *; lia).
    rewrite Hlen. reflexivity.
  - intros Hwrap. rewrite (proj2 (Z.ltb_lt _ _) Hwrap). reflexivity.
Qed.

Lemma slot_peer_record_all (effects : list Effect) (s : Session) (i : nat) :
  slot_peer (record_all effects s) i = slot_peer s i.
Proof.
  revert s. induction effects as [|e effects IH]; intros s; [reflexivity|].
  simpl. rewrite IH. reflexivity.
Qed.


Lemma send_to_slots (pkt : ENetPacket) (l : list nat) (s : Session) :
  for_ l (fun i => bind (gets id) (fun s0 =>
            match slot_peer s0 i with
            | None => ret tt
            | Some to => call (enet_peer_send to pkt)
            end)) s
  = (Returned tt,
     record_all (map (fun p => enet_peer_send p pkt) (omap (slot_peer s) l)) s).
Proof.
  revert s. induction l as [|i l IH]; intros s; [reflexivity|].
  assert (Hcons : omap (slot_peer s) (i :: l)
                  = match slot_peer s i with
                    | Some p => p :: omap (slot_peer s) l
                    | None => omap (slot_peer s) l
                    end) by reflexivity.
  rewrite Hcons. cbn [for_]. unfold bind at 1. unfold bind at 1, gets, id.
  destruct (slot_peer s i) as [p|] eqn:Hp.
  - unfold call, modify. rewrite IH. reflexivity.
  - unfold ret. rewrite IH. reflexivity.
Qed.

Lemma omap_slot_peer_record (e : Effect) (s : Session) (l : list nat) :
  omap (slot_peer (record e s)) l = omap (slot_peer s) l.
Proof. reflexivity. Qed.

(** Once the packet is destroyed, the next occupied slot uses it. *)
Lemma send_copies_destroyed (pkt : ENetPacket) (l : list nat) (s : Session) :
  send_copies pkt true l s
  = (match omap (slot_peer s) l with
     | [] => Returned tt
     | _ :: _ => Aborted UseAfterFree
     end, s).
Proof.
  induction l as [|i l IH]; [reflexivity|].
  assert (Hcons : omap (slot_peer s) (i :: l)
                  = match slot_peer s i with
                    | Some p => p :: omap (slot_peer s) l
                    | None => omap (slot_peer s) l
                    end) by reflexivity.
  rewrite Hcons. cbn [send_copies]. unfold bind at 1, gets, id.
  destruct (slot_peer s i) as [p|]; [reflexivity|exact IH].
Qed.

Lemma send_copies_all (pkt : ENetPacket) (l : list nat) (s : Session) :
  (forall p, In p (omap (slot_peer s) l) -> enet_peer_send_result p pkt = 0) ->
  send_copies pkt false l s
  = (Returned tt,
     record_all (map (fun p => enet_peer_send p pkt) (omap (slot_peer s) l)) s).
Proof.
  revert s. induction l as [|i l IH]; intros s Hok; [reflexivity|].
  assert (Hcons : omap (slot_peer s) (i :: l)
                  = match slot_peer s i with
                    | Some p => p :: omap (slot_peer s) l
                    | None => omap (slot_peer s) l
                    end) by reflexivity.
  rewrite Hcons in Hok |- *. cbn [send_copies]. unfold bind at 1, gets, id.
  destruct (slot_peer s i) as [p|] eqn:Hp.
  - unfold bind at 1, call, modify.
    rewrite (Hok p (or_introl eq_refl)). cbn [Z.eqb].
    rewrite (IH (record (enet_peer_send p pkt) s)).
    + reflexivity.
    + intros q Hq. apply Hok. right. exact Hq.
  - apply IH. exact Hok.
Qed.

Lemma send_copies_failure (pkt : ENetPacket) (l : list nat) (s : Session)
    (sent : list ENetPeer) (p : ENetPeer) (rest : list ENetPeer) :
  omap (slot_peer s) l = (sent ++ p :: rest)%list ->
  (forall q, In q sent -> enet_peer_send_result q pkt = 0) ->
  enet_peer_send_result p pkt <> 0 ->
  send_copies pkt false l s
  = (match rest with
     | [] => Returned tt
     | _ :: _ => Aborted UseAfterFree
     end,
     record_all (map (fun q => enet_peer_send q pkt) sent
                 ++ [enet_peer_send p pkt; Log Error "enet_peer_send() to player failed"])%list s).
Proof.
  revert s sent. induction l as [|i l IH]; intros s sent Hpeers Hok Hfail.
  { destruct sent; discriminate. }
  assert (Hcons : omap (slot_peer s) (i :: l)
                  = match slot_peer s i with
                    | Some q => q :: omap (slot_peer s) l
                    | None => omap (slot_peer s) l
                    end) by reflexivity.
  rewrite Hcons in Hpeers. cbn [send_copies]. unfold bind at 1, gets, id.
  destruct (slot_peer s i) as [q|] eqn:Hq; [|apply IH; assumption].
  destruct sent as [|q' sent].
  - injection Hpeers as -> Hrest.
    unfold bind at 1, call, modify.
    destruct (Z.eqb_spec (enet_peer_send_result p pkt) 0) as [Hz|_]; [contradiction|].
    unfold bind at 1.
    rewrite send_copies_destroyed.
    change (omap (slot_peer (record ?e (record ?e' s))) l) with (omap (slot_peer s) l).
    rewrite Hrest. reflexivity.
  - injection Hpeers as -> Hrest.
    unfold bind at 1, call, modify.
    rewrite (Hok q' (or_introl eq_refl)). cbn [Z.eqb].
    rewrite (IH (record (enet_peer_send q' pkt) s) sent).
    + reflexivity.
    + exact Hrest.
    + intros r Hr. apply Hok. right. exact Hr.
    + exact Hfail.
Qed.

(** When every send succeeds, each connected peer gets the packet. *)
Lemma SendControlPacketToAll_succeeds (pkt : ENetPacket) (s : Session) :
  sends_succeed ->
  SendControlPacketToAll pkt s
  = (Returned tt,
     record_all (map (fun p => enet_peer_send p pkt) (connected_peers s)) s).
Proof.
  intros Hsend. apply send_copies_all. intros p _. apply Hsend.
Qed.

(** X4: [SendControlPacketToAll] hands the packet to [enet_peer_send] for
    the occupied slots in slot order.  When every send succeeds, each
    connected peer has got it and nothing else of the session has
    changed.  The first send that fails is logged and the packet is
    destroyed: the call then returns if that peer was the last one, and
    otherwise uses the destroyed packet for the next peer. *)
Theorem SendControlPacketToAll_sends (pkt : ENetPacket) (s : Session)
    (sent : list ENetPeer) :
  (forall q, In q sent -> enet_peer_send_result q pkt = 0) ->
  (connected_peers s = sent ->
   SendControlPacketToAll pkt s
   = (Returned tt, record_all (map (fun q => enet_peer_send q pkt) sent) s))
  /\ (forall p rest,
        connected_peers s = (sent ++ p :: rest)%list ->
        enet_peer_send_result p pkt <> 0 ->
        SendControlPacketToAll pkt s
        = (match rest with
           | [] => Returned tt
           | _ :: _ => Aborted UseAfterFree
           end,
           record_all (map (fun q => enet_peer_send q pkt) sent
                       ++ [enet_peer_send p pkt;
                           Log Error "enet_peer_send() to player failed"])%list s)).
Proof.
  intros Hok. split.
  - intros Hpeers. unfold SendControlPacketToAll. rewrite <- Hpeers.
    apply send_copies_all. unfold connected_peers in Hpeers. rewrite Hpeers. exact Hok.
  - intros p rest Hpeers Hfail. apply send_copies_failure; assumption.
Qed.

End Packets.

(** ** The GGPO session *)

Section GGPOSession.
Context `{platform : Platform}.

Lemma registered_ext (s s' : Session) (n : Z) (slots : list nat) :
  (forall i, slot_peer s' i = slot_peer s i) -> s_player_id s' = s_player_id s ->
  registered s' n slots = registered s n slots.
Proof.
  intros Hp Hid. revert n. induction slots as [|i slots IH]; intros n; [reflexivity|].
  simpl. rewrite Hp, Hid, IH. reflexivity.
Qed.

Lemma filter_occupied_ext (s s' : Session) (l : list nat) :
  (forall i, slot_peer s' i = slot_peer s i) -> s_player_id s' = s_player_id s ->
  List.filter (occupied s') l = List.filter (occupied s) l.
Proof.
  intros Hp Hid. apply List.filter_ext. intros i. apply occupied_ext; assumption.
Qed.

Lemma skip_is_unoccupied (s : Session) (i : nat) :
  (i < MAX_PLAYERS)%nat ->
  negb (has_peer s i) && negb (Z.of_nat i =? s_player_id s) = negb (occupied s i).
Proof.
  intros Hi. unfold occupied. rewrite IsValidPlayerId_slot by exact Hi.
  destruct (has_peer s i), (Z.of_nat i =? s_player_id s); reflexivity.
Qed.

Lemma wp_add_ggpo_player_registers (i : nat) (n : Z) (acc : list GGPOPlayer)
    (s : Session) :
  (i < MAX_PLAYERS)%nat -> well_formed s -> s_ggpo s = Some acc ->
  wp (add_ggpo_player i n)
     (fun _ s' => same_roster s s' /\ trace s' = trace s
                  /\ s_ggpo s' = Some (app acc (registered s n [i]))) s.
Proof.
  intros Hi [Hlen _] Hacc. unfold add_ggpo_player.
  destruct (lookup_lt_is_Some_2 (s_peers s) i ltac:(lia)) as [p Hp].
  apply wp_bind, wp_gets. unfold id. apply wp_bind.
  apply (wp_peers_update _ _ p); [apply in_range_of_nat; exact Hi|
                                  rewrite Nat2Z.id; exact Hp|].
  rewrite Nat2Z.id. apply wp_bind, wp_modify.
  cbn [s_ggpo set_peers]. rewrite Hacc. cbn [option_map registered].
  set (s2 := set_ggpo _ _).
  assert (Hr : same_roster s s2).
  { eapply same_roster_trans; [apply same_roster_ggpo_handle; exact Hp|].
    apply same_roster_set_ggpo. }
  destruct (Z.of_nat i =? s_player_id s).
  - apply wp_modify. split; [|split; reflexivity].
    eapply same_roster_trans; [exact Hr|]. apply same_roster_set_local_handle.
  - apply wp_ret. split; [exact Hr|split; reflexivity].
Qed.

Lemma wp_add_ggpo_players_registers (l : list nat) (n : Z) (acc : list GGPOPlayer)
    (s : Session) :
  (forall i, i ∈ l -> (i < MAX_PLAYERS)%nat) -> well_formed s -> s_ggpo s = Some acc ->
  wp (add_ggpo_players l n)
     (fun _ s' => same_roster s s' /\ trace s' = trace s
                  /\ s_ggpo s' = Some (app acc (registered s n (List.filter (occupied s) l)))) s.
Proof.
  revert n acc s. induction l as [|i l IH]; intros n acc s Hl Hwf Hacc.
  - apply wp_ret. split; [apply same_roster_refl|]. split; [reflexivity|].
    simpl. rewrite app_nil_r. exact Hacc.
  - assert (Hi : (i < MAX_PLAYERS)%nat) by (apply Hl; left).
    assert (Hl' : forall j, j ∈ l -> (j < MAX_PLAYERS)%nat).
    { intros j Hj. apply Hl. right. exact Hj. }
    cbn [add_ggpo_players List.filter]. apply wp_bind, wp_gets. unfold id.
    rewrite skip_is_unoccupied by exact Hi.
    destruct (occupied s i); cbn [negb].
    + apply wp_bind.
      eapply wp_mono; [|apply (wp_add_ggpo_player_registers i n acc); assumption].
      intros u s1 (Hr1 & Ht1 & Hg1). cbv beta.
      pose proof (roster_eq_inv _ _ (same_roster_roster _ _ Hr1))
        as (_ & Hp1 & _ & Hid1 & _).
      eapply wp_mono; [|apply (IH (n + 1) (app acc (registered s n [i])) s1 Hl');
                         [eapply same_roster_well_formed; eassumption|exact Hg1]].
      intros u' s2 (Hr2 & Ht2 & Hg2). cbv beta. split; [|split].
      * eapply same_roster_trans; eassumption.
      * congruence.
      * rewrite Hg2. rewrite (filter_occupied_ext s s1) by assumption.
        rewrite (registered_ext s s1) by assumption.
        cbn [registered]. rewrite <- app_assoc. reflexivity.
    + apply IH; assumption.
Qed.

Lemma wp_CreateGGPOSession_registers (s : Session) :
  well_formed s ->
  wp CreateGGPOSession
     (fun _ s' => s_ggpo s' = Some (registered s 1 (occupied_slots s))
                  /\ same_roster s s'
                  /\ (forall e, In e (trace s) -> In e (trace s'))
                  /\ In (ggpo_start_session (s_num_players s)) (trace s')) s.
Proof.
  intros Hwf. unfold CreateGGPOSession. wp_next. wp_next. wp_next.
  set (s1 := set_ggpo (Some []) (record (ggpo_start_session (s_num_players s)) s)).
  assert (Hr1 : same_roster s s1).
  { eapply same_roster_trans; [apply same_roster_record|apply same_roster_set_ggpo]. }
  apply wp_bind.
  eapply wp_mono; [|apply (wp_add_ggpo_players_registers (seq 0 MAX_PLAYERS) 1 [] s1)].
  - intros u s2 (Hr2 & Ht2 & Hg2). cbv beta. wp_next. wp_next. wp_prim.
    pose proof (roster_eq_inv _ _ (same_roster_roster _ _ Hr1))
      as (_ & Hp1 & _ & Hid1 & _).
    split; [|split; [|split]].
    + cbn [s_ggpo record]. rewrite Hg2. unfold occupied_slots.
      rewrite (filter_occupied_ext s s1), (registered_ext s s1) by assumption.
      reflexivity.
    + eapply same_roster_trans; [|apply same_roster_record].
      eapply same_roster_trans; [|apply same_roster_record].
      eapply same_roster_trans; [exact Hr1|exact Hr2].
    + intros e He. cbn [trace record]. rewrite Ht2. subst s1.
      cbn [trace set_ggpo record]. rewrite !in_app_iff. left. left. left. exact He.
    + cbn [trace record]. rewrite Ht2. cbn [trace set_ggpo record].
      rewrite !in_app_iff. left. left. subst s1. cbn [trace set_ggpo record].
      rewrite in_app_iff. right. left. reflexivity.
  - intros i Hi. apply elem_of_seq in Hi. lia.
  - eapply same_roster_well_formed; eassumption.
  - reflexivity.
Qed.

(** X5: on a session whose peer table has MAX_PLAYERS slots
    [CreateGGPOSession] returns, announces [s_num_players] to
    [ggpo_start_session] and registers the occupied slots, and no other,
    in slot order as players 1, 2, ...: the local player's slot as the
    local player, every other with the peer of its slot.  State, roster,
    cookie and reset set stay as they are. *)
Theorem CreateGGPOSession_registers (s : Session) :
  well_formed s ->
  exists s',
    CreateGGPOSession s = (Returned tt, s')
    /\ s_ggpo s' = Some (registered s 1 (occupied_slots s))
    /\ same_roster s s'
    /\ In (ggpo_start_session (s_num_players s)) (trace s').
Proof.
  intros Hwf.
  destruct (wp_run _ _ _ (wp_CreateGGPOSession_registers s Hwf))
    as ([] & s' & Hrun & Hg & Hr & _ & Hstart).
  exists s'. auto.
Qed.

Lemma wp_DestroyGGPOSession_trace (s : Session) :
  wp DestroyGGPOSession
     (fun _ s' => same_roster s s' /\ s_ggpo s' = None
                  /\ forall e, In e (trace s) -> In e (trace s')) s.
Proof.
  unfold DestroyGGPOSession. wp_next.
  destruct (s_ggpo s) eqn:Hg.
  - wp_next. wp_next. wp_next. wp_next. wp_prim. split; [|split; [reflexivity|]].
    + eapply same_roster_trans; [|apply same_roster_ggpo_handles].
      eapply same_roster_trans; [|apply same_roster_set_local_handle].
      eapply same_roster_trans; [|apply same_roster_set_ggpo].
      eapply same_roster_trans; apply same_roster_record.
    + intros e He. cbn [trace set_peers set_local_handle set_ggpo record].
      rewrite !in_app_iff. left. left. exact He.
  - wp_prim. split; [apply same_roster_refl|]. split; [exact Hg|]. auto.
Qed.

(** X6: [DestroyGGPOSession] always returns and leaves no GGPO session.
    With a session to destroy it closes it, and the local handle and the
    handle of every slot become GGPO_INVALID_HANDLE; without one it
    changes nothing, so that destroying twice is destroying once.  State,
    roster, cookie and reset set stay as they are. *)
Theorem DestroyGGPOSession_idempotent (s : Session) :
  exists s',
    DestroyGGPOSession s = (Returned tt, s')
    /\ s_ggpo s' = None
    /\ same_roster s s'
    /\ (s_ggpo s = None -> s' = s)
    /\ (s_ggpo s <> None ->
        s_local_handle s' = GGPO_INVALID_HANDLE
        /\ Forall (fun p => ggpo_handle p = GGPO_INVALID_HANDLE) (s_peers s')
        /\ In ggpo_close_session (trace s'))
    /\ DestroyGGPOSession s' = (Returned tt, s').
Proof.
  destruct (wp_run _ _ _ (wp_DestroyGGPOSession s)) as ([] & s' & Hrun & Hr & Hnone).
  exists s'. split; [exact Hrun|]. split; [exact Hnone|]. split; [exact Hr|].
  split; [|split].
  - intros Hg. unfold DestroyGGPOSession, bind, gets, id in Hrun. rewrite Hg in Hrun.
    unfold ret in Hrun. congruence.
  - intros Hg. unfold DestroyGGPOSession, bind, gets, id in Hrun.
    destruct (s_ggpo s) as [players|]; [|congruence].
    unfold call, modify in Hrun. inversion Hrun; subst s'.
    cbn [s_local_handle s_peers trace set_peers set_local_handle set_ggpo record].
    split; [reflexivity|]. split.
    + apply Forall_forall. intros p Hp. apply list_elem_of_In in Hp.
      apply in_map_iff in Hp as (q & <- & _). reflexivity.
    + rewrite !in_app_iff. right. left. reflexivity.
  - unfold DestroyGGPOSession, bind, gets, id. rewrite Hnone. reflexivity.
Qed.

End GGPOSession.

(** ** Closing a session *)

Section ClosingSessions.
Context `{platform : Platform}.

(** The loop of [ShutdownEnetHost] over the slots [l]. *)
Lemma shutdown_slots (l : list nat) (s : Session) :
  NoDup l ->
  exists s',
    for_ l (fun i =>
      bind (gets id) (fun s0 =>
        bind match slot_peer s0 i with
             | Some p => call (enet_peer_reset p)
             | None => ret tt
             end
             (fun _ => modify (fun s0 => set_peers (<[i := empty_Peer]> (s_peers s0)) s0)))) s
    = (Returned tt, s')
    /\ length (s_peers s') = length (s_peers s)
    /\ (forall j, j ∈ l -> (j < length (s_peers s))%nat -> s_peers s' !! j = Some empty_Peer)
    /\ (forall j, j ∉ l -> s_peers s' !! j = s_peers s !! j)
    /\ (forall e, In e (trace s) -> In e (trace s'))
    /\ (forall i p, i ∈ l -> slot_peer s i = Some p -> In (enet_peer_reset p) (trace s'))
    /\ s_state s' = s_state s /\ s_enet_host s' = s_enet_host s
    /\ s_ggpo s' = s_ggpo s /\ system s' = system s
    /\ s_player_id s' = s_player_id s /\ s_host_player_id s' = s_host_player_id s.
Proof.
  revert s. induction l as [|i l IH]; intros s Hnd.
  - exists s. split; [reflexivity|]. split; [reflexivity|].
    split; [intros j Hj; apply elem_of_nil in Hj; contradiction|].
    split; [reflexivity|]. split; [auto|].
    split; [intros j p Hj; apply elem_of_nil in Hj; contradiction|].
    repeat split.
  - apply NoDup_cons in Hnd as [Hi Hnd].
    set (s1 := match slot_peer s i with
               | Some p => record (enet_peer_reset p) s
               | None => s
               end).
    set (s2 := set_peers (<[i := empty_Peer]> (s_peers s1)) s1).
    assert (Hpeers1 : s_peers s1 = s_peers s).
    { unfold s1. destruct (slot_peer s i); reflexivity. }
    destruct (IH s2 Hnd)
      as (s' & Hrun & Hlen & Hin & Hout & Htr & Hreset & Hst & Hh & Hg & Hsys & Hid & Hhid).
    exists s'. split.
    { cbn [for_]. unfold bind at 1. unfold bind at 1, gets, id. unfold bind at 1.
      assert (Hfirst : match slot_peer s i with
                       | Some p => call (enet_peer_reset p)
                       | None => ret tt
                       end s = (Returned tt, s1)).
      { unfold s1. destruct (slot_peer s i); reflexivity. }
      rewrite Hfirst. unfold modify. fold s2. exact Hrun. }
    assert (Hlen2 : length (s_peers s2) = length (s_peers s)).
    { unfold s2. cbn [s_peers set_peers]. rewrite length_insert, Hpeers1. reflexivity. }
    split; [congruence|]. split.
    { intros j Hj Hlt. apply elem_of_cons in Hj as [->|Hj].
      - rewrite Hout by exact Hi. unfold s2. cbn [s_peers set_peers].
        apply list_lookup_insert_eq. rewrite Hpeers1. exact Hlt.
      - apply Hin; [exact Hj|]. rewrite Hlen2. exact Hlt. }
    split.
    { intros j Hj. rewrite not_elem_of_cons in Hj. destruct Hj as [Hne Hj].
      rewrite Hout by exact Hj. unfold s2. cbn [s_peers set_peers].
      rewrite list_lookup_insert_ne by congruence. rewrite Hpeers1. reflexivity. }
    assert (Htr1 : forall e, In e (trace s) -> In e (trace s2)).
    { intros e He. unfold s2, s1. cbn [trace set_peers].
      destruct (slot_peer s i); [|exact He].
      cbn [trace record]. apply in_or_app. left. exact He. }
    split; [auto|]. split.
    { intros j p Hj Hp. apply elem_of_cons in Hj as [->|Hj].
      - apply Htr. unfold s2, s1. rewrite Hp. cbn [trace set_peers record].
        apply in_or_app. right. left. reflexivity.
      - apply (Hreset j p Hj). unfold s2, slot_peer. cbn [s_peers set_peers].
        rewrite list_lookup_insert_ne by (intros ->; contradiction).
        rewrite Hpeers1. exact Hp. }
    unfold s2, s1 in Hst, Hh, Hg, Hsys, Hid, Hhid.
    destruct (slot_peer s i); repeat split; assumption.
Qed.

Lemma wp_ShutdownEnetHost (s : Session) :
  wp ShutdownEnetHost
     (fun _ s' =>
        s_enet_host s' = None
        /\ s_state s' = s_state s /\ s_ggpo s' = s_ggpo s /\ system s' = system s
        /\ s_player_id s' = s_player_id s /\ s_host_player_id s' = s_host_player_id s
        /\ (forall e, In e (trace s) -> In e (trace s'))
        /\ (s_enet_host s = None -> s' = s)
        /\ (s_enet_host s <> None ->
            (length (s_peers s) = MAX_PLAYERS ->
             s_peers s' = replicate MAX_PLAYERS empty_Peer)
            /\ In enet_host_destroy (trace s')
            /\ forall p, p ∈ connected_peers s -> In (enet_peer_reset p) (trace s'))) s.
Proof.
  unfold ShutdownEnetHost. wp_next.
  destruct (s_enet_host s) as [h|] eqn:Hhost.
  2:{ wp_prim. repeat split; try assumption; try reflexivity; auto; congruence. }
  wp_next. unfold for_each_player. apply wp_bind.
  destruct (shutdown_slots (seq 0 MAX_PLAYERS)
              (record (Log Dev "Shutting down Enet host") s) (NoDup_seq _ _))
    as (s1 & Hrun & Hlen1 & Hin & _ & Htr & Hreset & Hst & Hh & Hg & Hsys & Hid & Hhid).
  unfold wp at 1. unfold id in Hrun. rewrite Hrun. wp_next. wp_prim.
  cbn [s_enet_host s_state s_ggpo system s_player_id s_host_player_id s_peers trace
       set_enet_host record] in *.
  split; [reflexivity|]. repeat (split; [assumption|]).
  split.
  { intros e He. apply in_or_app. left. apply Htr. apply in_or_app. left. exact He. }
  split; [discriminate|]. intros _. split; [|split].
  - intros Hlen. apply list_eq. intros j. destruct (Nat.lt_ge_cases j MAX_PLAYERS) as [Hj|Hj].
    + rewrite Hin; [|apply elem_of_seq; lia|lia].
      symmetry. apply lookup_replicate_2. exact Hj.
    + rewrite (lookup_ge_None_2 (s_peers s1)) by lia.
      symmetry. apply lookup_ge_None_2. rewrite length_replicate. exact Hj.
  - apply in_or_app. right. left. reflexivity.
  - intros p Hp. apply in_or_app. left.
    unfold connected_peers in Hp. apply list_elem_of_omap in Hp as (i & Hi & Hp).
    apply (Hreset i p Hi). exact Hp.
Qed.

Lemma wp_CloseSession (s : Session) :
  IsActive s = true \/ s_state s = ClosingSession ->
  wp CloseSession
     (fun _ s' =>
        s_state s' = Inactive /\ s_ggpo s' = None /\ s_enet_host s' = None
        /\ (s_enet_host s <> None ->
            (length (s_peers s) = MAX_PLAYERS ->
             s_peers s' = replicate MAX_PLAYERS empty_Peer)
            /\ In enet_host_destroy (trace s')
            /\ forall p, p ∈ connected_peers s -> In (enet_peer_reset p) (trace s'))
        /\ system s' = (if IsHost s then system s else None)) s.
Proof.
  intros Hstate. unfold CloseSession. wp_next.
  assert (Hok : IsActive s || state_is (s_state s) ClosingSession = true).
  { destruct Hstate as [Ha|Hc]; [rewrite Ha; reflexivity|rewrite Hc; apply orb_true_r]. }
  rewrite Hok. apply wp_bind. apply wp_ret. apply wp_bind.
  eapply wp_mono; [|apply wp_DestroyGGPOSession].
  intros u s1 [Hr1 Hg1]. cbv beta.
  pose proof Hr1 as (Hst1 & Hh1 & Hp1 & _ & Hhid1 & Hid1 & _ & _ & _ & _ & _ & _ & Hsys1).
  assert (Hlen1 : length (s_peers s1) = length (s_peers s)).
  { rewrite <- (length_fmap peer (s_peers s1)), Hp1. apply length_fmap. }
  apply wp_bind.
  eapply wp_mono; [|apply wp_ShutdownEnetHost].
  intros u' s2 (Hh2 & Hst2 & Hg2 & Hsys2 & Hid2 & Hhid2 & Htr2 & _ & Hdown). cbv beta.
  wp_next. wp_next.
  assert (Hpeers : s_enet_host s <> None ->
            (length (s_peers s) = MAX_PLAYERS ->
             s_peers s2 = replicate MAX_PLAYERS empty_Peer)
            /\ In enet_host_destroy (trace s2)
            /\ forall p, p ∈ connected_peers s -> In (enet_peer_reset p) (trace s2)).
  { intros Hhost. rewrite <- Hh1 in Hhost. destruct (Hdown Hhost) as (Hps & Hd & Hres).
    split; [intros Hlen; apply Hps; congruence|]. split; [exact Hd|].
    intros p Hp. apply Hres.
    unfold connected_peers in *. apply list_elem_of_omap in Hp as (i & Hi & Hp).
    apply list_elem_of_omap. exists i. split; [exact Hi|].
    rewrite slot_peer_fmap, Hp1, <- slot_peer_fmap. exact Hp. }
  destruct (IsHost s).
  - wp_prim. cbn [s_state s_ggpo s_enet_host s_peers trace system set_state record].
    split; [reflexivity|]. split; [congruence|]. split; [exact Hh2|]. split; [|congruence].
    intros Hhost. destruct (Hpeers Hhost) as (Hps & Hd & Hres).
    split; [exact Hps|]. split; [apply in_or_app; left; exact Hd|].
    intros p Hp. apply in_or_app. left. apply Hres. exact Hp.
  - wp_next. wp_prim.
    cbn [s_state s_ggpo s_enet_host s_peers trace system set_system set_state record].
    split; [reflexivity|]. split; [congruence|]. split; [exact Hh2|]. split; [|reflexivity].
    intros Hhost. destruct (Hpeers Hhost) as (Hps & Hd & Hres).
    split; [exact Hps|]. split; [rewrite !in_app_iff; left; left; exact Hd|].
    intros p Hp. rewrite !in_app_iff. left. left. apply Hres. exact Hp.
Qed.

(** X7: from an active or closing session whose peer table has
    MAX_PLAYERS slots [CloseSession] returns with the session Inactive,
    without GGPO session and without ENet host; if there was a host,
    every peer was reset, the host was destroyed and every slot is empty.
    The Machine is shut down on a joiner and kept on the host. *)
Theorem CloseSession_tears_down (s : Session) :
  length (s_peers s) = MAX_PLAYERS ->
  IsActive s = true \/ s_state s = ClosingSession ->
  exists s',
    CloseSession s = (Returned tt, s')
    /\ s_state s' = Inactive
    /\ s_ggpo s' = None
    /\ s_enet_host s' = None
    /\ (s_enet_host s <> None ->
        s_peers s' = replicate MAX_PLAYERS empty_Peer
        /\ In enet_host_destroy (trace s')
        /\ forall p, p ∈ connected_peers s -> In (enet_peer_reset p) (trace s'))
    /\ system s' = (if IsHost s then system s else None).
Proof.
  intros Hlen Hstate.
  destruct (wp_run _ _ _ (wp_CloseSession s Hstate))
    as ([] & s' & Hrun & Hst & Hg & Hh & Hdown & Hsys).
  exists s'. repeat (split; [assumption|]). split; [|exact Hsys].
  intros Hhost. destruct (Hdown Hhost) as (Hps & Hd & Hres). auto.
Qed.

(** X8: a session that is closing is torn down by the next turn of
    [ExecuteNetplay], which then ends: whatever the turns bring, the loop
    returns with the session Inactive and without ENet host, and handles
    no event of theirs. *)
Theorem ExecuteNetplay_closes (s : Session) :
  s_state s = ClosingSession ->
  exists s',
    (forall t turns, ExecuteNetplay (t :: turns) s = (Returned tt, s'))
    /\ s_state s' = Inactive
    /\ s_enet_host s' = None
    /\ s_ggpo s' = None.
Proof.
  intros Hst.
  set (s0 := record System_SetState_Running s).
  destruct (wp_run _ _ _ (wp_CloseSession s0 (or_intror Hst)))
    as ([] & s' & Hrun & Hst' & Hg & Hh & _).
  exists s'. split; [|auto].
  intros t turns. unfold ExecuteNetplay. unfold bind at 1, call, modify. fold s0.
  cbn [ExecuteNetplay_loop]. unfold bind at 1, gets, id.
  change (s_state s0) with (s_state s). rewrite Hst.
  cbn [state_is SessionState_rank Z.eqb]. unfold bind at 1.
  unfold ExecuteNetplay_turn. unfold bind at 1, gets, id.
  change (s_state s0) with (s_state s). rewrite Hst. rewrite Hrun.
  destruct turns as [|t' turns]; [reflexivity|].
  cbn [ExecuteNetplay_loop]. unfold bind at 1, gets, id. rewrite Hst'. reflexivity.
Qed.

End ClosingSessions.

(** ** Starting, joining and creating a session *)

Section StartingSessions.
Context `{platform : Platform}.

Lemma wlp_add_ggpo_players_system (l : list nat) (n : Z) (s : Session) :
  wlp (add_ggpo_players l n)
      (fun _ s' => system s' = system s /\ s_enet_host s' = s_enet_host s) s.
Proof.
  revert n s. induction l as [|i l IH]; intros n s; [split; reflexivity|].
  cbn [add_ggpo_players]. wlp_next.
  destruct (negb (has_peer s i) && negb (Z.of_nat i =? s_player_id s)); [apply IH|].
  apply wlp_bind. unfold add_ggpo_player. wlp_next. wlp_next. wlp_next.
  eapply (wlp_mono _ (fun _ s1 => system s1 = system s
                                  /\ s_enet_host s1 = s_enet_host s)).
  - intros u s1 [H1 H1']. eapply wlp_mono; [|apply IH].
    intros u' s2 [H2 H2']. cbv beta in *. split; congruence.
  - destruct (Z.of_nat i =? s_player_id s); wlp_prim; split; reflexivity.
Qed.

Lemma wlp_CreateGGPOSession_system (s : Session) :
  wlp CreateGGPOSession
      (fun _ s' => roster s' = roster s
                   /\ system s' = system s /\ s_enet_host s' = s_enet_host s) s.
Proof.
  apply wlp_and; [apply neutral_CreateGGPOSession|].
  unfold CreateGGPOSession. wlp_next. wlp_next. wlp_next. apply wlp_bind.
  eapply wlp_mono; [|apply wlp_add_ggpo_players_system].
  intros u s1 H1. cbv beta in H1. wlp_seq. exact H1.
Qed.

(** What [Start] leaves behind, by its result. *)
Lemma wlp_Start_outcome (is_hosting : bool) (nickname remote_addr : string)
    (port ldelay : Z) (s : Session) :
  wlp (Start is_hosting nickname remote_addr port ldelay)
      (fun r s' =>
         (r = true ->
          IsActive s = false /\ 0 <= port < 65535
          /\ s_enet_host s' <> None /\ s_host_player_id s' = 0
          /\ if is_hosting
             then s_state s' = Running /\ s_player_id s' = 0 /\ s_num_players s' = 1
                  /\ s_reset_players s' = bitset_of_Z 1 /\ system s' = system s
             else s_state s' = Connecting /\ s_player_id s' = -1
                  /\ has_peer s' 0 = true /\ s_reset_players s' = bitset_none)
         /\ (r = false -> s_state s' = s_state s \/ s_state s' = Initializing)) s.
Proof.
  unfold Start. wlp_next.
  destruct (IsActive s) eqn:Hact; [wlp_seq; split; [discriminate|left; reflexivity]|].
  destruct ((port <? 0) || (65535 <=? port)) eqn:Hport;
    [wlp_seq; split; [discriminate|left; reflexivity]|].
  apply orb_false_iff in Hport as [Hlo Hhi].
  apply Z.ltb_ge in Hlo. apply Z.leb_gt in Hhi.
  apply wlp_bind.
  eapply (wlp_mono _ (fun have s1 => s_state s1 = s_state s
                                     /\ (is_hosting = true -> have = true ->
                                         system s1 = system s))).
  2:{ destruct (system s) eqn:Hsys; [wlp_prim; auto|].
      destruct is_hosting.
      - wlp_seq. split; [reflexivity|]. discriminate.
      - apply wlp_bind. apply wlp_neutral; [apply neutral_CreateSystem|].
        intros created s1 E1. destruct (roster_eq_inv _ _ E1) as (Hst1 & _).
        destruct created; wlp_seq; (split; [exact Hst1|discriminate]). }
  intros have_system s1 [Hst1 Hsys1]. cbv beta.
  destruct have_system; cbn [negb];
    [|wlp_prim; split; [discriminate|left; exact Hst1]].
  wlp_next. wlp_next.
  destruct enet_initialize; cbn [negb];
    [|wlp_seq; split; [discriminate|right; reflexivity]].
  destruct (enet_host_create _) as [h|];
    [|wlp_seq; split; [discriminate|right; reflexivity]].
  wlp_next. wlp_next. wlp_next. wlp_next. wlp_next. wlp_next.
  destruct is_hosting.
  - wlp_next. wlp_next. wlp_next. apply wlp_bind.
    eapply wlp_mono; [|apply wlp_CreateGGPOSession_system].
    intros u s2 (E2 & Hsys2 & Hhost2). cbv beta. wlp_seq. split; [|discriminate].
    intros _.
    destruct (roster_eq_inv _ _ E2) as (_ & _ & Hh2 & Hid2 & Hn2 & Hb2 & _).
    cbn [s_state s_enet_host s_host_player_id s_player_id s_num_players s_reset_players
         system record set_state].
    cbn [s_host_player_id s_player_id s_num_players s_reset_players system s_enet_host
         set_reset_players set_num_players set_player_id set_reset_cookie set_local_delay
         set_local_nickname set_host_player_id set_enet_host record set_state]
      in Hh2, Hid2, Hn2, Hb2, Hsys2, Hhost2.
    split; [reflexivity|]. split; [lia|]. split; [congruence|]. split; [exact Hh2|].
    split; [reflexivity|]. split; [exact Hid2|]. split; [exact Hn2|].
    split; [exact Hb2|]. rewrite Hsys2. apply Hsys1; reflexivity.
  - wlp_next. wlp_next.
    destruct (enet_address_set_host remote_addr) as [ip|];
      [|wlp_seq; split; [discriminate|right; reflexivity]].
    wlp_next. wlp_next.
    destruct (enet_host_connect _ _ _) as [[hp h']|].
    + wlp_seq. split; [|discriminate]. intros _.
      cbn [s_state s_enet_host s_host_player_id s_player_id s_reset_players
           set_peers set_enet_host set_host_address set_player_id
           set_reset_players set_reset_cookie set_local_delay set_local_nickname
           set_host_player_id record set_state] in *.
      split; [reflexivity|]. split; [lia|]. split; [discriminate|].
      repeat (split; [reflexivity|]). split; [|reflexivity].
      unfold has_peer, slot_peer.
      cbn [s_peers set_peers set_enet_host set_host_address set_player_id
           set_reset_players set_reset_cookie set_local_delay set_local_nickname
           set_host_player_id record set_state] in *.
      change (Z.to_nat 0) with 0%nat in *.
      rewrite list_lookup_insert_eq by (eapply lookup_lt_Some; eassumption).
      reflexivity.
    + wlp_seq. split; [discriminate|right; reflexivity].
Qed.

Lemma wlp_CloseSession_post (s : Session) :
  wlp CloseSession
      (fun _ s' => s_state s' = Inactive /\ s_enet_host s' = None /\ s_ggpo s' = None) s.
Proof.
  destruct (IsActive s || state_is (s_state s) ClosingSession) eqn:Hok.
  - apply wp_wlp. eapply wp_mono; [|apply wp_CloseSession].
    + intros u s' (Hst & Hg & Hh & _). auto.
    + apply orb_true_iff in Hok as [Ha|Hc]; [left; exact Ha|right].
      destruct (s_state s); try discriminate. reflexivity.
  - unfold CloseSession. wlp_next. rewrite Hok. apply wlp_bind. exact I.
Qed.

(** X9: when [Start] returns false the session is in the state it was in
    or in Initializing, which it reaches once the port and the Machine
    are accepted; Initializing counts as active, so that in this state
    every further [Start] fails as already active and changes nothing
    but the log. *)
Theorem Start_failure_blocks_restart (is_hosting : bool) (nickname remote_addr : string)
    (port ldelay : Z) (s s' : Session) :
  Start is_hosting nickname remote_addr port ldelay s = (Returned false, s') ->
  (s_state s' = s_state s \/ s_state s' = Initializing)
  /\ (s_state s' = Initializing ->
      forall is_hosting' nickname' remote_addr' port' ldelay',
        Start is_hosting' nickname' remote_addr' port' ldelay' s'
        = (Returned false, record (Log Error "Netplay session already active") s')).
Proof.
  intros Hrun.
  pose proof (wlp_run _ _ _ _ _ (wlp_Start_outcome is_hosting nickname remote_addr port
                                   ldelay s) Hrun) as [_ Hfalse].
  split; [apply Hfalse; reflexivity|].
  intros Hinit h' n' a' p' d'. unfold Start. unfold bind at 1, gets, id.
  unfold IsActive. rewrite Hinit. reflexivity.
Qed.

(** X10: when [JoinSession] returns true the session is Connecting, the
    local player id is -1 until the host assigns one, and slot 0 holds the
    dialled host; when it returns false it has closed the session: the
    state is Inactive and there is neither ENet host nor GGPO session,
    also when a session was running before the call. *)
Theorem JoinSession_outcome (nickname hostname : string) (port : Z) (password : string)
    (s s' : Session) (r : bool) :
  JoinSession nickname hostname port password s = (Returned r, s') ->
  if r
  then IsActive s = false
       /\ s_state s' = Connecting /\ s_player_id s' = -1 /\ has_peer s' 0 = true
       /\ s_enet_host s' <> None
  else s_state s' = Inactive /\ s_enet_host s' = None /\ s_ggpo s' = None.
Proof.
  intros Hrun.
  enough (Hw : wlp (JoinSession nickname hostname port password)
                 (fun r s' =>
                    if r
                    then IsActive s = false
                         /\ s_state s' = Connecting /\ s_player_id s' = -1
                         /\ has_peer s' 0 = true /\ s_enet_host s' <> None
                    else s_state s' = Inactive /\ s_enet_host s' = None
                         /\ s_ggpo s' = None) s).
  { exact (wlp_run _ _ _ _ _ Hw Hrun). }
  unfold JoinSession. apply wlp_bind.
  eapply wlp_mono; [|apply wlp_Start_outcome].
  intros started s1 [Htrue _]. cbv beta. destruct started; cbn [negb].
  - wlp_prim. destruct (Htrue eq_refl) as (Ha & _ & Hh & _ & Hst & Hid & Hp & _). auto.
  - apply wlp_bind. eapply wlp_mono; [|apply wlp_CloseSession_post].
    intros u s2 H2. cbv beta in H2. wlp_prim. exact H2.
Qed.

Section Hosting.

(** [System::LoadState] on the host's save state. *)
Variable System_LoadState : Machine -> Machine.

(** X11: when [CreateSession] returns true the session is Running with
    the local player as host and only player, [reset_players = {0}], and
    the Machine is the one before the call with the save state loaded;
    when it returns false it has closed the session: the state is
    Inactive and there is neither ENet host nor GGPO session. *)
Theorem CreateSession_outcome (nickname : string) (port max_players : Z)
    (password : string) (s s' : Session) (r : bool) :
  CreateSession System_LoadState nickname port max_players password s = (Returned r, s') ->
  if r
  then IsActive s = false
       /\ s_state s' = Running /\ IsHost s' = true /\ s_player_id s' = 0
       /\ s_num_players s' = 1 /\ s_reset_players s' = bitset_of_Z 1
       /\ system s' = option_map System_LoadState (system s)
  else s_state s' = Inactive /\ s_enet_host s' = None /\ s_ggpo s' = None.
Proof.
  intros Hrun.
  enough (Hw : wlp (CreateSession System_LoadState nickname port max_players password)
                 (fun r s' =>
                    if r
                    then IsActive s = false
                         /\ s_state s' = Running /\ IsHost s' = true
                         /\ s_player_id s' = 0
                         /\ s_num_players s' = 1 /\ s_reset_players s' = bitset_of_Z 1
                         /\ system s' = option_map System_LoadState (system s)
                    else s_state s' = Inactive /\ s_enet_host s' = None
                         /\ s_ggpo s' = None) s).
  { exact (wlp_run _ _ _ _ _ Hw Hrun). }
  unfold CreateSession. apply wlp_bind.
  eapply wlp_mono; [|apply wlp_Start_outcome].
  intros started s1 [Htrue _]. cbv beta. destruct started; cbn [negb].
  - destruct (Htrue eq_refl) as (Ha & _ & _ & Hh & Hst & Hid & Hn & Hb & Hsys).
    wlp_next.
    assert (Hhost : IsHost s1 = true) by (unfold IsHost; rewrite Hid, Hh; reflexivity).
    rewrite Hhost. wlp_next. wlp_prim.
    cbn [s_state s_player_id s_num_players s_reset_players system set_system].
    unfold IsHost. cbn [s_player_id s_host_player_id set_system].
    rewrite Hid, Hh, Hsys. repeat split; assumption.
  - apply wlp_bind. eapply wlp_mono; [|apply wlp_CloseSession_post].
    intros u s2 H2. cbv beta in H2. wlp_prim. exact H2.
Qed.

(** X12: called while no session exists with a port outside [0, 65535),
    [CreateSession] and [JoinSession] do not return false: [Start] logs
    the port and changes nothing, and the [CloseSession] that follows
    stops at its assertion that a session is active or closing. *)
Theorem invalid_port_stops_at_CloseSession (nickname hostname : string)
    (port max_players : Z) (password : string) (s : Session) :
  s_state s = Inactive ->
  port < 0 \/ 65535 <= port ->
  let stopped :=
    (Aborted (AssertionFailed "IsActive() || s_state == SessionState::ClosingSession"),
     record (Log Error "Invalid port") s) in
  JoinSession nickname hostname port password s = stopped
  /\ CreateSession System_LoadState nickname port max_players password s = stopped.
Proof.
  intros Hst Hport stopped.
  assert (Hbad : (port <? 0) || (65535 <=? port) = true).
  { apply orb_true_iff. destruct Hport; [left; apply Z.ltb_lt|right; apply Z.leb_le]; lia. }
  assert (Hstart : forall hosting addr delay,
            Start hosting nickname addr port delay s
            = (Returned false, record (Log Error "Invalid port") s)).
  { intros hosting addr delay. unfold Start. unfold bind at 1, gets, id.
    unfold IsActive. rewrite Hst. cbn [SessionState_rank Z.leb Z.compare andb].
    rewrite Hbad. reflexivity. }
  assert (Hclose : CloseSession (record (Log Error "Invalid port") s)
                   = (Aborted (AssertionFailed
                                 "IsActive() || s_state == SessionState::ClosingSession"),
                      record (Log Error "Invalid port") s)).
  { unfold CloseSession. unfold bind at 1, gets, id. unfold IsActive.
    cbn [s_state record]. rewrite Hst. reflexivity. }
  split.
  - unfold JoinSession. unfold bind at 1. rewrite Hstart. cbn [negb].
    unfold bind at 1. rewrite Hclose. reflexivity.
  - unfold CreateSession. unfold bind at 1. rewrite Hstart. cbn [negb].
    unfold bind at 1. rewrite Hclose. reflexivity.
Qed.

End Hosting.

End StartingSessions.

(** ** Resynchronisation *)

Section Resynchronisation.
Context `{platform : Platform}.

Lemma trace_record_all (effects : list Effect) (s : Session) :
  trace (record_all effects s) = (trace s ++ effects)%list.
Proof.
  revert s. induction effects as [|e effects IH]; intros s.
  - simpl. rewrite app_nil_r. reflexivity.
  - simpl. rewrite IH. cbn [trace record]. rewrite <- app_assoc. reflexivity.
Qed.

Lemma same_roster_record_all (effects : list Effect) (s : Session) :
  same_roster s (record_all effects s).
Proof.
  revert s. induction effects as [|e effects IH]; intros s; [apply same_roster_refl|].
  simpl. eapply same_roster_trans; [apply same_roster_record|apply IH].
Qed.

Lemma s_ggpo_record_all (effects : list Effect) (s : Session) :
  s_ggpo (record_all effects s) = s_ggpo s.
Proof.
  revert s. induction effects as [|e effects IH]; intros s; [reflexivity|].
  simpl. rewrite IH. reflexivity.
Qed.

Lemma connected_peers_ext (s s' : Session) :
  (forall i, slot_peer s' i = slot_peer s i) -> connected_peers s' = connected_peers s.
Proof.
  intros H. unfold connected_peers.
  induction (seq 0 MAX_PLAYERS) as [|i l IH]; [reflexivity|].
  cbn [omap list_omap]. rewrite H, IH. reflexivity.
Qed.

(** One entry of the roster of a Reset. *)
Lemma reset_player_entry_run (s s1 : Session) (i : nat) (h : ENetHost) :
  s_enet_host s = Some h -> (i < MAX_PLAYERS)%nat ->
  exists e,
    reset_player_entry s i s1 = (Returned e, s1)
    /\ ResetMessage.controller_port e = if occupied s i then Z.of_nat i else -1.
Proof.
  intros Hhost Hi. unfold reset_player_entry, occupied.
  destruct (IsValidPlayerId s (Z.of_nat i)) eqn:Hvalid; cbn [negb].
  2:{ eexists. split; reflexivity. }
  destruct (Z.eqb_spec (Z.of_nat i) (s_player_id s)) as [Hself|Hother].
  - rewrite Hhost. eexists. split; reflexivity.
  - assert (Hpeer : has_peer s i = true).
    { rewrite <- (occupied_other s i Hi Hother). exact Hvalid. }
    unfold has_peer in Hpeer. destruct (slot_peer s i) as [p|]; [|discriminate].
    eexists. split; reflexivity.
Qed.

Lemma reset_player_entries_run (s s1 : Session) (l : list nat) (h : ENetHost) :
  s_enet_host s = Some h -> (forall i, i ∈ l -> (i < MAX_PLAYERS)%nat) ->
  exists entries,
    reset_player_entries s l s1 = (Returned entries, s1)
    /\ Forall2 (fun i e => ResetMessage.controller_port e
                           = if occupied s i then Z.of_nat i else -1) l entries.
Proof.
  intros Hhost. induction l as [|i l IH]; intros Hl.
  - exists []. split; [reflexivity|constructor].
  - destruct (reset_player_entry_run s s1 i h Hhost ltac:(apply Hl; left)) as (e & He & Hport).
    destruct IH as (es & Hes & Hall); [intros j Hj; apply Hl; right; exact Hj|].
    exists (e :: es). split.
    + cbn [reset_player_entries]. unfold bind at 1. rewrite He.
      unfold bind at 1. rewrite Hes. reflexivity.
    + constructor; assumption.
Qed.

Lemma entries_present (s : Session) (entries : list ResetMessage.PlayerEntry) msg :
  ResetMessage.players msg = entries ->
  Forall2 (fun i e => ResetMessage.controller_port e
                      = if occupied s i then Z.of_nat i else -1)
          (seq 0 MAX_PLAYERS) entries ->
  length entries = MAX_PLAYERS
  /\ forall i, (i < MAX_PLAYERS)%nat -> entry_present msg i = occupied s i.
Proof.
  intros Hmsg Hall. split.
  - rewrite <- (Forall2_length _ _ _ Hall). apply length_seq.
  - intros i Hi. unfold entry_present. rewrite Hmsg.
    destruct (Forall2_lookup_l _ _ _ i i Hall (lookup_seq_lt _ _ _ Hi)) as (e & He & Hport).
    rewrite He. cbn [Nat.add] in Hport. rewrite Hport.
    destruct (occupied s i); [apply Z.leb_le; lia|reflexivity].
Qed.

(** The whole of [Reset] on a host that can save and reload its
    Machine. *)
Lemma wp_Reset_full (s : Session) (m m' : Machine) (state : list Byte.byte)
    (h : ENetHost) :
  IsHost s = true ->
  in_range (s_player_id s) = true ->
  s_enet_host s = Some h ->
  system s = Some m ->
  System_SaveStateToStream m = Some state ->
  System_LoadStateFromStream state m = Some m' ->
  wp Reset
     (fun _ s' =>
        s_state s' = Resetting
        /\ s_reset_cookie s' = Int.u32 (s_reset_cookie s + 1)
        /\ s_reset_players s' = <[Z.to_nat (s_player_id s) := true]> bitset_none
        /\ system s' = Some m'
        /\ s_ggpo s' = None
        /\ peer <$> s_peers s' = peer <$> s_peers s
        /\ nickname <$> s_peers s' = nickname <$> s_peers s
        /\ s_num_players s' = s_num_players s
        /\ s_player_id s' = s_player_id s
        /\ s_host_player_id s' = s_host_player_id s
        /\ s_enet_host s' = s_enet_host s
        /\ (forall e, In e (trace s) -> In e (trace s'))
        /\ exists msg,
             ResetMessage.cookie msg = Int.u32 (s_reset_cookie s + 1)
             /\ ResetMessage.num_players msg = s_num_players s
             /\ ResetMessage.state_data_size msg = Int.u32 (Z.of_nat (length state))
             /\ length (ResetMessage.players msg) = MAX_PLAYERS
             /\ (forall i, (i < MAX_PLAYERS)%nat -> entry_present msg i = occupied s i)
             /\ forall p, p ∈ connected_peers s ->
                  In (enet_peer_send p
                        {| dataLength := sizeof_msg ControlMessage.Reset
                                         + Int.u32 (Z.of_nat (length state));
                           hdr_size := Int.u16 (sizeof_msg ControlMessage.Reset
                                                + Int.u32 (Z.of_nat (length state)));
                           payload := ResetP msg;
                           trailing := state |})
                     (trace s')) s.
Proof.
  intros Hhost Hrange Henet Hsys Hsave Hload. unfold Reset. wp_next.
  rewrite Hhost. apply wp_bind, wp_ret. wp_next.
  rewrite Hsys. cbn [mbind option_bind]. rewrite Hsave, Hload. wp_next.
  set (s1 := set_reset_cookie _ _).
  apply wp_bind.
  destruct (reset_player_entries_run s s1 (seq 0 MAX_PLAYERS) h Henet)
    as (entries & Hentries & Hall).
  { intros i Hi. apply elem_of_seq in Hi. lia. }
  unfold wp at 1. rewrite Hentries.
  set (msg := {| ResetMessage.cookie := Int.u32 (s_reset_cookie s + 1);
                 ResetMessage.state_data_size := Int.u32 (Z.of_nat (length state));
                 ResetMessage.num_players := s_num_players s;
                 ResetMessage.players := entries |}).
  destruct (entries_present s entries msg eq_refl Hall) as [Hlen Hpresent].
  apply wp_bind.
  eapply wp_mono; [|apply wp_DestroyGGPOSession_trace].
  intros u s2 (Hr2 & Hg2 & Htr2). cbv beta.
  pose proof Hr2 as (Hst2 & Hh2 & Hp2 & Hnick2 & Hhid2 & Hid2 & Hn2 & Hc2 & Hb2 & _).
  apply wp_bind. unfold wp at 1, send_to_each, for_each_player.
  rewrite send_to_slots.
  set (sends := map _ _).
  set (s3 := record_all sends s2).
  pose proof (same_roster_record_all sends s2)
    as (Hst3 & Hh3 & Hp3 & Hnick3 & Hhid3 & Hid3 & Hn3 & Hc3 & Hb3 & _).
  fold s3 in Hst3, Hh3, Hp3, Hnick3, Hhid3, Hid3, Hn3, Hc3, Hb3.
  wp_next. wp_next. wp_next. wp_next.
  cbn [s_player_id set_reset_players set_state set_system].
  assert (Hid : s_player_id s3 = s_player_id s) by (rewrite Hid3, Hid2; reflexivity).
  rewrite Hid. unfold reset_players_set. rewrite Hrange. wp_next. wp_prim.
  cbn [s_state s_reset_cookie s_reset_players system s_ggpo s_peers s_num_players
       s_player_id s_host_player_id s_enet_host trace
       set_reset_players set_state set_system record].
  split; [reflexivity|]. split; [rewrite Hc3, Hc2; reflexivity|].
  split; [reflexivity|]. split; [reflexivity|].
  split; [unfold s3; rewrite s_ggpo_record_all; exact Hg2|].
  split; [rewrite Hp3, Hp2; reflexivity|]. split; [rewrite Hnick3, Hnick2; reflexivity|].
  split; [rewrite Hn3, Hn2; reflexivity|]. split; [exact Hid|].
  split; [rewrite Hhid3, Hhid2; reflexivity|]. split; [rewrite Hh3, Hh2; reflexivity|].
  split.
  { intros e He. apply in_or_app. left. unfold s3. rewrite trace_record_all.
    apply in_or_app. left. apply Htr2. unfold s1. cbn [trace set_reset_cookie record].
    apply in_or_app. left. exact He. }
  exists msg. repeat (split; [reflexivity|]). split; [exact Hlen|]. split; [exact Hpresent|].
  intros p Hp. apply in_or_app. left. unfold s3. rewrite trace_record_all.
  apply in_or_app. right. unfold sends. apply in_map_iff. exists p. split; [reflexivity|].
  apply list_elem_of_In. fold (connected_peers s2).
  rewrite (connected_peers_ext s s2); [exact Hp|].
  intros i. rewrite !slot_peer_fmap, Hp2. reflexivity.
Qed.

(** X13: on a host with an ENet host and a Machine that can be saved and
    reloaded, [Reset] returns with the session Resetting, the cookie
    advanced by one modulo 2^32, the Machine reloaded from the snapshot,
    no GGPO session, and [reset_players] holding the local player alone;
    the roster (peers, nicknames, player count, player ids) is the one
    before. *)
Theorem Reset_resynchronises (s : Session) (m m' : Machine) (state : list Byte.byte)
    (h : ENetHost) :
  IsHost s = true ->
  in_range (s_player_id s) = true ->
  s_enet_host s = Some h ->
  system s = Some m ->
  System_SaveStateToStream m = Some state ->
  System_LoadStateFromStream state m = Some m' ->
  exists s',
    Reset s = (Returned tt, s')
    /\ s_state s' = Resetting
    /\ s_reset_cookie s' = Int.u32 (s_reset_cookie s + 1)
    /\ (forall i, reset_bit s' i = true <-> i = Z.to_nat (s_player_id s))
    /\ system s' = Some m'
    /\ s_ggpo s' = None
    /\ peer <$> s_peers s' = peer <$> s_peers s
    /\ nickname <$> s_peers s' = nickname <$> s_peers s
    /\ s_num_players s' = s_num_players s
    /\ s_player_id s' = s_player_id s
    /\ s_host_player_id s' = s_host_player_id s.
Proof.
  intros Hhost Hrange Henet Hsys Hsave Hload.
  destruct (wp_run _ _ _ (wp_Reset_full s m m' state h Hhost Hrange Henet Hsys Hsave Hload))
    as ([] & s' & Hrun & Hst & Hc & Hb & Hm & Hg & Hp & Hnick & Hn & Hid & Hhid & _).
  exists s'. repeat (split; [assumption|]). split; [|auto 10].
  intros i. unfold reset_bit. rewrite Hb.
  destruct (in_range_bounds _ Hrange) as [_ Hlt].
  destruct (Nat.eq_dec i (Z.to_nat (s_player_id s))) as [->|Hne].
  - rewrite list_lookup_insert_eq by (rewrite length_bitset_none; exact Hlt). tauto.
  - rewrite list_lookup_insert_ne by congruence.
    change (match bitset_none !! i with Some b => b | None => false end)
      with (reset_bit (set_reset_players bitset_none s) i).
    rewrite reset_bit_none by reflexivity. split; [discriminate|contradiction].
Qed.

(** X14: the Reset message that the host sends to every connected peer
    carries the new cookie and the host's player count, lists exactly the
    occupied slots, and is as long as the snapshot it announces: the
    length test of [HandleResetMessage] accepts it, and when the host
    counts at least its occupied slots the message names its receiver and
    no more players than it counts. *)
Theorem Reset_message_fits_receivers (s : Session) (m m' : Machine)
    (state : list Byte.byte) (h : ENetHost) :
  IsHost s = true ->
  in_range (s_player_id s) = true ->
  s_enet_host s = Some h ->
  system s = Some m ->
  System_SaveStateToStream m = Some state ->
  System_LoadStateFromStream state m = Some m' ->
  0 <= sizeof_msg ControlMessage.Reset ->
  sizeof_msg ControlMessage.Reset + 2 ^ 32 <= 2 ^ size_t_bits ->
  exists s' pkt msg,
    Reset s = (Returned tt, s')
    /\ payload pkt = ResetP msg
    /\ trailing pkt = state
    /\ (forall p, p ∈ connected_peers s -> In (enet_peer_send p pkt) (trace s'))
    /\ ResetMessage.cookie msg = s_reset_cookie s'
    /\ ResetMessage.num_players msg = s_num_players s'
    /\ (forall i, (i < MAX_PLAYERS)%nat -> entry_present msg i = occupied s i)
    /\ (dataLength pkt <? sizeof_msg ControlMessage.Reset)
       || (dataLength pkt <? reset_expected_size msg) = false
    /\ (occupied_count s <= s_num_players s ->
        forall j p, (j < MAX_PLAYERS)%nat -> has_peer s j = true ->
          valid_event (Z.of_nat j) (ENET_EVENT_TYPE_RECEIVE p ENET_CHANNEL_CONTROL pkt)).
Proof.
  intros Hhost Hrange Henet Hsys Hsave Hload Hsize Hfit.
  destruct (wp_run _ _ _ (wp_Reset_full s m m' state h Hhost Hrange Henet Hsys Hsave Hload))
    as ([] & s' & Hrun & Hst & Hc & Hb & Hm & Hg & Hp & Hnick & Hn & Hid & Hhid & Henet'
        & _ & msg & Hmc & Hmn & Hms & Hlen & Hpresent & Hsent).
  exists s', {| dataLength := sizeof_msg ControlMessage.Reset
                              + Int.u32 (Z.of_nat (length state));
                hdr_size := Int.u16 (sizeof_msg ControlMessage.Reset
                                     + Int.u32 (Z.of_nat (length state)));
                payload := ResetP msg;
                trailing := state |}, msg.
  split; [exact Hrun|]. split; [reflexivity|]. split; [reflexivity|].
  split; [exact Hsent|]. split; [congruence|]. split; [congruence|].
  split; [exact Hpresent|].
  assert (Hu : 0 <= Int.u32 (Z.of_nat (length state)) < 2 ^ 32).
  { unfold Int.u32, Int.to_unsigned. apply Z.mod_pos_bound. lia. }
  split.
  - cbn [dataLength]. rewrite reset_expected_size_exact by (rewrite ?Hms; assumption).
    rewrite Hms. apply orb_false_iff. split; apply Z.ltb_ge; lia.
  - intros Hcount j p Hj Hpeer. cbn [valid_event payload]. rewrite Nat2Z.id. split.
    + rewrite Hpresent by exact Hj. unfold occupied, IsValidPlayerId.
      rewrite in_range_of_nat by exact Hj. rewrite Nat2Z.id, Hpeer.
      apply orb_true_r.
    + rewrite Hmn. etransitivity; [|exact Hcount]. apply Z.eq_le_incl.
      unfold occupied_count. apply count_if_ext. intros i Hi.
      apply Hpresent. apply elem_of_seq in Hi. lia.
Qed.

Lemma bitset_count_set (b : list bool) (i : nat) :
  b !! i = Some false -> bitset_count (<[i := true]> b) = bitset_count b + 1.
Proof.
  revert i. induction b as [|x b IH]; intros i Hi; [discriminate|].
  destruct i as [|i].
  - inversion Hi; subst. simpl. lia.
  - simpl in *. rewrite (IH i Hi). lia.
Qed.

(** A ResetComplete with another cookie than the current one leaves
    [reset_players] as it is. *)
Lemma wlp_ResetComplete_other_cookie (player_id : Z) (pkt : ENetPacket)
    (view : ResetCompleteMessage.t) (s : Session) :
  ResetCompleteMessage.cookie view <> s_reset_cookie s ->
  wlp (HandleResetCompleteMessage player_id pkt view)
      (fun _ s' => s_reset_players s' = s_reset_players s) s.
Proof.
  intros Hcookie. unfold HandleResetCompleteMessage. apply wlp_bind.
  destruct ((dataLength pkt <? sizeof_msg ControlMessage.ResetComplete)
            || (hdr_size pkt <? sizeof_msg ControlMessage.ResetComplete)) eqn:Hshort.
  { destruct (CheckReceivedPacket_short ControlMessage.ResetComplete player_id pkt view s
                Hshort) as [text Hc].
    unfold wlp at 1. rewrite Hc. wlp_prim. reflexivity. }
  unfold wlp at 1. rewrite (CheckReceivedPacket_state _ _ _ _ _ Hshort).
  wlp_next.
  destruct (negb (state_is (s_state s) Resetting) || (player_id =? s_host_player_id s));
    [wlp_prim; reflexivity|].
  wlp_next. destruct x; [wlp_prim; reflexivity|].
  destruct (Z.eqb_spec (s_reset_cookie s) (ResetCompleteMessage.cookie view));
    [congruence|].
  cbn [negb]. wlp_prim. reflexivity.
Qed.

(** X15: an acknowledgement counts exactly once.  In the Resetting state
    a ResetComplete of full length from a player other than the host,
    with the current cookie and the player's bit still clear, sets that
    bit and no other, so that the count grows by one; the same message
    again changes nothing but the log. *)
Theorem ResetComplete_counts_once (s : Session) (player_id : Z) (pkt : ENetPacket)
    (view : ResetCompleteMessage.t) :
  well_formed s ->
  (dataLength pkt <? sizeof_msg ControlMessage.ResetComplete)
  || (hdr_size pkt <? sizeof_msg ControlMessage.ResetComplete) = false ->
  s_state s = Resetting ->
  player_id <> s_host_player_id s ->
  in_range player_id = true ->
  reset_bit s (Z.to_nat player_id) = false ->
  ResetCompleteMessage.cookie view = s_reset_cookie s ->
  exists s',
    HandleResetCompleteMessage player_id pkt view s = (Returned tt, s')
    /\ s_reset_players s' = <[Z.to_nat player_id := true]> (s_reset_players s)
    /\ reset_players_count s' = reset_players_count s + 1
    /\ same_roster s (set_reset_players (s_reset_players s) s')
    /\ HandleResetCompleteMessage player_id pkt view s'
       = (Returned tt, record (Log Error "Received double reset") s').
Proof.
  intros [_ Hbits] Hlong Hst Hne Hrange Hclear Hcookie.
  destruct (in_range_bounds _ Hrange) as [_ Hlt].
  destruct (lookup_lt_is_Some_2 (s_reset_players s) (Z.to_nat player_id) ltac:(lia))
    as [b Hb].
  assert (Hfalse : b = false).
  { unfold reset_bit in Hclear. rewrite Hb in Hclear. exact Hclear. }
  subst b.
  assert (Hhost : (player_id =? s_host_player_id s) = false) by (apply Z.eqb_neq; exact Hne).
  eexists. split; [|split; [|split; [|split]]].
  - unfold HandleResetCompleteMessage. unfold bind at 1.
    rewrite (CheckReceivedPacket_state _ _ _ _ _ Hlong).
    unfold bind at 1, gets, id. rewrite Hst, Hhost.
    cbn [state_is SessionState_rank Z.eqb negb orb].
    unfold bind at 1, bitset_test. rewrite Hrange, Hb. unfold ret at 1.
    rewrite Hcookie, Z.eqb_refl. cbn [negb].
    unfold bind at 1, call, modify, reset_players_set. rewrite Hrange. reflexivity.
  - reflexivity.
  - unfold reset_players_count. cbn [s_reset_players set_reset_players record].
    apply bitset_count_set. exact Hb.
  - unfold same_roster. repeat split.
  - unfold HandleResetCompleteMessage. unfold bind at 1.
    rewrite (CheckReceivedPacket_state _ _ _ _ _ Hlong).
    unfold bind at 1, gets, id.
    cbn [s_state s_host_player_id s_reset_players set_reset_players record].
    rewrite Hst, Hhost. cbn [state_is SessionState_rank Z.eqb negb orb].
    unfold bind at 1, bitset_test. rewrite Hrange.
    rewrite list_lookup_insert_eq by (apply lookup_lt_Some in Hb; exact Hb).
    reflexivity.
Qed.

Lemma reset_player_entries_state (s s1 : Session) (l : list nat) :
  snd (reset_player_entries s l s1) = s1.
Proof.
  induction l as [|i l IH]; [reflexivity|].
  cbn [reset_player_entries]. unfold bind at 1.
  assert (Hentry : snd (reset_player_entry s i s1) = s1).
  { unfold reset_player_entry.
    destruct (negb (IsValidPlayerId s (Z.of_nat i))); [reflexivity|].
    destruct (Z.of_nat i =? s_player_id s).
    - destruct (s_enet_host s); reflexivity.
    - destruct (slot_peer s i); reflexivity. }
  destruct (reset_player_entry s i s1) as [[e|f] s2]; cbn [snd] in Hentry; subst s2;
    [|reflexivity].
  unfold bind at 1.
  destruct (reset_player_entries s l s1) as [[es|f] s2]; cbn [snd] in IH; subst s2;
    reflexivity.
Qed.

Lemma wlp_Reset_cookie (s : Session) :
  wlp Reset
      (fun _ s' => s_reset_cookie s' = Int.u32 (s_reset_cookie s + 1)
                   /\ s_reset_players s'
                      = <[Z.to_nat (s_player_id s) := true]> bitset_none) s.
Proof.
  unfold Reset. wlp_seq.
  destruct (system s ≫= System_SaveStateToStream) as [state|]; [|wlp_seq].
  wlp_next. set (s1 := set_reset_cookie _ _). apply wlp_bind.
  pose proof (reset_player_entries_state s s1 (seq 0 MAX_PLAYERS)) as Hstate.
  unfold wlp at 1.
  destruct (reset_player_entries s (seq 0 MAX_PLAYERS) s1) as [[entries|f] s1'];
    [|exact I].
  cbn [snd] in Hstate. subst s1'. apply wlp_bind.
  apply wp_wlp. eapply wp_mono; [|apply wp_DestroyGGPOSession].
  intros u s2 [Hr2 _]. cbv beta.
  pose proof Hr2 as (_ & _ & _ & _ & _ & Hid2 & _ & Hc2 & _).
  apply wlp_bind. unfold wlp at 1, send_to_each, for_each_player.
  rewrite send_to_slots. set (sends := map _ _).
  pose proof (same_roster_record_all sends s2) as (_ & _ & _ & _ & _ & Hid3 & _ & Hc3 & _).
  destruct (system s ≫= System_LoadStateFromStream state) as [m|]; [|wlp_seq].
  wlp_seq. cbn [s_player_id s_reset_cookie s_reset_players set_reset_players set_state
                set_system record].
  rewrite Hid3, Hid2, Hc3, Hc2. split; reflexivity.
Qed.

(** X16: a Reset outdates the acknowledgements of the reset before it: a
    ResetComplete that carries the cookie the host had before [Reset]
    leaves [reset_players] at the local player alone, whoever sends it. *)
Theorem Reset_outdates_acknowledgements (s s' : Session) (player_id : Z)
    (pkt : ENetPacket) (view : ResetCompleteMessage.t) :
  0 <= s_reset_cookie s < 2 ^ 32 ->
  Reset s = (Returned tt, s') ->
  ResetCompleteMessage.cookie view = s_reset_cookie s ->
  wlp (HandleResetCompleteMessage player_id pkt view)
      (fun _ s'' => s_reset_players s'' = s_reset_players s'
                    /\ s_reset_players s'' = <[Z.to_nat (s_player_id s) := true]> bitset_none)
      s'.
Proof.
  intros Hc Hrun Hview.
  assert (Hpost : s_reset_cookie s' = Int.u32 (s_reset_cookie s + 1)
                  /\ s_reset_players s' = <[Z.to_nat (s_player_id s) := true]> bitset_none).
  { exact (wlp_run _ _ _ _ _ (wlp_Reset_cookie s) Hrun). }
  destruct Hpost as [Hc' Hb'].
  eapply wlp_mono; [|apply wlp_ResetComplete_other_cookie].
  - intros u s'' Hs''. cbv beta in Hs''. split; congruence.
  - rewrite Hview, Hc'. unfold Int.u32, Int.to_unsigned.
    destruct (Z.eq_dec (s_reset_cookie s + 1) (2 ^ 32)) as [E|E].
    + rewrite E, Z.mod_same by lia. lia.
    + rewrite Z.mod_small by lia. lia.
Qed.

End Resynchronisation.

(** ** Connect requests *)

Section ConnectRequests.
Context `{platform : Platform}.


Lemma wp_accept_connect_request (p : ENetPeer) (pkt : ENetPacket)
    (view : ConnectRequestMessage.t) (s : Session) (m m' : Machine)
    (state : list Byte.byte) (h : ENetHost) (new_id : Z) :
  sends_succeed ->
  payload pkt = ConnectRequestP view ->
  (dataLength pkt <? sizeof_msg ControlMessage.ConnectRequest)
  || (hdr_size pkt <? sizeof_msg ControlMessage.ConnectRequest) = false ->
  ConnectRequestMessage.mode view = ConnectRequestMessage.Player ->
  length (s_peers s) = MAX_PLAYERS ->
  IsHost s = true ->
  in_range (s_player_id s) = true ->
  s_enet_host s = Some h ->
  system s = Some m ->
  System_SaveStateToStream m = Some state ->
  System_LoadStateFromStream state m = Some m' ->
  s_num_players s < Z.of_nat MAX_PLAYERS ->
  (0 <= ConnectRequestMessage.requested_player_id view ->
   IsValidPlayerId s (ConnectRequestMessage.requested_player_id view) = false) ->
  new_id = (if 0 <=? ConnectRequestMessage.requested_player_id view
            then ConnectRequestMessage.requested_player_id view
            else GetFreePlayerId s) ->
  in_range new_id = true ->
  wp (HandleMessageFromNewPeer p pkt)
     (fun _ s' =>
        s_state s' = Resetting
        /\ s_num_players s' = s_num_players s + 1
        /\ slot_peer s' (Z.to_nat new_id) = Some p
        /\ nickname <$> s_peers s' !! Z.to_nat new_id
           = Some (ConnectRequestMessage.GetNickname view)
        /\ (forall i, i <> Z.to_nat new_id -> slot_peer s' i = slot_peer s i)
        /\ s_reset_cookie s' = Int.u32 (s_reset_cookie s + 1)
        /\ s_reset_players s' = <[Z.to_nat (s_player_id s) := true]> bitset_none
        /\ In (enet_peer_send p (connect_response ConnectResponseMessage.Success new_id))
              (trace s')
        /\ forall q, q ∈ connected_peers s' ->
             In (enet_peer_send q
                   (NewControlPacket ControlMessage.PlayerJoined
                      (PlayerJoinedP {| PlayerJoinedMessage.player_id := new_id |}) []))
                (trace s')) s.
Proof.
  intros Hsend Hpay Hlong Hmode Hlen Hhost Hrange Henet Hsys Hsave Hload Hroom Hfree Hnew Hin.
  destruct (in_range_bounds _ Hin) as [Hpos Hslot].
  destruct (lookup_lt_is_Some_2 (s_peers s) (Z.to_nat new_id) ltac:(lia)) as [q0 Hq0].
  unfold HandleMessageFromNewPeer. rewrite Hpay.
  apply wp_bind. unfold wp at 1. rewrite (CheckReceivedPacket_state _ _ _ _ _ Hlong).
  wp_next. wp_next. rewrite Hmode.
  change (IsValidPlayerId (record (Log Verbose "New host peer connection") s)
            (ConnectRequestMessage.requested_player_id view))
    with (IsValidPlayerId s (ConnectRequestMessage.requested_player_id view)).
  change (GetFreePlayerId (record (Log Verbose "New host peer connection") s))
    with (GetFreePlayerId s).
  assert (Hcond : (0 <=? ConnectRequestMessage.requested_player_id view)
                  && IsValidPlayerId s (ConnectRequestMessage.requested_player_id view)
                  = false).
  { destruct (0 <=? ConnectRequestMessage.requested_player_id view) eqn:Hle; [|reflexivity].
    apply Z.leb_le in Hle. rewrite (Hfree Hle). reflexivity. }
  rewrite Hcond, <- Hnew.
  assert (Hnonneg : (new_id <? 0) = false) by (apply Z.ltb_ge; exact Hpos).
  rewrite Hnonneg. wp_next. unfold SendControlPacket at 1. wp_next.
  apply wp_bind, wp_Assert.
  { change (s_num_players (record (Log Verbose "New host peer connection") s))
      with (s_num_players s). apply Z.ltb_lt. exact Hroom. }
  apply wp_bind. apply (wp_peers_update _ _ q0); [exact Hin|exact Hq0|].
  apply wp_bind.
  apply (wp_peers_update _ _ (with_peer (Some p) q0));
    [exact Hin|cbn [s_peers set_peers record]; apply list_lookup_insert_eq;
               rewrite Hlen; exact Hslot|].
  wp_next. apply wp_bind.
  eapply wp_mono;
    [|apply (wp_Reset_full _ m m' state h);
      [exact Hhost|exact Hrange|exact Henet|exact Hsys|exact Hsave|exact Hload]].
  cbn [s_peers s_num_players s_reset_cookie s_player_id set_peers set_num_players record
       trace].
  rewrite list_insert_insert_eq.
  intros u s5 (Hst & Hc & Hb & _ & _ & Hp & Hnick & Hn & Hid & Hhid & _ & Htr & _).
  cbv beta. unfold NotifyPlayerJoined. wp_next.
  assert (Hhost5 : IsHost s5 = true).
  { unfold IsHost in *. rewrite Hid, Hhid. exact Hhost. }
  rewrite Hhost5. apply wp_bind. unfold wp at 1.
  rewrite (SendControlPacketToAll_succeeds _ _ Hsend).
  change (connected_peers s5) with (omap (slot_peer s5) (seq 0 MAX_PLAYERS)). wp_prim.
  set (joined := NewControlPacket ControlMessage.PlayerJoined
                   (PlayerJoinedP {| PlayerJoinedMessage.player_id := new_id |}) []).
  set (sent := map (fun p0 => enet_peer_send p0 joined)
                   (omap (slot_peer s5) (seq 0 MAX_PLAYERS))).
  assert (Hslots : forall i,
            slot_peer (record (Host_OnNetplayMessage
                                 (GetNicknameForPlayer s5 new_id) new_id)
                         (record_all sent s5)) i
            = match <[Z.to_nat new_id
                       := with_nickname (ConnectRequestMessage.GetNickname view)
                            (with_peer (Some p) q0)]> (s_peers s) !! i with
              | Some x => peer x
              | None => None
              end).
  { intros i.
    change (slot_peer (record (Host_OnNetplayMessage
                                 (GetNicknameForPlayer s5 new_id) new_id)
                         (record_all sent s5)) i)
      with (slot_peer (record_all sent s5) i).
    rewrite slot_peer_record_all. unfold slot_peer.
    pose proof (f_equal (fun l => l !! i) Hp) as Hpi. cbv beta in Hpi.
    rewrite !list_lookup_fmap in Hpi.
    destruct (s_peers s5 !! i) as [x|], (_ !! i) as [y|]; simpl in Hpi |- *;
      congruence. }
  pose proof (same_roster_record_all sent s5)
    as (Hst6 & _ & _ & Hnick6 & _ & _ & Hn6 & Hc6 & Hb6 & _).
  split; [cbn [s_state record]; rewrite Hst6; exact Hst|].
  split; [cbn [s_num_players record]; rewrite Hn6; exact Hn|]. split.
  { rewrite Hslots, list_lookup_insert_eq by (rewrite Hlen; exact Hslot). reflexivity. }
  split.
  { cbn [s_peers record].
    rewrite <- list_lookup_fmap, Hnick6, Hnick, list_lookup_fmap,
      list_lookup_insert_eq by (rewrite Hlen; exact Hslot). reflexivity. }
  split.
  { intros i Hi. rewrite Hslots, list_lookup_insert_ne by congruence.
    unfold slot_peer. destruct (s_peers s !! i); reflexivity. }
  split; [cbn [s_reset_cookie record]; rewrite Hc6; exact Hc|].
  split; [cbn [s_reset_players record]; rewrite Hb6; exact Hb|]. split.
  { cbn [trace record]. apply in_or_app. left. rewrite trace_record_all.
    apply in_or_app. left. apply Htr. apply in_or_app. right. left. reflexivity. }
  intros q Hq. cbn [trace record]. apply in_or_app. left. rewrite trace_record_all.
  apply in_or_app. right. unfold sent. apply in_map_iff. exists q. split; [reflexivity|].
  apply list_elem_of_In.
  rewrite (connected_peers_ext s5) in Hq; [exact Hq|].
  intros i.
  change (slot_peer (record (Host_OnNetplayMessage
                               (GetNicknameForPlayer s5 new_id) new_id)
                       (record_all sent s5)) i)
    with (slot_peer (record_all sent s5) i).
  apply slot_peer_record_all.
Qed.

(** X18: the host accepts a connect request for a player when its player
    count is below MAX_PLAYERS and the id is free: the id asked for, or the
    lowest free id when a negative id is asked for.  It answers Success
    with that id, stores the peer and its nickname in that slot and leaves
    the other slots alone, counts one player more, starts a Reset under
    the next cookie with nobody but itself acknowledged, and then
    announces the player to every peer of the roster; this where every
    [enet_peer_send] succeeds. *)
Theorem connect_request_accepted (p : ENetPeer) (pkt : ENetPacket)
    (view : ConnectRequestMessage.t) (s : Session) (m m' : Machine)
    (state : list Byte.byte) (h : ENetHost) (new_id : Z) :
  sends_succeed ->
  payload pkt = ConnectRequestP view ->
  (dataLength pkt <? sizeof_msg ControlMessage.ConnectRequest)
  || (hdr_size pkt <? sizeof_msg ControlMessage.ConnectRequest) = false ->
  ConnectRequestMessage.mode view = ConnectRequestMessage.Player ->
  length (s_peers s) = MAX_PLAYERS ->
  IsHost s = true ->
  in_range (s_player_id s) = true ->
  s_enet_host s = Some h ->
  system s = Some m ->
  System_SaveStateToStream m = Some state ->
  System_LoadStateFromStream state m = Some m' ->
  s_num_players s < Z.of_nat MAX_PLAYERS ->
  (0 <= ConnectRequestMessage.requested_player_id view ->
   IsValidPlayerId s (ConnectRequestMessage.requested_player_id view) = false) ->
  new_id = (if 0 <=? ConnectRequestMessage.requested_player_id view
            then ConnectRequestMessage.requested_player_id view
            else GetFreePlayerId s) ->
  in_range new_id = true ->
  exists s',
    HandleMessageFromNewPeer p pkt s = (Returned tt, s')
    /\ s_state s' = Resetting
    /\ s_num_players s' = s_num_players s + 1
    /\ slot_peer s' (Z.to_nat new_id) = Some p
    /\ nickname <$> s_peers s' !! Z.to_nat new_id
       = Some (ConnectRequestMessage.GetNickname view)
    /\ (forall i, i <> Z.to_nat new_id -> slot_peer s' i = slot_peer s i)
    /\ s_reset_cookie s' = Int.u32 (s_reset_cookie s + 1)
    /\ (forall i, reset_bit s' i = true <-> i = Z.to_nat (s_player_id s))
    /\ In (enet_peer_send p (connect_response ConnectResponseMessage.Success new_id))
          (trace s')
    /\ forall q, q ∈ connected_peers s' ->
         In (enet_peer_send q
               (NewControlPacket ControlMessage.PlayerJoined
                  (PlayerJoinedP {| PlayerJoinedMessage.player_id := new_id |}) []))
            (trace s').
Proof.
  intros Hsend Hpay Hlong Hmode Hlen Hhost Hrange Henet Hsys Hsave Hload Hroom Hfree Hnew Hin.
  destruct (wp_run _ _ _
              (wp_accept_connect_request p pkt view s m m' state h new_id
                 Hsend Hpay Hlong Hmode Hlen Hhost Hrange Henet Hsys Hsave Hload Hroom Hfree
                 Hnew Hin))
    as ([] & s' & Hrun & Hst & Hn & Hp & Hnick & Hothers & Hc & Hb & Hans & Hjoined).
  exists s'. split; [exact Hrun|]. split; [exact Hst|]. split; [exact Hn|].
  split; [exact Hp|]. split; [exact Hnick|]. split; [exact Hothers|].
  split; [exact Hc|]. split; [|split; [exact Hans|exact Hjoined]].
  intros i. unfold reset_bit. rewrite Hb.
  destruct (in_range_bounds _ Hrange) as [_ Hlt].
  destruct (Nat.eq_dec i (Z.to_nat (s_player_id s))) as [Heq|Hne].
  - rewrite Heq, list_lookup_insert_eq by (rewrite length_bitset_none; exact Hlt). tauto.
  - rewrite list_lookup_insert_ne by congruence.
    change (match bitset_none !! i with Some b => b | None => false end)
      with (reset_bit (set_reset_players bitset_none s) i).
    rewrite reset_bit_none by reflexivity. split; [discriminate|contradiction].
Qed.

End ConnectRequests.
(** ** Losing a peer *)

Section LosingPeers.
Context `{platform : Platform}.

Section DroppingWithSends.
Hypothesis Hsend : sends_succeed.

Lemma wp_DropPlayer_host (s : Session) (n : Z) (reason : DropPlayerReason)
    (m m' : Machine) (state : list Byte.byte) (h : ENetHost) (to : ENetPeer) :
  length (s_peers s) = MAX_PLAYERS ->
  IsHost s = true ->
  in_range (s_player_id s) = true ->
  s_enet_host s = Some h ->
  system s = Some m ->
  System_SaveStateToStream m = Some state ->
  System_LoadStateFromStream state m = Some m' ->
  in_range n = true ->
  slot_peer s (Z.to_nat n) = Some to ->
  n <> s_player_id s ->
  wp (DropPlayer n reason)
     (fun _ s' =>
        slot_peer s' (Z.to_nat n) = None
        /\ nickname <$> s_peers s' !! Z.to_nat n = Some ""
        /\ (forall i, i <> Z.to_nat n -> slot_peer s' i = slot_peer s i)
        /\ s_num_players s' = s_num_players s - 1
        /\ s_state s' = Resetting
        /\ s_ggpo s' = None
        /\ s_reset_cookie s' = Int.u32 (s_reset_cookie s + 1)
        /\ s_reset_players s' = <[Z.to_nat (s_player_id s) := true]> bitset_none
        /\ In (enet_peer_disconnect_now to) (trace s')
        /\ (forall q, q ∈ connected_peers s' ->
             In (enet_peer_send q
                   (NewControlPacket ControlMessage.DropPlayer
                      (DropPlayerP {| DropPlayerMessage.reason := reason;
                                      DropPlayerMessage.player_id := n |}) []))
                (trace s'))
        /\ length (s_peers s') = MAX_PLAYERS
        /\ s_player_id s' = s_player_id s
        /\ s_host_player_id s' = s_host_player_id s
        /\ s_enet_host s' = s_enet_host s
        /\ system s' = Some m') s.
Proof.
  intros Hlen Hhost Hrange Henet Hsys Hsave Hload Hin Hto Hne.
  destruct (in_range_bounds _ Hin) as [Hpos Hslot].
  assert (Hq0 : exists q0, s_peers s !! Z.to_nat n = Some q0 /\ peer q0 = Some to).
  { unfold slot_peer in Hto. destruct (s_peers s !! Z.to_nat n) as [q0|]; [|discriminate].
    exists q0. split; [reflexivity|exact Hto]. }
  destruct Hq0 as (q0 & Hq0 & Hpeer).
  assert (Hvalid : IsValidPlayerId s n = true).
  { unfold IsValidPlayerId, has_peer. rewrite Hin, Hto. apply orb_true_r. }
  assert (Hhid : s_host_player_id s = s_player_id s).
  { unfold IsHost in Hhost. apply Z.eqb_eq in Hhost. symmetry. exact Hhost. }
  unfold DropPlayer. wp_next. apply wp_bind, wp_Assert.
  { rewrite Hvalid, Hhid. destruct (Z.eqb_spec (s_player_id s) n); [congruence|reflexivity]. }
  wp_next. wp_next. apply wp_bind. apply (wp_peers_at _ q0); [exact Hin|exact Hq0|].
  rewrite Hpeer. apply wp_bind, wp_ret. wp_next. apply wp_bind.
  apply (wp_peers_update _ _ q0); [exact Hin|exact Hq0|].
  wp_next. wp_next.
  change (IsHost (set_num_players _ _)) with (IsHost s). rewrite Hhost. cbn [negb].
  apply wp_bind. unfold wp at 1.
  rewrite (SendControlPacketToAll_succeeds _ _ Hsend).
  match goal with
  | |- context [connected_peers ?x] =>
      change (connected_peers x) with (omap (slot_peer x) (seq 0 MAX_PLAYERS))
  end.
  set (notice := NewControlPacket ControlMessage.DropPlayer
                   (DropPlayerP {| DropPlayerMessage.reason := reason;
                                   DropPlayerMessage.player_id := n |}) []).
  set (s3 := set_num_players _ _).
  set (sent := map (fun p0 => enet_peer_send p0 notice)
                   (omap (slot_peer s3) (seq 0 MAX_PLAYERS))).
  assert (Hslots3 : forall i, slot_peer s3 i
                              = if Nat.eqb i (Z.to_nat n) then None else slot_peer s i).
  { intros i. unfold s3.
    change (slot_peer (set_num_players _ ?x) i) with (slot_peer x i).
    rewrite slot_peer_insert by (cbn [s_peers record]; rewrite Hlen; exact Hslot).
    destruct (Nat.eqb i (Z.to_nat n)); reflexivity. }
  pose proof (same_roster_record_all sent s3)
    as (_ & Henet4 & Hp4 & Hnick4 & Hhid4 & Hid4 & Hn4 & Hc4 & _ & _ & _ & _ & Hsys4).
  eapply wp_mono;
    [|apply (wp_Reset_full _ m m' state h);
      [unfold IsHost; rewrite Hid4, Hhid4; exact Hhost
      |rewrite Hid4; exact Hrange
      |rewrite Henet4; exact Henet
      |rewrite Hsys4; exact Hsys
      |exact Hsave|exact Hload]].
  intros u s5 (Hst & Hc & Hb & Hm5 & Hg & Hp & Hnick & Hn & Hid & Hhid5 & Henet5 & Htr & _).
  cbv beta.
  assert (Hslots5 : forall i, slot_peer s5 i = slot_peer s3 i).
  { intros i. rewrite <- (slot_peer_record_all sent s3 i). unfold slot_peer.
    pose proof (f_equal (fun l => l !! i) Hp) as Hpi. cbv beta in Hpi.
    rewrite !list_lookup_fmap in Hpi.
    destruct (s_peers s5 !! i) as [x|], (s_peers (record_all sent s3) !! i) as [y|];
      simpl in Hpi |- *; congruence. }
  split; [rewrite Hslots5, Hslots3, Nat.eqb_refl; reflexivity|]. split.
  { rewrite <- list_lookup_fmap, Hnick, Hnick4, list_lookup_fmap. unfold s3.
    cbn [s_peers set_num_players set_peers].
    rewrite list_lookup_insert_eq by (cbn [s_peers record]; rewrite Hlen; exact Hslot).
    reflexivity. }
  split.
  { intros i Hi. rewrite Hslots5, Hslots3.
    destruct (Nat.eqb_spec i (Z.to_nat n)); [contradiction|reflexivity]. }
  split; [rewrite Hn, Hn4; reflexivity|]. split; [exact Hst|]. split; [exact Hg|].
  split; [rewrite Hc, Hc4; reflexivity|]. split; [rewrite Hb, Hid4; reflexivity|].
  split.
  { apply Htr. rewrite trace_record_all. apply in_or_app. left. unfold s3.
    cbn [trace set_num_players set_peers record].
    apply in_or_app. right. left. reflexivity. }
  split.
  { intros q Hq. apply Htr. rewrite trace_record_all. apply in_or_app. right.
    unfold sent. apply in_map_iff. exists q. split; [reflexivity|].
    apply list_elem_of_In. rewrite (connected_peers_ext s3 s5 Hslots5) in Hq. exact Hq. }
  split.
  { pose proof (f_equal length Hp) as Hl5. rewrite !length_fmap in Hl5.
    pose proof (f_equal length Hp4) as Hl4. rewrite !length_fmap in Hl4.
    rewrite Hl5, Hl4. unfold s3. cbn [s_peers set_num_players set_peers record].
    rewrite length_insert. exact Hlen. }
  split; [rewrite Hid, Hid4; reflexivity|]. split; [rewrite Hhid5, Hhid4; reflexivity|].
  split; [rewrite Henet5, Henet4; reflexivity|exact Hm5].
Qed.

End DroppingWithSends.

(** X19: when a peer of a Running host disconnects and every
    [enet_peer_send] succeeds, the host drops the player of the lowest
    slot that holds the peer: it disconnects the peer, empties the slot
    and leaves the other slots alone, counts one player fewer, sends the
    DropPlayer notice with reason DisconnectedFromHost to every peer that
    remains, and starts a Reset under the next cookie with nobody but
    itself acknowledged. *)
Theorem host_drops_disconnected_peer (closing : list ENetEvent) (p : ENetPeer)
    (s : Session) (m m' : Machine) (state : list Byte.byte) (h : ENetHost) :
  sends_succeed ->
  length (s_peers s) = MAX_PLAYERS ->
  s_state s = Running ->
  IsHost s = true ->
  in_range (s_player_id s) = true ->
  s_enet_host s = Some h ->
  system s = Some m ->
  System_SaveStateToStream m = Some state ->
  System_LoadStateFromStream state m = Some m' ->
  0 <= GetPlayerIdForPeer s p ->
  GetPlayerIdForPeer s p <> s_player_id s ->
  let n := Z.to_nat (GetPlayerIdForPeer s p) in
  exists s' to,
    HandleEnetEvent closing (ENET_EVENT_TYPE_DISCONNECT p) s = (Returned tt, s')
    /\ slot_peer s n = Some to
    /\ same_peer to p = true
    /\ In (enet_peer_disconnect_now to) (trace s')
    /\ slot_peer s' n = None
    /\ (forall i, i <> n -> slot_peer s' i = slot_peer s i)
    /\ s_num_players s' = s_num_players s - 1
    /\ s_state s' = Resetting
    /\ s_reset_cookie s' = Int.u32 (s_reset_cookie s + 1)
    /\ (forall i, reset_bit s' i = true <-> i = Z.to_nat (s_player_id s))
    /\ forall q, q ∈ connected_peers s' ->
         In (enet_peer_send q
               (NewControlPacket ControlMessage.DropPlayer
                  (DropPlayerP {| DropPlayerMessage.reason := DisconnectedFromHost;
                                  DropPlayerMessage.player_id := GetPlayerIdForPeer s p |})
                  []))
            (trace s').
Proof.
  intros Hsend Hlen Hrun Hhost Hrange Henet Hsys Hsave Hload Hknown Hne n.
  destruct (GetPlayerIdForPeer_known s p Hknown) as [Hin Hhas].
  assert (Hto : exists to, slot_peer s n = Some to /\ same_peer to p = true).
  { unfold GetPlayerIdForPeer in *.
    destruct (first_index_found _ _ Hknown) as (i & Hi & _ & Ht).
    unfold n. rewrite Hi, Nat2Z.id.
    destruct (slot_peer s i) as [to|]; [|discriminate].
    exists to. split; [reflexivity|exact Ht]. }
  destruct Hto as (to & Hto & Hsame).
  assert (Hvalid : IsValidPlayerId s (GetPlayerIdForPeer s p) = true).
  { unfold IsValidPlayerId. rewrite Hin, Hhas. apply orb_true_r. }
  assert (Hwp : wp (HandleEnetEvent closing (ENET_EVENT_TYPE_DISCONNECT p))
                   (fun _ s' =>
                      slot_peer s' n = None
                      /\ nickname <$> s_peers s' !! n = Some ""
                      /\ (forall i, i <> n -> slot_peer s' i = slot_peer s i)
                      /\ s_num_players s' = s_num_players s - 1
                      /\ s_state s' = Resetting
                      /\ s_ggpo s' = None
                      /\ s_reset_cookie s' = Int.u32 (s_reset_cookie s + 1)
                      /\ s_reset_players s'
                         = <[Z.to_nat (s_player_id s) := true]> bitset_none
                      /\ In (enet_peer_disconnect_now to) (trace s')
                      /\ forall q, q ∈ connected_peers s' ->
                           In (enet_peer_send q
                                 (NewControlPacket ControlMessage.DropPlayer
                                    (DropPlayerP
                                       {| DropPlayerMessage.reason := DisconnectedFromHost;
                                          DropPlayerMessage.player_id
                                          := GetPlayerIdForPeer s p |}) []))
                              (trace s')) s).
  { unfold HandleEnetEvent. wp_next. rewrite Hrun.
    change (state_is Running Connecting) with false.
    change (state_is Running Resetting) with false. cbv iota.
    wp_next.
    change (IsValidPlayerId (record _ s) (GetPlayerIdForPeer s p))
      with (IsValidPlayerId s (GetPlayerIdForPeer s p)).
    change (IsHost (record _ s)) with (IsHost s).
    rewrite Hvalid, Hhost. unfold HandlePeerDisconnectionAsHost. wp_next.
    eapply wp_mono;
      [|apply (wp_DropPlayer_host Hsend _ (GetPlayerIdForPeer s p) DisconnectedFromHost
                 m m' state h to);
        [exact Hlen|exact Hhost|exact Hrange|exact Henet|exact Hsys|exact Hsave
        |exact Hload|exact Hin|exact Hto|exact Hne]].
    intros u s' (H1 & H2 & H3 & H4 & H5 & H6 & H7 & H8 & H9 & H10 & _).
    split; [exact H1|]. split; [exact H2|]. split; [exact H3|]. split; [exact H4|].
    split; [exact H5|]. split; [exact H6|]. split; [exact H7|]. split; [exact H8|].
    split; [|exact H10].
    apply H9. }
  destruct (wp_run _ _ _ Hwp)
    as ([] & s' & Hrun' & Hnone & _ & Hothers & Hn & Hst & _ & Hc & Hb & Hgone & Hsent).
  exists s', to. split; [exact Hrun'|]. split; [exact Hto|]. split; [exact Hsame|].
  split; [exact Hgone|]. split; [exact Hnone|]. split; [exact Hothers|].
  split; [exact Hn|]. split; [exact Hst|]. split; [exact Hc|]. split; [|exact Hsent].
  intros i. unfold reset_bit. rewrite Hb.
  destruct (in_range_bounds _ Hrange) as [_ Hlt].
  destruct (Nat.eq_dec i (Z.to_nat (s_player_id s))) as [Heq|Hneq].
  - rewrite Heq, list_lookup_insert_eq by (rewrite length_bitset_none; exact Hlt). tauto.
  - rewrite list_lookup_insert_ne by congruence.
    change (match bitset_none !! i with Some b => b | None => false end)
      with (reset_bit (set_reset_players bitset_none s) i).
    rewrite reset_bit_none by reflexivity. split; [discriminate|contradiction].
Qed.


(** X21: a disconnection leaves the session as it is, but for one line of
    the log, while the session is Resetting, and in the states after
    Resetting when the peer holds no slot and the local player has an
    id. *)
Theorem disconnect_without_effect (closing : list ENetEvent) (p : ENetPeer)
    (s : Session) :
  (s_state s = Resetting ->
   HandleEnetEvent closing (ENET_EVENT_TYPE_DISCONNECT p) s
   = (Returned tt, record (Log Dev "Ignoring disconnection while synchronizing") s))
  /\ (s_state s = Running \/ s_state s = ClosingSession ->
      (forall i, (i < MAX_PLAYERS)%nat -> holds s p i = false) ->
      s_player_id s <> -1 ->
      HandleEnetEvent closing (ENET_EVENT_TYPE_DISCONNECT p) s
      = (Returned tt, record (Log Warning "ENet player disconnected") s)).
Proof.
  split.
  - intros Hst. unfold HandleEnetEvent. unfold bind at 1, gets, id. rewrite Hst.
    reflexivity.
  - intros Hst Hnone Hself.
    assert (Hid : GetPlayerIdForPeer s p = -1).
    { unfold GetPlayerIdForPeer.
      destruct (first_index_least
                  (fun i => match slot_peer s i with
                            | Some q => same_peer q p
                            | None => false
                            end) 0 MAX_PLAYERS)
        as [[Hminus _]|(i & _ & Hi & Ht & _)]; [exact Hminus|].
      specialize (Hnone i ltac:(lia)). unfold holds in Hnone.
      rewrite Hnone in Ht. discriminate. }
    unfold HandleEnetEvent. unfold bind at 1, gets, id. rewrite Hid.
    assert (Hinvalid : IsValidPlayerId s (-1) = false).
    { unfold IsValidPlayerId.
      destruct (Z.eqb_spec (s_player_id s) (-1)); [contradiction|reflexivity]. }
    destruct Hst as [Hst|Hst]; rewrite Hst; cbv iota;
      [change (state_is Running Connecting) with false;
       change (state_is Running Resetting) with false
      |change (state_is ClosingSession Connecting) with false;
       change (state_is ClosingSession Resetting) with false];
      cbv iota; unfold bind at 1, call, modify;
      change (IsValidPlayerId (record _ s) (-1)) with (IsValidPlayerId s (-1));
      rewrite Hinvalid; reflexivity.
Qed.

End LosingPeers.
(** ** Asking for the end of the session *)

Section ClosingRequests.
Context `{platform : Platform}.

Lemma disconnect_slots (l : list nat) (s : Session) :
  for_ l (fun i => bind (gets id) (fun s0 =>
            match slot_peer s0 i with
            | Some p =>
                if IsHost s0 then call (enet_peer_disconnect_later p)
                else call (enet_peer_disconnect p)
            | None => ret tt
            end)) s
  = (Returned tt,
     record_all (map (fun p => if IsHost s then enet_peer_disconnect_later p
                               else enet_peer_disconnect p)
                     (omap (slot_peer s) l)) s).
Proof.
  revert s. induction l as [|i l IH]; intros s; [reflexivity|].
  assert (Hcons : omap (slot_peer s) (i :: l)
                  = match slot_peer s i with
                    | Some p => p :: omap (slot_peer s) l
                    | None => omap (slot_peer s) l
                    end) by reflexivity.
  rewrite Hcons. cbn [for_]. unfold bind at 1. unfold bind at 1, gets, id.
  destruct (slot_peer s i) as [p|] eqn:Hp.
  - destruct (IsHost s) eqn:Hhost; unfold call, modify; rewrite IH;
      change (IsHost (record _ s)) with (IsHost s); rewrite Hhost; reflexivity.
  - unfold ret. rewrite IH. reflexivity.
Qed.

(** What the waiting loop keeps, and what it forgets. *)
Lemma wp_drain_events (evs : list ENetEvent) (s : Session) :
  length (s_peers s) = MAX_PLAYERS ->
  wp (drain_events evs)
     (fun _ s' =>
        s_state s' = s_state s
        /\ s_ggpo s' = s_ggpo s
        /\ s_num_players s' = s_num_players s
        /\ s_player_id s' = s_player_id s
        /\ s_host_player_id s' = s_host_player_id s
        /\ system s' = system s
        /\ (forall e, In e (trace s) -> In e (trace s'))
        /\ forall i, slot_peer s' i = slot_peer s i
                     \/ (slot_peer s' i = None
                         /\ exists p, In (ENET_EVENT_TYPE_DISCONNECT p) evs
                                      /\ holds s p i = true)) s.
Proof.
  revert s. induction evs as [|ev evs IH]; intros s Hlen.
  - apply wp_ret. repeat (split; [reflexivity|]). split; [auto|]. intros i. left.
    reflexivity.
  - cbn [drain_events]. apply wp_bind. unfold drain_event. apply wp_bind.
    assert (Hstep : wp (match ev with
                        | ENET_EVENT_TYPE_DISCONNECT p =>
                            bind (gets id) (fun s0 =>
                              if 0 <=? GetPlayerIdForPeer s0 p
                              then peers_update (GetPlayerIdForPeer s0 p) (with_peer None)
                              else ret tt)
                        | _ => ret tt
                        end)
                       (fun _ s1 =>
                          length (s_peers s1) = MAX_PLAYERS
                          /\ s_state s1 = s_state s
                          /\ s_ggpo s1 = s_ggpo s
                          /\ s_num_players s1 = s_num_players s
                          /\ s_player_id s1 = s_player_id s
                          /\ s_host_player_id s1 = s_host_player_id s
                          /\ system s1 = system s
                          /\ trace s1 = trace s
                          /\ forall i, slot_peer s1 i = slot_peer s i
                                       \/ (slot_peer s1 i = None
                                           /\ exists p, ev = ENET_EVENT_TYPE_DISCONNECT p
                                                        /\ holds s p i = true)) s).
    { destruct ev as [p data|p|p ch pkt|];
        try (apply wp_ret; repeat (split; [reflexivity || exact Hlen|]);
             intros i; left; reflexivity).
      wp_next. destruct (0 <=? GetPlayerIdForPeer s p) eqn:Hknown.
      - apply Z.leb_le in Hknown.
        destruct (GetPlayerIdForPeer_known s p Hknown) as [Hin Hhas].
        destruct (in_range_bounds _ Hin) as [_ Hslot].
        destruct (lookup_lt_is_Some_2 (s_peers s) (Z.to_nat (GetPlayerIdForPeer s p))
                    ltac:(lia)) as [q0 Hq0].
        apply (wp_peers_update _ _ q0); [exact Hin|exact Hq0|].
        split; [cbn [s_peers set_peers]; rewrite length_insert; exact Hlen|].
        repeat (split; [reflexivity|]).
        intros i. rewrite slot_peer_insert by (rewrite Hlen; exact Hslot).
        destruct (Nat.eqb_spec i (Z.to_nat (GetPlayerIdForPeer s p))) as [Hi|Hi];
          [|left; reflexivity].
        right. split; [reflexivity|]. exists p. split; [reflexivity|].
        unfold GetPlayerIdForPeer in *.
        destruct (first_index_found _ _ Hknown) as (j & Hj & _ & Ht).
        rewrite Hj, Nat2Z.id in Hi. subst i. unfold holds. exact Ht.
      - apply wp_ret. repeat (split; [reflexivity || exact Hlen|]).
        intros i. left. reflexivity. }
    eapply wp_mono; [|exact Hstep].
    intros u s1 (Hlen1 & Hst1 & Hg1 & Hn1 & Hid1 & Hhid1 & Hsys1 & Htr1 & Hslots1).
    cbv beta. wp_next.
    destruct (forallb (fun i => negb (has_peer s1 i)) (seq 0 MAX_PLAYERS)).
    + apply wp_ret. apply wp_ret.
      split; [exact Hst1|]. split; [exact Hg1|]. split; [exact Hn1|].
      split; [exact Hid1|]. split; [exact Hhid1|]. split; [exact Hsys1|].
      split; [rewrite Htr1; auto|].
      intros i. destruct (Hslots1 i) as [Hi|(Hi & p & Hp & Hh)]; [left; exact Hi|].
      right. split; [exact Hi|]. exists p. split; [left; exact Hp|exact Hh].
    + wp_next. wp_next. apply wp_ret.
      eapply wp_mono; [|apply IH; exact Hlen1].
      intros u' s2 (Hst2 & Hg2 & Hn2 & Hid2 & Hhid2 & Hsys2 & Htr2 & Hslots2).
      cbv beta.
      split; [rewrite Hst2; exact Hst1|]. split; [rewrite Hg2; exact Hg1|].
      split; [rewrite Hn2; exact Hn1|]. split; [rewrite Hid2; exact Hid1|].
      split; [rewrite Hhid2; exact Hhid1|]. split; [rewrite Hsys2; exact Hsys1|].
      split.
      { intros e He. apply Htr2. cbn [trace record]. apply in_or_app. left.
        apply in_or_app. left. rewrite Htr1. exact He. }
      intros i.
      change (slot_peer (record _ (record _ s1)) i) with (slot_peer s1 i) in Hslots2.
      destruct (Hslots2 i) as [Hi2|(Hi2 & p & Hp & Hh)].
      * rewrite Hi2.
        destruct (Hslots1 i) as [Hi|(Hi & p & Hp & Hh)]; [left; exact Hi|].
        right. split; [exact Hi|]. exists p. split; [left; exact Hp|exact Hh].
      * right. split; [exact Hi2|]. exists p. split; [right; exact Hp|].
        change (holds (record _ (record _ s1)) p i) with (holds s1 p i) in Hh.
        unfold holds in Hh |- *.
        destruct (Hslots1 i) as [Hi|(Hi & _)]; rewrite Hi in Hh;
          [exact Hh|discriminate].
Qed.

(** X22: in a session that has its ENet host whenever it has a Machine,
    and on the host where every [enet_peer_send] succeeds,
    [RequestCloseSession] returns in ClosingSession without a GGPO
    session.  It asks every peer to disconnect ([enet_peer_disconnect_later]
    on the host, which first sends them the CloseSession message with the
    reason; [enet_peer_disconnect] on a joiner).  While it waits it handles
    no request: the player count is kept, and a slot is emptied only when a
    disconnection of the peer it holds arrives. *)
Theorem RequestCloseSession_closes (closing : list ENetEvent)
    (reason : CloseSessionMessage.Reason) (s : Session) :
  length (s_peers s) = MAX_PLAYERS ->
  (IsHost s = true -> sends_succeed) ->
  (system s <> None -> s_enet_host s <> None) ->
  exists s',
    RequestCloseSession closing reason s = (Returned tt, s')
    /\ s_state s' = ClosingSession
    /\ s_ggpo s' = None
    /\ s_num_players s' = s_num_players s
    /\ s_player_id s' = s_player_id s
    /\ (forall i, slot_peer s' i = slot_peer s i
                  \/ (slot_peer s' i = None
                      /\ exists p, In (ENET_EVENT_TYPE_DISCONNECT p) closing
                                   /\ holds s p i = true))
    /\ forall q, q ∈ connected_peers s ->
         if IsHost s
         then In (enet_peer_send q
                    (NewControlPacket ControlMessage.CloseSession
                       (CloseSessionP {| CloseSessionMessage.reason := reason |}) []))
                 (trace s')
              /\ In (enet_peer_disconnect_later q) (trace s')
         else In (enet_peer_disconnect q) (trace s').
Proof.
  intros Hlen Hsend Henet.
  set (notice := NewControlPacket ControlMessage.CloseSession
                   (CloseSessionP {| CloseSessionMessage.reason := reason |}) []).
  set (told := if IsHost s
               then map (fun p => enet_peer_send p notice) (connected_peers s)
               else []).
  set (s1 := record_all told s).
  assert (Hfirst : (if IsHost s then SendControlPacketToAll notice else ret tt) s
                   = (Returned tt, s1)).
  { unfold s1, told. destruct (IsHost s); [|reflexivity].
    apply SendControlPacketToAll_succeeds. apply Hsend. reflexivity. }
  pose proof (same_roster_record_all told s)
    as (Hst1 & Henet1 & Hp1 & _ & Hhid1 & Hid1 & Hn1 & _ & _ & _ & _ & _ & Hsys1).
  assert (Hwp : wp (RequestCloseSession closing reason)
                   (fun _ s' =>
                      s_state s' = ClosingSession
                      /\ s_ggpo s' = None
                      /\ s_num_players s' = s_num_players s
                      /\ s_player_id s' = s_player_id s
                      /\ (forall i, slot_peer s' i = slot_peer s i
                                    \/ (slot_peer s' i = None
                                        /\ exists p,
                                             In (ENET_EVENT_TYPE_DISCONNECT p) closing
                                             /\ holds s p i = true))
                      /\ (forall e, In e told -> In e (trace s'))
                      /\ forall q, q ∈ connected_peers s ->
                           In (if IsHost s then enet_peer_disconnect_later q
                               else enet_peer_disconnect q) (trace s')) s).
  { unfold RequestCloseSession. wp_next. fold notice. apply wp_bind.
    unfold wp at 1. rewrite Hfirst. apply wp_bind.
    eapply wp_mono; [|apply wp_DestroyGGPOSession_trace].
    intros u s2 (Hr2 & Hg2 & Htr2). cbv beta.
    pose proof Hr2
      as (Hst2 & Henet2 & Hp2 & _ & Hhid2 & Hid2 & Hn2 & _ & _ & _ & _ & _ & Hsys2).
    apply wp_bind. unfold wp at 1, for_each_player.
    rewrite disconnect_slots.
    set (asked := map (fun p => if IsHost s2 then enet_peer_disconnect_later p
                                else enet_peer_disconnect p)
                      (omap (slot_peer s2) (seq 0 MAX_PLAYERS))).
    wp_next. wp_next. wp_next.
    set (s3 := record (Timer_Reset reset_start_time)
                 (set_state ClosingSession (record_all asked s2))).
    pose proof (same_roster_record_all asked s2)
      as (_ & Henet3 & Hp3 & _ & Hhid3 & Hid3 & Hn3 & _ & _ & _ & _ & _ & Hsys3).
    assert (Hslots3 : forall i, slot_peer s3 i = slot_peer s i).
    { intros i. unfold s3.
      change (slot_peer (record _ (set_state _ ?x)) i) with (slot_peer x i).
      rewrite slot_peer_record_all.
      rewrite <- (slot_peer_record_all told s i). fold s1. unfold slot_peer.
      pose proof (f_equal (fun l => l !! i) Hp2) as Hpi. cbv beta in Hpi.
      rewrite !list_lookup_fmap in Hpi.
      destruct (s_peers s2 !! i) as [x|], (s_peers s1 !! i) as [y|];
        simpl in Hpi |- *; congruence. }
    assert (Hhost2 : IsHost s2 = IsHost s).
    { unfold IsHost. rewrite Hid2, Hhid2. unfold s1. rewrite Hid1, Hhid1. reflexivity. }
    assert (Hg3 : s_ggpo s3 = None).
    { unfold s3. cbn [s_ggpo record set_state]. rewrite s_ggpo_record_all. exact Hg2. }
    assert (Htold : forall e, In e told -> In e (trace s3)).
    { intros e He. unfold s3. cbn [trace record set_state]. apply in_or_app. left.
      rewrite trace_record_all. apply in_or_app. left. apply Htr2. unfold s1.
      rewrite trace_record_all. apply in_or_app. right. exact He. }
    assert (Hasked : forall q, q ∈ connected_peers s ->
              In (if IsHost s then enet_peer_disconnect_later q
                  else enet_peer_disconnect q) (trace s3)).
    { intros q Hq. unfold s3. cbn [trace record set_state]. apply in_or_app. left.
      rewrite trace_record_all. apply in_or_app. right. unfold asked.
      rewrite Hhost2. apply in_map_iff. exists q. split; [reflexivity|].
      apply list_elem_of_In.
      assert (Hsame : connected_peers s2 = connected_peers s).
      { apply connected_peers_ext. intros i. rewrite <- (Hslots3 i). unfold s3.
        change (slot_peer (record _ (set_state _ ?x)) i) with (slot_peer x i).
        rewrite slot_peer_record_all. reflexivity. }
      unfold connected_peers in Hsame. rewrite Hsame. exact Hq. }
    assert (Hn3' : s_num_players s3 = s_num_players s).
    { unfold s3. cbn [s_num_players record set_state]. rewrite Hn3, Hn2. exact Hn1. }
    assert (Hid3' : s_player_id s3 = s_player_id s).
    { unfold s3. cbn [s_player_id record set_state]. rewrite Hid3, Hid2. exact Hid1. }
    assert (Hsys3' : system s3 = system s).
    { unfold s3. cbn [system record set_state]. rewrite Hsys3, Hsys2. exact Hsys1. }
    assert (Henet3' : s_enet_host s3 = s_enet_host s).
    { unfold s3. cbn [s_enet_host record set_state]. rewrite Henet3, Henet2. exact Henet1. }
    destruct (system s3) as [m|] eqn:Hm3.
    - destruct (s_enet_host s3) as [h|] eqn:Hh3.
      2:{ exfalso. apply Henet; [rewrite <- Hsys3'; discriminate|].
          rewrite <- Henet3'. reflexivity. }
      apply wp_bind, wp_ret.
      eapply wp_mono; [|apply wp_drain_events].
      + intros u' s4 (Hst4 & Hg4 & Hn4 & Hid4 & _ & _ & Htr4 & Hslots4). cbv beta.
        split; [rewrite Hst4; reflexivity|]. split; [rewrite Hg4; exact Hg3|].
        split; [rewrite Hn4; exact Hn3'|]. split; [rewrite Hid4; exact Hid3'|].
        split.
        { intros i. destruct (Hslots4 i) as [Hi|(Hi & p & Hp & Hh)].
          - left. rewrite Hi. apply Hslots3.
          - right. split; [exact Hi|]. exists p. split; [exact Hp|].
            unfold holds in Hh |- *. rewrite Hslots3 in Hh. exact Hh. }
        split; [intros e He; apply Htr4, Htold, He|].
        intros q Hq. apply Htr4, Hasked, Hq.
      + unfold s3. cbn [s_peers record set_state].
        pose proof (f_equal length Hp3) as Hl3. rewrite !length_fmap in Hl3.
        pose proof (f_equal length Hp2) as Hl2. rewrite !length_fmap in Hl2.
        pose proof (f_equal length Hp1) as Hl1. rewrite !length_fmap in Hl1.
        fold s1 in Hl1. rewrite Hl3, Hl2, Hl1. exact Hlen.
    - apply wp_ret. split; [reflexivity|]. split; [exact Hg3|]. split; [exact Hn3'|].
      split; [exact Hid3'|]. split; [intros i; left; apply Hslots3|].
      split; [exact Htold|exact Hasked]. }
  destruct (wp_run _ _ _ Hwp)
    as ([] & s' & Hrun & Hst & Hg & Hn & Hid & Hslots & Htold & Hasked).
  exists s'. split; [exact Hrun|]. split; [exact Hst|]. split; [exact Hg|].
  split; [exact Hn|]. split; [exact Hid|]. split; [exact Hslots|].
  intros q Hq. specialize (Hasked q Hq). unfold told in Htold.
  destruct (IsHost s); [|exact Hasked]. split; [|exact Hasked].
  apply Htold. apply in_map_iff. exists q. split; [reflexivity|].
  apply list_elem_of_In. exact Hq.
Qed.

End ClosingRequests.
(** ** Catching up after a late frame *)

Section ThrottleFacts.
Import FramePacing.
Variable ThrottlePeriod : F32.float -> Z.

(** X23: [Throttle] first ends a TimeSync correction that is due: when the
    target speed is not 1.0 and the recovery frame has been reached, the
    speed becomes 1.0 and the frame period that of speed 1.0; otherwise
    both are kept.  With that period positive and no wrap of the 64-bit
    timer, it then moves the next frame time one period on; when that time
    has already passed, it skips the whole periods that were lost, so that
    the next frame time stays on the grid of periods and lies at most one
    period behind the current time.  The recovery frame is kept. *)
Theorem Throttle_catches_up (current_frame current_time : Z) (p : Pacer) :
  let recovering :=
    negb (F32.eqb (s_target_speed p) F32.one)
    && (s_next_timesync_recovery_frame p <=? current_frame) in
  let period := if recovering then ThrottlePeriod F32.one else s_frame_period p in
  let due := s_next_frame_time p + period in
  0 < period ->
  0 <= s_next_frame_time p ->
  due < 2 ^ 64 ->
  0 <= current_time < 2 ^ 64 ->
  exists p',
    Throttle ThrottlePeriod current_frame current_time p = Some p'
    /\ s_frame_period p' = period
    /\ s_target_speed p' = (if recovering then F32.one else s_target_speed p)
    /\ s_next_timesync_recovery_frame p' = s_next_timesync_recovery_frame p
    /\ (current_time <= due -> s_next_frame_time p' = due)
    /\ (due < current_time ->
        s_next_frame_time p' <= current_time < s_next_frame_time p' + period
        /\ exists k, 0 <= k /\ s_next_frame_time p' = due + k * period).
Proof.
  intros recovering period due Hperiod Hnext Hwrap Hnow.
  set (r := Throttle_recover ThrottlePeriod current_frame p).
  assert (Hr : s_frame_period r = period
               /\ s_target_speed r = (if recovering then F32.one else s_target_speed p)
               /\ s_next_frame_time r = s_next_frame_time p
               /\ s_next_timesync_recovery_frame r = s_next_timesync_recovery_frame p).
  { unfold r, Throttle_recover, period. fold recovering.
    destruct recovering; repeat split. }
  destruct Hr as (Hrp & Hrs & Hrn & Hrf).
  assert (Hdue : Int.to_unsigned 64 (s_next_frame_time r + s_frame_period r) = due).
  { unfold Int.to_unsigned. rewrite Hrp, Hrn. apply Z.mod_small. unfold due in *. lia. }
  unfold Throttle. fold r. unfold Throttle_advance. rewrite Hdue, Hrp, Hrs, Hrf.
  destruct (Z.ltb_spec due current_time) as [Hlate|Hearly].
  - destruct (Z.eqb_spec period 0) as [Hz|_]; [lia|].
    assert (Hdiff : Int.to_unsigned 64 (current_time - due) = current_time - due).
    { unfold Int.to_unsigned. apply Z.mod_small. unfold due in *. lia. }
    rewrite Hdiff.
    set (k := (current_time - due) / period).
    assert (Hk : 0 <= k) by (apply Z.div_pos; lia).
    assert (Hlow : k * period <= current_time - due).
    { unfold k. rewrite Z.mul_comm. apply Z.mul_div_le. exact Hperiod. }
    assert (Hhigh : current_time - due < (k + 1) * period).
    { unfold k. rewrite Z.mul_comm.
      pose proof (Z.mul_succ_div_gt (current_time - due) period Hperiod).
      lia. }
    assert (Hskip : Int.to_unsigned 64 (due + k * period) = due + k * period).
    { unfold Int.to_unsigned. apply Z.mod_small. unfold due in *. nia. }
    eexists. split; [reflexivity|]. cbn [s_frame_period s_target_speed
                                           s_next_timesync_recovery_frame
                                           s_next_frame_time].
    split; [reflexivity|]. split; [reflexivity|]. split; [reflexivity|].
    split; [lia|]. intros _. rewrite Hskip.
    split; [lia|]. exists k. split; [exact Hk|reflexivity].
  - eexists. split; [reflexivity|]. cbn [s_frame_period s_target_speed
                                           s_next_timesync_recovery_frame
                                           s_next_frame_time].
    split; [reflexivity|]. split; [reflexivity|]. split; [reflexivity|].
    split; [reflexivity|]. lia.
Qed.

End ThrottleFacts.
(** ** Inputs of a frame *)

Section InputFacts.
Import PadInput.
Variable Button_Count : nat.
Variable has_controller : nat -> bool.

Lemma set_binds_run (i : nat) (button_data : Z) (start count : nat) :
  (start + count <= 32)%nat ->
  set_binds i button_data (seq start count)
  = Some (map (fun j => {| slot := i; bind := j;
                           value := if Z.testbit (Int.u32 button_data) (Z.of_nat j)
                                    then F32.one else zero |})
              (seq start count)).
Proof.
  revert start. induction count as [|count IH]; intros start Hle; [reflexivity|].
  cbn [seq set_binds map].
  destruct (Nat.ltb_spec start 32) as [_|Hge]; [|lia].
  rewrite IH by lia. reflexivity.
Qed.

Lemma set_binds_overflow (i : nat) (button_data : Z) (start count : nat) :
  (start <= 32 < start + count)%nat ->
  set_binds i button_data (seq start count) = None.
Proof.
  revert start. induction count as [|count IH]; intros start Hle; [lia|].
  cbn [seq set_binds].
  destruct (Nat.ltb_spec start 32) as [Hlt|Hge]; [|reflexivity].
  rewrite IH by lia. reflexivity.
Qed.

(** X24: [SetInputs] sets every button of both controllers, controller 0
    first and the buttons in order, to 1.0 when the bit of the button is
    set in the controller's input word and to 0.0 when it is clear.  With
    buttons to set it gets that far only when both controllers exist and
    there are at most 32 buttons: the test of bit 32 of the 32-bit set
    throws. *)
Theorem SetInputs_sets_every_button (inputs : Z * Z) :
  let binds_of (i : nat) (word : Z) :=
    map (fun j => {| slot := i; bind := j;
                     value := if Z.testbit (Int.u32 word) (Z.of_nat j)
                              then F32.one else zero |})
        (seq 0 Button_Count) in
  ((Button_Count <= 32)%nat ->
   (Button_Count = 0%nat \/ (has_controller 0 = true /\ has_controller 1 = true)) ->
   SetInputs Button_Count has_controller inputs
   = Some (app (binds_of 0%nat (fst inputs)) (binds_of 1%nat (snd inputs))))
  /\ ((0 < Button_Count)%nat ->
      (32 < Button_Count)%nat \/ has_controller 0 = false \/ has_controller 1 = false ->
      SetInputs Button_Count has_controller inputs = None).
Proof.
  intros binds_of. split.
  - intros Hcount Hpads. unfold SetInputs, SetInputs_controller.
    destruct Hpads as [Hzero|[Hpad0 Hpad1]].
    + unfold binds_of. rewrite Hzero. cbn [seq set_binds map Nat.eqb].
      destruct (has_controller 0), (has_controller 1); reflexivity.
    + rewrite Hpad0, Hpad1, !set_binds_run by lia. reflexivity.
  - intros Hsome Hbad. unfold SetInputs, SetInputs_controller.
    destruct (Nat.eqb_spec Button_Count 0) as [Hz|_]; [lia|].
    destruct (has_controller 0); [|reflexivity].
    destruct (Nat.ltb_spec 32 Button_Count) as [Hover|Hfits].
    + rewrite set_binds_overflow by lia. reflexivity.
    + rewrite set_binds_run by lia.
      destruct (has_controller 1); [|reflexivity].
      destruct Hbad as [Hb|[Hb|Hb]]; [lia|discriminate|discriminate].
Qed.

(** X25: the button encoding is the same in both directions: the values
    that [SetInputs] hands to a controller for an input word, taken as the
    row of port 0, are sampled by [ReadLocalInput] as the low Button_Count
    bits of the word. *)
Theorem SetInputs_ReadLocalInput_round_trip (i : nat) (word : Z)
    (binds : list BindState) (rest : list (list F32.float)) :
  (Button_Count <= 32)%nat ->
  set_binds i word (seq 0 Button_Count) = Some binds ->
  LocalInput.ReadLocalInput Button_Count
    (app (map value binds) (replicate (32 - Button_Count) zero) :: rest)
  = Some (Int.u32 word mod 2 ^ Z.of_nat Button_Count).
Proof.
  intros Hcount Hbinds. rewrite set_binds_run in Hbinds by lia.
  inversion Hbinds as [Hb]. clear Hbinds.
  set (row := app (map value _) (replicate (32 - Button_Count) zero)).
  assert (Hlen : length row = 32%nat).
  { unfold row. rewrite length_app, !length_map, length_seq, length_replicate. lia. }
  assert (Hrow : forall j, (j < Button_Count)%nat ->
            row !! j = Some (if Z.testbit (Int.u32 word) (Z.of_nat j)
                             then F32.one else zero)).
  { intros j Hj. unfold row.
    rewrite lookup_app_l by (rewrite !length_map, length_seq; exact Hj).
    rewrite !list_lookup_fmap, lookup_seq_lt by exact Hj. reflexivity. }
  destruct (read_buttons_spec row Button_Count 0 0) as (w & Hw & _ & Hmid & Hhigh).
  { lia. } { lia. } { intros j _. apply Z.bits_0. }
  unfold LocalInput.ReadLocalInput. cbn [lookup list_lookup]. rewrite Hw. f_equal.
  apply Z.bits_inj'. intros k Hk.
  rewrite <- (Z2Nat.id k Hk).
  destruct (Nat.lt_ge_cases (Z.to_nat k) Button_Count) as [Hlow|Hup].
  - rewrite (Hmid (Z.to_nat k) _ ltac:(lia) (Hrow (Z.to_nat k) Hlow)).
    rewrite Z.mod_pow2_bits_low by lia.
    destruct (Z.testbit (Int.u32 word) (Z.of_nat (Z.to_nat k))); reflexivity.
  - rewrite Hhigh by lia. rewrite Z.mod_pow2_bits_high by lia. reflexivity.
Qed.

End InputFacts.
(** ** Chat *)

Section Chat.
Context `{platform : Platform}.


End Chat.
(** ** The host while the players synchronise *)

Section HostResetState.
Context `{platform : Platform}.

(** X27: when every counted player has acknowledged the Reset and every
    [enet_peer_send] succeeds, the host sends ResumeSession to every peer
    of the roster, registers the occupied slots with GGPO and goes to
    Running, whatever the turn brings: it handles no event of the network
    in that turn.  The roster, the cookie and the reset set stay as they
    are. *)
Theorem host_resumes_when_all_reset (s : Session) :
  sends_succeed ->
  well_formed s ->
  IsHost s = true ->
  reset_players_count s = s_num_players s ->
  exists s',
    (forall t, UpdateResetState t s = (Returned tt, s'))
    /\ s_state s' = Running
    /\ s_ggpo s' = Some (registered s 1 (occupied_slots s))
    /\ (forall i, slot_peer s' i = slot_peer s i)
    /\ s_num_players s' = s_num_players s
    /\ s_reset_cookie s' = s_reset_cookie s
    /\ s_reset_players s' = s_reset_players s
    /\ forall q, q ∈ connected_peers s ->
         In (enet_peer_send q
               (NewControlPacket ControlMessage.ResumeSession ResumeSessionP []))
            (trace s').
Proof.
  intros Hsend Hwf Hhost Hall.
  set (resume := NewControlPacket ControlMessage.ResumeSession ResumeSessionP []).
  set (sent := map (fun p => enet_peer_send p resume) (connected_peers s)).
  set (s1 := record_all sent (record (Log Verbose "All players synchronized, resuming!") s)).
  assert (Hr1 : same_roster s s1).
  { eapply same_roster_trans; [apply same_roster_record|apply same_roster_record_all]. }
  destruct (wp_run _ _ _ (wp_CreateGGPOSession_registers s1
                            (same_roster_well_formed _ _ Hr1 Hwf)))
    as ([] & s2 & Hrun2 & Hg2 & Hr2 & Htr2 & _).
  assert (Hslots1 : forall i, slot_peer s1 i = slot_peer s i).
  { intros i. unfold s1. rewrite slot_peer_record_all. reflexivity. }
  pose proof Hr1 as (_ & _ & _ & _ & _ & Hid1 & Hn1 & Hc1 & Hb1 & _).
  pose proof Hr2 as (_ & _ & Hp2 & _ & _ & _ & Hn2 & Hc2 & Hb2 & _).
  exists (set_state Running s2). split.
  - intros t. unfold UpdateResetState. unfold bind at 1, gets, id.
    rewrite Hhost, (proj2 (Z.eqb_eq _ _) Hall).
    unfold bind at 1, call, modify. unfold bind at 1.
    rewrite (SendControlPacketToAll_succeeds _ _ Hsend).
    fold resume.
    change (connected_peers (record ?e s)) with (connected_peers s).
    fold sent. fold s1. unfold bind at 1. rewrite Hrun2. reflexivity.
  - split; [reflexivity|]. split.
    { cbn [s_ggpo set_state]. rewrite Hg2. unfold occupied_slots.
      rewrite (filter_occupied_ext s s1), (registered_ext s s1) by assumption.
      reflexivity. }
    split.
    { intros i. change (slot_peer (set_state Running s2) i) with (slot_peer s2 i).
      rewrite <- Hslots1. unfold slot_peer.
      pose proof (f_equal (fun l => l !! i) Hp2) as Hpi. cbv beta in Hpi.
      rewrite !list_lookup_fmap in Hpi.
      destruct (s_peers s2 !! i) as [x|], (s_peers s1 !! i) as [y|];
        simpl in Hpi |- *; congruence. }
    split; [cbn [s_num_players set_state]; rewrite Hn2; exact Hn1|].
    split; [cbn [s_reset_cookie set_state]; rewrite Hc2; exact Hc1|].
    split; [cbn [s_reset_players set_state]; rewrite Hb2; exact Hb1|].
    intros q Hq. cbn [trace set_state]. apply Htr2. unfold s1.
    rewrite trace_record_all. apply in_or_app. right. unfold sent.
    apply in_map_iff. exists q. split; [reflexivity|]. apply list_elem_of_In. exact Hq.
Qed.

Section DroppingWithSends.
Hypothesis Hsend : sends_succeed.

Lemma drop_unsynchronized_skip (i : nat) (s : Session) :
  (i < MAX_PLAYERS)%nat ->
  length (s_reset_players s) = MAX_PLAYERS ->
  (occupied s i = true -> reset_bit s i = true) ->
  drop_unsynchronized i s = (Returned tt, s).
Proof.
  intros Hi Hlen Hbit. unfold drop_unsynchronized. unfold bind at 1, gets, id.
  unfold occupied in Hbit.
  destruct (IsValidPlayerId s (Z.of_nat i)); [|reflexivity]. cbn [negb].
  unfold bind at 1, bitset_test. rewrite in_range_of_nat, Nat2Z.id by exact Hi.
  specialize (Hbit eq_refl). unfold reset_bit in Hbit.
  destruct (s_reset_players s !! i) as [x|] eqn:Hx.
  - rewrite Hbit. reflexivity.
  - discriminate.
Qed.

Lemma skip_synchronised (a n : nat) (s : Session) :
  (a + n <= MAX_PLAYERS)%nat ->
  length (s_reset_players s) = MAX_PLAYERS ->
  (forall i, (a <= i < a + n)%nat -> occupied s i = true -> reset_bit s i = true) ->
  for_ (seq a n) drop_unsynchronized s = (Returned tt, s).
Proof.
  revert a. induction n as [|n IH]; intros a Hle Hlen Hbits; [reflexivity|].
  cbn [seq for_]. unfold bind.
  rewrite drop_unsynchronized_skip by (lia || exact Hlen || (apply Hbits; lia)).
  apply IH; [lia|exact Hlen|]. intros i Hi. apply Hbits. lia.
Qed.

(** The host as every drop of the loop finds it. *)
Lemma wp_drop_unsynchronized_host (i : nat) (s : Session) (m : Machine) (h : ENetHost) :
  (forall m0, exists state m1,
     System_SaveStateToStream m0 = Some state
     /\ System_LoadStateFromStream state m0 = Some m1) ->
  length (s_peers s) = MAX_PLAYERS ->
  length (s_reset_players s) = MAX_PLAYERS ->
  IsHost s = true ->
  in_range (s_player_id s) = true ->
  s_enet_host s = Some h ->
  system s = Some m ->
  s_state s = Resetting ->
  (i < MAX_PLAYERS)%nat ->
  (Z.of_nat i = s_player_id s -> reset_bit s i = true) ->
  (Z.of_nat i <> s_player_id s -> has_peer s i = true -> reset_bit s i = false) ->
  let dropped := has_peer s i && negb (Z.of_nat i =? s_player_id s) in
  wp (drop_unsynchronized i)
     (fun _ s' =>
        length (s_peers s') = MAX_PLAYERS
        /\ length (s_reset_players s') = MAX_PLAYERS
        /\ s_player_id s' = s_player_id s
        /\ s_host_player_id s' = s_host_player_id s
        /\ s_enet_host s' = Some h
        /\ (exists m', system s' = Some m')
        /\ s_state s' = Resetting
        /\ s_reset_players s'
           = (if dropped then <[Z.to_nat (s_player_id s) := true]> bitset_none
              else s_reset_players s)
        /\ (forall j, slot_peer s' j
                      = if Nat.eqb j i && dropped then None else slot_peer s j)
        /\ s_num_players s' = s_num_players s - (if dropped then 1 else 0)) s.
Proof.
  intros Hsnap Hlen Hblen Hhost Hrange Henet Hsys Hst Hi Hself Hother dropped.
  destruct (Z.eqb_spec (Z.of_nat i) (s_player_id s)) as [Hme|Hnot].
  - assert (Hd : dropped = false) by (unfold dropped; apply andb_false_r).
    unfold wp. rewrite drop_unsynchronized_skip;
      [|exact Hi|exact Hblen|intros _; apply Hself; exact Hme].
    rewrite Hd.
    split; [exact Hlen|]. split; [exact Hblen|]. repeat (split; [reflexivity|]).
    split; [exact Henet|]. split; [exists m; exact Hsys|]. split; [exact Hst|].
    split; [reflexivity|]. split; [intros j; rewrite andb_false_r; reflexivity|lia].
  - destruct (has_peer s i) eqn:Hhas.
    + assert (Hd : dropped = true) by reflexivity. rewrite Hd.
      assert (Hto : exists to, slot_peer s (Z.to_nat (Z.of_nat i)) = Some to).
      { rewrite Nat2Z.id. unfold has_peer in Hhas.
        destruct (slot_peer s i) as [to|]; [exists to; reflexivity|discriminate]. }
      destruct Hto as [to Hto].
      destruct (Hsnap m) as (state & m' & Hsave & Hload).
      unfold drop_unsynchronized. wp_next.
      assert (Hvalid : IsValidPlayerId s (Z.of_nat i) = true).
      { unfold IsValidPlayerId. rewrite in_range_of_nat, Nat2Z.id, Hhas by exact Hi.
        apply orb_true_r. }
      rewrite Hvalid. cbn [negb]. apply wp_bind. unfold wp at 1, bitset_test.
      rewrite in_range_of_nat, Nat2Z.id by exact Hi.
      specialize (Hother Hnot eq_refl). unfold reset_bit in Hother.
      destruct (s_reset_players s !! i) as [x|] eqn:Hx;
        [|apply lookup_ge_None in Hx; lia].
      rewrite Hother. unfold ret. wp_next.
      eapply wp_mono;
        [|apply (wp_DropPlayer_host Hsend _ (Z.of_nat i) ConnectTimeout m m' state h to);
          [exact Hlen|exact Hhost|exact Hrange|exact Henet|exact Hsys|exact Hsave
          |exact Hload|apply in_range_of_nat; exact Hi|exact Hto|exact Hnot]].
      intros u s' (Hnone & _ & Hothers & Hn & Hst' & _ & _ & Hb & _ & _ & Hlen' & Hid
                   & Hhid & Henet' & Hsys').
      cbv beta. rewrite Nat2Z.id in Hnone, Hothers.
      split; [exact Hlen'|]. split.
      { rewrite Hb, length_insert. apply length_bitset_none. }
      split; [exact Hid|]. split; [exact Hhid|]. split; [rewrite Henet'; exact Henet|].
      split; [exists m'; exact Hsys'|]. split; [exact Hst'|]. split; [exact Hb|].
      split; [|exact Hn].
      intros j. rewrite andb_true_r. destruct (Nat.eqb_spec j i) as [->|Hj].
      * exact Hnone.
      * apply Hothers. exact Hj.
    + assert (Hd : dropped = false) by reflexivity.
      unfold wp. rewrite drop_unsynchronized_skip; [|exact Hi|exact Hblen|].
      * rewrite Hd.
        split; [exact Hlen|]. split; [exact Hblen|]. repeat (split; [reflexivity|]).
        split; [exact Henet|]. split; [exists m; exact Hsys|]. split; [exact Hst|].
        split; [reflexivity|]. split; [intros j; rewrite andb_false_r; reflexivity|lia].
      * intros Hocc. unfold occupied in Hocc.
        rewrite IsValidPlayerId_slot, Hhas in Hocc by exact Hi. cbn [negb] in Hocc.
        rewrite andb_true_r in Hocc. apply negb_true_iff, negb_false_iff in Hocc.
        apply Z.eqb_eq in Hocc. contradiction.
Qed.

Lemma wp_drop_rest (a n : nat) (s : Session) (m : Machine) (h : ENetHost) :
  (forall m0, exists state m1,
     System_SaveStateToStream m0 = Some state
     /\ System_LoadStateFromStream state m0 = Some m1) ->
  length (s_peers s) = MAX_PLAYERS ->
  IsHost s = true ->
  in_range (s_player_id s) = true ->
  s_enet_host s = Some h ->
  system s = Some m ->
  s_state s = Resetting ->
  s_reset_players s = <[Z.to_nat (s_player_id s) := true]> bitset_none ->
  (a + n <= MAX_PLAYERS)%nat ->
  wp (for_ (seq a n) drop_unsynchronized)
     (fun _ s' =>
        s_player_id s' = s_player_id s
        /\ s_enet_host s' = Some h
        /\ s_state s' = Resetting
        /\ s_reset_players s' = <[Z.to_nat (s_player_id s) := true]> bitset_none
        /\ (forall j, slot_peer s' j
                      = if (a <=? j)%nat && (j <? a + n)%nat
                           && negb (Z.of_nat j =? s_player_id s)
                        then None else slot_peer s j)
        /\ s_num_players s'
           = s_num_players s
             - count_if (fun j => has_peer s j && negb (Z.of_nat j =? s_player_id s))
                        (seq a n)) s.
Proof.
  intros Hsnap. revert a s m.
  induction n as [|n IH]; intros a s m Hlen Hhost Hrange Henet Hsys Hst Hb Hle.
  - apply wp_ret. split; [reflexivity|]. split; [exact Henet|]. split; [exact Hst|].
    split; [exact Hb|]. split; [|cbn [seq count_if]; lia].
    intros j. destruct (Nat.leb_spec a j), (Nat.ltb_spec j (a + 0)); try reflexivity.
    lia.
  - cbn [seq for_]. apply wp_bind.
    destruct (in_range_bounds _ Hrange) as [Hpos Hlt].
    assert (Hbit : forall j, reset_bit s j = true <-> j = Z.to_nat (s_player_id s)).
    { intros j. unfold reset_bit. rewrite Hb.
      destruct (Nat.eq_dec j (Z.to_nat (s_player_id s))) as [Heq|Hneq].
      - rewrite Heq, list_lookup_insert_eq by (rewrite length_bitset_none; exact Hlt).
        tauto.
      - rewrite list_lookup_insert_ne by congruence.
        change (match bitset_none !! j with Some b => b | None => false end)
          with (reset_bit (set_reset_players bitset_none s) j).
        rewrite reset_bit_none by reflexivity. split; [discriminate|contradiction]. }
    eapply wp_mono;
      [|apply (wp_drop_unsynchronized_host a s m h Hsnap Hlen);
        [rewrite Hb, length_insert; apply length_bitset_none
        |exact Hhost|exact Hrange|exact Henet|exact Hsys|exact Hst|lia
        |intros Hme; apply Hbit; lia
        |intros Hnot _; destruct (reset_bit s a) eqn:Hx; [|reflexivity];
         apply Hbit in Hx; lia]].
    intros u s1 (Hlen1 & _ & Hid1 & Hhid1 & Henet1 & [m1 Hsys1] & Hst1 & Hb1 & Hslots1
                 & Hn1).
    cbv beta.
    assert (Hb1' : s_reset_players s1 = <[Z.to_nat (s_player_id s1) := true]> bitset_none).
    { rewrite Hb1, Hid1. destruct (has_peer s a && negb (Z.of_nat a =? s_player_id s));
        [reflexivity|exact Hb]. }
    eapply wp_mono;
      [|apply (IH (S a) s1 m1 Hlen1);
        [unfold IsHost in *; rewrite Hid1, Hhid1; exact Hhost
        |rewrite Hid1; exact Hrange|exact Henet1|exact Hsys1|exact Hst1|exact Hb1'|lia]].
    intros u' s2 (Hid2 & Henet2 & Hst2 & Hb2 & Hslots2 & Hn2). cbv beta.
    rewrite Hid1 in *.
    split; [exact Hid2|]. split; [exact Henet2|]. split; [exact Hst2|].
    split; [exact Hb2|]. split.
    + intros j. rewrite Hslots2, Hslots1.
      destruct (Nat.eqb_spec j a) as [->|Hja].
      * replace (S a <=? a)%nat with false by (symmetry; apply Nat.leb_gt; lia).
        replace (a <=? a)%nat with true by (symmetry; apply Nat.leb_le; lia).
        replace (a <? a + S n)%nat with true by (symmetry; apply Nat.ltb_lt; lia).
        cbn [andb].
        destruct (Z.of_nat a =? s_player_id s); cbn [negb].
        -- rewrite andb_false_r. reflexivity.
        -- rewrite andb_true_r. unfold has_peer.
           destruct (slot_peer s a); reflexivity.
      * cbn [andb].
        destruct (Nat.leb_spec (S a) j), (Nat.leb_spec a j),
                 (Nat.ltb_spec j (S a + n)), (Nat.ltb_spec j (a + S n));
          try lia; reflexivity.
    + rewrite Hn2, Hn1. cbn [count_if].
      rewrite (count_if_ext
                 (fun j => has_peer s1 j && negb (Z.of_nat j =? s_player_id s))
                 (fun j => has_peer s j && negb (Z.of_nat j =? s_player_id s))).
      * lia.
      * intros j Hj. apply elem_of_seq in Hj. unfold has_peer. rewrite Hslots1.
        destruct (Nat.eqb_spec j a); [lia|]. reflexivity.
Qed.

Lemma wp_drop_from_first_missing (s : Session) (k : nat) (m : Machine) (h : ENetHost) :
  (forall m0, exists state m1,
     System_SaveStateToStream m0 = Some state
     /\ System_LoadStateFromStream state m0 = Some m1) ->
  well_formed s ->
  IsHost s = true ->
  in_range (s_player_id s) = true ->
  s_enet_host s = Some h ->
  system s = Some m ->
  s_state s = Resetting ->
  (k < MAX_PLAYERS)%nat ->
  has_peer s k = true ->
  Z.of_nat k <> s_player_id s ->
  reset_bit s k = false ->
  (forall i, (i < k)%nat -> occupied s i = true -> reset_bit s i = true) ->
  wp (for_each_player drop_unsynchronized)
     (fun _ s' =>
        s_enet_host s' = Some h
        /\ s_state s' = Resetting
        /\ s_reset_players s' = <[Z.to_nat (s_player_id s) := true]> bitset_none
        /\ (forall i, slot_peer s' i
                      = if (k <=? i)%nat && negb (Z.of_nat i =? s_player_id s)
                        then None else slot_peer s i)
        /\ s_num_players s'
           = s_num_players s
             - count_if (fun i => has_peer s i && negb (Z.of_nat i =? s_player_id s))
                        (seq k (MAX_PLAYERS - k))) s.
Proof.
  intros Hsnap [Hlen Hblen] Hhost Hrange Henet Hsys Hst Hk Hhas Hnot Hbit Hbelow.
  destruct (in_range_bounds _ Hrange) as [Hpos Hlt].
  unfold for_each_player.
  replace MAX_PLAYERS with (k + S (MAX_PLAYERS - S k))%nat at 1 by lia.
  rewrite seq_app. cbn [seq]. rewrite Nat.add_0_l.
  assert (Hfor : forall (l1 l2 : list nat) (body : nat -> M unit) (s0 : Session),
            for_ (app l1 l2) body s0
            = bind (for_ l1 body) (fun _ => for_ l2 body) s0).
  { induction l1 as [|x l1 IHl]; intros l2 body s0.
    - cbn [app for_]. unfold bind, ret. reflexivity.
    - cbn [app for_]. unfold bind in *. destruct (body x s0) as [[[]|f] s1];
        [apply IHl|reflexivity]. }
  unfold wp. rewrite Hfor. unfold bind at 1.
  rewrite skip_synchronised; [|lia|exact Hblen|intros i Hi; apply Hbelow; lia].
  fold (wp (for_ (k :: seq (S k) (MAX_PLAYERS - S k)) drop_unsynchronized)
           (fun _ s' =>
              s_enet_host s' = Some h
              /\ s_state s' = Resetting
              /\ s_reset_players s'
                 = <[Z.to_nat (s_player_id s) := true]> bitset_none
              /\ (forall i, slot_peer s' i
                            = if (k <=? i)%nat
                                 && negb (Z.of_nat i =? s_player_id s)
                              then None else slot_peer s i)
              /\ s_num_players s'
                 = s_num_players s
                   - count_if (fun i => has_peer s i
                                        && negb (Z.of_nat i =? s_player_id s))
                              (seq k (MAX_PLAYERS - k))) s).
  cbn [for_]. apply wp_bind.
  eapply wp_mono;
    [|apply (wp_drop_unsynchronized_host k s m h Hsnap Hlen Hblen Hhost Hrange Henet
               Hsys Hst Hk);
      [intros Hme; contradiction|intros _ _; exact Hbit]].
  rewrite Hhas. destruct (Z.eqb_spec (Z.of_nat k) (s_player_id s)) as [|_];
    [contradiction|]. cbn [andb negb].
  intros u s1 (Hlen1 & _ & Hid1 & Hhid1 & Henet1 & [m1 Hsys1] & Hst1 & Hb1 & Hslots1
               & Hn1).
  cbv beta.
  eapply wp_mono;
    [|apply (wp_drop_rest (S k) (MAX_PLAYERS - S k) s1 m1 h Hsnap Hlen1);
      [unfold IsHost in *; rewrite Hid1, Hhid1; exact Hhost
      |rewrite Hid1; exact Hrange|exact Henet1|exact Hsys1|exact Hst1
      |rewrite Hid1; exact Hb1|lia]].
  intros u' s2 (Hid2 & Henet2 & Hst2 & Hb2 & Hslots2 & Hn2). cbv beta.
  rewrite Hid1 in *.
  split; [exact Henet2|]. split; [exact Hst2|]. split; [exact Hb2|]. split.
  - intros i. rewrite Hslots2, Hslots1.
    destruct (Nat.eqb_spec i k) as [->|Hik].
    + replace (S k <=? k)%nat with false by (symmetry; apply Nat.leb_gt; lia).
      replace (k <=? k)%nat with true by (symmetry; apply Nat.leb_le; lia).
      destruct (Z.eqb_spec (Z.of_nat k) (s_player_id s)); [contradiction|].
      reflexivity.
    + cbn [andb].
      destruct (Nat.leb_spec (S k) i), (Nat.leb_spec k i),
               (Nat.ltb_spec i (S k + (MAX_PLAYERS - S k))); cbn [andb];
        try lia; try reflexivity.
      unfold slot_peer. rewrite lookup_ge_None_2 by lia.
      destruct (negb (Z.of_nat i =? s_player_id s)); reflexivity.
  - rewrite Hn2, Hn1.
    replace (MAX_PLAYERS - k)%nat with (S (MAX_PLAYERS - S k)) by lia.
    cbn [seq count_if]. rewrite Hhas.
    destruct (Z.eqb_spec (Z.of_nat k) (s_player_id s)); [contradiction|].
    cbn [andb negb].
    rewrite (count_if_ext
               (fun j => has_peer s1 j && negb (Z.of_nat j =? s_player_id s))
               (fun j => has_peer s j && negb (Z.of_nat j =? s_player_id s))).
    + lia.
    + intros j Hj. apply elem_of_seq in Hj. unfold has_peer. rewrite Hslots1.
      destruct (Nat.eqb_spec j k); [lia|]. reflexivity.
Qed.

End DroppingWithSends.

(** X28: when the Reset times out on the host, in a turn in which no
    event arrives, and every [enet_peer_send] succeeds, the host drops the
    first player that has not acknowledged and, as every drop starts the
    Reset again with nobody but the host acknowledged, every player of a
    higher slot as well, whether it had acknowledged or not.  The players
    of the lower slots stay; the session stays in Resetting. *)
Theorem reset_timeout_drops_from_first_missing (t : Turn) (s : Session) (k : nat)
    (m : Machine) (h : ENetHost) :
  sends_succeed ->
  (forall m0, exists state m1,
     System_SaveStateToStream m0 = Some state
     /\ System_LoadStateFromStream state m0 = Some m1) ->
  well_formed s ->
  IsHost s = true ->
  in_range (s_player_id s) = true ->
  s_enet_host s = Some h ->
  system s = Some m ->
  s_state s = Resetting ->
  reset_players_count s <> s_num_players s ->
  MAX_CONNECT_TIME_ms <= reset_elapsed_ms t ->
  arrivals t = [] ->
  (k < MAX_PLAYERS)%nat ->
  has_peer s k = true ->
  Z.of_nat k <> s_player_id s ->
  reset_bit s k = false ->
  (forall i, (i < k)%nat -> occupied s i = true -> reset_bit s i = true) ->
  exists s',
    UpdateResetState t s = (Returned tt, s')
    /\ s_state s' = Resetting
    /\ (forall i, slot_peer s' i
                  = if (k <=? i)%nat && negb (Z.of_nat i =? s_player_id s)
                    then None else slot_peer s i)
    /\ s_num_players s'
       = s_num_players s
         - count_if (fun i => has_peer s i && negb (Z.of_nat i =? s_player_id s))
                    (seq k (MAX_PLAYERS - k))
    /\ (forall i, reset_bit s' i = true <-> i = Z.to_nat (s_player_id s)).
Proof.
  intros Hsend Hsnap Hwf Hhost Hrange Henet Hsys Hst Hcount Htimeout Hquiet Hk Hhas
         Hnot Hbit Hbelow.
  destruct (in_range_bounds _ Hrange) as [Hpos Hlt].
  set (s0 := record (Log Info "Reset timeout, dropping any players who aren't connected")
               s).
  destruct (wp_run _ _ _ (wp_drop_from_first_missing Hsend s0 k m h Hsnap Hwf Hhost Hrange Henet
                            Hsys Hst Hk Hhas Hnot Hbit Hbelow))
    as ([] & s1 & Hrun1 & Henet1 & Hst1 & Hb1 & Hslots1 & Hn1).
  exists (record Host_PumpMessagesOnCPUThread
            (record (Host_DisplayLoadingScreen "Netplay synchronizing") s1)).
  split.
  - assert (Hloop : bind (call (Log Info
                                   "Reset timeout, dropping any players who aren't connected"))
                         (fun _ => for_each_player drop_unsynchronized) s
                    = (Returned tt, s1)).
    { unfold bind at 1, call, modify. exact Hrun1. }
    assert (Hpoll : PollEnet (closing_arrivals t) [] s1 = (Returned tt, s1)).
    { cbn [PollEnet]. unfold bind at 1, gets, id.
      assert (Hactive : IsActive s1 = true) by (unfold IsActive; rewrite Hst1; reflexivity).
      rewrite Hactive. unfold bind at 1. rewrite Henet1. reflexivity. }
    unfold UpdateResetState. unfold bind at 1, gets, id.
    rewrite Hhost, (proj2 (Z.eqb_neq _ _) Hcount), (proj2 (Z.leb_le _ _) Htimeout), Hquiet.
    unfold bind at 1. rewrite Hloop. unfold bind at 1. rewrite Hpoll. reflexivity.
  - split; [exact Hst1|]. split; [exact Hslots1|]. split; [exact Hn1|].
    intros i. unfold reset_bit. cbn [s_reset_players record]. rewrite Hb1.
    change (s_player_id s0) with (s_player_id s).
    destruct (Nat.eq_dec i (Z.to_nat (s_player_id s))) as [Heq|Hneq].
    + rewrite Heq, list_lookup_insert_eq by (rewrite length_bitset_none; exact Hlt). tauto.
    + rewrite list_lookup_insert_ne by congruence.
      change (match bitset_none !! i with Some b => b | None => false end)
        with (reset_bit (set_reset_players bitset_none s) i).
      rewrite reset_bit_none by reflexivity. split; [discriminate|contradiction].
Qed.

End HostResetState.
(** ** A joiner while the players synchronise *)

Section JoinerResetState.
Context `{platform : Platform}.





End JoinerResetState.
(** ** A Reset arrives at a joiner *)

Section AcceptingReset.
Context `{platform : Platform}.

Lemma slot_peer_update (s1 s2 : Session) (i j : nat) (v : Peer) :
  s_peers s2 = <[i := v]> (s_peers s1) ->
  (i < length (s_peers s1))%nat ->
  slot_peer s2 j = if Nat.eqb j i then peer v else slot_peer s1 j.
Proof.
  intros Hp Hi. unfold slot_peer. rewrite Hp.
  destruct (Nat.eqb_spec j i) as [->|Hne].
  - rewrite list_lookup_insert_eq by exact Hi. reflexivity.
  - rewrite list_lookup_insert_ne by congruence. reflexivity.
Qed.

Ltac slot_update s1 Hl Hi :=
  match goal with
  | |- context [slot_peer ?s2 ?j] =>
      rewrite (slot_peer_update s1 s2 _ j _ eq_refl) by (rewrite Hl; exact Hi)
  end.

(** What the loop over the roster keeps of the session [s0] it started
    from. *)
Lemma wp_reset_check_connection_settles (msg : ResetMessage.t) (i : nat)
    (s0 s : Session) (h : ENetHost) :
  (forall h0 a d, enet_host_connect h0 a d <> None) ->
  (i < MAX_PLAYERS)%nat ->
  length (ResetMessage.players msg) = MAX_PLAYERS ->
  length (s_peers s) = MAX_PLAYERS ->
  s_enet_host s = Some h ->
  s_player_id s = s_player_id s0 ->
  s_host_player_id s = s_host_player_id s0 ->
  slot_peer s i = slot_peer s0 i ->
  wp (reset_check_connection msg i)
     (fun _ s' =>
        length (s_peers s') = MAX_PLAYERS
        /\ (exists h', s_enet_host s' = Some h')
        /\ s_player_id s' = s_player_id s
        /\ s_host_player_id s' = s_host_player_id s
        /\ system s' = system s
        /\ s_ggpo s' = s_ggpo s
        /\ s_num_players s' = s_num_players s
        /\ (forall j, j <> i -> slot_peer s' j = slot_peer s j)
        /\ reset_settles s0 msg i (slot_peer s' i)) s.
Proof.
  intros Hdial Hi Hmlen Hlen Henet Hid Hhid Hslot.
  destruct (lookup_lt_is_Some_2 (s_peers s) i ltac:(lia)) as [p Hp].
  destruct (lookup_lt_is_Some_2 (ResetMessage.players msg) i ltac:(lia)) as [entry Hentry].
  assert (Hpeer : slot_peer s i = peer p) by (unfold slot_peer; rewrite Hp; reflexivity).
  assert (Hpresent : entry_present msg i = (0 <=? ResetMessage.controller_port entry)).
  { unfold entry_present. rewrite Hentry. reflexivity. }
  assert (Hset : forall (f : Peer -> Peer) (s1 : Session) (p1 : Peer)
                        (Q : unit -> Session -> Prop),
            s_peers s1 !! i = Some p1 ->
            Q tt (set_peers (<[i := f p1]> (s_peers s1)) s1) ->
            wp (peers_update (Z.of_nat i) f) Q s1).
  { intros f s1 p1 Q Hp1 HQ. apply (wp_peers_update _ _ p1);
      [apply in_range_of_nat; exact Hi|rewrite Nat2Z.id; exact Hp1|].
    rewrite Nat2Z.id. exact HQ. }
  unfold reset_check_connection. apply wp_bind.
  apply (wp_peers_at _ p); [apply in_range_of_nat; exact Hi|rewrite Nat2Z.id; exact Hp|].
  rewrite Hentry. apply wp_bind, wp_ret. wp_next.
  unfold reset_settles. rewrite Hpresent.
  destruct (Z.ltb_spec (ResetMessage.controller_port entry) 0) as [Hneg|Hpos].
  - replace (0 <=? ResetMessage.controller_port entry) with false
      by (symmetry; apply Z.leb_gt; exact Hneg).
    cbn [negb].
    destruct (peer p) as [q|] eqn:Hq.
    + wp_next. wp_next. apply (Hset _ _ p); [exact Hp|].
      split; [cbn [s_peers set_peers record]; rewrite length_insert; exact Hlen|].
      split; [exists h; exact Henet|]. do 5 (split; [reflexivity|]). split.
      * intros j Hj.
        slot_update s Hlen Hi.
        destruct (Nat.eqb_spec j i); [contradiction|reflexivity].
      * slot_update s Hlen Hi.
        rewrite Nat.eqb_refl. reflexivity.
    + wp_prim. split; [exact Hlen|]. split; [exists h; exact Henet|].
      do 5 (split; [reflexivity|]). split; [reflexivity|].
      exact Hpeer.
  - replace (0 <=? ResetMessage.controller_port entry) with true
      by (symmetry; apply Z.leb_le; exact Hpos).
    cbn [negb]. rewrite <- Hid, <- Hhid.
    destruct (Z.eqb_spec (Z.of_nat i) (s_player_id s)) as [Hself|Hself].
    + wp_prim. split; [exact Hlen|]. split; [exists h; exact Henet|].
      do 5 (split; [reflexivity|]). split; [reflexivity|].
      cbn [orb]. exact Hslot.
    + cbn [orb]. apply wp_bind. apply (Hset _ _ p); [exact Hp|].
      set (s1 := set_peers (<[i := with_nickname (ResetMessage.nickname entry) p]>
                              (s_peers s)) s).
      assert (Hp1 : s_peers s1 !! i
                    = Some (with_nickname (ResetMessage.nickname entry) p)).
      { unfold s1. cbn [s_peers set_peers]. apply list_lookup_insert_eq.
        rewrite Hlen. exact Hi. }
      assert (Hlen1 : length (s_peers s1) = MAX_PLAYERS).
      { unfold s1. cbn [s_peers set_peers]. rewrite length_insert. exact Hlen. }
      assert (Hslots1 : forall j, slot_peer s1 j = slot_peer s j).
      { intros j. unfold s1. rewrite slot_peer_insert by (rewrite Hlen; exact Hi).
        destruct (Nat.eqb_spec j i) as [->|_]; [|reflexivity].
        cbn [peer with_nickname]. symmetry. exact Hpeer. }
      destruct (Z.eqb_spec (Z.of_nat i) (s_host_player_id s)) as [Hhost|Hhost].
      * wp_prim. split; [exact Hlen1|]. split; [exists h; exact Henet|].
        do 5 (split; [reflexivity|]). split; [intros j _; apply Hslots1|].
        cbn [orb]. rewrite Hslots1. exact Hslot.
      * cbn [orb].
        assert (Hpres : connection_preserved s0 msg i
                        = match peer p with
                          | Some q =>
                              (addr_host (address q) =? ResetMessage.host entry)
                              && (addr_port (address q) =? ResetMessage.port entry)
                          | None => false
                          end).
        { unfold connection_preserved. rewrite <- Hslot, Hpeer, Hentry.
          destruct (peer p); reflexivity. }
        rewrite Hpres.
        destruct (match peer p with
                  | Some q =>
                      (addr_host (address q) =? ResetMessage.host entry)
                      && (addr_port (address q) =? ResetMessage.port entry)
                  | None => false
                  end).
        -- wp_prim. split; [exact Hlen1|]. split; [exists h; exact Henet|].
           do 5 (split; [reflexivity|]). split; [intros j _; apply Hslots1|].
           change (slot_peer (record _ s1) i) with (slot_peer s1 i).
           rewrite Hslots1. exact Hslot.
        -- apply wp_bind, wp_Assert; [reflexivity|]. apply wp_bind.
           assert (Hclear : wp (match peer p with
                                | Some q =>
                                    bind (call (enet_peer_reset q))
                                      (fun _ => peers_update (Z.of_nat i) (with_peer None))
                                | None => ret tt
                                end)
                               (fun _ s2 =>
                                  length (s_peers s2) = MAX_PLAYERS
                                  /\ s_enet_host s2 = Some h
                                  /\ s_player_id s2 = s_player_id s
                                  /\ s_host_player_id s2 = s_host_player_id s
                                  /\ system s2 = system s
                                  /\ s_ggpo s2 = s_ggpo s
                                  /\ s_num_players s2 = s_num_players s
                                  /\ (forall j, j <> i -> slot_peer s2 j = slot_peer s j)
                                  /\ slot_peer s2 i = None) s1).
           { destruct (peer p) as [q|] eqn:Hq.
             - wp_next. apply (Hset _ _ (with_nickname (ResetMessage.nickname entry) p));
                 [exact Hp1|].
               split; [cbn [s_peers set_peers record]; rewrite length_insert; exact Hlen1|].
               split; [exact Henet|]. do 5 (split; [reflexivity|]). split.
               + intros j Hj.
                 slot_update s1 Hlen1 Hi.
                 destruct (Nat.eqb_spec j i); [contradiction|apply Hslots1].
               + slot_update s1 Hlen1 Hi.
                 rewrite Nat.eqb_refl. reflexivity.
             - wp_prim. split; [exact Hlen1|]. split; [exact Henet|].
               do 5 (split; [reflexivity|]). split; [intros j _; apply Hslots1|].
               rewrite Hslots1, Hpeer. reflexivity. }
           eapply wp_mono; [|exact Hclear].
           intros u s2 (Hlen2 & Henet2 & Hid2 & Hhid2 & Hsys2 & Hg2 & Hn2 & Hslots2
                            & Hnone2).
           cbv beta.
           destruct (Z.ltb_spec (s_player_id s) (Z.of_nat i)) as [Hhigher|Hlower].
           ++ wp_prim. split; [exact Hlen2|]. split; [exists h; exact Henet2|].
              split; [exact Hid2|]. split; [exact Hhid2|]. split; [exact Hsys2|].
              split; [exact Hg2|]. split; [exact Hn2|]. split; [exact Hslots2|exact Hnone2].
           ++ apply wp_bind. rewrite Henet. apply wp_ret.
              destruct (enet_host_connect h
                          {| addr_host := ResetMessage.host entry;
                             addr_port := ResetMessage.port entry |}
                          (Int.u32 (s_player_id s))) as [[q h']|] eqn:Hconnect;
                [|exfalso; exact (Hdial _ _ _ Hconnect)].
              wp_next.
              destruct (lookup_lt_is_Some_2 (s_peers s2) i ltac:(lia)) as [p2 Hp2].
              apply (Hset _ _ p2); [exact Hp2|].
              split; [cbn [s_peers set_peers set_enet_host]; rewrite length_insert;
                      exact Hlen2|].
              split; [exists h'; reflexivity|].
              split; [exact Hid2|]. split; [exact Hhid2|]. split; [exact Hsys2|].
              split; [exact Hg2|]. split; [exact Hn2|]. split.
              ** intros j Hj.
                 slot_update s2 Hlen2 Hi.
                 destruct (Nat.eqb_spec j i); [contradiction|apply Hslots2; exact Hj].
              ** exists h, entry, q, h'. split; [exact Hentry|].
                 split; [exact Hconnect|].
                 slot_update s2 Hlen2 Hi.
                 rewrite Nat.eqb_refl. reflexivity.
Qed.

Lemma wp_check_connections (msg : ResetMessage.t) (s0 : Session) (a n : nat)
    (s : Session) (h : ENetHost) :
  (forall h0 a0 d, enet_host_connect h0 a0 d <> None) ->
  (a + n <= MAX_PLAYERS)%nat ->
  length (ResetMessage.players msg) = MAX_PLAYERS ->
  length (s_peers s) = MAX_PLAYERS ->
  s_enet_host s = Some h ->
  s_player_id s = s_player_id s0 ->
  s_host_player_id s = s_host_player_id s0 ->
  (forall j, (a <= j)%nat -> slot_peer s j = slot_peer s0 j) ->
  wp (for_ (seq a n) (reset_check_connection msg))
     (fun _ s' =>
        length (s_peers s') = MAX_PLAYERS
        /\ s_player_id s' = s_player_id s0
        /\ system s' = system s
        /\ s_ggpo s' = s_ggpo s
        /\ s_num_players s' = s_num_players s
        /\ (forall j, (j < a)%nat -> slot_peer s' j = slot_peer s j)
        /\ (forall j, (a <= j < a + n)%nat -> reset_settles s0 msg j (slot_peer s' j))) s.
Proof.
  intros Hdial. revert a s h.
  induction n as [|n IH]; intros a s h Hle Hmlen Hlen Henet Hid Hhid Hslots.
  - apply wp_ret. split; [exact Hlen|]. split; [exact Hid|].
    do 3 (split; [reflexivity|]). split; [reflexivity|]. intros j Hj. lia.
  - cbn [seq for_]. apply wp_bind.
    eapply wp_mono;
      [|apply (wp_reset_check_connection_settles msg a s0 s h Hdial);
        [lia|exact Hmlen|exact Hlen|exact Henet|exact Hid|exact Hhid
        |apply Hslots; lia]].
    intros u s1 (Hlen1 & [h1 Henet1] & Hid1 & Hhid1 & Hsys1 & Hg1 & Hn1 & Hslots1 & Hset1).
    cbv beta.
    eapply wp_mono;
      [|apply (IH (S a) s1 h1);
        [lia|exact Hmlen|exact Hlen1|exact Henet1|rewrite Hid1; exact Hid
        |rewrite Hhid1; exact Hhid
        |intros j Hj; rewrite Hslots1 by lia; apply Hslots; lia]].
    intros u' s2 (Hlen2 & Hid2 & Hsys2 & Hg2 & Hn2 & Hbelow2 & Hset2). cbv beta.
    split; [exact Hlen2|]. split; [exact Hid2|]. split; [rewrite Hsys2; exact Hsys1|].
    split; [rewrite Hg2; exact Hg1|]. split; [rewrite Hn2; exact Hn1|]. split.
    + intros j Hj. rewrite Hbelow2 by lia. apply Hslots1. lia.
    + intros j Hj. destruct (Nat.eq_dec j a) as [->|Hja].
      * rewrite Hbelow2 by lia. exact Hset1.
      * apply Hset2. lia.
Qed.

(** X30: a joiner accepts a Reset from the host that is as long as it
    says, counts more than one player and carries a snapshot the Machine
    loads, when every dial succeeds: it closes the GGPO session, adopts the
    player count and the cookie of the message, loads the snapshot, and is
    in Resetting with nobody but itself acknowledged.  Of the roster it
    empties the slots of absent players, keeps its own slot, the host's
    and every connection to the address the message gives, dials the
    other players of a lower slot and leaves the higher ones to dial. *)
Theorem joiner_accepts_reset (pkt : ENetPacket) (msg : ResetMessage.t) (s : Session)
    (h : ENetHost) (m' : Machine) :
  (forall h0 a d, enet_host_connect h0 a d <> None) ->
  length (s_peers s) = MAX_PLAYERS ->
  length (ResetMessage.players msg) = MAX_PLAYERS ->
  in_range (s_player_id s) = true ->
  s_enet_host s = Some h ->
  (dataLength pkt <? sizeof_msg ControlMessage.Reset)
  || (dataLength pkt <? reset_expected_size msg) = false ->
  1 < ResetMessage.num_players msg ->
  system s ≫= System_LoadStateFromStream
                (take (Z.to_nat (ResetMessage.state_data_size msg)) (trailing pkt))
  = Some m' ->
  exists s',
    HandleResetMessage (s_host_player_id s) pkt msg s = (Returned tt, s')
    /\ s_state s' = Resetting
    /\ s_reset_cookie s' = ResetMessage.cookie msg
    /\ s_num_players s' = ResetMessage.num_players msg
    /\ system s' = Some m'
    /\ s_ggpo s' = None
    /\ s_player_id s' = s_player_id s
    /\ (forall i, reset_bit s' i = true <-> i = Z.to_nat (s_player_id s))
    /\ forall i, (i < MAX_PLAYERS)%nat -> reset_settles s msg i (slot_peer s' i).
Proof.
  intros Hdial Hlen Hmlen Hrange Henet Hsize Hcount Hload.
  destruct (in_range_bounds _ Hrange) as [Hpos Hlt].
  assert (Hwp : wp (HandleResetMessage (s_host_player_id s) pkt msg)
                   (fun _ s' =>
                      s_state s' = Resetting
                      /\ s_reset_cookie s' = ResetMessage.cookie msg
                      /\ s_num_players s' = ResetMessage.num_players msg
                      /\ system s' = Some m'
                      /\ s_ggpo s' = None
                      /\ s_player_id s' = s_player_id s
                      /\ s_reset_players s'
                         = <[Z.to_nat (s_player_id s) := true]> bitset_none
                      /\ forall i, (i < MAX_PLAYERS)%nat ->
                           reset_settles s msg i (slot_peer s' i)) s).
  { unfold HandleResetMessage. wp_next. rewrite Z.eqb_refl. cbn [negb].
    rewrite Hsize. apply wp_bind.
    eapply wp_mono; [|apply wp_DestroyGGPOSession_trace].
    intros u s1 (Hr1 & Hg1 & _). cbv beta.
    pose proof Hr1 as (_ & Henet1 & Hp1 & _ & Hhid1 & Hid1 & _ & _ & _ & _ & _ & _ & Hsys1).
    apply wp_bind, wp_Assert; [apply Z.ltb_lt; exact Hcount|].
    wp_next. wp_next. apply wp_bind.
    set (s2 := set_num_players (ResetMessage.num_players msg)
                 (record (Log Dev "Checking connections") s1)).
    assert (Hslots2 : forall j, slot_peer s2 j = slot_peer s j).
    { intros j. change (slot_peer s2 j) with (slot_peer s1 j). unfold slot_peer.
      pose proof (f_equal (fun l => l !! j) Hp1) as Hpj. cbv beta in Hpj.
      rewrite !list_lookup_fmap in Hpj.
      destruct (s_peers s1 !! j) as [x|], (s_peers s !! j) as [y|];
        simpl in Hpj |- *; congruence. }
    assert (Hlen2 : length (s_peers s2) = MAX_PLAYERS).
    { change (s_peers s2) with (s_peers s1).
      pose proof (f_equal length Hp1) as Hl. rewrite !length_fmap in Hl.
      rewrite Hl. exact Hlen. }
    eapply wp_mono;
      [|apply (wp_check_connections msg s 0 MAX_PLAYERS s2 h Hdial);
        [lia|exact Hmlen|exact Hlen2|rewrite <- Henet; exact Henet1|exact Hid1
        |exact Hhid1|intros j _; apply Hslots2]].
    intros u' s3 (Hlen3 & Hid3 & Hsys3 & Hg3 & Hn3 & _ & Hset3). cbv beta.
    wp_next. wp_next.
    change (system (record _ s3)) with (system s3).
    assert (Hsys3' : system s3 = system s).
    { rewrite Hsys3. exact Hsys1. }
    rewrite Hsys3', Hload.
    wp_next. wp_next. wp_next. wp_next. apply wp_bind.
    unfold reset_players_set.
    change (s_player_id (record (Log Verbose "Loading state from host") s3))
      with (s_player_id s3).
    rewrite Hid3, Hrange. wp_prim. wp_prim.
    split; [reflexivity|]. split; [reflexivity|].
    split; [cbn [s_num_players record set_reset_players set_reset_cookie set_state
                 set_system]; rewrite Hn3; reflexivity|].
    split; [reflexivity|].
    split; [cbn [s_ggpo record set_reset_players set_reset_cookie set_state set_system];
            rewrite Hg3; exact Hg1|].
    split; [cbn [s_player_id record set_reset_players set_reset_cookie set_state
                 set_system]; exact Hid3|].
    split; [reflexivity|].
    intros i Hi. apply (Hset3 i). lia. }
  destruct (wp_run _ _ _ Hwp)
    as ([] & s' & Hrun & Hst & Hc & Hn & Hsys & Hg & Hid & Hb & Hset).
  exists s'. split; [exact Hrun|]. split; [exact Hst|]. split; [exact Hc|].
  split; [exact Hn|]. split; [exact Hsys|]. split; [exact Hg|]. split; [exact Hid|].
  split; [|exact Hset].
  intros i. unfold reset_bit. rewrite Hb.
  destruct (Nat.eq_dec i (Z.to_nat (s_player_id s))) as [Heq|Hneq].
  - rewrite Heq, list_lookup_insert_eq by (rewrite length_bitset_none; exact Hlt). tauto.
  - rewrite list_lookup_insert_ne by congruence.
    change (match bitset_none !! i with Some b => b | None => false end)
      with (reset_bit (set_reset_players bitset_none s) i).
    rewrite reset_bit_none by reflexivity. split; [discriminate|contradiction].
Qed.

End AcceptingReset.

(** ** Instances on the wire platform *)

Lemma wire_sends_succeed (max_players : nat) (bind_ok : bool) :
  @sends_succeed (wire_platform max_players bind_ok).
Proof. intros p pkt. reflexivity. Qed.

Lemma SendControlPacketToAll_sends_witness :
  let first_fails := fun p => peer_ptr p =? 2 in
  let last_fails := fun p => peer_ptr p =? 3 in
  let r := @SendControlPacketToAll (lossy_platform (wire_platform 3 true) first_fails)
             resume_session (lossy_session first_fails host_of_three) in
  let r' := @SendControlPacketToAll (lossy_platform (wire_platform 3 true) last_fails)
              resume_session (lossy_session last_fails host_of_three) in
  (fst r = Aborted UseAfterFree
   /\ trace (snd r) = [enet_peer_send peer_B resume_session;
                       Log Error "enet_peer_send() to player failed"])
  /\ (fst r' = Returned tt
      /\ trace (snd r') = [enet_peer_send peer_B resume_session;
                           enet_peer_send peer_C resume_session;
                           Log Error "enet_peer_send() to player failed"]).
Proof.
  intros first_fails last_fails r r'. split.
  - destruct (@SendControlPacketToAll_sends
                (lossy_platform (wire_platform 3 true) first_fails) resume_session
                (lossy_session first_fails host_of_three) [])
      as [_ Hfail].
    + intros q [].
    + unfold r.
      rewrite (Hfail peer_B [peer_C] eq_refl ltac:(vm_compute; discriminate)).
      split; reflexivity.
  - destruct (@SendControlPacketToAll_sends
                (lossy_platform (wire_platform 3 true) last_fails) resume_session
                (lossy_session last_fails host_of_three) [peer_B])
      as [_ Hfail].
    + intros q [<-|[]]. reflexivity.
    + unfold r'.
      rewrite (Hfail peer_C [] eq_refl ltac:(vm_compute; discriminate)).
      split; reflexivity.
Defined.

Lemma control_packet_round_trip_witness :
  let P := wire_platform 2 true in
  @CheckReceivedPacket P unit ControlMessage.ChatMessage 1
    (@NewControlPacket P ControlMessage.ChatMessage ChatMessageP [Byte.x68; Byte.x69])
    tt host_alone
  = (Returned (Some tt), host_alone).
Proof.
  intros P.
  apply (proj1 (@control_packet_round_trip P unit ControlMessage.ChatMessage ChatMessageP
                  [Byte.x68; Byte.x69] tt 1 host_alone ltac:(simpl; lia))).
  vm_compute. reflexivity.
Defined.

Lemma CreateGGPOSession_registers_witness :
  exists s',
    @CreateGGPOSession (wire_platform 3 true) host_of_three = (Returned tt, s')
    /\ s_ggpo s'
       = Some [ {| player_num := 1; remote_peer := None |};
                {| player_num := 2; remote_peer := Some peer_B |};
                {| player_num := 3; remote_peer := Some peer_C |} ].
Proof.
  destruct (@CreateGGPOSession_registers (wire_platform 3 true) host_of_three)
    as (s' & Hrun & Hg & _).
  - split; reflexivity.
  - exists s'. split; [exact Hrun|exact Hg].
Defined.

Lemma CloseSession_tears_down_witness :
  exists s',
    @CloseSession (wire_platform 3 true) joiner_of_three = (Returned tt, s')
    /\ s_state s' = Inactive
    /\ s_peers s' = [empty_Peer; empty_Peer; empty_Peer]
    /\ system s' = None.
Proof.
  destruct (@CloseSession_tears_down (wire_platform 3 true) joiner_of_three)
    as (s' & Hrun & Hst & _ & _ & Hhost & Hsys).
  - reflexivity.
  - left. reflexivity.
  - exists s'. split; [exact Hrun|]. split; [exact Hst|].
    split; [apply Hhost; discriminate|exact Hsys].
Defined.

Lemma ExecuteNetplay_closes_witness :
  let P := wire_platform 2 true in
  exists s',
    @ExecuteNetplay P [turn_with [from_host resume_session]]
      (@closed_with_error P "Lost connection to host" joiner_of_two)
    = (Returned tt, s')
    /\ s_state s' = Inactive.
Proof.
  intros P.
  destruct (@ExecuteNetplay_closes P (@closed_with_error P "Lost connection to host"
                                        joiner_of_two))
    as (s' & Hrun & Hst & _).
  - reflexivity.
  - exists s'. split; [apply Hrun|exact Hst].
Defined.

Lemma Start_failure_blocks_restart_witness :
  let P := wire_platform 2 false in
  let s' := snd (@Start P true "A" "" 37000 1 (booted 2 false)) in
  s_state s' = Initializing
  /\ @Start P true "A" "" 37001 1 s'
     = (Returned false, record (Log Error "Netplay session already active") s').
Proof.
  intros P s'.
  destruct (@Start_failure_blocks_restart P true "A" "" 37000 1 (booted 2 false) s')
    as [_ Hagain].
  - vm_compute. reflexivity.
  - split; [reflexivity|]. apply Hagain. reflexivity.
Defined.

Lemma JoinSession_outcome_witness :
  let P := wire_platform 2 true in
  let s' := snd (@JoinSession P "B" "127.0.0.1" 37000 "" (booted 2 true)) in
  s_state s' = Connecting /\ s_player_id s' = -1 /\ @has_peer P s' 0 = true.
Proof.
  intros P s'.
  destruct (@JoinSession_outcome P "B" "127.0.0.1" 37000 "" (booted 2 true) s' true)
    as (_ & Hst & Hid & Hpeer & _).
  - vm_compute. reflexivity.
  - split; [exact Hst|]. split; [exact Hid|exact Hpeer].
Defined.

Lemma CreateSession_outcome_witness :
  let P := wire_platform 2 true in
  let s' := snd (@CreateSession P (fun m => m) "A" 37000 2 "" (booted 2 true)) in
  s_state s' = Running /\ @IsHost P s' = true /\ s_num_players s' = 1
  /\ system s' = Some snapshot.
Proof.
  intros P s'.
  destruct (@CreateSession_outcome P (fun m => m) "A" 37000 2 "" (booted 2 true) s' true)
    as (_ & Hst & Hhost & _ & Hn & _ & Hsys).
  - vm_compute. reflexivity.
  - split; [exact Hst|]. split; [exact Hhost|]. split; [exact Hn|]. exact Hsys.
Defined.

Lemma invalid_port_stops_at_CloseSession_witness :
  let P := wire_platform 2 true in
  fst (@JoinSession P "B" "127.0.0.1" 65535 "" (booted 2 true))
  = Aborted (AssertionFailed "IsActive() || s_state == SessionState::ClosingSession").
Proof.
  intros P.
  destruct (@invalid_port_stops_at_CloseSession P (fun m => m) "B" "127.0.0.1" 65535 2 ""
              (booted 2 true)) as [Hjoin _].
  - reflexivity.
  - right. lia.
  - rewrite Hjoin. reflexivity.
Defined.

Lemma Reset_resynchronises_witness :
  exists s',
    @Reset (wire_platform 2 true) host_of_two_ready = (Returned tt, s')
    /\ s_state s' = Resetting
    /\ s_reset_cookie s' = 2
    /\ system s' = Some snapshot.
Proof.
  destruct (@Reset_resynchronises (wire_platform 2 true) host_of_two_ready snapshot
              snapshot snapshot ({| addr_host := 0; addr_port := 0 |}, 100))
    as (s' & Hrun & Hst & Hc & _ & Hsys & _);
    try reflexivity.
  exists s'. split; [exact Hrun|]. split; [exact Hst|]. split; [exact Hc|exact Hsys].
Defined.

Lemma Reset_message_fits_receivers_witness :
  exists s' pkt msg,
    @Reset (wire_platform 2 true) host_of_two_ready = (Returned tt, s')
    /\ payload pkt = ResetP msg
    /\ In (enet_peer_send peer_B pkt) (trace s')
    /\ ResetMessage.cookie msg = 2
    /\ ResetMessage.num_players msg = 2.
Proof.
  destruct (@Reset_message_fits_receivers (wire_platform 2 true) host_of_two_ready
              snapshot snapshot snapshot ({| addr_host := 0; addr_port := 0 |}, 100))
    as (s' & pkt & msg & Hrun & Hpay & _ & Hsent & Hc & Hn & _);
    try reflexivity.
  - simpl. lia.
  - simpl. lia.
  - exists s', pkt, msg. split; [exact Hrun|]. split; [exact Hpay|].
    split; [apply Hsent; apply list_elem_of_In; vm_compute; auto|].
    assert (Hs : s' = snd (@Reset (wire_platform 2 true) host_of_two_ready))
      by (rewrite Hrun; reflexivity).
    split; [rewrite Hc, Hs; reflexivity|rewrite Hn, Hs; reflexivity].
Defined.

Lemma ResetComplete_counts_once_witness :
  let P := wire_platform 2 true in
  exists s',
    @HandleResetCompleteMessage P 1 (reset_complete 1)
      {| ResetCompleteMessage.cookie := 1 |} host_of_two_resetting
    = (Returned tt, s')
    /\ s_reset_players s' = [true; true]
    /\ @reset_players_count P s' = 2.
Proof.
  intros P.
  destruct (@ResetComplete_counts_once P host_of_two_resetting 1 (reset_complete 1)
              {| ResetCompleteMessage.cookie := 1 |})
    as (s' & Hrun & Hb & Hcount & _);
    try reflexivity.
  - split; reflexivity.
  - discriminate.
  - exists s'. split; [exact Hrun|]. split; [exact Hb|]. rewrite Hcount. reflexivity.
Defined.

Lemma Reset_outdates_acknowledgements_witness :
  let P := wire_platform 2 true in
  let s' := snd (@Reset P host_of_two_ready) in
  let s'' := snd (@HandleResetCompleteMessage P 1 (reset_complete 1)
                    {| ResetCompleteMessage.cookie := 1 |} s') in
  s_reset_players s'' = [true; false].
Proof.
  intros P s' s''.
  pose proof (@Reset_outdates_acknowledgements P host_of_two_ready s' 1 (reset_complete 1)
                {| ResetCompleteMessage.cookie := 1 |}
                ltac:(simpl; lia) ltac:(vm_compute; reflexivity) eq_refl) as H.
  apply (@wlp_run P unit _ _ s' tt s'') in H; [|vm_compute; reflexivity].
  destruct H as [_ H]. exact H.
Defined.


Lemma connect_request_accepted_witness :
  let P := wire_platform 2 true in
  exists s',
    @HandleMessageFromNewPeer P peer_B (connect_request (-1)) host_alone = (Returned tt, s')
    /\ s_state s' = Resetting
    /\ s_num_players s' = 2
    /\ @slot_peer P s' 1 = Some peer_B.
Proof.
  intros P.
  destruct (@connect_request_accepted P peer_B (connect_request (-1))
              {| ConnectRequestMessage.mode := ConnectRequestMessage.Player;
                 ConnectRequestMessage.requested_player_id := -1;
                 ConnectRequestMessage.nickname := "B";
                 ConnectRequestMessage.session_password := "" |}
              host_alone snapshot snapshot snapshot
              ({| addr_host := 0; addr_port := 0 |}, 100) 1
              (wire_sends_succeed 2 true))
    as (s' & Hrun & Hst & Hn & Hslot & _);
    try reflexivity.
  exists s'. split; [exact Hrun|]. split; [exact Hst|]. split; [exact Hn|exact Hslot].
Defined.

Lemma host_drops_disconnected_peer_witness :
  let P := wire_platform 3 true in
  exists s',
    @HandleEnetEvent P [] (ENET_EVENT_TYPE_DISCONNECT peer_B) host_of_three
    = (Returned tt, s')
    /\ @slot_peer P s' 1 = None
    /\ @slot_peer P s' 2 = Some peer_C
    /\ s_num_players s' = 2
    /\ s_state s' = Resetting.
Proof.
  intros P.
  destruct (@host_drops_disconnected_peer P [] peer_B host_of_three snapshot snapshot
              snapshot ({| addr_host := 0; addr_port := 0 |}, 100)
              (wire_sends_succeed 3 true))
    as (s' & to & Hrun & _ & _ & _ & Hnone & Hothers & Hn & Hst & _);
    try reflexivity.
  - vm_compute. discriminate.
  - vm_compute. discriminate.
  - exists s'. split; [exact Hrun|]. split; [exact Hnone|].
    split; [rewrite (Hothers 2%nat) by (vm_compute; discriminate); reflexivity|].
    split; [exact Hn|exact Hst].
Defined.


Lemma RequestCloseSession_closes_witness :
  let P := wire_platform 3 true in
  exists s',
    @RequestCloseSession P [ENET_EVENT_TYPE_DISCONNECT peer_B]
      CloseSessionMessage.HostShutdown host_of_three
    = (Returned tt, s')
    /\ s_state s' = ClosingSession
    /\ In (enet_peer_disconnect_later peer_C) (trace s').
Proof.
  intros P.
  destruct (@RequestCloseSession_closes P [ENET_EVENT_TYPE_DISCONNECT peer_B]
              CloseSessionMessage.HostShutdown host_of_three eq_refl
              (fun _ => wire_sends_succeed 3 true)
              ltac:(intros _; vm_compute; discriminate))
    as (s' & Hrun & Hst & _ & _ & _ & _ & Hasked).
  exists s'. split; [exact Hrun|]. split; [exact Hst|].
  apply (Hasked peer_C). apply list_elem_of_In. vm_compute. auto.
Defined.

Lemma Throttle_catches_up_witness :
  exists p',
    FramePacing.Throttle period_60Hz 150 50000000 correcting_pacer = Some p'
    /\ FramePacing.s_target_speed p' = F32.one
    /\ FramePacing.s_frame_period p' = 16666667
    /\ FramePacing.s_next_frame_time p' = 33333334.
Proof.
  destruct (Throttle_catches_up period_60Hz 150 50000000 correcting_pacer)
    as (p' & Hrun & Hperiod & Hspeed & _ & _ & Hlate).
  - reflexivity.
  - reflexivity.
  - reflexivity.
  - lia.
  - exists p'. split; [exact Hrun|]. split; [exact Hspeed|]. split; [exact Hperiod|].
    destruct (Hlate eq_refl) as [[Hlow Hhigh] (k & Hk & Hgrid)].
    change (FramePacing.s_next_frame_time correcting_pacer
            + (if negb (F32.eqb (FramePacing.s_target_speed correcting_pacer) F32.one)
                  && (FramePacing.s_next_timesync_recovery_frame correcting_pacer <=? 150)
               then period_60Hz F32.one
               else FramePacing.s_frame_period correcting_pacer))
      with 16666667 in Hgrid.
    change (if negb (F32.eqb (FramePacing.s_target_speed correcting_pacer) F32.one)
               && (FramePacing.s_next_timesync_recovery_frame correcting_pacer <=? 150)
            then period_60Hz F32.one
            else FramePacing.s_frame_period correcting_pacer)
      with 16666667 in Hlow, Hhigh, Hgrid.
    lia.
Defined.

Lemma SetInputs_ReadLocalInput_round_trip_witness :
  LocalInput.ReadLocalInput 14
    [app (map PadInput.value
            (default [] (PadInput.set_binds 0 9 (seq 0 14))))
         (replicate 18 PadInput.zero)]
  = Some 9.
Proof.
  apply (SetInputs_ReadLocalInput_round_trip 14 0 9
           (default [] (PadInput.set_binds 0 9 (seq 0 14))) []).
  - lia.
  - reflexivity.
Defined.

Lemma host_resumes_when_all_reset_witness :
  let P := wire_platform 2 true in
  exists s',
    @UpdateResetState P overdue_turn host_of_two_ready = (Returned tt, s')
    /\ s_state s' = Running
    /\ In (enet_peer_send peer_B resume_session) (trace s').
Proof.
  intros P.
  destruct (@host_resumes_when_all_reset P host_of_two_ready)
    as (s' & Hrun & Hst & _ & _ & _ & _ & _ & Hsent).
  - apply wire_sends_succeed.
  - split; reflexivity.
  - reflexivity.
  - reflexivity.
  - exists s'. split; [apply Hrun|]. split; [exact Hst|].
    apply (Hsent peer_B). apply list_elem_of_In. vm_compute. auto.
Defined.

Lemma reset_timeout_drops_from_first_missing_witness :
  let P := wire_platform 3 true in
  exists s',
    @UpdateResetState P overdue_turn host_of_three_waiting = (Returned tt, s')
    /\ @slot_peer P s' 1 = None
    /\ @slot_peer P s' 2 = None
    /\ s_num_players s' = 1.
Proof.
  intros P.
  destruct (@reset_timeout_drops_from_first_missing P overdue_turn host_of_three_waiting
              1%nat snapshot ({| addr_host := 0; addr_port := 0 |}, 100))
    as (s' & Hrun & _ & Hslots & Hn & _);
    try reflexivity.
  - apply wire_sends_succeed.
  - intros m0. exists m0, m0. split; reflexivity.
  - split; reflexivity.
  - vm_compute. discriminate.
  - simpl. lia.
  - vm_compute. discriminate.
  - intros i Hi Hocc. assert (i = 0%nat) as -> by lia. reflexivity.
  - exists s'. split; [exact Hrun|]. split; [rewrite Hslots; reflexivity|].
    split; [rewrite Hslots; reflexivity|]. rewrite Hn. reflexivity.
Defined.


Lemma joiner_accepts_reset_witness :
  let P := wire_platform 3 true in
  exists s',
    @HandleResetMessage P 0 reset_of_three
      {| ResetMessage.cookie := 1; ResetMessage.state_data_size := 3;
         ResetMessage.num_players := 3; ResetMessage.players := three_entries |}
      joiner_before_reset
    = (Returned tt, s')
    /\ s_state s' = Resetting
    /\ s_num_players s' = 3
    /\ s_reset_cookie s' = 1
    /\ system s' = Some snapshot.
Proof.
  intros P.
  destruct (@joiner_accepts_reset P reset_of_three
              {| ResetMessage.cookie := 1; ResetMessage.state_data_size := 3;
                 ResetMessage.num_players := 3; ResetMessage.players := three_entries |}
              joiner_before_reset ({| addr_host := 0; addr_port := 0 |}, 100) snapshot)
    as (s' & Hrun & Hst & Hc & Hn & Hsys & _);
    try reflexivity.
  - intros h0 a d. discriminate.
  - exists s'. split; [exact Hrun|]. split; [exact Hst|]. split; [exact Hn|].
    split; [exact Hc|exact Hsys].
Defined.

Lemma DestroyGGPOSession_idempotent_witness :
  @DestroyGGPOSession (wire_platform 2 true) host_alone = (Returned tt, host_alone).
Proof.
  destruct (@DestroyGGPOSession_idempotent (wire_platform 2 true) host_alone)
    as (s' & Hrun & _ & _ & Hsame & _).
  rewrite Hrun, (Hsame eq_refl). reflexivity.
Defined.

Lemma disconnect_without_effect_witness :
  let P := wire_platform 2 true in
  @HandleEnetEvent P [] (ENET_EVENT_TYPE_DISCONNECT peer_B) host_of_two_resetting
  = (Returned tt,
     record (Log Dev "Ignoring disconnection while synchronizing") host_of_two_resetting).
Proof.
  intros P.
  apply (proj1 (@disconnect_without_effect P [] peer_B host_of_two_resetting)).
  reflexivity.
Defined.

Lemma SetInputs_sets_every_button_witness :
  exists binds,
    PadInput.SetInputs 14 (fun _ => true) (9, 0) = Some binds
    /\ length binds = 28%nat
    /\ PadInput.SetInputs 33 (fun _ => true) (9, 0) = None.
Proof.
  eexists. split; [|split].
  - apply (proj1 (SetInputs_sets_every_button 14 (fun _ => true) (9, 0))).
    + lia.
    + right. split; reflexivity.
  - reflexivity.
  - apply (proj2 (SetInputs_sets_every_button 33 (fun _ => true) (9, 0))).
    + lia.
    + left. lia.
Defined.

